(* ===== verification/_CoqProject ===== *)
-Q . S2P
Prelude.v
Slug.v
Catalog.v
Routes.v
Api.v
Json.v
JsValue.v
TabMachine.v
CategoriesTab.v
SubcategoriesTab.v
ProductsTab.v
Session.v
Cart.v
Users.v
Clients.v
Carousel.v
Hero.v
Reviews.v
Reels.v
ProductDetail.v
ProductCard.v
CategoryCards.v
HomeSections.v
VideoModal.v
Navigation.v
Header.v
AdminConsole.v
Footer.v
AdminProducts.v
HomeMount.v
