(* ===== verification/Prelude.v ===== *)
(** * Nitai Gems storefront and admin console: a verification library

    The repository is a client-rendered React storefront (home page with
    its carousels, product listing, product detail, cart and wishlist)
    and an admin console (categories, subcategories, products, users)
    that calls a REST backend for every read and write.  This library
    models, as Rocq functions over explicit state, the parts of the
    client under [src/src/] that carry logic, and proves what makes them
    correct, or where they are not.

    ** The program and how its parts interact

    - Slug generation ([generateSlug], identical in the three admin tabs
      [src/src/components/admin/*Tab.jsx]) turns a display name into a
      URL segment; the slugs become path segments of the storefront
      routes.
    - The catalog (categories, subcategories, products) is fetched by
      each admin tab, filtered by search terms and parent category, and
      slugs are resolved back to names; the storefront menu
      ([Navigation.jsx]) splits the category list.
    - The route table of [src/src/App.jsx] is matched by react-router;
      the pages build the URLs they navigate to ([getProductUrl] of
      [ProductCard.jsx], [handleNavigation] of [Navigation.jsx],
      [getBreadcrumbs] of [ProductDetailPage.jsx]).
    - The admin tabs and the Users page are state machines: a list
      fetched from the backend, a modal form, handlers that send requests
      through per-tab API objects or the shared clients
      ([src/src/lib/api.js], [src/src/utils/api.js]), and awaits that
      resume when the backend answers.
    - Two authentication providers ([AuthContext.jsx] for the console,
      the [AuthProvider] of [CartContext.jsx] for the storefront) share
      the browser's [localStorage], where they keep users as JSON text;
      the cart and wishlist providers read the storefront token from it
      for every request, and the header ([MainHeader.jsx]) shows their
      counts and logs out.
    - The home page carousels ([HeroCarousel.jsx], [ReviewsCarousel.jsx],
      [ReelsSection.jsx]) fetch their slides once and move an index with
      JavaScript's [%] on timers, keys, arrows and video events.
    - The home page ([HomePage.jsx]) stacks these with the collections,
      category cards, trust badges and exchange banner sections, which
      fetch or observe once and navigate with [window.location.href].
    - The storefront's chrome: the header ([MainHeader.jsx]) searches by
      navigating to [/products?q=...]; the category bar
      ([Navigation.jsx]) fetches categories and, on hover, their
      subcategories; the footer ([Footer.jsx]) lists links; the product
      page and the product cards read prices and stock from the product
      JSON with JavaScript's coercions.
    - The console's chrome: a sidebar ([AdminSidebar.jsx]) of
      react-router [NavLink]s to the sections of [/admin], the dashboard
      and events pages, and the Products page ([pages/admin/Products.jsx])
      whose Radix tabs mount one admin tab at a time.

    ** Files (in dependency order)

    - [Prelude.v] (this file): the [nitai_scope] notations, the
      JavaScript string built-ins the code calls, the
      reflexive-transitive closure [star] with its invariant principle,
      the [nitai] hint database and the shared list lemmas.
    - [Slug.v], Module [Slug]: [generateSlug] as a single pass and an
      edge-stripping step.  Every slug is well formed and a fixed point
      (idempotence); the pass is equivalent to a three-stage reference.
    - [Catalog.v], Module [Catalog]: the records the code reads, the
      search filters, the parent filter, the name lookups, the menu
      split: soundness, completeness, order preservation, the fallbacks.
    - [Routes.v], Module [Routes]: the route table, react-router's
      ranking and first match, the URL builders.  Listing and menu URLs
      round trip; a product URL with a category and no subcategory
      reaches the listing page, and the route meant for it is shadowed.
    - [Api.v]: requests and responses as values, [localStorage] as a
      finite map, the tabs' API objects and [handleResponse].
    - [Json.v], Module [Json]: [JSON.stringify] and [JSON.parse] on the
      values the sessions store; [parse] of [stringify v] is [v], and a
      text that nothing can begin as a JSON value ([bad_start]) fails.
    - [JsValue.v], Module [Coerce]: the JavaScript coercions the pages
      rely on ([ToPrimitive], [ToNumber], [<] on mixed values, [||],
      [toLocaleString('en-IN')], [toFixed(2)] on exact rationals, what
      React renders of [{a && <b/>}]); [parseFloat] reads back the text
      of an integer.
    - [TabMachine.v]: a page as a [machine] (step, enabled events), its
      reachability, the replay [run] of a trace with its soundness, and
      the closed-modal induction principle the tabs share.
    - [CategoriesTab.v], [SubcategoriesTab.v], [ProductsTab.v]: each tab's
      state record and handlers, awaits as numbered continuations resumed
      in any order.  The closed modal holds the default form in every
      reachable state; guards, confirmations, failures and reloads of
      every write; the last fetch to complete decides the list.  The
      modals are rendered: each submit button is enabled exactly when a
      click on it sends a request.
    - [Session.v], Module [Session] with [AdminAuth] and [StoreAuth]: the
      two providers over one [world] (storage, location, console).  A
      login survives a reload; a stored user text that cannot begin a
      JSON value (such as [undefined]) throws in the storefront and is
      cleared by the console; the sessions are
      independent.
    - [Cart.v], Module [Cart]: the cart and wishlist over Section
      [Collection] and the storefront shell as a machine.  Each count is
      the length of its items; what a logout leaves stale.
    - [Users.v], Module [Users]: the Users page, its search, dialog and
      CSV export, checked against an RFC 4180 reader.  The cart dialog
      prints prices and totals with [toFixed(2)]; an item without a
      price shows a [NaN] total and a price held as a string throws.
    - [Clients.v], Module [Clients] with [LibApi] and [AdminApi]: the two
      shared clients, header objects built key by key.
    - [Carousel.v], Module [Carousel]: JavaScript numbers as indices
      ([num], [NaN] as [None]), [%] with the dividend's sign, the next
      and previous steps, and the abstract carousel, Module [Ring], where
      a slide list is rotated with stdpp's [rotate].
    - [Hero.v], Module [Hero]: [HeroCarousel.jsx] as a machine (fetch,
      sort, interval, keys, dots, pointer, render).  The index arithmetic
      refines [Ring] (a refinement), the index stays in range once
      banners are loaded, autoplay shows every banner within [n] ticks
      (liveness), and an arrow key pressed while loading leaves a [NaN]
      index that makes the render throw.
    - [Reviews.v], Module [Reviews]: [ReviewsCarousel.jsx] with
      [getInitials], [getRelativeTime] and [getVisibleReviews].  The
      window of three refines [Ring]; the month count is between 2 and
      12; initials have at most two characters; a review without name or
      avatar makes the section throw; a future date shows negative days.
    - [Reels.v], Module [Reels]: [ReelsSection.jsx] with its player and
      progress interval.  The index designates a reel while the player is
      open, and the player renders it with its progress bars full
      before it and empty after it; the autoplay terminates, closing
      the player within [autoplay_bound] events (termination).  The
      render places at most five cards at the entries of
      [getStackPosition]'s table; the indicators under them are static.
    - [ProductDetail.v], Module [ProductDetail]: the page of
      [ProductDetailPage.jsx] as a machine (fetch on a slug change,
      image, layer select, wishlist, sections, purchase buttons) with
      its prices and its render.  The Indian digit grouping loses no
      digit; the weight select finds the layer chosen ([String] then
      [parseFloat], a round trip); the discount badge is between 0% and
      100% and can read either; a product without layers opened after
      one with a layer is priced with the old layer.
    - [ProductCard.v], Module [ProductCard]: the card of the listings,
      whose [hasDiscount] is the value of a [&&]: a discounted price of
      [0] renders a stray [0]; with [0 < discounted < base] the badge is
      between 0% and 100%; the heart is local state.
    - [CategoryCards.v], Modules [Anim] and [CategoryCards]:
      [CategoryCardsSection.jsx], its fetch and grid, and its scroll
      effect with the [requestAnimationFrame] loop in exact rationals.
      The loop stops within 61 frames once scrolling stops
      (termination, over an invariant of the frames requested); the
      grid has at most [limit] cards; the effect never starts, since its
      element is not rendered when it runs.
    - [HomeSections.v], Modules [Collections], [Exchange], [TrustBadges],
      [HomePage]: the fetching and observing sections of the home page.
      The collection links and the banner's default link reach the
      route table's [NotFound]; the page's mobile menu never opens.
    - [VideoModal.v], Module [VideoModal]: [VideoModal.jsx] with its keys
      and the video element.  The index stays on a reel, the render never
      throws unless a reel of the list is [null] (where
      [currentReel.videoUrl] throws), and [muted] agrees with the state; the ends reach the last reel and stop
      (liveness); the badge [m:ss] reads back (a round trip).
    - [Navigation.v], Module [Navigation]: the category bar of
      [Navigation.jsx] with its mega menu, its subcategory cache in a
      stdpp [gmap], the hover timeout and the pointer as a machine.  The
      menu stays open while pointed and closes after the pointer leaves
      (liveness); a cached category is not fetched again, a pending one
      is; at most six subcategories show; the mobile sidebar never opens.
    - [Header.v], Module [Header]: [MainHeader.jsx] over the storefront
      shell of [Cart]: search box, scroll shadow, click-outside, user
      menu, badges.  [encodeURIComponent] and [URLSearchParams] are
      modelled from the URL standard; the query typed is the [q] the
      products page reads (a round trip); the mobile search bar is dead.
    - [AdminConsole.v], Modules [AdminSidebar], [Dashboard], [Events]:
      the sidebar of the admin console with react-router's [NavLink],
      the dashboard's cards and the events page.  On a section's path,
      or below it without [end], exactly that section is highlighted;
      every link reaches its page in [Routes]; [/admin/] highlights none.
    - [Footer.v], Module [Footer]: the footer of the storefront pages;
      all its links but the telephone and mail ones are [#].
    - [AdminProducts.v], Module [AdminProducts]: the admin Products page
      composing the three tab machines under Radix [Tabs]: the tab
      mounted is always the one the selected trigger names.  Leaving a
      tab and coming back remounts it, dropping its state and
      refetching; this follows from Radix's documented unmount and is
      recorded as a finding, not proved.
    - [HomeMount.v], Module [HomeMount]: the children of [HomePage.jsx]
      in the order of the tree and the requests their mount effects
      send; the page fetches [/categories] twice.

    ** Modelling choices

    - Strings are Rocq's [string]: a character stands for a UTF-16 code
      unit below 256.  [toLowerCase] and [toUpperCase] are modelled on
      ASCII letters; the white space of [trim], [parseInt] and
      [parseFloat] is ECMAScript's in that range ([is_js_space]).
    - JavaScript truthiness: a string is truthy when non-empty, a number
      when non-zero, [null] and [undefined] never.  Numbers in JSON are
      integers ([Json]); a numeric string is read on decimal literals.
    - A number used as a carousel index is an integer or [NaN]; the reels
      progress, a double in the code, is an exact rational: the tick at
      which it reaches 100 can differ by one from the browser's.
    - Requests are values of a step's output; their completion is a
      separate event carrying the backend's answer, so the backend, the
      network, the clock and the video element are inputs.
    - The libraries the code only calls are modelled from their
      documented behaviour: react-router's route ranking and [NavLink]
      ([Routes], [AdminConsole]), Radix [Tabs] ([AdminProducts]), the URL
      standard's encoding ([Header]).
    - React state updates of one handler are applied together, as React
      batches them; an effect that follows a state change is applied in
      the same step.
    - Throwing is an [Err] value; a render that throws unmounts the
      component, so a page machine enables no event after it.

    ** Fuel and bounds

    - [Json.parse] runs on fuel; the length of the text is enough
      ([parse_text]).
    - [Reels.autoplay] runs on fuel; [autoplay_bound], the sum over the
      remaining reels of [ceil(10 * duration) + 2], is enough.
    - The hero liveness bound is [n - 1] ticks for [n] banners; the menu
      of [Navigation] closes after one timer event once left; the video
      modal stops after [n - i] ends.
    - The animation loop of [CategoryCards] stops within 61 frames: one
      for a pending measurement, then at most 60 steps, because the gap
      is at most 1 and 0.88^60 < 0.0005 (checked by [vm_compute]).
    - Witnesses replay concrete traces with [TabMachine.run] and evaluate
      them with [vm_compute].

    ** Not modelled

    - Styling and animation (class names, the reels' background
      decoration, transitions): presentation only.
    - The contents of the product page's detail sections (texts only)
      and the CSS the category section's animation drives.
    - The REST backend and the pages [App.jsx] imports but the sources
      lack ([ProductsListingPage], [Login], [ProtectedRoute],
      [AdminLayout], the admin [Coupons] page) and the components of
      [components/ui]. *)

From stdpp Require Export base list strings.
From Stdlib Require Export Ascii String ZArith Lia.
From Stdlib Require Import QArith.
Close Scope Q_scope.

Declare Scope nitai_scope.
Delimit Scope nitai_scope with nitai.
Open Scope string_scope.

(** Boolean string equality, as JavaScript's [===] on strings. *)
Notation "s ==? t" := (String.eqb s t) (at level 70, no associativity) : nitai_scope.
(** String concatenation, JavaScript's [+] on strings; [++] stays the
    list append. *)
Notation "s +++ t" := (String.append s t) (at level 60, right associativity) : nitai_scope.
Open Scope list_scope.
Open Scope nitai_scope.

Create HintDb nitai discriminated.
Create Rewrite HintDb nitai_rw.

(** Turn the boolean tests of the code into propositions. *)
Ltac bool_to_prop :=
  repeat match goal with
  | H : (_ && _)%bool = true |- _ => apply andb_true_iff in H as [? ?]
  | H : (_ || _)%bool = false |- _ => apply orb_false_iff in H as [? ?]
  | H : String.eqb _ _ = true |- _ => apply String.eqb_eq in H
  | H : Ascii.eqb _ _ = true |- _ => apply Ascii.eqb_eq in H
  | H : Nat.eqb _ _ = true |- _ => apply Nat.eqb_eq in H
  | H : negb _ = true |- _ => apply negb_true_iff in H
  | H : negb _ = false |- _ => apply negb_false_iff in H
  end.

(** ** JavaScript truthiness *)

(** A string is truthy when it is not empty. *)
Definition js_truthy_str (s : string) : bool := negb (s ==? "").

(** ** Character classes *)

Definition char_in_range (lo hi : nat) (c : ascii) : bool :=
  let n := nat_of_ascii c in Nat.leb lo n && Nat.leb n hi.

Definition is_upper : ascii -> bool := char_in_range 65 90.
Definition is_lower : ascii -> bool := char_in_range 97 122.
Definition is_digit : ascii -> bool := char_in_range 48 57.

(** The class [[a-z0-9]] of the slug regular expression. *)
Definition is_slug_alnum (c : ascii) : bool := is_lower c || is_digit c.

(** ** JavaScript string built-ins *)

(** [String.prototype.toLowerCase] on one character (ASCII letters). *)
Definition js_char_to_lower (c : ascii) : ascii :=
  if is_upper c then ascii_of_nat (nat_of_ascii c + 32) else c.

(** [String.prototype.toLowerCase]. *)
Fixpoint js_to_lower (s : string) : string :=
  match s with
  | EmptyString => EmptyString
  | String c s' => String (js_char_to_lower c) (js_to_lower s')
  end.

(** [String.prototype.includes]: [t] occurs in [s] at some position. *)
Fixpoint js_includes (s t : string) : bool :=
  String.prefix t s ||
  match s with
  | EmptyString => false
  | String _ s' => js_includes s' t
  end.

(** [String.prototype.startsWith]. *)
Definition js_starts_with (s t : string) : bool := String.prefix t s.

(** [s.replace(/c/g, d)] for a single character [c]. *)
Fixpoint js_replace_char (c d : ascii) (s : string) : string :=
  match s with
  | EmptyString => EmptyString
  | String x s' =>
      String (if Ascii.eqb x c then d else x) (js_replace_char c d s')
  end.

(** [String.prototype.split] on a one-character separator: the pieces
    between separators, empty pieces included, at least one piece. *)
Fixpoint js_split (sep : ascii) (s : string) : list string :=
  match s with
  | EmptyString => [EmptyString]
  | String c s' =>
      match js_split sep s' with
      | [] => [EmptyString]
      | p :: ps => if Ascii.eqb c sep then EmptyString :: p :: ps
                   else String c p :: ps
      end
  end.



(** [parseInt(s)] in base 10: leading white space, an optional sign, the
    longest run of digits; [None] is [NaN]. *)
Fixpoint js_leading_digits (s : string) (acc : Z) (seen : bool) : option Z :=
  match s with
  | String c r =>
      if is_digit c then js_leading_digits r (acc * 10 + Z.of_nat (nat_of_ascii c - 48))%Z true
      else if seen then Some acc else None
  | EmptyString => if seen then Some acc else None
  end.

(** The white space that [trim], [parseInt] and [parseFloat] skip
    (ECMAScript's [WhiteSpace] and [LineTerminator]) among the code units
    below 256 that a character stands for here: tab, line feed, vertical
    tab, form feed, carriage return, space and the no-break space
    (U+00A0).  The other Unicode spaces lie above this range. *)
Definition is_js_space (c : ascii) : bool :=
  Ascii.eqb c " " || char_in_range 9 13 c || Ascii.eqb c (ascii_of_nat 160).

Fixpoint js_trim_start (s : string) : string :=
  match s with
  | String c r => if is_js_space c then js_trim_start r else s
  | EmptyString => EmptyString
  end.

(** [String.prototype.trim]: [js_trim_start], then the spaces at the end. *)
Fixpoint js_trim_end (s : string) : string :=
  match s with
  | EmptyString => EmptyString
  | String c r =>
      let r' := js_trim_end r in
      if (r' ==? "") && is_js_space c then "" else String c r'
  end.

Definition js_trim (s : string) : string := js_trim_end (js_trim_start s).

Definition js_parseInt (s : string) : option Z :=
  match js_trim_start s with
  | String "-" r => option_map Z.opp (js_leading_digits r 0 false)
  | String "+" r => js_leading_digits r 0 false
  | t => js_leading_digits t 0 false
  end.

(** [parseInt(s) || 0]: [NaN] and [0] give [0]. *)
Definition js_parseInt_or_zero (s : string) : Z :=
  match js_parseInt s with Some z => z | None => 0%Z end.

(** A run of decimal digits: its value, its length, and what follows. *)
Fixpoint digit_run (s : string) (acc : Z) (n : nat) : Z * nat * string :=
  match s with
  | String c r =>
      if is_digit c then digit_run r (acc * 10 + Z.of_nat (nat_of_ascii c - 48))%Z (S n)
      else (acc, n, s)
  | EmptyString => (acc, n, EmptyString)
  end.

(** [10^e] as a rational, for an exponent of either sign. *)
Definition pow10 (e : Z) : Q :=
  if (0 <=? e)%Z then inject_Z (10 ^ e) else Qinv (inject_Z (10 ^ (- e))).

(** The exponent part [e[+-]digits] of a decimal literal, [0] when absent. *)
Definition float_exponent (s : string) : Z :=
  match s with
  | String c r =>
      if Ascii.eqb c "e" || Ascii.eqb c "E" then
        let '(sign, r') := match r with
                           | String "-" r' => ((-1)%Z, r')
                           | String "+" r' => (1%Z, r')
                           | _ => (1%Z, r)
                           end in
        let '(v, n, _) := digit_run r' 0%Z 0%nat in if Nat.eqb n 0%nat then 0%Z else (sign * v)%Z
      else 0%Z
  | EmptyString => 0%Z
  end.

(** The longest prefix [digits[.digits][e[+-]digits]] with at least one
    digit in the mantissa, as a rational. *)
Definition js_unsigned_float (s : string) : option Q :=
  let '(ip, ni, r) := digit_run s 0%Z 0%nat in
  let '(fp, nf, r2) := match r with
                       | String "." r' => digit_run r' 0%Z 0%nat
                       | _ => (0%Z, 0%nat, r)
                       end in
  if Nat.eqb (ni + nf)%nat 0%nat then None
  else Some (Qmult (Qmake (ip * 10 ^ Z.of_nat nf + fp) (Z.to_pos (10 ^ Z.of_nat nf)))
                   (pow10 (float_exponent r2))).

(** [parseFloat(s)] on decimal literals, [None] for [NaN].  The value of
    an [<input type="number">] is the empty string or such a literal;
    [Infinity] and hexadecimal forms are not modelled. *)
Definition js_parseFloat (s : string) : option Q :=
  match js_trim_start s with
  | String "-" r => option_map Qopp (js_unsigned_float r)
  | String "+" r => js_unsigned_float r
  | t => js_unsigned_float t
  end.

(** [parseFloat(s) || 0]: [NaN] and zero give [0]. *)
Definition js_parseFloat_or_zero (s : string) : Q :=
  match js_parseFloat s with
  | Some q => if Qeq_bool q 0 then 0%Q else q
  | None => 0%Q
  end.

(** Every character of a string satisfies [f]. *)
Fixpoint str_forallb (f : ascii -> bool) (s : string) : bool :=
  match s with
  | EmptyString => true
  | String c s' => f c && str_forallb f s'
  end.

(** Some character of a string satisfies [f]. *)
Fixpoint str_existsb (f : ascii -> bool) (s : string) : bool :=
  match s with
  | EmptyString => false
  | String c s' => f c || str_existsb f s'
  end.

(** A piece of a URL path: not empty, no [/]. *)
Definition url_segment (s : string) : bool :=
  js_truthy_str s && negb (str_existsb (fun c => Ascii.eqb c "/") s).

(** ** Reachability *)

Section Star.
Context {A : Type} (R : A -> A -> Prop).

(** Zero or more transitions. *)
Inductive star : A -> A -> Prop :=
| star_refl a : star a a
| star_step a b c : R a b -> star b c -> star a c.

(** An invariant of the initial state preserved by every transition
    holds in every state reachable from it. *)
Lemma star_invariant (P : A -> Prop) a b :
  (forall x y, R x y -> P x -> P y) -> P a -> star a b -> P b.
Proof. intros Hstep Ha Hs. induction Hs; eauto. Qed.

Lemma star_trans a b c : star a b -> star b c -> star a c.
Proof. induction 1; eauto using star. Qed.

Lemma star_one a b : R a b -> star a b.
Proof. eauto using star. Qed.
End Star.

#[export] Hint Constructors star : nitai.
#[export] Hint Resolve star_one star_trans : nitai.

(** ** Shared lemmas *)

Lemma js_truthy_str_false s : js_truthy_str s = false <-> s = "".
Proof.
  unfold js_truthy_str. destruct (String.eqb_spec s "") as [->|Hne]; simpl.
  - tauto.
  - split; [discriminate | congruence].
Qed.

Lemma js_truthy_str_true s : js_truthy_str s = true <-> s <> "".
Proof.
  rewrite <- not_false_iff_true, js_truthy_str_false. tauto.
Qed.

Lemma string_prefix_empty s : String.prefix "" s = true.
Proof. by destruct s. Qed.

(** The empty search term is included in every string. *)
Lemma js_includes_empty s : js_includes s "" = true.
Proof. destruct s; reflexivity. Qed.

(** Concatenation of strings is associative, with the empty string as
    unit. *)
Lemma sapp_assoc s t u : (s +++ t) +++ u = s +++ (t +++ u).
Proof. induction s as [|c s IH]; [reflexivity | exact (f_equal (String c) IH)]. Qed.

Lemma sapp_nil_r s : s +++ "" = s.
Proof. induction s as [|c s IH]; [reflexivity | exact (f_equal (String c) IH)]. Qed.

Lemma sapp_length s t : String.length (s +++ t) = String.length s + String.length t.
Proof. induction s as [|c s IH]; [reflexivity | exact (f_equal S IH)]. Qed.

Lemma sapp_cons c s t : String c s +++ t = String c (s +++ t).
Proof. reflexivity. Qed.

Lemma sapp_nil_l s : "" +++ s = s.
Proof. reflexivity. Qed.

#[export] Hint Rewrite sapp_assoc sapp_nil_r sapp_cons sapp_nil_l : nitai_rw.

Lemma js_to_lower_app s t : js_to_lower (s +++ t) = js_to_lower s +++ js_to_lower t.
Proof. induction s as [|c s IH]; simpl; [done | by rewrite IH]. Qed.

Lemma js_replace_char_app c d s t :
  js_replace_char c d (s +++ t) = js_replace_char c d s +++ js_replace_char c d t.
Proof. induction s as [|x s IH]; simpl; [done | by rewrite IH]. Qed.

Lemma str_existsb_app f s t : str_existsb f (s +++ t) = str_existsb f s || str_existsb f t.
Proof. induction s as [|x s IH]; simpl; [done | by rewrite IH, orb_assoc]. Qed.

(** Replacing a character that does not occur changes nothing. *)
Lemma js_replace_char_absent c d s :
  str_existsb (fun x => Ascii.eqb x c) s = false -> js_replace_char c d s = s.
Proof.
  induction s as [|x s IH]; simpl; [done|]. intros [Hx Hs]%orb_false_iff.
  by rewrite Hx, IH.
Qed.

(** [Array.prototype.filter] keeps its input order: the result is a
    sublist of the input. *)
Lemma filter_sublist {A} (f : A -> bool) (l : list A) :
  List.filter f l `sublist_of` l.
Proof.
  induction l as [|x l IH]; simpl; [constructor|].
  destruct (f x); [apply sublist_skip | apply sublist_cons]; exact IH.
Qed.

Lemma filter_all_true {A} (f : A -> bool) (l : list A) :
  (forall x, In x l -> f x = true) -> List.filter f l = l.
Proof.
  induction l as [|x l IH]; simpl; intros H; [done|].
  rewrite H by auto. f_equal. apply IH. auto.
Qed.

Lemma filter_all_false {A} (f : A -> bool) (l : list A) :
  (forall x, In x l -> f x = false) -> List.filter f l = [].
Proof.
  induction l as [|x l IH]; simpl; intros H; [done|].
  rewrite H by auto. apply IH. auto.
Qed.


(** [String.prefix t s] holds exactly when [s] starts with [t]. *)
Lemma string_prefix_spec t s : String.prefix t s = true <-> exists b, s = t +++ b.
Proof.
  revert t. induction s as [|c s IH]; intros [|d t]; simpl.
  - split; eauto.
  - split; [discriminate | intros [b Hb]; discriminate].
  - split; eauto.
  - destruct (ascii_dec d c) as [->|Hne].
    + rewrite IH. split; intros [b Hb]; exists b; [by rewrite Hb | by injection Hb].
    + split; [discriminate | intros [b Hb]; injection Hb; congruence].
Qed.

(** [s.includes(t)] holds exactly when [t] is a substring of [s]. *)
Lemma js_includes_spec s t : js_includes s t = true <-> exists a b, s = a +++ t +++ b.
Proof.
  induction s as [|c s IH]; cbn [js_includes]; rewrite orb_true_iff, string_prefix_spec.
  - split.
    + intros [[b Hb]|H]; [by exists "", b | discriminate].
    + intros (a & b & Hab). left. exists b. destruct a; [done|discriminate].
  - rewrite IH. split.
    + intros [[b Hb]|(a & b & Hab)]; [by exists "", b|]. exists (String c a), b. by rewrite Hab.
    + intros (a & b & Hab). destruct a as [|d a]; [left; by exists b|].
      right. injection Hab as -> ->. by exists a, b.
Qed.


(** [t] occurs in [s]. *)
Definition substring_of (t s : string) : Prop := exists a b, s = a +++ t +++ b.

(** A filter by a stronger predicate keeps a sublist of a filter by a
    weaker one. *)
Lemma filter_sublist_mono {A} (f g : A -> bool) (l : list A) :
  (forall x, f x = true -> g x = true) -> List.filter f l `sublist_of` List.filter g l.
Proof.
  intros Hfg. induction l as [|x l IH]; simpl; [constructor|].
  destruct (f x) eqn:Hf.
  - rewrite (Hfg x Hf). by apply sublist_skip.
  - destruct (g x); [by apply sublist_cons | done].
Qed.


(** Splitting a string without separator gives the string itself. *)
Lemma js_split_no_sep sep s :
  str_existsb (fun c => Ascii.eqb c sep) s = false -> js_split sep s = [s].
Proof.
  induction s as [|c s IH]; [done|]. cbn [str_existsb js_split].
  intros [Hc Hs]%orb_false_iff. rewrite IH, Hc by done. done.
Qed.

Lemma js_split_app_sep sep a b :
  str_existsb (fun c => Ascii.eqb c sep) a = false ->
  js_split sep (a +++ String sep b) = a :: js_split sep b.
Proof.
  induction a as [|c a IH].
  - intros _. change ("" +++ String sep b) with (String sep b). cbn [js_split].
    destruct (js_split sep b); [done|]. by rewrite Ascii.eqb_refl.
  - cbn [str_existsb]. intros [Hc Ha]%orb_false_iff.
    change (String c a +++ String sep b) with (String c (a +++ String sep b)).
    cbn [js_split]. rewrite IH, Hc by done. done.
Qed.

(** Splitting a [/]-joined list of URL segments gives the list back. *)
Lemma js_split_concat (segs : list string) :
  segs <> [] -> Forall (fun s => url_segment s = true) segs ->
  js_split "/" (String.concat "/" segs) = segs.
Proof.
  induction segs as [|s segs IH]; [done|]. intros _ Hall.
  apply Forall_cons in Hall as [Hs Hall]. unfold url_segment in Hs. bool_to_prop.
  destruct segs as [|t segs].
  - by apply js_split_no_sep.
  - change (String.concat "/" (s :: t :: segs)) with (s +++ String "/" (String.concat "/" (t :: segs))).
    rewrite js_split_app_sep by done. f_equal. by apply IH.
Qed.

(** A handler guarded by [g] that otherwise sends [k]'s requests sends
    some exactly when the guard is off: the [disabled] of a submit button
    that tests the same condition is off exactly when a click sends. *)
Lemma guard_request {S R} (g : bool) (s : S) (k : S * list R) :
  snd k <> [] -> (g = false <-> snd (if g then (s, []) else k) <> []).
Proof. intros Hk. destruct g; cbn; [split; [discriminate | by intros []] | tauto]. Qed.

#[export] Hint Resolve filter_sublist js_includes_empty string_prefix_empty : nitai.
#[export] Hint Rewrite js_to_lower_app js_replace_char_app str_existsb_app : nitai_rw.
