(* ===== verification/Slug.v ===== *)
(** * Slug generation

    [generateSlug] of [src/src/components/admin/CategoriesTab.jsx]
    (lines 113-115; the same text is at lines 146-148 of
    [SubcategoriesTab.jsx] and 165-167 of [ProductsTab.jsx]):

    [name.toLowerCase().replace(/[^a-z0-9]+/g, "-").replace(/(^-|-$)/g, "")]

    The first replacement is the single left-to-right pass
    [collapse_runs]; the second, [strip_edge_hyphens], removes one hyphen
    at the start and one at the end, which is what the global regular
    expression [(^-|-$)] does.  The theorems show that every generated
    slug is well formed, that well-formed slugs are fixed points, that the
    single pass agrees with a three-stage reference, and when the slug is
    empty. *)

From S2P Require Import Prelude.

#[local] Open Scope list_scope.
#[local] Open Scope nitai_scope.

Module Slug.

(** ** The code *)

Definition is_hyphen (c : ascii) : bool := Ascii.eqb c "-".

(** [.replace(/[^a-z0-9]+/g, "-")]: a maximal run of characters outside
    [[a-z0-9]] becomes one hyphen; [in_run] is set while such a run is
    being consumed. *)
Fixpoint collapse_runs (in_run : bool) (s : string) : string :=
  match s with
  | EmptyString => EmptyString
  | String c s' =>
      if is_slug_alnum c then String c (collapse_runs false s')
      else if in_run then collapse_runs true s'
      else String "-" (collapse_runs true s')
  end.

Definition replace_non_alnum (s : string) : string := collapse_runs false s.

Fixpoint ends_with_hyphen (s : string) : bool :=
  match s with
  | EmptyString => false
  | String c EmptyString => is_hyphen c
  | String _ s' => ends_with_hyphen s'
  end.

Fixpoint drop_last (s : string) : string :=
  match s with
  | EmptyString => EmptyString
  | String _ EmptyString => EmptyString
  | String c s' => String c (drop_last s')
  end.

Definition drop_lead_hyphen (s : string) : string :=
  match s with
  | String c s' => if is_hyphen c then s' else s
  | EmptyString => EmptyString
  end.

(** [.replace(/(^-|-$)/g, "")]: the alternative [^-] can only match at
    position 0; after it, [-$] can match once, at the last position. *)
Definition strip_edge_hyphens (s : string) : string :=
  let s1 := drop_lead_hyphen s in
  if ends_with_hyphen s1 then drop_last s1 else s1.

(** [generateSlug] (CategoriesTab.jsx 113-115). *)
Definition generateSlug (name : string) : string :=
  strip_edge_hyphens (replace_non_alnum (js_to_lower name)).

(** ** Well-formed slugs *)

Definition is_slug_char (c : ascii) : bool := is_slug_alnum c || is_hyphen c.

Definition starts_with_hyphen (s : string) : bool :=
  match s with
  | String c _ => is_hyphen c
  | EmptyString => false
  end.

Fixpoint no_double_hyphen (s : string) : bool :=
  match s with
  | String c s' => negb (is_hyphen c && starts_with_hyphen s') && no_double_hyphen s'
  | EmptyString => true
  end.

(** Characters in [[a-z0-9-]], no hyphen at either end, no two hyphens
    in a row. *)
Definition valid_slug (s : string) : bool :=
  str_forallb is_slug_char s && negb (starts_with_hyphen s)
  && negb (ends_with_hyphen s) && no_double_hyphen s.

(** ** A reference: sanitise, squeeze, trim *)

Definition sanitize_char (c : ascii) : ascii := if is_slug_alnum c then c else "-"%char.

Fixpoint map_chars (f : ascii -> ascii) (s : string) : string :=
  match s with
  | EmptyString => EmptyString
  | String c s' => String (f c) (map_chars f s')
  end.

(** Remove a hyphen that is followed by another one. *)
Fixpoint squeeze_hyphens (s : string) : string :=
  match s with
  | String c s' =>
      if is_hyphen c && starts_with_hyphen s' then squeeze_hyphens s'
      else String c (squeeze_hyphens s')
  | EmptyString => EmptyString
  end.

Fixpoint trim_leading (s : string) : string :=
  match s with
  | String c s' => if is_hyphen c then trim_leading s' else s
  | EmptyString => EmptyString
  end.

Fixpoint trim_trailing (s : string) : string :=
  match s with
  | String c s' =>
      let t := trim_trailing s' in
      if (t ==? "") && is_hyphen c then EmptyString else String c t
  | EmptyString => EmptyString
  end.

Definition slug_reference (name : string) : string :=
  trim_trailing (trim_leading
    (squeeze_hyphens (map_chars sanitize_char (js_to_lower name)))).

Definition is_ascii_alnum (c : ascii) : bool := is_upper c || is_lower c || is_digit c.

(** ** Character facts, by evaluation on the 256 characters *)

Ltac all_chars c := intros; destruct c as [[] [] [] [] [] [] [] []]; cbv in *; congruence.

Lemma alnum_not_hyphen c : is_slug_alnum c = true -> is_hyphen c = false.
Proof. all_chars c. Qed.

Lemma hyphen_eq c : is_hyphen c = true -> c = "-"%char.
Proof. unfold is_hyphen. by intros ?%Ascii.eqb_eq. Qed.

Lemma slug_char_lower c : is_slug_char c = true -> js_char_to_lower c = c.
Proof. all_chars c. Qed.

Lemma alnum_to_lower c : is_slug_alnum (js_char_to_lower c) = is_ascii_alnum c.
Proof. all_chars c. Qed.

Lemma slug_char_alnum_or_hyphen c :
  is_slug_char c = true -> is_slug_alnum c = false -> c = "-"%char.
Proof. unfold is_slug_char. intros H1 H2. rewrite H2 in H1. by apply hyphen_eq. Qed.

#[local] Hint Resolve alnum_not_hyphen : nitai.

(** ** Structural facts on strings *)

Lemma no_double_hyphen_cons c s :
  no_double_hyphen (String c s) = negb (is_hyphen c && starts_with_hyphen s) && no_double_hyphen s.
Proof. reflexivity. Qed.

Lemma starts_with_hyphen_drop_last s :
  starts_with_hyphen (drop_last s) = true -> starts_with_hyphen s = true.
Proof. destruct s as [|c [|d s]]; simpl; done. Qed.

Lemma forallb_drop_last f s : str_forallb f s = true -> str_forallb f (drop_last s) = true.
Proof.
  induction s as [|c s IH]; [done|]. destruct s as [|d s]; [done|].
  cbn -[drop_last]. intros [? ?]%andb_true_iff. simpl in *. rewrite H. by apply IH.
Qed.

Lemma no_double_drop_last s : no_double_hyphen s = true -> no_double_hyphen (drop_last s) = true.
Proof.
  induction s as [|c s IH]; [done|]. destruct s as [|d s]; [done|].
  intros H. change (drop_last (String c (String d s))) with (String c (drop_last (String d s))).
  rewrite no_double_hyphen_cons in *. bool_to_prop.
  apply andb_true_iff; split; [|by apply IH].
  apply negb_true_iff, andb_false_iff. destruct (is_hyphen c) eqn:Hc; [|by left].
  right. apply not_true_iff_false. intros Hs%starts_with_hyphen_drop_last.
  by rewrite Hs in H.
Qed.

Lemma ends_drop_last s :
  no_double_hyphen s = true -> ends_with_hyphen s = true -> ends_with_hyphen (drop_last s) = false.
Proof.
  induction s as [|c s IH]; [done|]. destruct s as [|d s]; [done|].
  intros Hn He. rewrite no_double_hyphen_cons in Hn. bool_to_prop.
  change (drop_last (String c (String d s))) with (String c (drop_last (String d s))).
  destruct s as [|e s].
  - simpl in *. rewrite He in H. by destruct (is_hyphen c).
  - change (ends_with_hyphen (String c (drop_last (String d (String e s)))))
      with (ends_with_hyphen (drop_last (String d (String e s)))).
    by apply IH.
Qed.

(** ** The single pass *)

Lemma collapse_chars b s : str_forallb is_slug_char (collapse_runs b s) = true.
Proof.
  revert b. induction s as [|c s IH]; intros b; [done|]. simpl.
  destruct (is_slug_alnum c) eqn:Hc; [|destruct b]; simpl;
    rewrite ?IH; unfold is_slug_char; rewrite ?Hc; done.
Qed.

Lemma collapse_in_run_no_lead s : starts_with_hyphen (collapse_runs true s) = false.
Proof.
  induction s as [|c s IH]; [done|]. simpl.
  destruct (is_slug_alnum c) eqn:Hc; [exact (alnum_not_hyphen c Hc) | exact IH].
Qed.

Lemma collapse_no_double b s : no_double_hyphen (collapse_runs b s) = true.
Proof.
  revert b. induction s as [|c s IH]; intros b; [done|]. simpl.
  destruct (is_slug_alnum c) eqn:Hc; [|destruct b; [apply IH|]];
    rewrite no_double_hyphen_cons, IH.
  - by rewrite (alnum_not_hyphen c Hc).
  - by rewrite collapse_in_run_no_lead, andb_false_r.
Qed.

(** A hyphen-free start after [in_run]: the flag only drops a leading
    hyphen. *)
Lemma collapse_in_run s :
  collapse_runs true s = drop_lead_hyphen (collapse_runs false s).
Proof.
  destruct s as [|c s]; [done|]. cbn [collapse_runs].
  destruct (is_slug_alnum c) eqn:Hc; cbn [drop_lead_hyphen];
    [by rewrite (alnum_not_hyphen c Hc) | done].
Qed.

(** ** Stripping *)

Lemma drop_lead_ok s :
  str_forallb is_slug_char s = true -> no_double_hyphen s = true ->
  str_forallb is_slug_char (drop_lead_hyphen s) = true
  /\ no_double_hyphen (drop_lead_hyphen s) = true
  /\ starts_with_hyphen (drop_lead_hyphen s) = false.
Proof.
  destruct s as [|c s']; [done|]. rewrite no_double_hyphen_cons. simpl.
  intros Hc Hn. bool_to_prop. destruct (is_hyphen c) eqn:Hh.
  - repeat split; [done..|]. by destruct (starts_with_hyphen s').
  - simpl. by rewrite Hh, H, H1.
Qed.

Lemma strip_valid s :
  str_forallb is_slug_char s = true -> no_double_hyphen s = true ->
  valid_slug (strip_edge_hyphens s) = true.
Proof.
  intros Hc Hn. unfold strip_edge_hyphens, valid_slug. cbv zeta.
  destruct (drop_lead_ok s Hc Hn) as (Hc1 & Hn1 & Hs1).
  set (s1 := drop_lead_hyphen s) in *.
  destruct (ends_with_hyphen s1) eqn:He.
  - rewrite forallb_drop_last, no_double_drop_last, ends_drop_last by done.
    destruct (starts_with_hyphen (drop_last s1)) eqn:Hs; [|done].
    apply starts_with_hyphen_drop_last in Hs. congruence.
  - by rewrite Hc1, Hs1, He, Hn1.
Qed.

(** ** Fixed points *)

Lemma to_lower_slug_chars s : str_forallb is_slug_char s = true -> js_to_lower s = s.
Proof.
  induction s as [|c s IH]; [done|]. simpl. intros [Hc Hs]%andb_true_iff.
  by rewrite slug_char_lower, IH.
Qed.

Lemma collapse_fixed b s :
  str_forallb is_slug_char s = true -> no_double_hyphen s = true ->
  (b = true -> starts_with_hyphen s = false) -> collapse_runs b s = s.
Proof.
  revert b. induction s as [|c s IH]; intros b Hc Hn Hb; [done|].
  simpl in Hc. rewrite no_double_hyphen_cons in Hn. bool_to_prop. simpl.
  destruct (is_slug_alnum c) eqn:Ha; [by rewrite IH|].
  pose proof (slug_char_alnum_or_hyphen c H1 Ha) as ->.
  destruct b; [by specialize (Hb eq_refl)|].
  rewrite IH; [done..|]. intros _. by destruct (starts_with_hyphen s).
Qed.

(** ** Agreement with the reference *)

Lemma squeeze_starts t : starts_with_hyphen (squeeze_hyphens t) = starts_with_hyphen t.
Proof.
  induction t as [|c t IH]; [done|]. cbn [squeeze_hyphens].
  destruct (is_hyphen c && starts_with_hyphen t) eqn:H; [|done].
  bool_to_prop. rewrite IH, H0. exact (eq_sym H).
Qed.

Lemma drop_lead_no_hyphen s : starts_with_hyphen s = false -> drop_lead_hyphen s = s.
Proof. destruct s as [|c s]; simpl; [done|]. by intros ->. Qed.

Lemma sanitize_alnum c : is_slug_alnum c = true -> sanitize_char c = c.
Proof. unfold sanitize_char. by intros ->. Qed.

Lemma sanitize_other c : is_slug_alnum c = false -> sanitize_char c = "-"%char.
Proof. unfold sanitize_char. by intros ->. Qed.

Lemma collapse_reference s : collapse_runs false s = squeeze_hyphens (map_chars sanitize_char s).
Proof.
  induction s as [|c s IH]; [done|]. cbn [collapse_runs map_chars squeeze_hyphens].
  destruct (is_slug_alnum c) eqn:Hc.
  - rewrite (sanitize_alnum c Hc). by rewrite (alnum_not_hyphen c Hc), IH.
  - rewrite (sanitize_other c Hc), collapse_in_run, IH.
    change (is_hyphen "-") with true. cbn [andb].
    destruct (starts_with_hyphen (map_chars sanitize_char s)) eqn:Hst.
    + rewrite <- squeeze_starts in Hst.
      destruct (squeeze_hyphens _) as [|h r]; [done|]. simpl in Hst.
      cbn [drop_lead_hyphen]. rewrite Hst. by rewrite (hyphen_eq h Hst).
    + rewrite drop_lead_no_hyphen; [done|]. by rewrite squeeze_starts.
Qed.

Lemma trim_leading_no_hyphen s : starts_with_hyphen s = false -> trim_leading s = s.
Proof. destruct s as [|c s]; simpl; [done|]. by intros ->. Qed.

Lemma trim_leading_drop_lead s :
  no_double_hyphen s = true -> trim_leading s = drop_lead_hyphen s.
Proof.
  destruct s as [|c s]; [done|]. rewrite no_double_hyphen_cons. simpl.
  intros Hn. bool_to_prop. destruct (is_hyphen c); [|done].
  apply trim_leading_no_hyphen. by destruct (starts_with_hyphen s).
Qed.

Lemma trim_trailing_cons c s :
  trim_trailing (String c s) =
  if (trim_trailing s ==? "") && is_hyphen c then EmptyString else String c (trim_trailing s).
Proof. reflexivity. Qed.

Lemma drop_last_empty s : drop_last s = "" -> s = "" \/ exists c, s = String c "".
Proof. destruct s as [|c [|d s]]; simpl; eauto; discriminate. Qed.

Lemma trim_trailing_drop_last x :
  no_double_hyphen x = true ->
  trim_trailing x = if ends_with_hyphen x then drop_last x else x.
Proof.
  induction x as [|c y IH]; [done|]. destruct y as [|d z].
  { simpl. by destruct (is_hyphen c). }
  rewrite no_double_hyphen_cons. intros Hn. bool_to_prop.
  rewrite trim_trailing_cons, IH by done.
  change (ends_with_hyphen (String c (String d z))) with (ends_with_hyphen (String d z)).
  change (drop_last (String c (String d z))) with (String c (drop_last (String d z))).
  destruct (ends_with_hyphen (String d z)) eqn:He; [|done].
  destruct (drop_last (String d z) ==? "") eqn:Hd; [|done]. bool_to_prop.
  destruct (drop_last_empty _ Hd) as [?|[e Hde]]; [discriminate|].
  injection Hde as -> ->. simpl in He, H. rewrite He, andb_true_r in H. by rewrite H.
Qed.

Lemma no_double_drop_lead s : no_double_hyphen s = true -> no_double_hyphen (drop_lead_hyphen s) = true.
Proof.
  destruct s as [|c s]; [done|]. rewrite no_double_hyphen_cons. simpl.
  intros Hn. bool_to_prop. destruct (is_hyphen c) eqn:Hh; [done|].
  by rewrite no_double_hyphen_cons, Hh.
Qed.

Lemma strip_trim s :
  no_double_hyphen s = true -> strip_edge_hyphens s = trim_trailing (trim_leading s).
Proof.
  intros Hn. rewrite trim_leading_drop_lead, trim_trailing_drop_last by auto using no_double_drop_lead.
  reflexivity.
Qed.

(** ** Alphanumeric content *)

Lemma existsb_to_lower s : str_existsb is_slug_alnum (js_to_lower s) = str_existsb is_ascii_alnum s.
Proof. induction s as [|c s IH]; simpl; [done|]. by rewrite alnum_to_lower, IH. Qed.

Lemma existsb_collapse b s : str_existsb is_slug_alnum (collapse_runs b s) = str_existsb is_slug_alnum s.
Proof.
  revert b. induction s as [|c s IH]; intros b; [done|]. cbn [collapse_runs str_existsb].
  destruct (is_slug_alnum c) eqn:Hc.
  - cbn [str_existsb]. by rewrite Hc.
  - destruct b; [exact (IH true)|].
    cbn [str_existsb]. change (is_slug_alnum "-") with false. apply IH.
Qed.

Lemma existsb_drop_lead s : str_existsb is_slug_alnum (drop_lead_hyphen s) = str_existsb is_slug_alnum s.
Proof.
  destruct s as [|c s]; [done|]. simpl. destruct (is_hyphen c) eqn:Hh; [|done].
  by rewrite (hyphen_eq c Hh).
Qed.

Lemma existsb_drop_last s :
  ends_with_hyphen s = true -> str_existsb is_slug_alnum (drop_last s) = str_existsb is_slug_alnum s.
Proof.
  induction s as [|c s IH]; [done|]. destruct s as [|d s].
  { simpl. intros Hh. by rewrite (hyphen_eq c Hh). }
  intros He. change (drop_last (String c (String d s))) with (String c (drop_last (String d s))).
  cbn [str_existsb]. by rewrite IH.
Qed.

Lemma existsb_strip s : str_existsb is_slug_alnum (strip_edge_hyphens s) = str_existsb is_slug_alnum s.
Proof.
  unfold strip_edge_hyphens. cbv zeta. rewrite <- (existsb_drop_lead s).
  destruct (ends_with_hyphen (drop_lead_hyphen s)) eqn:He; [by apply existsb_drop_last | done].
Qed.

Lemma existsb_generateSlug name :
  str_existsb is_slug_alnum (generateSlug name) = str_existsb is_ascii_alnum name.
Proof.
  unfold generateSlug, replace_non_alnum.
  by rewrite existsb_strip, existsb_collapse, existsb_to_lower.
Qed.

Lemma valid_slug_nonempty_alnum s :
  valid_slug s = true -> s <> "" -> str_existsb is_slug_alnum s = true.
Proof.
  destruct s as [|c s]; [done|]. unfold valid_slug. simpl. intros H _. bool_to_prop.
  unfold is_slug_char in H. destruct (is_slug_alnum c); [done|]. simpl in H.
  by rewrite H in H3.
Qed.

(** ** Properties of [generateSlug] *)

(** C5: every slug [generateSlug] produces is well formed: its characters
    are in [a-z0-9-], it neither starts nor ends with a hyphen, and it
    has no two hyphens in a row. *)
Theorem generateSlug_valid name : valid_slug (generateSlug name) = true.
Proof.
  unfold generateSlug, replace_non_alnum.
  apply strip_valid; [apply collapse_chars | apply collapse_no_double].
Qed.

(** On a well-formed slug, [generateSlug] is the identity. *)
Theorem generateSlug_fixpoint s : valid_slug s = true -> generateSlug s = s.
Proof.
  unfold valid_slug. intros Hv. bool_to_prop.
  unfold generateSlug, replace_non_alnum.
  rewrite to_lower_slug_chars, collapse_fixed by (done || discriminate).
  unfold strip_edge_hyphens. rewrite drop_lead_no_hyphen by done. by rewrite H1.
Qed.

Lemma generateSlug_fixpoint_witness :
  valid_slug "gold-chains" = true /\ generateSlug "gold-chains" = "gold-chains".
Proof.
  split; [reflexivity|]. apply (generateSlug_fixpoint "gold-chains"). reflexivity.
Defined.

(** Generating a slug from a slug changes nothing. *)
Theorem generateSlug_idempotent name : generateSlug (generateSlug name) = generateSlug name.
Proof. apply generateSlug_fixpoint, generateSlug_valid. Qed.

(** C7: the single-pass [generateSlug] equals the three-stage reference:
    lowercase, map every character outside [a-z0-9] to a hyphen, squeeze
    repeated hyphens, then trim all hyphens at both ends. *)
Theorem generateSlug_reference name : generateSlug name = slug_reference name.
Proof.
  unfold generateSlug, slug_reference, replace_non_alnum.
  rewrite <- collapse_reference. apply strip_trim, collapse_no_double.
Qed.

(** The slug is empty exactly when the name contains no ASCII letter
    and no digit. *)
Theorem generateSlug_empty_iff name :
  generateSlug name = "" <-> str_existsb is_ascii_alnum name = false.
Proof.
  rewrite <- existsb_generateSlug. split; [by intros ->|].
  intros H. destruct (generateSlug name) eqn:E; [done|].
  rewrite <- E in H. rewrite valid_slug_nonempty_alnum in H; [done | apply generateSlug_valid |].
  by rewrite E.
Qed.

(** The spec's examples: ["Men's Rings & Bands!"] gives
    ["men-s-rings-bands"] and ["Gold Chains"] gives ["gold-chains"]. *)
Example generateSlug_examples :
  generateSlug "Men's Rings & Bands!" = "men-s-rings-bands"
  /\ generateSlug "Gold Chains" = "gold-chains".
Proof. split; reflexivity. Qed.

End Slug.
