(* ===== verification/Catalog.v ===== *)
(** * The catalog hierarchy and its client-side views

    The records the admin tabs and the storefront receive from the
    backend ([Category], [Subcategory], [Product], with the fields the
    code reads and the forms write), and the pure functions the
    components compute over the fetched arrays: the search filters of the
    three admin tabs, the subcategory options of the product form, the
    slug-to-name lookups and the split of the mega menu.  Every function
    is a filter, a lookup or a slice over the arrays, as in the code: no
    sorting happens anywhere. *)

From Stdlib Require Import QArith.
From S2P Require Import Prelude.

#[local] Open Scope list_scope.
#[local] Open Scope nitai_scope.

Module Catalog.

(** ** Records *)

(** A category (CategoriesTab.jsx form state, lines 75-82). *)
Record Category := mkCategory {
  cat_id : string;
  cat_name : string;
  cat_slug : string;
  cat_description : string;
  cat_image : string;
  cat_sortOrder : Z;
  cat_isActive : bool
}.

(** A subcategory (SubcategoriesTab.jsx form state, lines 117-125). *)
Record Subcategory := mkSubcategory {
  sub_id : string;
  sub_categorySlug : string;
  sub_name : string;
  sub_slug : string;
  sub_description : string;
  sub_image : string;
  sub_sortOrder : Z;
  sub_isActive : bool
}.

(** The nested objects of a product (ProductsTab.jsx lines 105-130).
    Prices and weights are JavaScript numbers read with [parseFloat]:
    rationals.  Stock is read with [parseInt]: an integer. *)
Record Pricing := mkPricing {
  basePrice : Q;
  discountedPrice : Q;
  couponApplicable : bool;
  couponList : list string
}.

Record Details := mkDetails {
  metal : string;
  metalPurity : string;
  stone : string;
  stoneType : string;
  weight : Q;
  stoneWeight : Q;
  metalWeight : Q;
  size : string;
  color : string;
  clarity : string;
  certification : string
}.

Record Inventory := mkInventory {
  stock : Z;
  inStock : bool
}.

(** A product (ProductsTab.jsx form state, lines 99-131). *)
Record Product := mkProduct {
  prod_id : string;
  prod_name : string;
  prod_slug : string;
  prod_categorySlug : string;
  prod_subCategorySlug : string;
  prod_sku : string;
  prod_pricing : Pricing;
  prod_details : Details;
  prod_images : list string;
  prod_tags : list string;
  prod_inventory : Inventory;
  prod_isActive : bool
}.

#[export] Instance Category_eq_dec : EqDecision Category.
Proof. solve_decision. Defined.
#[export] Instance Subcategory_eq_dec : EqDecision Subcategory.
Proof. solve_decision. Defined.
(** Syntactic equality of rationals (not [Qeq]): two prices are the same
    JSON value when numerator and denominator agree. *)
#[export] Instance Q_eq_dec : EqDecision Q.
Proof.
  intros [a b] [c d]. unfold Decision.
  destruct (Z.eq_dec a c), (Pos.eq_dec b d); [left; congruence | right; congruence..].
Defined.
#[export] Instance Pricing_eq_dec : EqDecision Pricing.
Proof. solve_decision. Defined.
#[export] Instance Details_eq_dec : EqDecision Details.
Proof. solve_decision. Defined.
#[export] Instance Inventory_eq_dec : EqDecision Inventory.
Proof. solve_decision. Defined.
#[export] Instance Product_eq_dec : EqDecision Product.
Proof. solve_decision. Defined.

(** ** Search filters of the admin tabs *)

(** [x.toLowerCase().includes(searchTerm.toLowerCase())]. *)
Definition matches_ci (field searchTerm : string) : bool :=
  js_includes (js_to_lower field) (js_to_lower searchTerm).

(** The filter predicate of CategoriesTab.jsx 94-97. *)
Definition category_matches (searchTerm : string) (cat : Category) : bool :=
  matches_ci (cat_name cat) searchTerm || matches_ci (cat_slug cat) searchTerm.

(** The [filteredCategories] effect, CategoriesTab.jsx 93-99. *)
Definition filteredCategories (searchTerm : string) (categories : list Category) : list Category :=
  List.filter (category_matches searchTerm) categories.

(** SubcategoriesTab.jsx 205-208. *)
Definition subcategory_matches (searchTerm : string) (s : Subcategory) : bool :=
  matches_ci (sub_name s) searchTerm || matches_ci (sub_slug s) searchTerm.

Definition filteredSubcategories (searchTerm : string) (subcategories : list Subcategory)
  : list Subcategory :=
  List.filter (subcategory_matches searchTerm) subcategories.

(** ProductsTab.jsx 272-275: by name or SKU. *)
Definition product_matches (searchTerm : string) (p : Product) : bool :=
  matches_ci (prod_name p) searchTerm || matches_ci (prod_sku p) searchTerm.

Definition filteredProducts (searchTerm : string) (products : list Product) : list Product :=
  List.filter (product_matches searchTerm) products.

(** ** The subcategory options of the product form *)

(** The effect of ProductsTab.jsx 137-146: with a category selected, the
    subcategories whose [categorySlug] is that category, in the order of
    the fetched array; otherwise none. *)
Definition subcategoriesOf (categorySlug : string) (subcategories : list Subcategory)
  : list Subcategory :=
  if js_truthy_str categorySlug
  then List.filter (fun sub => sub_categorySlug sub ==? categorySlug) subcategories
  else [].

(** ** Slug-to-name lookups *)

(** [categories.find(c => c.slug === slug)?.name || slug]
    (SubcategoriesTab.jsx 210-212, ProductsTab.jsx 277-279). *)
Definition getCategoryName (categories : list Category) (slug : string) : string :=
  match List.find (fun c => cat_slug c ==? slug) categories with
  | Some c => if js_truthy_str (cat_name c) then cat_name c else slug
  | None => slug
  end.

(** ProductsTab.jsx 281-283. *)
Definition getSubcategoryName (subcategories : list Subcategory) (slug : string) : string :=
  match List.find (fun s => sub_slug s ==? slug) subcategories with
  | Some s => if js_truthy_str (sub_name s) then sub_name s else slug
  | None => slug
  end.

(** ** The storefront menu *)

(** Navigation.jsx 19. *)
Definition MAX_MAIN_CATEGORIES : nat := 7.

(** Navigation.jsx 93: [categories.slice(0, MAX_MAIN_CATEGORIES)]. *)
Definition mainCategories {A} (categories : list A) : list A :=
  firstn MAX_MAIN_CATEGORIES categories.

(** Navigation.jsx 94: [categories.slice(MAX_MAIN_CATEGORIES)]. *)
Definition moreCategories {A} (categories : list A) : list A :=
  skipn MAX_MAIN_CATEGORIES categories.

(** ** The listing filter of the storefront

    [ProductsListingPage] is imported by App.jsx but its source is not in
    the repository; this is the contract the specification gives it
    (section 4.1): filter by category, then by subcategory when a
    category is given, then by search term on name or SKU. *)
Definition productsMatching (categorySlug subCategorySlug searchTerm : option string)
  (products : list Product) : list Product :=
  List.filter (fun p =>
    match categorySlug with
    | Some c => (prod_categorySlug p ==? c) &&
        match subCategorySlug with
        | Some s => prod_subCategorySlug p ==? s
        | None => true
        end
    | None => true
    end
    && match searchTerm with
       | Some t => product_matches t p
       | None => true
       end) products.

(** ** Shared lemmas on the search filters *)

Section SearchFilter.
Context {A : Type} (field1 field2 : A -> string).

Let search_pred (searchTerm : string) (x : A) : bool :=
  matches_ci (field1 x) searchTerm || matches_ci (field2 x) searchTerm.

Lemma search_filter_spec searchTerm (l : list A) :
  List.filter (search_pred searchTerm) l `sublist_of` l /\
  forall x, In x (List.filter (search_pred searchTerm) l) <->
    In x l /\ (substring_of (js_to_lower searchTerm) (js_to_lower (field1 x))
               \/ substring_of (js_to_lower searchTerm) (js_to_lower (field2 x))).
Proof.
  split; [apply filter_sublist|]. intros x.
  rewrite filter_In. unfold search_pred, matches_ci.
  by rewrite orb_true_iff, !js_includes_spec.
Qed.

Lemma search_filter_empty (l : list A) : List.filter (search_pred "") l = l.
Proof.
  apply filter_all_true. intros x _. unfold search_pred, matches_ci. simpl.
  by rewrite js_includes_empty.
Qed.
End SearchFilter.

Lemma find_first {A} (f : A -> bool) l1 x l2 :
  (forall y, In y l1 -> f y = false) -> f x = true -> List.find f (l1 ++ x :: l2) = Some x.
Proof.
  induction l1 as [|y l1 IH]; simpl; intros Hl1 Hx; [by rewrite Hx|].
  rewrite Hl1 by auto. apply IH; auto.
Qed.

Lemma find_none_all {A} (f : A -> bool) l :
  (forall y, In y l -> f y = false) -> List.find f l = None.
Proof.
  induction l as [|y l IH]; simpl; intros H; [done|]. rewrite H by auto. apply IH. auto.
Qed.

(** ** Properties *)

(** The product search of the admin Products tab keeps the products,
    in their order, whose name or SKU contains the search term, ignoring
    ASCII case, and only those. *)
Theorem filteredProducts_spec searchTerm (products : list Product) :
  filteredProducts searchTerm products `sublist_of` products /\
  forall p, In p (filteredProducts searchTerm products) <->
    In p products /\
    (substring_of (js_to_lower searchTerm) (js_to_lower (prod_name p))
     \/ substring_of (js_to_lower searchTerm) (js_to_lower (prod_sku p))).
Proof. apply (search_filter_spec prod_name prod_sku). Qed.

(** The category search keeps the categories, in their order, whose
    name or slug contains the search term, ignoring ASCII case. *)
Theorem filteredCategories_spec searchTerm (categories : list Category) :
  filteredCategories searchTerm categories `sublist_of` categories /\
  forall c, In c (filteredCategories searchTerm categories) <->
    In c categories /\
    (substring_of (js_to_lower searchTerm) (js_to_lower (cat_name c))
     \/ substring_of (js_to_lower searchTerm) (js_to_lower (cat_slug c))).
Proof. apply (search_filter_spec cat_name cat_slug). Qed.

(** An empty search term shows every record of each admin tab. *)
Theorem filtered_empty_search (cs : list Category) (ss : list Subcategory) (ps : list Product) :
  filteredCategories "" cs = cs /\ filteredSubcategories "" ss = ss /\ filteredProducts "" ps = ps.
Proof.
  split; [|split]; [apply (search_filter_empty cat_name cat_slug)
                   | apply (search_filter_empty sub_name sub_slug)
                   | apply (search_filter_empty prod_name prod_sku)].
Qed.

(** The subcategories offered for a selected category are those of
    the fetched list whose [categorySlug] is the selection, in the fetched
    order; with no category selected there are none. *)
Theorem subcategoriesOf_spec categorySlug (subs : list Subcategory) :
  subcategoriesOf categorySlug subs `sublist_of` subs /\
  forall s, In s (subcategoriesOf categorySlug subs) <->
    categorySlug <> "" /\ In s subs /\ sub_categorySlug s = categorySlug.
Proof.
  unfold subcategoriesOf. destruct (js_truthy_str categorySlug) eqn:Ht.
  - apply js_truthy_str_true in Ht. split; [apply filter_sublist|].
    intros s. rewrite filter_In, String.eqb_eq. tauto.
  - apply js_truthy_str_false in Ht. split; [apply sublist_nil_l|]. simpl. tauto.
Qed.

(** A category slug that no subcategory references yields no
    options, and no error. *)
Theorem subcategoriesOf_unknown categorySlug (subs : list Subcategory) :
  (forall s, In s subs -> sub_categorySlug s <> categorySlug) ->
  subcategoriesOf categorySlug subs = [].
Proof.
  intros H. unfold subcategoriesOf. destruct (js_truthy_str categorySlug); [|done].
  apply filter_all_false. intros s Hs. apply String.eqb_neq. auto.
Qed.

Definition sample_sub (slug : string) (order : Z) : Subcategory :=
  mkSubcategory slug "rings" slug slug "" "" order true.

Lemma subcategoriesOf_unknown_witness :
  (forall s, In s [sample_sub "engagement" 1] -> sub_categorySlug s <> "chains") /\
  subcategoriesOf "chains" [sample_sub "engagement" 1] = [].
Proof.
  assert (H : forall s, In s [sample_sub "engagement" 1] -> sub_categorySlug s <> "chains").
  { intros s [<-|[]]. simpl. discriminate. }
  split; [exact H | exact (subcategoriesOf_unknown "chains" _ H)].
Defined.

(** The options are not ordered by [sortOrder]: the code keeps the
    fetched order, so a subcategory with a larger [sortOrder] can come
    first. *)
Theorem subcategoriesOf_not_sorted :
  let a := sample_sub "wedding" 2 in
  let b := sample_sub "engagement" 1 in
  subcategoriesOf "rings" [a; b] = [a; b] /\ (sub_sortOrder b < sub_sortOrder a)%Z.
Proof. split; reflexivity. Qed.

(** A slug that no loaded category (or subcategory) has, such as
    the dangling [subCategorySlug] of a product whose subcategory was
    deleted, is displayed as the slug itself, not as an empty name. *)
Theorem dangling_slug_displayed (categories : list Category) (subs : list Subcategory) slug :
  (forall c, In c categories -> cat_slug c <> slug) ->
  (forall s, In s subs -> sub_slug s <> slug) ->
  getCategoryName categories slug = slug /\ getSubcategoryName subs slug = slug.
Proof.
  intros Hc Hs. unfold getCategoryName, getSubcategoryName.
  rewrite !find_none_all; [done| |]; intros x Hx; apply String.eqb_neq; auto.
Qed.

Definition sample_cat (slug name : string) : Category :=
  mkCategory slug name slug "" "" 0 true.

Lemma dangling_slug_displayed_witness :
  (forall c, In c [sample_cat "rings" "Rings"] -> cat_slug c <> "solitaire") /\
  (forall s, In s [sample_sub "engagement" 1] -> sub_slug s <> "solitaire") /\
  getSubcategoryName [sample_sub "engagement" 1] "solitaire" = "solitaire".
Proof.
  assert (H1 : forall c, In c [sample_cat "rings" "Rings"] -> cat_slug c <> "solitaire").
  { intros c [<-|[]]. simpl. discriminate. }
  assert (H2 : forall s, In s [sample_sub "engagement" 1] -> sub_slug s <> "solitaire").
  { intros s [<-|[]]. simpl. discriminate. }
  split; [exact H1|]. split; [exact H2|].
  exact (proj2 (dangling_slug_displayed _ _ "solitaire" H1 H2)).
Defined.

(** The name shown for a slug is the name of the first category with
    that slug, unless that name is empty, in which case it is the slug. *)
Theorem getCategoryName_first l1 c l2 slug :
  (forall x, In x l1 -> cat_slug x <> slug) -> cat_slug c = slug ->
  getCategoryName (l1 ++ c :: l2) slug = if js_truthy_str (cat_name c) then cat_name c else slug.
Proof.
  intros H1 Hc. unfold getCategoryName. rewrite find_first; [done| |].
  - intros x Hx. apply String.eqb_neq. auto.
  - by apply String.eqb_eq.
Qed.

Lemma getCategoryName_first_witness :
  (forall x, In x [sample_cat "rings" "Rings"] -> cat_slug x <> "chains") /\
  cat_slug (sample_cat "chains" "Chains") = "chains" /\
  getCategoryName ([sample_cat "rings" "Rings"] ++ sample_cat "chains" "Chains" :: []) "chains"
  = "Chains".
Proof.
  assert (H : forall x, In x [sample_cat "rings" "Rings"] -> cat_slug x <> "chains").
  { intros x [<-|[]]. simpl. discriminate. }
  split; [exact H|]. split; [reflexivity|].
  exact (getCategoryName_first _ (sample_cat "chains" "Chains") [] "chains" H eq_refl).
Defined.

(** The mega menu shows at most seven categories in the main bar and
    the rest under "more", losing and duplicating none. *)
Theorem menu_split {A} (categories : list A) :
  mainCategories categories ++ moreCategories categories = categories /\
  List.length (mainCategories categories) = Nat.min MAX_MAIN_CATEGORIES (List.length categories) /\
  List.length (moreCategories categories) = List.length categories - MAX_MAIN_CATEGORIES.
Proof.
  unfold mainCategories, moreCategories.
  split; [apply firstn_skipn|]. split; [apply length_firstn | apply length_skipn].
Qed.

(** The products of a subcategory are among the products of its
    category, in the same order. *)
Theorem productsMatching_subcategory_subset categorySlug subCategorySlug searchTerm ps :
  productsMatching (Some categorySlug) (Some subCategorySlug) searchTerm ps
  `sublist_of` productsMatching (Some categorySlug) None searchTerm ps.
Proof.
  apply filter_sublist_mono. intros p. rewrite !andb_true_iff. tauto.
Qed.

End Catalog.
