(* ===== verification/Routes.v ===== *)
(** * Routes and the URLs the storefront builds

    The route table of [src/src/App.jsx] (lines 33-66), the way
    react-router 6 chooses a route for a path, and the URL builders of
    [ProductCard.jsx] ([getProductUrl]), [Navigation.jsx]
    ([handleNavigation]), [CategoryCardsSection.jsx]
    ([handleCategoryClick]) and [ProductDetailPage.jsx]
    ([getBreadcrumbs]).

    The router is a library the code only calls; it is modelled from its
    documented algorithm (react-router 6, [flattenRoutes],
    [computeScore], [rankRouteBranches], [matchPath]): every route,
    nested ones flattened to their full path, gets a score computed from
    its path; the routes are sorted by decreasing score, stably, so that
    among routes of equal score the one written first comes first; the
    first route of that order whose pattern matches the path wins.  A
    pattern matches when its static segments equal the path's segments
    up to ASCII case, each dynamic segment [:name] matches one non-empty
    segment, and only slashes follow.  Percent-decoding of the path is
    not modelled: the theorems are about segments made of slug
    characters, which decoding leaves alone. *)

From S2P Require Import Prelude Slug.

#[local] Open Scope list_scope.
#[local] Open Scope nitai_scope.

Module Routes.

(** ** Pages and the route table *)

Inductive page :=
| HomePage | ProductsListingPage | ProductDetailPage | LoginPage | AdminRedirect
| Dashboard | Users | AdminProducts | Events | Coupons | AdminLayout | NotFound.

#[export] Instance page_eq_dec : EqDecision page.
Proof. solve_decision. Defined.

Record route := mkRoute {
  r_path : string;     (** the full path, nested paths joined *)
  r_index : bool;      (** an index route *)
  r_page : page
}.

(** The routes of App.jsx in the order react-router flattens them: the
    children of [/admin] before [/admin] itself. *)
Definition app_routes : list route := [
  mkRoute "/" false HomePage;                                               (* 34 *)
  mkRoute "/products" false ProductsListingPage;                            (* 37 *)
  mkRoute "/products/category/:categorySlug/:subCategorySlug" false ProductsListingPage; (* 38 *)
  mkRoute "/products/category/:categorySlug" false ProductsListingPage;     (* 39 *)
  mkRoute "/products/collection/:collectionSlug" false ProductsListingPage; (* 40 *)
  mkRoute "/product/:slug" false ProductDetailPage;                         (* 43 *)
  mkRoute "/products/category/:categorySlug/:subCategorySlug/:slug" false ProductDetailPage; (* 44 *)
  mkRoute "/products/category/:categorySlug/:slug" false ProductDetailPage; (* 45 *)
  mkRoute "/login" false LoginPage;                                         (* 47 *)
  mkRoute "/adminauth" false AdminRedirect;                                 (* 48 *)
  mkRoute "/admin" true Dashboard;                                          (* 58 *)
  mkRoute "/admin/users" false Users;                                       (* 59 *)
  mkRoute "/admin/products" false AdminProducts;                            (* 60 *)
  mkRoute "/admin/events" false Events;                                     (* 61 *)
  mkRoute "/admin/coupons" false Coupons;                                   (* 62 *)
  mkRoute "/admin" false AdminLayout;                                       (* 50-57 *)
  mkRoute "*" false NotFound                                                (* 65 *)
].

(** The two routes with the same shape [/products/category/:x/:y]. *)
Definition listing_sub_route : route :=
  mkRoute "/products/category/:categorySlug/:subCategorySlug" false ProductsListingPage.
Definition detail_cat_route : route :=
  mkRoute "/products/category/:categorySlug/:slug" false ProductDetailPage.
Definition listing_cat_route : route :=
  mkRoute "/products/category/:categorySlug" false ProductsListingPage.
Definition detail_full_route : route :=
  mkRoute "/products/category/:categorySlug/:subCategorySlug/:slug" false ProductDetailPage.
Definition detail_plain_route : route :=
  mkRoute "/product/:slug" false ProductDetailPage.

(** ** Ranking *)

Definition is_word_char (c : ascii) : bool :=
  is_upper c || is_lower c || is_digit c || Ascii.eqb c "_" || Ascii.eqb c "-".

(** [/^:[\w-]+$/]. *)
Definition is_param_segment (seg : string) : bool :=
  match seg with
  | String ":" rest => js_truthy_str rest && str_forallb is_word_char rest
  | _ => false
  end.

Definition is_splat (seg : string) : bool := seg ==? "*".

Definition segment_value (seg : string) : Z :=
  if is_param_segment seg then 3%Z else if seg ==? "" then 1%Z else 10%Z.

(** [computeScore(path, index)]. *)
Definition computeScore (path : string) (index : bool) : Z :=
  let segments := js_split "/" path in
  let initial := (Z.of_nat (List.length segments)
    + (if existsb is_splat segments then (-2)%Z else 0%Z)
    + (if index then 2%Z else 0%Z))%Z in
  fold_left (fun score seg => (score + segment_value seg)%Z)
    (List.filter (fun s => negb (is_splat s)) segments) initial.

Definition route_score (r : route) : Z := computeScore (r_path r) (r_index r).

(** Insert after every route of greater or equal score: the sort is
    stable. *)
Fixpoint insert_ranked (r : route) (rs : list route) : list route :=
  match rs with
  | [] => [r]
  | r' :: rs' =>
      if Z.ltb (route_score r') (route_score r) then r :: rs
      else r' :: insert_ranked r rs'
  end.

(** [rankRouteBranches]: a stable sort by decreasing score. *)
Definition rank_routes (rs : list route) : list route :=
  fold_left (fun acc r => insert_ranked r acc) rs [].

(** ** Matching *)

Inductive pseg := PStatic (s : string) | PParam (name : string).

(** The segments of a pattern: the non-empty pieces between slashes,
    without a final [*]. *)
Definition pattern_segments (path : string) : list pseg :=
  map (fun seg => match seg with
                  | String ":" name => if is_param_segment seg then PParam name else PStatic seg
                  | _ => PStatic seg
                  end)
      (List.filter (fun s => js_truthy_str s && negb (is_splat s)) (js_split "/" path)).

Definition pattern_splat (path : string) : bool := existsb is_splat (js_split "/" path).

Definition params := list (string * string).

(** The pattern's segments against the path's pieces; after the last
    segment only empty pieces (trailing slashes) are allowed, or anything
    for a splat. *)
Fixpoint match_segments (splat : bool) (ps : list pseg) (pieces : list string) : option params :=
  match ps, pieces with
  | [], rest =>
      if splat then Some [("*", String.concat "/" rest)]
      else if forallb (fun p => p ==? "") rest then Some [] else None
  | PStatic s :: ps', x :: xs =>
      if js_to_lower s ==? js_to_lower x then match_segments splat ps' xs else None
  | PParam n :: ps', x :: xs =>
      if js_truthy_str x
      then option_map (cons (n, x)) (match_segments splat ps' xs)
      else None
  | _ :: _, [] => None
  end.

(** The pieces of a path name, which starts with a slash. *)
Definition path_pieces (pathname : string) : option (list string) :=
  match pathname with
  | String "/" rest => Some (js_split "/" rest)
  | _ => None
  end.

Definition match_route (r : route) (pieces : list string) : option params :=
  match_segments (pattern_splat (r_path r)) (pattern_segments (r_path r)) pieces.

Fixpoint first_match (rs : list route) (pieces : list string) : option (route * params) :=
  match rs with
  | [] => None
  | r :: rs' =>
      match match_route r pieces with
      | Some ps => Some (r, ps)
      | None => first_match rs' pieces
      end
  end.

(** The route react-router renders for a path name, with its parameters. *)
Definition resolve (rs : list route) (pathname : string) : option (route * params) :=
  match path_pieces pathname with
  | Some pieces => first_match (rank_routes rs) pieces
  | None => None
  end.

(** The page react-router renders for a path name. *)
Definition page_of (pathname : string) : option page :=
  option_map (fun rp => r_page (fst rp)) (resolve app_routes pathname).

(** ** URLs built by the storefront *)

(** A route parameter of [useParams()]: [undefined] or a string; it is
    truthy when defined and not empty. *)
Definition opt_truthy (o : option string) : bool :=
  match o with Some s => js_truthy_str s | None => false end.

(** A template literal [${x}] of an optional string. *)
Definition template_opt (o : option string) : string :=
  match o with Some s => s | None => "undefined" end.

(** [getProductUrl] (ProductCard.jsx 41-51). *)
Definition getProductUrl (categorySlug subCategorySlug : option string) (slug : string) : string :=
  if opt_truthy categorySlug && opt_truthy subCategorySlug then
    "/products/category/" +++ template_opt categorySlug +++ "/"
      +++ template_opt subCategorySlug +++ "/" +++ slug
  else if opt_truthy categorySlug then
    "/products/category/" +++ template_opt categorySlug +++ "/" +++ slug
  else "/product/" +++ slug.

(** [handleNavigation] (Navigation.jsx 75-82). *)
Definition handleNavigation (path : string) : string :=
  if js_starts_with path "/category/" then "/products" +++ path else path.

(** The paths the mega menu passes to [handleNavigation]
    (Navigation.jsx 142, 161, 208, 247, 298, 309). *)
Definition menu_category_path (categorySlug : string) : string :=
  "/category/" +++ categorySlug.
Definition menu_subcategory_path (categorySlug subSlug : string) : string :=
  "/category/" +++ categorySlug +++ "/" +++ subSlug.

(** [handleCategoryClick] (CategoryCardsSection.jsx 81-83). *)
Definition handleCategoryClick (categorySlug : string) : string :=
  "/products/category/" +++ categorySlug.

Record crumb := mkCrumb { crumb_label : string; crumb_path : option string }.

(** [getBreadcrumbs] (ProductDetailPage.jsx 55-80): labels replace
    hyphens by spaces; the product crumb has no link. *)
Definition getBreadcrumbs (categorySlug subCategorySlug : option string)
  (productName : option string) : list crumb :=
  [mkCrumb "Home " (Some "/"); mkCrumb " Products" (Some "/products")]
  ++ (if opt_truthy categorySlug then
        [mkCrumb (js_replace_char "-" " " (template_opt categorySlug))
                 (Some ("/products/category/" +++ template_opt categorySlug))]
      else [])
  ++ (if opt_truthy subCategorySlug then
        [mkCrumb (js_replace_char "-" " " (template_opt subCategorySlug))
                 (Some ("/products/category/" +++ template_opt categorySlug
                        +++ "/" +++ template_opt subCategorySlug))]
      else [])
  ++ (match productName with Some n => [mkCrumb n None] | None => [] end).

(** ** Lemmas *)

#[export] Instance route_eq_dec : EqDecision route.
Proof. solve_decision. Defined.

Lemma url_segment_nonempty s : url_segment s = true -> exists x s', s = String x s'.
Proof. destruct s as [|x s']; [done | eauto]. Qed.

Lemma url_segment_truthy s : url_segment s = true -> js_truthy_str s = true.
Proof. unfold url_segment. by intros [? ?]%andb_true_iff. Qed.

(** The pieces of a path made of URL segments are those segments. *)
Lemma path_pieces_concat (segs : list string) :
  segs <> [] -> Forall (fun s => url_segment s = true) segs ->
  path_pieces ("/" +++ String.concat "/" segs) = Some segs.
Proof.
  intros Hne Hall. change ("/" +++ String.concat "/" segs) with (String "/" (String.concat "/" segs)).
  unfold path_pieces. by rewrite js_split_concat.
Qed.

(** A route that matches shadows every later route it matches whenever
    that one does. *)
Lemma first_match_before l1 r1 l2 pieces r ps :
  first_match (l1 ++ r1 :: l2) pieces = Some (r, ps) -> is_Some (match_route r1 pieces) ->
  r = r1 \/ In r l1.
Proof.
  intros Hf [ps1 Hr1]. induction l1 as [|r0 l1 IH]; simpl in Hf.
  - rewrite Hr1 in Hf. injection Hf as <- _. by left.
  - destruct (match_route r0 pieces) eqn:E.
    + injection Hf as <- _. right. by left.
    + destruct (IH Hf) as [->|Hin]; [by left | right; by right].
Qed.

(** The matching of a pattern depends only on its static segments, not
    on the names of its parameters. *)
Definition seg_shape (p : pseg) : option string :=
  match p with PStatic s => Some (js_to_lower s) | PParam _ => None end.

Lemma match_same_shape b ps ps' pieces :
  map seg_shape ps = map seg_shape ps' ->
  is_Some (match_segments b ps pieces) -> is_Some (match_segments b ps' pieces).
Proof.
  revert ps' pieces. induction ps as [|p ps IH]; intros [|p' ps'] pieces Hs; try done.
  simpl in Hs. injection Hs as Hp Hs.
  destruct pieces as [|x xs]; [by destruct p, p'|].
  destruct p as [s|n], p' as [s'|n']; simpl in Hp; try discriminate.
  - injection Hp as Hp. simpl. rewrite Hp. destruct (_ ==? _); [by apply IH | done].
  - simpl. destruct (js_truthy_str x); [|done].
    intros [q Hq]. destruct (match_segments b ps xs) eqn:E; [|done].
    destruct (IH ps' xs Hs ltac:(eauto)) as [q' ->]. eauto.
Qed.

Ltac solve_resolve :=
  repeat match goal with
  | H : url_segment ?s = true |- _ =>
      let x := fresh "x" in let s' := fresh "s" in
      destruct (url_segment_nonempty s H) as (x & s' & ->); clear H
  end; vm_compute; reflexivity.

Lemma first_match_sound rs pieces r ps :
  first_match rs pieces = Some (r, ps) -> match_route r pieces = Some ps.
Proof.
  induction rs as [|r0 rs IH]; simpl; [discriminate|].
  destruct (match_route r0 pieces) eqn:E; [|exact IH]. by intros [= <- <-].
Qed.

Ltac segments_ok :=
  repeat (apply List.Forall_cons; [first [assumption | reflexivity] |]); apply List.Forall_nil.

Lemma getProductUrl_category_only c p :
  url_segment c = true ->
  getProductUrl (Some c) None p = "/" +++ String.concat "/" ["products"; "category"; c; p].
Proof.
  intros Hc. unfold getProductUrl, opt_truthy. by rewrite (url_segment_truthy c Hc).
Qed.

Lemma getProductUrl_full c s p :
  url_segment c = true -> url_segment s = true ->
  getProductUrl (Some c) (Some s) p = "/" +++ String.concat "/" ["products"; "category"; c; s; p].
Proof.
  intros Hc Hs. unfold getProductUrl, opt_truthy.
  by rewrite (url_segment_truthy c Hc), (url_segment_truthy s Hs).
Qed.

(** ** Properties *)

(** C1: a product card rendered under a category listing without a
    subcategory links to [/products/category/c/p]; react-router ranks the
    listing route [/products/category/:categorySlug/:subCategorySlug]
    before the product route of the same shape, so the link opens the
    listing page with the product slug taken as a subcategory slug. *)
Theorem product_url_category_only_listing c p :
  url_segment c = true -> url_segment p = true ->
  resolve app_routes (getProductUrl (Some c) None p)
  = Some (listing_sub_route, [("categorySlug", c); ("subCategorySlug", p)]).
Proof.
  intros Hc Hp. rewrite getProductUrl_category_only by done. unfold resolve.
  rewrite path_pieces_concat by (discriminate || segments_ok). solve_resolve.
Qed.

Lemma product_url_category_only_listing_witness :
  url_segment "rings" = true /\ url_segment "gold-ring" = true /\
  resolve app_routes (getProductUrl (Some "rings") None "gold-ring")
  = Some (listing_sub_route, [("categorySlug", "rings"); ("subCategorySlug", "gold-ring")]).
Proof.
  split; [reflexivity|]. split; [reflexivity|].
  apply product_url_category_only_listing; reflexivity.
Defined.

(** C2: the product route [/products/category/:categorySlug/:slug] of
    App.jsx is never rendered, whatever the path. *)
Theorem detail_cat_route_shadowed pathname r ps :
  resolve app_routes pathname = Some (r, ps) -> r <> detail_cat_route.
Proof.
  unfold resolve. destruct (path_pieces pathname) as [pieces|]; [|discriminate].
  intros Hf ->.
  assert (Hr : rank_routes app_routes
               = [detail_full_route] ++ listing_sub_route :: skipn 2 (rank_routes app_routes))
    by reflexivity.
  rewrite Hr in Hf.
  assert (Hm : is_Some (match_route listing_sub_route pieces)).
  { pose proof (first_match_sound _ _ _ _ Hf) as Hd. unfold match_route in *.
    change (pattern_splat (r_path listing_sub_route)) with (pattern_splat (r_path detail_cat_route)).
    apply (match_same_shape _ (pattern_segments (r_path detail_cat_route))); [reflexivity|].
    rewrite Hd. eauto. }
  destruct (first_match_before _ _ _ _ _ _ Hf Hm) as [H|[H|[]]]; discriminate.
Qed.

Lemma detail_cat_route_shadowed_witness :
  match resolve app_routes "/products/category/rings/solitaire" with
  | Some (r, ps) => r <> detail_cat_route
  | None => False
  end.
Proof.
  destruct (resolve app_routes "/products/category/rings/solitaire") as [[r ps]|] eqn:E;
    [|vm_compute in E; discriminate].
  exact (detail_cat_route_shadowed _ r ps E).
Defined.

(** A product card rendered with both a category and a subcategory in
    the route links to a URL that opens the product page with the three
    slugs as parameters. *)
Theorem product_url_full_context_detail c s p :
  url_segment c = true -> url_segment s = true -> url_segment p = true ->
  resolve app_routes (getProductUrl (Some c) (Some s) p)
  = Some (detail_full_route, [("categorySlug", c); ("subCategorySlug", s); ("slug", p)]).
Proof.
  intros Hc Hs Hp. rewrite getProductUrl_full by done. unfold resolve.
  rewrite path_pieces_concat by (discriminate || segments_ok). solve_resolve.
Qed.

Lemma product_url_full_context_detail_witness :
  url_segment "rings" = true /\ url_segment "engagement" = true /\ url_segment "solitaire" = true /\
  resolve app_routes (getProductUrl (Some "rings") (Some "engagement") "solitaire")
  = Some (detail_full_route,
          [("categorySlug", "rings"); ("subCategorySlug", "engagement"); ("slug", "solitaire")]).
Proof.
  split; [reflexivity|]. split; [reflexivity|]. split; [reflexivity|].
  apply product_url_full_context_detail; reflexivity.
Defined.

(** Outside a category listing, a product card links to
    [/product/p], which opens the product page for [p]. *)
Theorem product_url_no_context_detail p :
  url_segment p = true ->
  resolve app_routes (getProductUrl None None p) = Some (detail_plain_route, [("slug", p)]).
Proof.
  intros Hp. change (getProductUrl None None p) with ("/" +++ String.concat "/" ["product"; p]).
  unfold resolve. rewrite path_pieces_concat by (discriminate || segments_ok). solve_resolve.
Qed.

Lemma product_url_no_context_detail_witness :
  url_segment "gold-ring" = true /\
  resolve app_routes (getProductUrl None None "gold-ring") = Some (detail_plain_route, [("slug", "gold-ring")]).
Proof. split; [reflexivity|]. apply product_url_no_context_detail. reflexivity. Defined.

Lemma str_forallb_not_existsb (f g : ascii -> bool) s :
  (forall c, f c = true -> g c = false) -> str_forallb f s = true -> str_existsb g s = false.
Proof.
  intros Hfg. induction s as [|c s IH]; simpl; [done|].
  intros [Hc Hs]%andb_true_iff. by rewrite Hfg, IH.
Qed.

Lemma slug_char_not_slash c : Slug.is_slug_char c = true -> Ascii.eqb c "/" = false.
Proof. intros H. destruct c as [[] [] [] [] [] [] [] []]; cbv in *; congruence. Qed.

(** A slug generated from a name with a letter or a digit is a URL
    segment. *)
Lemma generateSlug_url_segment name :
  str_existsb Slug.is_ascii_alnum name = true -> url_segment (Slug.generateSlug name) = true.
Proof.
  intros Ha. unfold url_segment. pose proof (Slug.generateSlug_valid name) as Hv.
  unfold Slug.valid_slug in Hv. bool_to_prop. apply andb_true_iff. split.
  - apply js_truthy_str_true. intros He. apply Slug.generateSlug_empty_iff in He. congruence.
  - apply negb_true_iff. eapply str_forallb_not_existsb; [exact slug_char_not_slash | done].
Qed.

Lemma prefix_app t u : String.prefix t (t +++ u) = true.
Proof. apply string_prefix_spec. eauto. Qed.

Lemma menu_category_url c :
  handleNavigation (menu_category_path c) = "/" +++ String.concat "/" ["products"; "category"; c].
Proof. unfold handleNavigation, js_starts_with, menu_category_path. by rewrite prefix_app. Qed.

Lemma menu_subcategory_url c s :
  handleNavigation (menu_subcategory_path c s)
  = "/" +++ String.concat "/" ["products"; "category"; c; s].
Proof. unfold handleNavigation, js_starts_with, menu_subcategory_path. by rewrite prefix_app. Qed.

(** C3: the links of the mega menu and of the category cards open the
    listing page with the clicked category, and subcategory, as route
    parameters: building the URL and matching it are inverse. *)
Theorem navigation_url_roundtrip c s :
  url_segment c = true -> url_segment s = true ->
  resolve app_routes (handleNavigation (menu_category_path c))
    = Some (listing_cat_route, [("categorySlug", c)]) /\
  resolve app_routes (handleNavigation (menu_subcategory_path c s))
    = Some (listing_sub_route, [("categorySlug", c); ("subCategorySlug", s)]) /\
  resolve app_routes (handleCategoryClick c) = Some (listing_cat_route, [("categorySlug", c)]).
Proof.
  intros Hc Hs. rewrite menu_category_url, menu_subcategory_url.
  change (handleCategoryClick c) with ("/" +++ String.concat "/" ["products"; "category"; c]).
  unfold resolve. rewrite !path_pieces_concat by (discriminate || segments_ok).
  split; [|split]; solve_resolve.
Qed.

Lemma navigation_url_roundtrip_witness :
  url_segment "rings" = true /\ url_segment "engagement" = true /\
  resolve app_routes (handleNavigation (menu_category_path "rings"))
    = Some (listing_cat_route, [("categorySlug", "rings")]) /\
  resolve app_routes (handleNavigation (menu_subcategory_path "rings" "engagement"))
    = Some (listing_sub_route, [("categorySlug", "rings"); ("subCategorySlug", "engagement")]) /\
  resolve app_routes (handleCategoryClick "rings") = Some (listing_cat_route, [("categorySlug", "rings")]).
Proof.
  split; [reflexivity|]. split; [reflexivity|].
  apply navigation_url_roundtrip; reflexivity.
Defined.

(** A category whose name has a letter or a digit gets a slug that
    the mega menu link carries unchanged to the listing page. *)
Theorem generated_slug_menu_link name :
  str_existsb Slug.is_ascii_alnum name = true ->
  resolve app_routes (handleNavigation (menu_category_path (Slug.generateSlug name)))
  = Some (listing_cat_route, [("categorySlug", Slug.generateSlug name)]).
Proof.
  intros H. apply (navigation_url_roundtrip _ "x"); [by apply generateSlug_url_segment | done].
Qed.

Lemma generated_slug_menu_link_witness :
  str_existsb Slug.is_ascii_alnum "Gold Chains" = true /\
  resolve app_routes (handleNavigation (menu_category_path (Slug.generateSlug "Gold Chains")))
  = Some (listing_cat_route, [("categorySlug", Slug.generateSlug "Gold Chains")]).
Proof. split; [reflexivity|]. apply generated_slug_menu_link. reflexivity. Defined.

Definition home_route : route := mkRoute "/" false HomePage.
Definition products_route : route := mkRoute "/products" false ProductsListingPage.

(** On a product page reached with a category and a subcategory, the
    breadcrumb trail is Home, Products, category, subcategory, product;
    every crumb but the last is a link, and each link opens the page it
    names: the home page, the full listing, the category listing, the
    subcategory listing. *)
Theorem breadcrumbs_links c s name :
  url_segment c = true -> url_segment s = true ->
  map (fun cr => option_map (resolve app_routes) (crumb_path cr))
      (getBreadcrumbs (Some c) (Some s) (Some name))
  = [Some (Some (home_route, [])); Some (Some (products_route, []));
     Some (Some (listing_cat_route, [("categorySlug", c)]));
     Some (Some (listing_sub_route, [("categorySlug", c); ("subCategorySlug", s)]));
     None].
Proof.
  intros Hc Hs. unfold getBreadcrumbs, opt_truthy, template_opt.
  rewrite (url_segment_truthy c Hc), (url_segment_truthy s Hs). cbn [app map option_map crumb_path].
  change ("/products/category/" +++ c) with ("/" +++ String.concat "/" ["products"; "category"; c]).
  change ("/products/category/" +++ c +++ "/" +++ s)
    with ("/" +++ String.concat "/" ["products"; "category"; c; s]).
  unfold resolve at 3 4. rewrite !path_pieces_concat by (discriminate || segments_ok).
  solve_resolve.
Qed.

Lemma breadcrumbs_links_witness :
  url_segment "rings" = true /\ url_segment "engagement" = true /\
  map (fun cr => option_map (resolve app_routes) (crumb_path cr))
      (getBreadcrumbs (Some "rings") (Some "engagement") (Some "Solitaire"))
  = [Some (Some (home_route, [])); Some (Some (products_route, []));
     Some (Some (listing_cat_route, [("categorySlug", "rings")]));
     Some (Some (listing_sub_route, [("categorySlug", "rings"); ("subCategorySlug", "engagement")]));
     None].
Proof.
  split; [reflexivity|]. split; [reflexivity|]. apply breadcrumbs_links; reflexivity.
Defined.

End Routes.
