(* ===== verification/Api.v ===== *)
(** * Requests to the backend and the handling of their responses

    The admin tabs each define their own API object
    ([categoryAPI] of [CategoriesTab.jsx] lines 17-65, [subcategoryAPI]
    and [categoryAPI] of [SubcategoriesTab.jsx] lines 16-108,
    [productAPI], [categoryAPI], [subcategoryAPI] of [ProductsTab.jsx]
    lines 16-87) over a shared shape: the base URL from the environment,
    the bearer token read from [localStorage], a JSON request, and
    [handleResponse], which turns a failed response into an [Error]
    whose message is the body's [error] field, or ["Request failed"]
    when the body is not JSON, or ["HTTP <status>: <statusText>"].

    A request is a value ([request]): method, URL, headers, body.  A
    response is a value too ([response]): the backend and the network are
    inputs of the model.  [localStorage] is a finite map from keys to
    strings. *)

From Stdlib Require Import DecimalString.
From stdpp Require Import gmap.
From S2P Require Import Prelude Catalog.

#[local] Open Scope list_scope.
#[local] Open Scope nitai_scope.

Module Http.

Inductive method := GET | POST | PUT | DELETE.

#[export] Instance method_eq_dec : EqDecision method.
Proof. solve_decision. Defined.

(** A request with a JSON body of type [B] ([JSON.stringify(data)]). *)
Record request (B : Type) := mkRequest {
  req_method : method;
  req_url : string;
  req_headers : list (string * string);
  req_body : option B
}.
Arguments mkRequest {B} _ _ _ _.
Arguments req_method {B} _.
Arguments req_url {B} _.
Arguments req_headers {B} _.
Arguments req_body {B} _.

(** What [await fetch(...)] gives: a response whose [ok] is set (with
    its JSON payload, [None] when the body is not JSON), a failed
    response (with its parsed body: [Some e] for a JSON object whose
    [error] field is [e], [None] when the body is not JSON), or a
    rejection of [fetch] itself. *)
Inductive response (A : Type) :=
| RespOk (payload : option A)
| RespFail (status : Z) (statusText : string) (errorBody : option (option string))
| NetworkError (message : string).
Arguments RespOk {A} _.
Arguments RespFail {A} _ _ _.
Arguments NetworkError {A} _.

(** The value an awaited call produces or the [Error] it throws. *)
Inductive result (A : Type) := Ok (a : A) | Err (message : string).
Arguments Ok {A} _.
Arguments Err {A} _.

(** An awaited computation that may throw ([Ok], [Err] of [Http]). *)
Definition rbind {A B} (r : result A) (f : A -> result B) : result B :=
  match r with Ok a => f a | Err m => Err m end.

Fixpoint rmap_list {A B} (f : A -> result B) (l : list A) : result (list B) :=
  match l with
  | [] => Ok []
  | x :: r => rbind (f x) (fun y => rbind (rmap_list f r) (fun ys => Ok (y :: ys)))
  end.

(** [Array.prototype.filter] with a predicate that may throw. *)
Fixpoint rfilter {A} (f : A -> result bool) (l : list A) : result (list A) :=
  match l with
  | [] => Ok []
  | x :: r => rbind (f x) (fun b => rbind (rfilter f r) (fun ys => Ok (if b then x :: ys else ys)))
  end.

(** [import.meta.env.VITE_APP_BASE_URL] in a template literal:
    [undefined] when the build does not set it. *)
Definition app_base (env : option string) : string :=
  match env with Some u => u | None => "undefined" end.

(** [`${n}`] for an integer. *)
Definition js_number_string (n : Z) : string := NilZero.string_of_int (Z.to_int n).

(** The message of the [SyntaxError] [response.json()] throws on a body
    that is not JSON. *)
Definition json_parse_error : string := "Unexpected end of JSON input".

(** [fetch] followed by [handleResponse] of CategoriesTab.jsx 9-15 (the
    same text is at SubcategoriesTab.jsx 6-12, ProductsTab.jsx 6-12 and
    lib/api.js 5-11). *)
Definition handleResponse {A} (r : response A) : result A :=
  match r with
  | RespOk (Some a) => Ok a
  | RespOk None => Err json_parse_error
  | RespFail status statusText body =>
      let err := match body with Some e => e | None => Some "Request failed" end in
      let fallback := "HTTP " +++ js_number_string status +++ ": " +++ statusText in
      match err with
      | Some m => Err (if js_truthy_str m then m else fallback)
      | None => Err fallback
      end
  | NetworkError m => Err m
  end.

(** [handleResponse] of utils/api.js 8-14: a body that is not JSON
    becomes [{}], and the fallback has no status text. *)
Definition handleResponse_utils {A} (r : response A) : result A :=
  match r with
  | RespOk (Some a) => Ok a
  | RespOk None => Err json_parse_error
  | RespFail status _ body =>
      let fallback := "HTTP " +++ js_number_string status in
      match body with
      | Some (Some m) => Err (if js_truthy_str m then m else fallback)
      | _ => Err fallback
      end
  | NetworkError m => Err m
  end.

(** [Promise.all] of two and of three awaited calls: all their results,
    or the rejection of one of them.  When several reject, the browser
    passes on the first to reject in time; the model passes on the first
    in argument order (the admin tabs only log it). *)
Definition promise_all2 {A B} (ra : result A) (rb : result B) : result (A * B) :=
  match ra, rb with
  | Ok a, Ok b => Ok (a, b)
  | Err m, _ | _, Err m => Err m
  end.

Definition promise_all3 {A B C} (ra : result A) (rb : result B) (rc : result C)
  : result (A * B * C) :=
  match promise_all2 ra rb, rc with
  | Ok ab, Ok c => Ok (ab, c)
  | Err m, _ | _, Err m => Err m
  end.

(** The message of a failed call: the [error] field of the JSON body
    when it is a non-empty string; ["Request failed"] when the body is not
    JSON; otherwise ["HTTP <status>: <statusText>"].  A successful response
    whose body is not JSON fails too. *)
Theorem handleResponse_errors {A} status statusText (e : string) :
  handleResponse (A := A) (RespFail status statusText (Some (Some e)))
    = Err (if js_truthy_str e then e
           else "HTTP " +++ js_number_string status +++ ": " +++ statusText) /\
  handleResponse (A := A) (RespFail status statusText None) = Err "Request failed" /\
  handleResponse (A := A) (RespFail status statusText (Some None))
    = Err ("HTTP " +++ js_number_string status +++ ": " +++ statusText) /\
  handleResponse (A := A) (RespOk None) = Err json_parse_error.
Proof. repeat split. Qed.

(** The two copies of [handleResponse] disagree on a failed response
    whose body is not JSON: the tabs report ["Request failed"],
    utils/api.js reports ["HTTP <status>"]. *)
Theorem handleResponse_copies_differ :
  handleResponse (A := unit) (RespFail 502 "Bad Gateway" None) = Err "Request failed" /\
  handleResponse_utils (A := unit) (RespFail 502 "Bad Gateway" None) = Err "HTTP 502".
Proof. split; reflexivity. Qed.

(** A mapping that succeeds keeps the length. *)
Lemma rmap_list_length {A B} (f : A -> result B) l l' : rmap_list f l = Ok l' -> List.length l' = List.length l.
Proof.
  revert l'. induction l as [|x l IH]; simpl; intros l' H; [by injection H as <-|].
  destruct (f x); [|discriminate]. simpl in H. destruct (rmap_list f l) as [r|] eqn:E; [|discriminate].
  simpl in H. injection H as <-. simpl. by rewrite (IH r).
Qed.

(** A mapping that succeeds succeeds on every element. *)
Lemma rmap_list_ok_in {A B} (f : A -> result B) l l' x :
  rmap_list f l = Ok l' -> In x l -> exists y, f x = Ok y.
Proof.
  revert l'. induction l as [|z l IH]; simpl; intros l' H Hx; [done|].
  destruct (f z) eqn:Ez; [|discriminate]. simpl in H. destruct (rmap_list f l) as [r|] eqn:E; [|discriminate].
  destruct Hx as [<-|Hx]; [by eexists | exact (IH r eq_refl Hx)].
Qed.

End Http.

Module Storage.

(** [window.localStorage]. *)
Abbreviation storage := (gmap string string).

Definition getItem (ls : storage) (k : string) : option string := ls !! k.
Definition setItem (ls : storage) (k v : string) : storage := <[k := v]> ls.
Definition removeItem (ls : storage) (k : string) : storage := delete k ls.

End Storage.

Module TabApi.
Import Http Storage.

(** [import.meta.env.VITE_API_BASE_URL_ADMIN || 'http://localhost:8787/admin']
    (CategoriesTab.jsx 4). *)
Definition API_BASE_URL (env : option string) : string :=
  match env with
  | Some u => if js_truthy_str u then u else "http://localhost:8787/admin"
  | None => "http://localhost:8787/admin"
  end.

(** [getAuthToken] (CategoriesTab.jsx 7). *)
Definition getAuthToken (ls : storage) : option string := getItem ls "adminToken".

(** [...(token ? { Authorization: `Bearer ${token}` } : {})]. *)
Definition auth_header (token : option string) : list (string * string) :=
  match token with
  | Some t => if js_truthy_str t then [("Authorization", "Bearer " +++ t)] else []
  | None => []
  end.

Definition json_headers (token : option string) : list (string * string) :=
  ("Content-Type", "application/json") :: auth_header token.

(** The four calls of an API object, for a collection path ([/categories])
    and an item path ([/category]). *)
Definition api_getAll {B} (base collection : string) (ls : storage) : request B :=
  mkRequest GET (base +++ collection) (json_headers (getAuthToken ls)) None.
Definition api_create {B} (base item : string) (ls : storage) (data : B) : request B :=
  mkRequest POST (base +++ item) (json_headers (getAuthToken ls)) (Some data).
Definition api_update {B} (base item : string) (ls : storage) (id : string) (data : B) : request B :=
  mkRequest PUT (base +++ item +++ "/" +++ id) (json_headers (getAuthToken ls)) (Some data).
Definition api_delete {B} (base item : string) (ls : storage) (id : string) : request B :=
  mkRequest DELETE (base +++ item +++ "/" +++ id) (auth_header (getAuthToken ls)) None.

(** [categoryAPI] (CategoriesTab.jsx 17-65): [/categories], [/category]. *)
Definition categoryAPI_getAll {B} base ls : request B := api_getAll base "/categories" ls.
Definition categoryAPI_create {B} base ls (data : B) := api_create base "/category" ls data.
Definition categoryAPI_update {B} base ls id (data : B) := api_update base "/category" ls id data.
Definition categoryAPI_delete {B} base ls id : request B := api_delete base "/category" ls id.

(** [subcategoryAPI] (SubcategoriesTab.jsx 63-108): [/subcategories],
    [/subcategory]. *)
Definition subcategoryAPI_getAll {B} base ls : request B := api_getAll base "/subcategories" ls.
Definition subcategoryAPI_create {B} base ls (data : B) := api_create base "/subcategory" ls data.
Definition subcategoryAPI_update {B} base ls id (data : B) := api_update base "/subcategory" ls id data.
Definition subcategoryAPI_delete {B} base ls id : request B := api_delete base "/subcategory" ls id.

(** [productAPI] (ProductsTab.jsx 16-61): [/products] for both paths. *)
Definition productAPI_getAll {B} base ls : request B := api_getAll base "/products" ls.
Definition productAPI_create {B} base ls (data : B) := api_create base "/products" ls data.
Definition productAPI_update {B} base ls id (data : B) := api_update base "/products" ls id data.
Definition productAPI_delete {B} base ls id : request B := api_delete base "/products" ls id.

(** A request of an admin tab carries an [Authorization] header
    exactly when [localStorage] holds a non-empty [adminToken], and the
    header is [Bearer] followed by that token. *)
Theorem auth_header_iff_token (ls : storage) v :
  In ("Authorization", v) (auth_header (getAuthToken ls)) <->
  exists t, getItem ls "adminToken" = Some t /\ t <> "" /\ v = "Bearer " +++ t.
Proof.
  unfold getAuthToken. destruct (getItem ls "adminToken") as [t|]; simpl.
  - destruct (js_truthy_str t) eqn:Ht; simpl.
    + apply js_truthy_str_true in Ht. split.
      * intros [[= <-]|[]]. eauto.
      * intros (t' & [= <-] & _ & ->). by left.
    + apply js_truthy_str_false in Ht. split; [done|]. intros (t' & [= <-] & ? & _). done.
  - split; [done|]. by intros (t & ? & _).
Qed.

End TabApi.
