(* ===== verification/Json.v ===== *)
(** * JSON text: [JSON.stringify] and [JSON.parse]

    The sessions of the storefront and of the admin console keep their
    user objects in [localStorage] as JSON text ([CartContext.jsx] lines
    249-260, [AuthContext.jsx] lines 25-45), written by [JSON.stringify]
    and read back by [JSON.parse], which throws on text that is not JSON.
    This file models the two built-ins on the values those objects hold:
    [null], booleans, integers, strings of 8-bit characters, arrays and
    objects (keys in insertion order).

    [stringify] follows the ECMAScript serialisation: a backslash before
    the double quote and the backslash, the short escapes [\b], [\f],
    [\n], [\r], [\t], [\u00XX] (lower-case hex) for the other control
    characters, every other character as is.
    [parse] follows the JSON grammar with whitespace between tokens; it
    runs on fuel (the length of the text is enough, [parse_text]).  It
    rejects, where the browser accepts, numbers with a fraction or an
    exponent and [\u] escapes above [\u00ff]: the theorems below never
    conclude that such a text fails to parse.

    The main theorem is the round trip: [parse] of [stringify v] is [v],
    which the sessions' reload theorems use; and a text that nothing
    can begin as a JSON value ([bad_start]) fails to parse.
    The proof goes through the character-level lemma for string escapes
    and a size measure bounded by the length of the printed text. *)

From Stdlib Require Import DecimalString DecimalZ DecimalPos.
From S2P Require Import Prelude.

#[local] Open Scope list_scope.
#[local] Open Scope nitai_scope.

Module Json.

#[warnings="-register-all"]
Inductive json :=
| JNull
| JBool (b : bool)
| JNum (z : Z)
| JStr (s : string)
| JArr (l : list json)
| JObj (l : list (string * json)).

(** Induction with hypotheses on the elements of arrays and objects. *)
Section JsonInd.
Variable P : json -> Prop.
Hypothesis HNull : P JNull.
Hypothesis HBool : forall b, P (JBool b).
Hypothesis HNum : forall z, P (JNum z).
Hypothesis HStr : forall s, P (JStr s).
Hypothesis HArr : forall l, Forall P l -> P (JArr l).
Hypothesis HObj : forall l, Forall (fun kv => P (snd kv)) l -> P (JObj l).

Fixpoint json_ind' (v : json) : P v :=
  match v with
  | JNull => HNull
  | JBool b => HBool b
  | JNum z => HNum z
  | JStr s => HStr s
  | JArr l => HArr l ((fix go l : Forall P l :=
                         match l with
                         | [] => @List.Forall_nil json P
                         | x :: r => @List.Forall_cons json P x r (json_ind' x) (go r)
                         end) l)
  | JObj l => HObj l ((fix go l : Forall (fun kv => P (snd kv)) l :=
                         match l with
                         | [] => @List.Forall_nil _ (fun kv => P (snd kv))
                         | kv :: r => @List.Forall_cons _ (fun kv => P (snd kv)) kv r (json_ind' (snd kv)) (go r)
                         end) l)
  end.
End JsonInd.

(** ** Characters *)

Definition dq : ascii := ascii_of_nat 34.   (** the double quote *)
Definition bs : ascii := ascii_of_nat 92.   (** the backslash *)

Definition hex_digit (n : nat) : ascii :=
  ascii_of_nat (if Nat.ltb n 10 then 48 + n else 87 + n).

Definition hex_val (c : ascii) : option nat :=
  let n := nat_of_ascii c in
  if char_in_range 48 57 c then Some (n - 48)
  else if char_in_range 97 102 c then Some (n - 87)
  else if char_in_range 65 70 c then Some (n - 55)
  else None.

(** JSON whitespace. *)
Definition is_json_ws (c : ascii) : bool :=
  Ascii.eqb c " " || Ascii.eqb c (ascii_of_nat 9) || Ascii.eqb c (ascii_of_nat 10)
  || Ascii.eqb c (ascii_of_nat 13).

Definition is_num_char (c : ascii) : bool := is_digit c || Ascii.eqb c "-".

(** ** [JSON.stringify] *)

(** The escape of one character inside a string literal. *)
Definition escape_char (c : ascii) : string :=
  let n := nat_of_ascii c in
  if Nat.eqb n 34 then String bs (String dq EmptyString)
  else if Nat.eqb n 92 then String bs (String bs EmptyString)
  else if Nat.eqb n 8 then String bs "b"
  else if Nat.eqb n 12 then String bs "f"
  else if Nat.eqb n 10 then String bs "n"
  else if Nat.eqb n 13 then String bs "r"
  else if Nat.eqb n 9 then String bs "t"
  else if Nat.ltb n 32 then
    String bs ("u00" +++ String (hex_digit (n / 16)) (String (hex_digit (n mod 16)) EmptyString))
  else String c EmptyString.

Fixpoint escape (s : string) : string :=
  match s with
  | EmptyString => EmptyString
  | String c r => escape_char c +++ escape r
  end.

Definition quote (s : string) : string := String dq (escape s +++ String dq EmptyString).

Definition number_text (z : Z) : string := NilZero.string_of_int (Z.to_int z).

Fixpoint stringify (v : json) : string :=
  match v with
  | JNull => "null"
  | JBool b => if b then "true" else "false"
  | JNum z => number_text z
  | JStr s => quote s
  | JArr [] => "[]"
  | JArr (x :: l) =>
      "[" +++ stringify x +++
      (fix elems (l : list json) : string :=
         match l with
         | [] => "]"
         | y :: l' => "," +++ stringify y +++ elems l'
         end) l
  | JObj [] => "{}"
  | JObj ((k, x) :: l) =>
      "{" +++ quote k +++ ":" +++ stringify x +++
      (fix members (l : list (string * json)) : string :=
         match l with
         | [] => "}"
         | (k', y) :: l' => "," +++ quote k' +++ ":" +++ stringify y +++ members l'
         end) l
  end.

(** ** [JSON.parse] *)

Fixpoint skip_ws (s : string) : string :=
  match s with
  | String c r => if is_json_ws c then skip_ws r else s
  | EmptyString => EmptyString
  end.

(** The rest of the text after the letters [w] of a keyword. *)
Fixpoint expect_word (w s : string) : option string :=
  match w, s with
  | EmptyString, _ => Some s
  | String c w', String c' s' => if Ascii.eqb c c' then expect_word w' s' else None
  | String _ _, EmptyString => None
  end.

(** The body of a string literal after its opening quote: plain
    characters, a backslash escape, or the four hex digits of [\u]. *)
Inductive str_mode := SNormal | SEscape | SHex (k acc : nat).

Definition cons_char (c : ascii) (o : option (string * string)) : option (string * string) :=
  option_map (fun '(t, r) => (String c t, r)) o.

Definition simple_escape (c : ascii) : option ascii :=
  let n := nat_of_ascii c in
  if Nat.eqb n 34 then Some dq
  else if Nat.eqb n 92 then Some bs
  else if Nat.eqb n 47 then Some "/"%char
  else if Nat.eqb n 98 then Some (ascii_of_nat 8)
  else if Nat.eqb n 102 then Some (ascii_of_nat 12)
  else if Nat.eqb n 110 then Some (ascii_of_nat 10)
  else if Nat.eqb n 114 then Some (ascii_of_nat 13)
  else if Nat.eqb n 116 then Some (ascii_of_nat 9)
  else None.

Fixpoint pstr (m : str_mode) (s : string) : option (string * string) :=
  match s with
  | EmptyString => None
  | String c r =>
      match m with
      | SNormal =>
          if Ascii.eqb c dq then Some (EmptyString, r)
          else if Ascii.eqb c bs then pstr SEscape r
          else if Nat.ltb (nat_of_ascii c) 32 then None
          else cons_char c (pstr SNormal r)
      | SEscape =>
          match simple_escape c with
          | Some e => cons_char e (pstr SNormal r)
          | None => if Ascii.eqb c "u" then pstr (SHex 4 0) r else None
          end
      | SHex k acc =>
          match hex_val c with
          | None => None
          | Some h =>
              let acc' := acc * 16 + h in
              if Nat.eqb k 1 then
                if Nat.ltb acc' 256 then cons_char (ascii_of_nat acc') (pstr SNormal r) else None
              else pstr (SHex (k - 1) acc') r
          end
      end
  end.

Fixpoint take_num (s : string) : string * string :=
  match s with
  | String c r => if is_num_char c then let '(t, r') := take_num r in (String c t, r') else (EmptyString, s)
  | EmptyString => (EmptyString, EmptyString)
  end.

(** A leading zero followed by more digits, which JSON forbids. *)
Definition leading_zero (t : string) : bool :=
  match t with
  | String "0" (String _ _) => true
  | String "-" (String "0" (String _ _)) => true
  | _ => false
  end.

Definition parse_number (s : string) : option (Z * string) :=
  let '(t, r) := take_num s in
  if leading_zero t then None
  else match NilZero.int_of_string t with
       | Some d => Some (Z.of_int d, r)
       | None => None
       end.

Fixpoint parse_value (fuel : nat) (s : string) : option (json * string) :=
  match fuel with
  | 0 => None
  | S f =>
      match skip_ws s with
      | EmptyString => None
      | String c r =>
          if Ascii.eqb c "n" then option_map (fun r' => (JNull, r')) (expect_word "ull" r)
          else if Ascii.eqb c "t" then option_map (fun r' => (JBool true, r')) (expect_word "rue" r)
          else if Ascii.eqb c "f" then option_map (fun r' => (JBool false, r')) (expect_word "alse" r)
          else if Ascii.eqb c dq then option_map (fun '(t, r') => (JStr t, r')) (pstr SNormal r)
          else if Ascii.eqb c "[" then
            match skip_ws r with
            | String c' r' =>
                if Ascii.eqb c' "]" then Some (JArr [], r')
                else option_map (fun '(l, r') => (JArr l, r')) (parse_elements f r)
            | EmptyString => None
            end
          else if Ascii.eqb c "{" then
            match skip_ws r with
            | String c' r' =>
                if Ascii.eqb c' "}" then Some (JObj [], r')
                else option_map (fun '(l, r') => (JObj l, r')) (parse_members f r)
            | EmptyString => None
            end
          else option_map (fun '(z, r') => (JNum z, r')) (parse_number (String c r))
      end
  end
with parse_elements (fuel : nat) (s : string) : option (list json * string) :=
  match fuel with
  | 0 => None
  | S f =>
      match parse_value f s with
      | Some (v, r) =>
          match skip_ws r with
          | String c r' =>
              if Ascii.eqb c "," then option_map (fun '(l, r'') => (v :: l, r'')) (parse_elements f r')
              else if Ascii.eqb c "]" then Some ([v], r')
              else None
          | EmptyString => None
          end
      | None => None
      end
  end
with parse_members (fuel : nat) (s : string) : option (list (string * json) * string) :=
  match fuel with
  | 0 => None
  | S f =>
      match skip_ws s with
      | String c r =>
          if Ascii.eqb c dq then
            match pstr SNormal r with
            | Some (k, r1) =>
                match skip_ws r1 with
                | String c1 r2 => if negb (Ascii.eqb c1 ":") then None else
                    match parse_value f r2 with
                    | Some (v, r3) =>
                        match skip_ws r3 with
                        | String c3 r4 =>
                            if Ascii.eqb c3 "," then
                              option_map (fun '(l, r5) => ((k, v) :: l, r5)) (parse_members f r4)
                            else if Ascii.eqb c3 "}" then Some ([(k, v)], r4)
                            else None
                        | EmptyString => None
                        end
                    | None => None
                    end
                | _ => None
                end
            | None => None
            end
          else None
      | EmptyString => None
      end
  end.

(** [JSON.parse(s)]: a value and nothing but whitespace after it;
    [None] is the [SyntaxError] it throws. *)
Definition parse_text (s : string) : option json :=
  match parse_value (S (String.length s)) s with
  | Some (v, r) => match skip_ws r with EmptyString => Some v | _ => None end
  | None => None
  end.

(** The characters a JSON value can begin with (ECMA-404, section 5):
    the braces, the quote, a digit or [-], and the first letters of
    [true], [false] and [null].  A text that is only whitespace, or whose
    first character after whitespace is none of these, is not JSON: the
    browser's [JSON.parse] throws on it as [parse_text] fails. *)
Definition value_start (c : ascii) : bool :=
  is_num_char c || Ascii.eqb c "{" || Ascii.eqb c "[" || Ascii.eqb c dq
  || Ascii.eqb c "t" || Ascii.eqb c "f" || Ascii.eqb c "n".

Definition bad_start (s : string) : bool :=
  match skip_ws s with EmptyString => true | String c _ => negb (value_start c) end.

(** ** Reading a parsed value as JavaScript does *)

(** The last member named [k] of an object, as property access reads a
    parsed object with repeated keys; [None] is [undefined]. *)
Definition get_field (k : string) (v : json) : option json :=
  match v with
  | JObj l => List.fold_left (fun acc '(k', x) => if k' ==? k then Some x else acc) l None
  | _ => None
  end.

Definition json_truthy (v : json) : bool :=
  match v with
  | JNull => false
  | JBool b => b
  | JNum z => negb (Z.eqb z 0)
  | JStr s => js_truthy_str s
  | JArr _ | JObj _ => true
  end.

(** ** Lemmas *)

(** One escaped character is read back as itself, whatever follows. *)
Lemma pstr_escape_char c r :
  pstr SNormal (escape_char c +++ r) = cons_char c (pstr SNormal r).
Proof. destruct c as [[] [] [] [] [] [] [] []]; reflexivity. Qed.

(** The body of a quoted string is read back up to its closing quote. *)
Lemma pstr_escape s r : pstr SNormal (escape s +++ String dq r) = Some (s, r).
Proof.
  induction s as [|c s IH]; [reflexivity|].
  simpl. rewrite sapp_assoc, pstr_escape_char, IH. reflexivity.
Qed.

(** The characters that can start a number are none of the first
    characters of the other tokens, nor whitespace. *)
Lemma num_char_dispatch c :
  is_num_char c = true ->
  is_json_ws c = false /\ Ascii.eqb c "n" = false /\ Ascii.eqb c "t" = false /\
  Ascii.eqb c "f" = false /\ Ascii.eqb c dq = false /\ Ascii.eqb c "[" = false /\
  Ascii.eqb c "{" = false.
Proof. destruct c as [[] [] [] [] [] [] [] []]; cbv; intros H; try discriminate; auto 10. Qed.

Lemma string_of_uint_num_chars d :
  str_forallb is_num_char (NilEmpty.string_of_uint d) = true.
Proof. induction d; simpl; auto. Qed.

Lemma number_text_num_chars z : str_forallb is_num_char (number_text z) = true.
Proof.
  unfold number_text, NilZero.string_of_int, NilZero.string_of_uint.
  destruct (Z.to_int z) as [d|d]; [|simpl]; destruct d; simpl; auto using string_of_uint_num_chars.
Qed.

Lemma take_num_app t r :
  str_forallb is_num_char t = true ->
  match r with String c _ => is_num_char c = false | EmptyString => True end ->
  take_num (t +++ r) = (t, r).
Proof.
  intros Ht Hr. induction t as [|c t IH]; simpl in *.
  - destruct r as [|c r]; [done|]. simpl. by rewrite Hr.
  - apply andb_true_iff in Ht as [Hc Ht]. rewrite Hc, IH by done. reflexivity.
Qed.

(** [Pos.to_uint] has no leading zero. *)
Lemma to_uint_no_D0 p d : Pos.to_uint p <> Decimal.D0 d.
Proof.
  intros H.
  assert (Hn : Decimal.unorm (Pos.to_uint p) = Pos.to_uint p).
  { rewrite <- DecimalPos.Unsigned.to_of, DecimalPos.Unsigned.of_to. reflexivity. }
  rewrite H, DecimalFacts.unorm_D0 in Hn.
  destruct (Decimal.nzhead d) eqn:Hz.
  1: { unfold Decimal.unorm in Hn. rewrite Hz in Hn. injection Hn as <-.
        by apply (DecimalPos.Unsigned.to_uint_nonzero p). }
  all: rewrite DecimalFacts.unorm_nzhead in Hn by (rewrite Hz; discriminate).
  all: pose proof (DecimalFacts.nb_digits_nzhead d) as Hl; rewrite Hn in Hl; simpl in Hl; lia.
Qed.

Lemma number_text_no_leading_zero z : leading_zero (number_text z) = false.
Proof.
  unfold number_text. destruct z as [|p|p]; [reflexivity| |];
    simpl; destruct (Pos.to_uint p) eqn:E; try reflexivity;
    exfalso; first [exact (DecimalPos.Unsigned.to_uint_nonnil p E) | exact (to_uint_no_D0 p _ E)].
Qed.

Lemma int_of_number_text z : NilZero.int_of_string (number_text z) = Some (Z.to_int z).
Proof.
  unfold number_text. apply NilZero.isi;
    destruct z as [|p|p]; simpl; try discriminate;
    intros [= H]; exact (DecimalPos.Unsigned.to_uint_nonnil p H).
Qed.

(** What may follow a number in printed JSON: the end, or a character
    that cannot continue the number. *)
Definition num_stop (r : string) : Prop :=
  match r with String c _ => is_num_char c = false | EmptyString => True end.

Lemma parse_number_text z r : num_stop r -> parse_number (number_text z +++ r) = Some (z, r).
Proof.
  intros Hr. unfold parse_number.
  rewrite (take_num_app _ _ (number_text_num_chars z) Hr), number_text_no_leading_zero,
    int_of_number_text, DecimalZ.of_to.
  reflexivity.
Qed.

(** The elements after the first of a printed array, and the members
    after the first of a printed object, with the closing bracket. *)
Definition elems_text (l : list json) : string :=
  (fix elems (l : list json) : string :=
     match l with
     | [] => "]"
     | y :: l' => "," +++ stringify y +++ elems l'
     end) l.

Definition members_text (l : list (string * json)) : string :=
  (fix members (l : list (string * json)) : string :=
     match l with
     | [] => "}"
     | (k', y) :: l' => "," +++ quote k' +++ ":" +++ stringify y +++ members l'
     end) l.

(** A size of values that the length of the printed text bounds. *)
Fixpoint size (v : json) : nat :=
  match v with
  | JArr l => S ((fix go (l : list json) : nat :=
                   match l with [] => 0 | x :: r => S (size x + go r) end) l)
  | JObj l => S ((fix go (l : list (string * json)) : nat :=
                   match l with [] => 0 | (_, x) :: r => S (size x + go r) end) l)
  | _ => 1
  end.

Definition elems_size (l : list json) : nat :=
  (fix go (l : list json) : nat := match l with [] => 0 | x :: r => S (size x + go r) end) l.

Definition members_size (l : list (string * json)) : nat :=
  (fix go (l : list (string * json)) : nat :=
     match l with [] => 0 | (_, x) :: r => S (size x + go r) end) l.

(** The first character of a printed value: not whitespace, not a
    closing bracket, not a comma. *)
Lemma stringify_head v :
  exists c t, stringify v = String c t /\ is_json_ws c = false /\
              Ascii.eqb c "]" = false /\ Ascii.eqb c "}" = false /\ Ascii.eqb c "," = false.
Proof.
  destruct v as [| [] | z | s | [|x l] | [|[k x] l]]; try (by do 2 eexists; split; [reflexivity|]).
  pose proof (parse_number_text z "" I) as P. pose proof (number_text_num_chars z) as C.
  simpl. destruct (number_text z) as [|c t] eqn:E; [discriminate|].
  simpl in C. apply andb_true_iff in C as [C _]. exists c, t. split; [reflexivity|].
  destruct c as [[] [] [] [] [] [] [] []]; cbv in C |- *; try discriminate; auto.
Qed.

(** The round-trip property of one value, for every text after it that
    cannot continue a number. *)
Definition parses_back (v : json) : Prop :=
  forall f r, size v <= f -> num_stop r -> parse_value f (stringify v +++ r) = Some (v, r).

Lemma elems_text_cons y l r :
  elems_text (y :: l) +++ r = String "," (stringify y +++ (elems_text l +++ r)).
Proof. unfold elems_text at 1. simpl. by rewrite !sapp_assoc. Qed.

Lemma elems_text_stop l r : num_stop (elems_text l +++ r).
Proof. destruct l; [reflexivity|]. rewrite elems_text_cons. reflexivity. Qed.

Lemma parse_elements_back l :
  Forall parses_back l -> forall x f r, parses_back x -> S (size x + elems_size l) <= f ->
  parse_elements f (stringify x +++ (elems_text l +++ r)) = Some (x :: l, r).
Proof.
  induction 1 as [|y l Hy Hl IH]; intros x f r Hx Hf; (destruct f as [|f]; [lia|]); simpl parse_elements.
  - rewrite (Hx f) by (simpl in Hf; lia || exact (elems_text_stop [] r)). reflexivity.
  - rewrite (Hx f) by (simpl in Hf; lia || exact (elems_text_stop (y :: l) r)).
    rewrite !sapp_assoc, sapp_cons, sapp_nil_l. simpl.
    rewrite (IH y f r Hy) by (simpl in Hf; unfold elems_size in *; lia). reflexivity.
Qed.

Lemma members_text_stop l r : num_stop (members_text l +++ r).
Proof. destruct l as [|[k y] l]; reflexivity. Qed.

Lemma parse_members_back l :
  Forall (fun kv => parses_back (snd kv)) l ->
  forall k x f r, parses_back x -> S (size x + members_size l) <= f ->
  parse_members f (quote k +++ String ":" (stringify x +++ (members_text l +++ r)))
  = Some ((k, x) :: l, r).
Proof.
  induction 1 as [|[k' y] l Hy Hl IH]; intros k x f r Hx Hf; (destruct f as [|f]; [lia|]);
    unfold quote; autorewrite with nitai_rw; simpl; rewrite pstr_escape; simpl.
  - rewrite (Hx f) by (simpl in Hf; lia || exact (members_text_stop [] r)). reflexivity.
  - rewrite (Hx f) by (simpl in Hf; lia || exact (members_text_stop ((k', y) :: l) r)).
    simpl. autorewrite with nitai_rw. simpl.
    rewrite (IH k' y f r Hy) by (simpl in Hf; unfold members_size in *; lia). reflexivity.
Qed.

(** Every value is read back from its printed text, whatever follows it
    that cannot continue a number. *)
Lemma parse_value_back v : parses_back v.
Proof.
  induction v as [| b | z | s | l Hl | l Hl] using json_ind'; intros f r Hf Hr;
    (destruct f as [|f]; [simpl in Hf; lia|]).
  - reflexivity.
  - by destruct b.
  - pose proof (parse_number_text z r Hr) as P. pose proof (number_text_num_chars z) as C.
    simpl stringify. revert P C. destruct (number_text z) as [|c t]; intros P C.
    { exfalso. unfold parse_number in P. rewrite (take_num_app "" r eq_refl Hr) in P.
      discriminate P. }
    simpl in C. apply andb_true_iff in C as [C _].
    destruct (num_char_dispatch c C) as (H1 & H2 & H3 & H4 & H5 & H6 & H7).
    rewrite sapp_cons. simpl. rewrite H1, H2, H3, H4, H5, H6, H7.
    change (String c (t +++ r)) with (String c t +++ r). rewrite P. reflexivity.
  - simpl stringify. unfold quote. autorewrite with nitai_rw. simpl. rewrite pstr_escape. reflexivity.
  - destruct l as [|x l]; [reflexivity|]. inversion Hl as [|? ? Hx Hl']; subst.
    change (stringify (JArr (x :: l))) with ("[" +++ stringify x +++ elems_text l).
    autorewrite with nitai_rw. simpl.
    destruct (stringify_head x) as (c & t & Ht & W & B & _ & _).
    rewrite Ht, sapp_cons. simpl. rewrite W, B. rewrite <- sapp_cons, <- Ht.
    rewrite (parse_elements_back l Hl' x f r Hx) by (simpl in Hf; unfold elems_size; lia).
    reflexivity.
  - destruct l as [|[k x] l]; [reflexivity|]. inversion Hl as [|? ? Hx Hl']; subst.
    change (stringify (JObj ((k, x) :: l)))
      with ("{" +++ quote k +++ ":" +++ stringify x +++ members_text l).
    autorewrite with nitai_rw. simpl.
    rewrite (parse_members_back l Hl' k x f r Hx) by (simpl in Hf; unfold members_size; lia).
    reflexivity.
Qed.

Lemma elems_text_length l :
  Forall (fun v => size v <= String.length (stringify v)) l ->
  S (elems_size l) <= String.length (elems_text l).
Proof.
  induction 1 as [|y l Hy Hl IH]; [simpl; lia|].
  change (elems_text (y :: l)) with ("," +++ stringify y +++ elems_text l).
  rewrite !sapp_length. unfold elems_size in *. simpl in *. lia.
Qed.

Lemma members_text_length l :
  Forall (fun kv => size (snd kv) <= String.length (stringify (snd kv))) l ->
  S (members_size l) <= String.length (members_text l).
Proof.
  induction 1 as [|[k y] l Hy Hl IH]; [simpl; lia|].
  change (members_text ((k, y) :: l)) with ("," +++ quote k +++ ":" +++ stringify y +++ members_text l).
  rewrite !sapp_length. unfold members_size, quote in *. simpl in *. lia.
Qed.

(** The printed text is at least as long as the value is large, so its
    length is enough fuel to read it back. *)
Lemma size_le_length v : size v <= String.length (stringify v).
Proof.
  induction v as [| b | z | s | l Hl | l Hl] using json_ind';
    try (destruct (stringify_head (JNum z)) as (c & t & -> & _)); try destruct b;
    try (simpl; lia).
  - destruct l as [|x l]; [simpl; lia|]. inversion Hl as [|? ? Hx Hl']; subst.
    change (stringify (JArr (x :: l))) with ("[" +++ stringify x +++ elems_text l).
    pose proof (elems_text_length l Hl'). rewrite !sapp_length.
    unfold elems_size in *. simpl. lia.
  - destruct l as [|[k x] l]; [simpl; lia|]. inversion Hl as [|? ? Hx Hl']; subst.
    change (stringify (JObj ((k, x) :: l)))
      with ("{" +++ quote k +++ ":" +++ stringify x +++ members_text l).
    pose proof (members_text_length l Hl'). rewrite !sapp_length.
    unfold members_size, quote in *. simpl in *. lia.
Qed.

(** A text with a bad start fails to parse, whatever follows. *)
Lemma parse_text_bad_start s : bad_start s = true -> parse_text s = None.
Proof.
  unfold bad_start, parse_text. cbn [parse_value]. destruct (skip_ws s) as [|c r]; [done|].
  unfold value_start. rewrite !negb_orb. intros H.
  repeat match goal with H : _ && _ = true |- _ => apply andb_prop in H as [H ?H] end.
  rewrite !negb_true_iff in *. repeat match goal with H : Ascii.eqb _ _ = false |- _ => rewrite H end.
  unfold parse_number. cbn [take_num]. by rewrite H.
Qed.

(** [JSON.parse] reads back what [JSON.stringify] printed: the
    session data written by [login] is the data read at the next
    mount. *)
Theorem parse_stringify v : parse_text (stringify v) = Some v.
Proof.
  unfold parse_text. rewrite <- (sapp_nil_r (stringify v)) at 2.
  rewrite (parse_value_back v) by (pose proof (size_le_length v); simpl; lia || exact I).
  reflexivity.
Qed.

End Json.
