(* ===== verification/JsValue.v ===== *)
(** * JavaScript values and the coercions the pages apply to them

    The storefront pages read values out of parsed JSON with optional
    chains and [||] defaults, compare them with [<], subtract them, print
    them in template literals and with [toLocaleString], and use them as
    property keys.  Module [Coerce] writes these operations out on the
    values of [Json] and [undefined] ([jsval]): [ToPrimitive],
    [ToNumber] (a numeric string is read on decimal literals;
    [Infinity] and hexadecimal strings are [NaN] here), [ToString], the
    relational comparison, and [toLocaleString('en-IN')] with the Indian
    grouping of digits ([12,34,567]).

    Its lemmas: the Indian grouping removes no digit (removing its
    separators gives the decimal text back), and [parseFloat] reads the
    text of an integer back as that integer. *)

From stdpp Require Import list.
From Stdlib Require Import QArith Qround Qabs Lqa DecimalString DecimalPos.
From S2P Require Import Prelude Api Json.

#[local] Open Scope list_scope.
#[local] Open Scope nitai_scope.

(** ** JavaScript values and their coercions *)

Module Coerce.
Import Http Json.

(** A value the page reads: a JSON value, or [undefined] ([None]). *)
Definition jsval := option json.

(** [v?.k] *)
Definition opt_get (k : string) (v : jsval) : jsval :=
  match v with Some x => get_field k x | None => None end.

Definition truthy (v : jsval) : bool :=
  match v with Some x => json_truthy x | None => false end.

(** [a || b] *)
Definition js_or (a b : jsval) : jsval := if truthy a then a else b.

(** [String(n)] of an integer. *)
Definition num_text (z : Z) : string := js_number_string z.

(** [a && b] *)
Definition js_and (a b : jsval) : jsval := if truthy a then b else a.

(** What React renders for a child expression that is not an element:
    numbers and non-empty strings as text, the rest nothing. *)
Definition react_text (v : jsval) : option string :=
  match v with
  | Some (JNum z) => Some (num_text z)
  | Some (JStr s) => if s ==? "" then None else Some s
  | _ => None
  end.

(** [{v && (<element/>)}]: the element when [v] is truthy, else the text
    React makes of the falsy value, or nothing. *)
Inductive slot (A : Type) := Shown (a : A) | Text (t : string) | Nothing.
Arguments Shown {A} a.
Arguments Text {A} t.
Arguments Nothing {A}.

Definition and_slot {A} (v : jsval) (a : A) : slot A :=
  if truthy v then Shown a else match react_text v with Some t => Text t | None => Nothing end.

(** The separator of [Array.prototype.join] and [toLocaleString]. *)
Fixpoint join (sep : string) (l : list string) : string :=
  match l with
  | [] => ""
  | [x] => x
  | x :: r => x +++ sep +++ join sep r
  end.

(** [ToString] of a JSON value; in an array, [null] becomes the empty
    string. *)
Fixpoint to_string (v : json) : string :=
  match v with
  | JNull => "null"
  | JBool b => if b then "true" else "false"
  | JNum z => num_text z
  | JStr s => s
  | JArr l => join "," (map (fun x => match x with JNull => "" | _ => to_string x end) l)
  | JObj _ => "[object Object]"
  end.

(** [`${v}`], and the property key [o[v]] reads. *)
Definition template (v : jsval) : string := match v with Some x => to_string x | None => "undefined" end.

(** The exponent [e[+-]digits] at the end of a numeric literal: its value,
    or [None] when something else follows. *)
Definition exponent_full (s : string) : option Z :=
  match s with
  | EmptyString => Some 0%Z
  | String c r =>
      if Ascii.eqb c "e" || Ascii.eqb c "E" then
        let '(sign, r') := match r with
                           | String "-" r' => ((-1)%Z, r')
                           | String "+" r' => (1%Z, r')
                           | _ => (1%Z, r)
                           end in
        match digit_run r' 0%Z 0%nat with
        | (v, S _, EmptyString) => Some (sign * v)%Z
        | _ => None
        end
      else None
  end.

(** An unsigned decimal literal that is the whole string. *)
Definition unsigned_full (s : string) : option Q :=
  let '(ip, ni, r) := digit_run s 0%Z 0%nat in
  let '(fp, nf, r2) := match r with
                       | String "." r' => digit_run r' 0%Z 0%nat
                       | _ => (0%Z, 0%nat, r)
                       end in
  if Nat.eqb (ni + nf)%nat 0%nat then None
  else match exponent_full r2 with
       | Some e => Some (Qmult (Qmake (ip * 10 ^ Z.of_nat nf + fp) (Z.to_pos (10 ^ Z.of_nat nf))) (pow10 e))
       | None => None
       end.

(** [Number(s)] on a string: the empty string is [0], a decimal literal
    with an optional sign its value, anything else [NaN] ([None]). *)
Definition string_to_number (s : string) : option Q :=
  match js_trim s with
  | EmptyString => Some 0%Q
  | String "-" r => option_map Qopp (unsigned_full r)
  | String "+" r => unsigned_full r
  | t => unsigned_full t
  end.

(** [ToPrimitive]: strings stay strings, arrays and objects become their
    text, the rest is a number ([None] for [NaN]). *)
Inductive prim := PStr (s : string) | PNum (n : option Q).

Definition to_primitive (v : jsval) : prim :=
  match v with
  | None => PNum None
  | Some JNull => PNum (Some 0%Q)
  | Some (JBool b) => PNum (Some (if b then 1%Q else 0%Q))
  | Some (JNum z) => PNum (Some (inject_Z z))
  | Some (JStr s) => PStr s
  | Some x => PStr (to_string x)
  end.

Definition prim_number (p : prim) : option Q :=
  match p with PStr s => string_to_number s | PNum n => n end.

(** [ToNumber] *)
Definition to_number (v : jsval) : option Q := prim_number (to_primitive v).

(** The two decimals of [toFixed(2)]: [m] in [0, 99] with a leading zero. *)
Definition two_digits (m : Z) : string := if Z.ltb m 10 then "0" +++ num_text m else num_text m.

(** [x.toFixed(2)] of a number [x] below [10^21] in magnitude, read as
    an exact rational: the sign when [x < 0], then the integer [n]
    nearest to [100 |x|] (the larger on a tie) written with two
    decimals. *)
Definition toFixed2_Q (x : Q) : string :=
  let n := Qfloor (100 * Qabs x + (1 # 2)) in
  (if Qle_bool 0 x then "" else "-") +++ num_text (n / 100) +++ "." +++ two_digits (n mod 100).

(** [x.toFixed(2)] of a JavaScript value [x]: [NaN] for a value that is
    not a number. *)
Definition toFixed2_num (x : option Q) : string :=
  match x with Some q => toFixed2_Q q | None => "NaN" end.

(** Code-unit order of two strings. *)
Fixpoint string_lt (s t : string) : bool :=
  match s, t with
  | String a s', String b t' =>
      if Nat.ltb (nat_of_ascii a) (nat_of_ascii b) then true
      else if Nat.eqb (nat_of_ascii a) (nat_of_ascii b) then string_lt s' t' else false
  | EmptyString, String _ _ => true
  | _, _ => false
  end.

(** [a < b]: two strings compare as strings, anything else as numbers,
    where [NaN] makes the comparison false. *)
Definition js_lt (a b : jsval) : bool :=
  match to_primitive a, to_primitive b with
  | PStr x, PStr y => string_lt x y
  | pa, pb => match prim_number pa, prim_number pb with
              | Some x, Some y => negb (Qle_bool y x)
              | _, _ => false
              end
  end.

(** ** [toLocaleString('en-IN')] *)

Definition comma : ascii := ascii_of_nat 44.

(** After the last three digits, the digits go in pairs. *)
Fixpoint pairs (l : list ascii) : list ascii :=
  match l with
  | a :: b :: rest => match rest with [] => [a; b] | _ => a :: b :: comma :: pairs rest end
  | _ => l
  end.

(** The digits read from the right. *)
Definition group_rev (l : list ascii) : list ascii :=
  match l with
  | a :: b :: c :: rest => match rest with [] => [a; b; c] | _ => a :: b :: c :: comma :: pairs rest end
  | _ => l
  end.

Definition group_digits (d : string) : string :=
  string_of_list_ascii (rev (group_rev (rev (list_ascii_of_string d)))).

Definition en_IN (z : Z) : string :=
  if Z.ltb z 0 then "-" +++ group_digits (num_text (- z)) else group_digits (num_text z).

(** [v.toLocaleString('en-IN')]: numbers grouped, strings as they are,
    arrays element by element. *)
Fixpoint to_locale_string (v : json) : string :=
  match v with
  | JNull => "null"
  | JBool b => if b then "true" else "false"
  | JNum z => en_IN z
  | JStr s => s
  | JArr l => join "," (map (fun x => match x with JNull => "" | _ => to_locale_string x end) l)
  | JObj _ => "[object Object]"
  end.

(** ** Lemmas: the printed number loses no digit *)

Definition not_comma (c : ascii) : bool := negb (Ascii.eqb c comma).

(** The text with its group separators removed. *)
Definition remove_commas (s : string) : string :=
  string_of_list_ascii (List.filter not_comma (list_ascii_of_string s)).

Lemma filter_pairs l : List.filter not_comma (pairs l) = List.filter not_comma l.
Proof.
  revert l. fix IH 1. intros [|a [|b rest]]; [done|done|].
  cbn [pairs]. pose proof (IH rest) as IHr. destruct rest as [|c r]; [done|].
  cbn [List.filter]. unfold not_comma at 3. rewrite IHr. reflexivity.
Qed.

Lemma filter_group_rev l : List.filter not_comma (group_rev l) = List.filter not_comma l.
Proof.
  destruct l as [|a [|b [|c rest]]]; try done. cbn [group_rev].
  destruct rest as [|d r]; [done|]. cbn [List.filter]. unfold not_comma at 4. rewrite filter_pairs. reflexivity.
Qed.

Lemma str_forallb_list f s : str_forallb f s = forallb f (list_ascii_of_string s).
Proof. induction s as [|c s IH]; simpl; [done|]. by rewrite IH. Qed.

Lemma num_text_no_comma z : List.filter not_comma (list_ascii_of_string (num_text z)) = list_ascii_of_string (num_text z).
Proof.
  pose proof (number_text_num_chars z) as H. unfold num_text, js_number_string. unfold number_text in H.
  rewrite str_forallb_list in H. induction (list_ascii_of_string _) as [|c l IH]; [done|].
  simpl in *. apply andb_true_iff in H as [Hc Hl]. rewrite IH by done.
  unfold not_comma. revert Hc. unfold is_num_char, is_digit, char_in_range.
  destruct (Ascii.eqb_spec c comma) as [->|]; [by vm_compute|done].
Qed.

Lemma remove_commas_group d : List.filter not_comma (list_ascii_of_string d) = list_ascii_of_string d ->
  remove_commas (group_digits d) = d.
Proof.
  intros H. unfold remove_commas, group_digits. rewrite list_ascii_of_string_of_list_ascii.
  rewrite List.filter_rev, filter_group_rev, <- List.filter_rev, rev_involutive, H.
  apply string_of_list_ascii_of_string.
Qed.

Lemma num_text_neg z : (z < 0)%Z -> num_text z = String "-" (num_text (- z)).
Proof. destruct z; [lia|lia|]. reflexivity. Qed.

(** The text of an integer holds no character but digits and [-]. *)
Lemma num_text_avoids x z : is_num_char x = false -> str_existsb (fun c => Ascii.eqb c x) (num_text z) = false.
Proof.
  intros Hx. pose proof (number_text_num_chars z) as H. unfold num_text, js_number_string. unfold number_text in H.
  induction (NilZero.string_of_int (Z.to_int z)) as [|c t IH]; [done|].
  cbn in H |- *. apply andb_true_iff in H as [Hc Ht]. rewrite IH by done.
  destruct (Ascii.eqb_spec c x) as [->|]; [congruence | done].
Qed.

(** ** Lemmas: [parseFloat] reads back the text of an integer *)

(** The value of digits read from the left onto an accumulator. *)
Fixpoint dval (acc : Z) (d : Decimal.uint) : Z :=
  match d with
  | Decimal.Nil => acc
  | Decimal.D0 l => dval (acc * 10) l
  | Decimal.D1 l => dval (acc * 10 + 1) l
  | Decimal.D2 l => dval (acc * 10 + 2) l
  | Decimal.D3 l => dval (acc * 10 + 3) l
  | Decimal.D4 l => dval (acc * 10 + 4) l
  | Decimal.D5 l => dval (acc * 10 + 5) l
  | Decimal.D6 l => dval (acc * 10 + 6) l
  | Decimal.D7 l => dval (acc * 10 + 7) l
  | Decimal.D8 l => dval (acc * 10 + 8) l
  | Decimal.D9 l => dval (acc * 10 + 9) l
  end.

Lemma digit_run_uint d acc n :
  digit_run (NilEmpty.string_of_uint d) acc n = (dval acc d, (n + Decimal.nb_digits d)%nat, EmptyString).
Proof.
  revert acc n. induction d; intros acc n; simpl; [by rewrite Nat.add_0_r|..];
    rewrite IHd; replace (S n + Decimal.nb_digits d)%nat with (n + S (Decimal.nb_digits d))%nat by lia;
    repeat (f_equal; try lia).
Qed.

Lemma of_uint_acc_dval d acc : Zpos (Pos.of_uint_acc d acc) = dval (Zpos acc) d.
Proof. revert acc. induction d; intros acc; simpl; rewrite ?IHd; f_equal; lia. Qed.

Lemma of_uint_dval d : Z.of_N (Pos.of_uint d) = dval 0 d.
Proof. induction d; simpl; rewrite ?of_uint_acc_dval; done. Qed.

(** The text of a positive integer is its digits, at least one. *)
Lemma num_text_pos p :
  num_text (Zpos p) = NilEmpty.string_of_uint (Pos.to_uint p) /\ Pos.to_uint p <> Decimal.Nil.
Proof.
  assert (Hn : Pos.to_uint p <> Decimal.Nil).
  { intros E. pose proof (DecimalPos.Unsigned.of_to p) as H. rewrite E in H. discriminate. }
  split; [|done]. unfold num_text, js_number_string. simpl. by destruct (Pos.to_uint p).
Qed.

Lemma digit_run_pos p :
  exists n, digit_run (num_text (Zpos p)) 0%Z 0%nat = (Zpos p, S n, EmptyString).
Proof.
  destruct (num_text_pos p) as [-> Hn]. rewrite digit_run_uint.
  rewrite <- of_uint_dval, DecimalPos.Unsigned.of_to. simpl.
  destruct (Pos.to_uint p); [done|eexists; reflexivity..].
Qed.

Lemma unsigned_float_pos p : exists q, js_unsigned_float (num_text (Zpos p)) = Some q /\ (q == inject_Z (Zpos p))%Q.
Proof.
  destruct (digit_run_pos p) as [n Hn]. unfold js_unsigned_float. rewrite Hn. simpl.
  eexists. split; [reflexivity|]. unfold pow10, Qeq. simpl. lia.
Qed.

Lemma num_text_pos_head p : exists c r, num_text (Zpos p) = String c r /\ is_digit c = true.
Proof.
  destruct (num_text_pos p) as [-> Hn].
  destruct (Pos.to_uint p); [done|do 2 eexists; split; [reflexivity|done]..].
Qed.

Lemma parseFloat_digit_head c r : is_digit c = true -> js_parseFloat (String c r) = js_unsigned_float (String c r).
Proof. intros Hc. destruct c as [[] [] [] [] [] [] [] []]; try (vm_compute in Hc; discriminate); reflexivity. Qed.

Lemma parseFloat_minus t : js_parseFloat (String "-" t) = option_map Qopp (js_unsigned_float t).
Proof. reflexivity. Qed.

(** [parseFloat(String(n))] is [n]. *)
Lemma parseFloat_num_text z : exists q, js_parseFloat (num_text z) = Some q /\ (q == inject_Z z)%Q.
Proof.
  destruct z as [|p|p].
  - eexists. split; [reflexivity|]. reflexivity.
  - destruct (num_text_pos_head p) as (c & r & E & Hc). destruct (unsigned_float_pos p) as (q & Hq & Hqe).
    exists q. split; [|done]. by rewrite E, parseFloat_digit_head, <- E.
  - destruct (unsigned_float_pos p) as (q & Hq & Hqe). exists (Qopp q).
    rewrite (num_text_neg (Zneg p)) by lia. change (- Zneg p)%Z with (Zpos p). split.
    + by rewrite parseFloat_minus, Hq.
    + rewrite Hqe. reflexivity.
Qed.

Lemma remove_commas_minus t : remove_commas (String "-" t) = String "-" (remove_commas t).
Proof. reflexivity. Qed.

(** [toLocaleString('en-IN')] of an integer loses no digit and adds
    none: removing its group separators gives back the decimal text of
    the number, sign included. *)
Theorem en_IN_remove_commas z : remove_commas (en_IN z) = num_text z.
Proof.
  unfold en_IN. destruct (Z.ltb_spec z 0) as [Hz|Hz].
  - rewrite sapp_cons, sapp_nil_l, remove_commas_minus, remove_commas_group by apply num_text_no_comma.
    symmetry. by apply num_text_neg.
  - apply remove_commas_group, num_text_no_comma.
Qed.

Lemma floor_half x (y : Z) : (x == inject_Z y + (1 # 2))%Q -> Qfloor x = y.
Proof.
  intros Hx. apply Z.le_antisymm.
  - assert (H1 := Qfloor_le x).
    assert (H2 : (inject_Z (Qfloor x) < inject_Z (y + 1))%Q)
      by (rewrite inject_Z_plus; change (inject_Z 1) with 1%Q; lra).
    rewrite <- Zlt_Qlt in H2. lia.
  - rewrite <- (Qfloor_Z y) at 1. apply Qfloor_resp_le. lra.
Qed.

(** On an integer, [toFixed(2)] is the integer's text and [.00]. *)
Lemma toFixed2_Q_int z : toFixed2_Q (inject_Z z) = num_text z +++ ".00".
Proof.
  unfold toFixed2_Q. rewrite (floor_half _ (100 * Z.abs z)).
  2: { change (Qabs (inject_Z z)) with (inject_Z (Z.abs z)). by rewrite inject_Z_mult. }
  rewrite (Z.mul_comm 100), Z.div_mul, Z.mod_mul by lia. cbn [two_digits Z.ltb Z.compare].
  destruct (Qle_bool 0 (inject_Z z)) eqn:E.
  - apply Qle_bool_iff in E. change 0%Q with (inject_Z 0) in E. rewrite <- Zle_Qle in E.
    rewrite Z.abs_eq by lia. done.
  - rewrite <- not_true_iff_false, Qle_bool_iff in E. change 0%Q with (inject_Z 0) in E.
    rewrite <- Zle_Qle in E. rewrite Z.abs_neq, (num_text_neg z) by lia. done.
Qed.

End Coerce.
