(* ===== verification/TabMachine.v ===== *)
(** * The admin tabs as state machines: the shared part

    The three tabs of the admin console ([CategoriesTab.jsx],
    [SubcategoriesTab.jsx], [ProductsTab.jsx]) have the same shape: a
    list fetched from the backend, a modal form that is closed, creating
    or editing, handlers that send requests, and awaits that resume when
    the backend answers.  Each tab file gives its step function, the
    events its page lets happen and a boolean test of them as a
    [machine]; this file gives, once for all three, the one-step relation
    and reachability, the replay of a trace of events ([run]) with its
    soundness, and the induction principle for the modal invariant: if no
    step changes the modal part of the state except by closing it to the
    default or by opening it, then a closed modal always holds the
    default. *)

From S2P Require Import Prelude.

#[local] Open Scope list_scope.

Module TabMachine.

(** A tab: its step under the storage [L] the handlers read, from a
    state [S] and an event [E] to the next state and the requests [O] it
    sends; the events the page offers; and a boolean test of them. *)
Record machine (L S E O : Type) := Machine {
  m_step : L -> S -> E -> S * list O;
  m_enabled : S -> E -> Prop;
  m_enabledb : S -> E -> bool;
  m_enabledb_sound : forall s e, m_enabledb s e = true -> m_enabled s e
}.
Arguments Machine {L S E O} _ _ _ _.
Arguments m_step {L S E O} _ _ _ _.
Arguments m_enabled {L S E O} _ _ _.
Arguments m_enabledb {L S E O} _ _ _.
Arguments m_enabledb_sound {L S E O} _ _ _ _.

Section Machine.
Context {L S E O : Type} (M : machine L S E O).

(** One step of the page, under any storage. *)
Definition tab_step (s s' : S) : Prop :=
  exists l e out, m_enabled M s e /\ m_step M l s e = (s', out).

(** Replay a sequence of events under one storage, collecting the
    requests sent; [None] when an event is not enabled. *)
Fixpoint run (l : L) (s : S) (es : list E) : option (S * list O) :=
  match es with
  | [] => Some (s, [])
  | e :: es' =>
      if m_enabledb M s e then
        let '(s1, out1) := m_step M l s e in
        option_map (fun '(s2, out2) => (s2, out1 ++ out2)) (run l s1 es')
      else None
  end.

(** A replayed trace is a sequence of steps of the page. *)
Lemma run_reachable l s es s' out :
  run l s es = Some (s', out) -> star tab_step s s'.
Proof.
  revert s out. induction es as [|e es IH]; simpl; intros s out H.
  - injection H as <- _. constructor.
  - destruct (m_enabledb M s e) eqn:He; [|discriminate].
    destruct (m_step M l s e) as [s1 out1] eqn:Hs.
    destruct (run l s1 es) as [[s2 out2]|] eqn:Hr; [|discriminate].
    injection H as <- _. apply star_step with s1; [|by eapply IH].
    exists l, e, out1. split; [by apply m_enabledb_sound | done].
Qed.

(** An invariant of the page: it holds at the start and every enabled
    event, under any storage, keeps it. *)
Lemma tab_invariant (P : S -> Prop) s0 s :
  P s0 -> (forall l x e, m_enabled M x e -> P x -> P (fst (m_step M l x e))) ->
  star tab_step s0 s -> P s.
Proof.
  intros H0 Hstep. apply star_invariant; [|done].
  intros x y (l & e & out & Hen & Hs) Hx. pose proof (Hstep l x e Hen Hx) as H. by rewrite Hs in H.
Qed.

Section Modal.
(** The modal part of a state ([showModal], the record under edit, the
    form), whether the modal is open, and the closed default. *)
Context {Md : Type} (modal : S -> Md) (opened : S -> bool) (closed : Md).
Hypothesis opened_modal : forall s t, modal s = modal t -> opened s = opened t.
Hypothesis step_modal : forall l s e s' out,
  m_enabled M s e -> m_step M l s e = (s', out) ->
  modal s' = modal s \/ modal s' = closed \/ opened s' = true.

Lemma closed_modal_preserved s0 s :
  (opened s0 = false -> modal s0 = closed) -> star tab_step s0 s ->
  opened s = false -> modal s = closed.
Proof.
  intros H0 Hr.
  apply (star_invariant tab_step (fun s => opened s = false -> modal s = closed) s0 s); [|done..].
  intros x y (l & e & out & Hen & Hst) Hx Hy.
  destruct (step_modal l x e y out Hen Hst) as [H|[H|H]]; [|done|congruence].
  rewrite H. apply Hx. by rewrite <- (opened_modal _ _ H).
Qed.
End Modal.
End Machine.

End TabMachine.
