(* ===== verification/CategoriesTab.v ===== *)
(** * The Categories tab of the admin console

    [src/src/components/admin/CategoriesTab.jsx]: the component's state
    (lines 67-82) as the record [state], each handler as a function from
    a state to the next state and the requests it sends, and the
    completion of a request, or of the toast timer, as a separate event.
    A handler that awaits a request leaves a pending continuation
    ([cont]) under a fresh number; the event [Complete n c] resumes it
    with the backend's answer [c], in any order, which is how the
    browser interleaves the awaits of this component.

    The theorems: the closed modal always holds the default form and no
    category under edit; the name field derives the slug while creating
    and leaves it alone while editing; submit and delete send nothing
    unless their guard and the confirmation pass; a failed write keeps
    the form and reports the error; a successful write closes the form
    and reloads the list; the last fetch to complete decides the list,
    whatever the order the fetches were sent in.  The toast and the
    modal are rendered ([render_toast], [render_modal]): the modal's
    button is enabled exactly when a click sends a request. *)

From S2P Require Import Prelude Slug Catalog Api TabMachine.

#[local] Open Scope list_scope.
#[local] Open Scope nitai_scope.

Module CategoriesTab.
Import Slug Catalog Http Storage TabApi TabMachine.

(** ** State *)

(** [formData] (lines 75-82). *)
Record form := mkForm {
  f_name : string;
  f_slug : string;
  f_description : string;
  f_image : string;
  f_sortOrder : Z;
  f_isActive : bool
}.

(** The default form (lines 75-82 and 162-169). *)
Definition empty_form : form := mkForm "" "" "" "" 0 true.

Record toast := mkToast { t_title : string; t_description : string; t_variant : string }.

(** What an awaited call does when it resumes. *)
Inductive cont :=
| KFetch                    (** [fetchCategories] after [getAll] *)
| KSubmit (wasEditing : bool)  (** [handleSubmit] after [update] or [create] *)
| KDelete                   (** [handleDelete] after [delete] *)
| KToastClear.              (** the [setTimeout] of [showToast] *)

(** What the backend, or the timer, answers. *)
Inductive completion :=
| CFetched (r : response (list Category))
| CWritten (r : response unit)
| CTimer.

Record state := mkState {
  categories : list Category;
  loading : bool;
  showModal : bool;
  editingCategory : option Category;
  searchTerm : string;
  toastv : option toast;
  formData : form;
  pending : list (nat * cont);
  next_id : nat
}.

(** The state before the mount effect (lines 67-82). *)
Definition initial_state : state :=
  mkState [] true false None "" None empty_form [] 0.

Abbreviation req := (request form).

(** ** Handlers *)

Section Handlers.
(** The build's [VITE_API_BASE_URL_ADMIN]. *)
Context (env : option string).

Definition base : string := API_BASE_URL env.

Definition await (k : cont) (s : state) : state :=
  {| s with pending := (next_id s, k) :: pending s; next_id := S (next_id s) |}.

(** [showToast] (lines 84-87): show, and clear after three seconds. *)
Definition showToast (title description variant : string) (s : state) : state :=
  await KToastClear {| s with toastv := Some (mkToast title description variant) |}.

(** [fetchCategories] up to its [await] (lines 101-104). *)
Definition fetchCategories (ls : storage) (s : state) : state * list req :=
  (await KFetch {| s with loading := true |}, [categoryAPI_getAll base ls]).

(** [handleCloseModal] (lines 160-171). *)
Definition handleCloseModal (s : state) : state :=
  {| s with showModal := false; formData := empty_form; editingCategory := None |}.

(** [handleSubmit] up to its [await] (lines 117-125). *)
Definition handleSubmit (ls : storage) (s : state) : state * list req :=
  let fd := formData s in
  if negb (js_truthy_str (f_name fd)) || negb (js_truthy_str (f_slug fd)) then (s, [])
  else match editingCategory s with
       | Some c => (await (KSubmit true) s, [categoryAPI_update base ls (cat_id c) fd])
       | None => (await (KSubmit false) s, [categoryAPI_create base ls fd])
       end.

(** [handleEdit] (lines 135-146). *)
Definition handleEdit (c : Category) (s : state) : state :=
  {| s with editingCategory := Some c;
            formData := mkForm (cat_name c) (cat_slug c) (cat_description c) (cat_image c)
                               (cat_sortOrder c) (cat_isActive c);
            showModal := true |}.

(** [handleDelete] up to its [await] (lines 148-152); [confirmed] is
    the answer to [confirm(...)]. *)
Definition handleDelete (ls : storage) (id : string) (confirmed : bool) (s : state)
  : state * list req :=
  if negb confirmed then (s, [])
  else (await KDelete s, [categoryAPI_delete base ls id]).

(** The name input (lines 383-387). *)
Definition onNameChange (v : string) (s : state) : state :=
  let fd := formData s in
  {| s with formData := {| fd with f_name := v;
       f_slug := match editingCategory s with Some _ => f_slug fd | None => generateSlug v end |} |}.

(** The other inputs (lines 401, 412, 424, 435, 446). *)
Definition onSlugChange (v : string) (s : state) : state :=
  let fd := formData s in {| s with formData := {| fd with f_slug := v |} |}.
Definition onDescriptionChange (v : string) (s : state) : state :=
  let fd := formData s in {| s with formData := {| fd with f_description := v |} |}.
Definition onImageChange (v : string) (s : state) : state :=
  let fd := formData s in {| s with formData := {| fd with f_image := v |} |}.
Definition onSortOrderChange (v : string) (s : state) : state :=
  let fd := formData s in {| s with formData := {| fd with f_sortOrder := js_parseInt_or_zero v |} |}.
Definition onActiveChange (b : bool) (s : state) : state :=
  let fd := formData s in {| s with formData := {| fd with f_isActive := b |} |}.

(** The rest of each awaiting handler. *)
Definition resume (ls : storage) (k : cont) (c : completion) (s : state) : state * list req :=
  match k, c with
  | KFetch, CFetched r =>                                             (* 104-110 *)
      match handleResponse r with
      | Ok data => ({| s with categories := data; loading := false |}, [])
      | Err m => (let s1 := showToast "Error" m "destructive" s in {| s1 with loading := false |}, [])
      end
  | KSubmit wasEditing, CWritten r =>                                 (* 121-132 *)
      match handleResponse r with
      | Ok _ =>
          fetchCategories ls (handleCloseModal
            (showToast "Success" (if wasEditing then "Category updated successfully"
                                  else "Category created successfully") "success" s))
      | Err m => (showToast "Error" m "destructive" s, [])
      end
  | KDelete, CWritten r =>                                            (* 152-157 *)
      match handleResponse r with
      | Ok _ => fetchCategories ls (showToast "Success" "Category deleted successfully" "success" s)
      | Err m => (showToast "Error" m "destructive" s, [])
      end
  | KToastClear, CTimer => ({| s with toastv := None |}, [])          (* 86 *)
  | _, _ => (s, [])
  end.
End Handlers.

(** ** Events *)

Inductive event :=
| ClickAdd                                   (* 212 *)
| ClickEdit (c : Category)                   (* 285, 336 *)
| ClickDelete (id : string) (confirmed : bool) (* 291, 342 *)
| CloseModal                                 (* 368, 454 *)
| InputName (v : string)
| InputSlug (v : string)
| InputDescription (v : string)
| InputImage (v : string)
| InputSortOrder (v : string)
| InputActive (b : bool)
| InputSearch (v : string)                   (* 228 *)
| ClickSubmit                                (* 460 *)
| Complete (n : nat) (c : completion).

(** The continuation waiting under number [n], and its removal. *)
Definition lookup_pending (s : state) (n : nat) : option cont :=
  option_map snd (find (fun p => Nat.eqb (fst p) n) (pending s)).

Definition drop_pending (s : state) (n : nat) : state :=
  {| s with pending := List.filter (fun p => negb (Nat.eqb (fst p) n)) (pending s) |}.

Definition step (env : option string) (ls : storage) (s : state) (e : event) : state * list req :=
  match e with
  | ClickAdd => ({| s with showModal := true |}, [])
  | ClickEdit c => (handleEdit c s, [])
  | ClickDelete id confirmed => handleDelete env ls id confirmed s
  | CloseModal => (handleCloseModal s, [])
  | InputName v => (onNameChange v s, [])
  | InputSlug v => (onSlugChange v s, [])
  | InputDescription v => (onDescriptionChange v s, [])
  | InputImage v => (onImageChange v s, [])
  | InputSortOrder v => (onSortOrderChange v s, [])
  | InputActive b => (onActiveChange b s, [])
  | InputSearch v => ({| s with searchTerm := v |}, [])
  | ClickSubmit => handleSubmit env ls s
  | Complete n c =>
      match lookup_pending s n with
      | Some k => resume env ls k c (drop_pending s n)
      | None => (s, [])
      end
  end.

(** Which events the page lets happen: the modal covers the page while
    it is open; the list and its buttons are shown once loaded; a
    completion answers a pending call. *)
Definition enabled (s : state) (e : event) : Prop :=
  match e with
  | ClickAdd | InputSearch _ => showModal s = false
  | ClickEdit c => showModal s = false /\ loading s = false
                   /\ In c (filteredCategories (searchTerm s) (categories s))
  | ClickDelete id _ => showModal s = false /\ loading s = false
                   /\ exists c, In c (filteredCategories (searchTerm s) (categories s)) /\ cat_id c = id
  | CloseModal | InputName _ | InputSlug _ | InputDescription _ | InputImage _
  | InputSortOrder _ | InputActive _ | ClickSubmit => showModal s = true
  | Complete n _ => exists k, In (n, k) (pending s)
  end.

(** A boolean test of [enabled], to replay traces. *)
Definition enabledb (s : state) (e : event) : bool :=
  match e with
  | ClickAdd | InputSearch _ => negb (showModal s)
  | ClickEdit c => negb (showModal s) && negb (loading s)
                   && bool_decide (c ∈ filteredCategories (searchTerm s) (categories s))
  | ClickDelete id _ => negb (showModal s) && negb (loading s)
                   && existsb (fun c => cat_id c ==? id) (filteredCategories (searchTerm s) (categories s))
  | CloseModal | InputName _ | InputSlug _ | InputDescription _ | InputImage _
  | InputSortOrder _ | InputActive _ | ClickSubmit => showModal s
  | Complete n _ => existsb (fun p => Nat.eqb (fst p) n) (pending s)
  end.

Lemma enabledb_enabled s e : enabledb s e = true -> enabled s e.
Proof.
  destruct e; simpl; intros H; bool_to_prop; repeat split;
    try (by destruct (showModal s)); try (by destruct (loading s)).
  - apply bool_decide_eq_true in H0. by apply list_elem_of_In in H0.
  - apply existsb_exists in H0 as (c & Hc & Hid). bool_to_prop. eauto.
  - apply existsb_exists in H as ([m k] & Hin & Hm). simpl in Hm. bool_to_prop. subst. eauto.
Qed.

(** The tab as a [machine] of [TabMachine]. *)
Definition cat_machine (env : option string) : machine storage state event req :=
  Machine (step env) enabled enabledb enabledb_enabled.

(** The state after the mount effect (lines 89-91). *)
Definition mounted (env : option string) (ls : storage) : state :=
  fst (fetchCategories env ls initial_state).

Definition reachable (env : option string) (s : state) : Prop :=
  exists ls, star (tab_step (cat_machine env)) (mounted env ls) s.

(** ** The toast and the modal as rendered *)

(** The toast (lines 176-194): red with an alert icon for the
    [destructive] variant, green with a check otherwise. *)
Record toast_view := mkToastView { tv_destructive : bool; tv_title : string; tv_description : string }.

Definition render_toast (s : state) : option toast_view :=
  option_map (fun t => mkToastView (t_variant t ==? "destructive") (t_title t) (t_description t)) (toastv s).

(** The modal (lines 360-470): its title, the inputs showing the form,
    and the submit button's label and [disabled]. *)
Record modal_view := mkModalView {
  mv_title : string;
  mv_name : string;
  mv_slug : string;
  mv_description : string;
  mv_image : string;
  mv_sortOrder : string;
  mv_isActive : bool;
  mv_submit_label : string;
  mv_submit_disabled : bool
}.

Definition render_modal (s : state) : option modal_view :=
  if showModal s then
    let fd := formData s in
    let editing := match editingCategory s with Some _ => true | None => false end in
    Some {| mv_title := if editing then "Edit Category" else "Add Category";
            mv_name := f_name fd; mv_slug := f_slug fd; mv_description := f_description fd;
            mv_image := f_image fd; mv_sortOrder := js_number_string (f_sortOrder fd);
            mv_isActive := f_isActive fd;
            mv_submit_label := if editing then "Update" else "Create";
            mv_submit_disabled := negb (js_truthy_str (f_name fd)) || negb (js_truthy_str (f_slug fd)) |}
  else None.

(** ** Lemmas *)

(** The modal part of a state. *)
Definition modal_of (s : state) : bool * option Category * form :=
  (showModal s, editingCategory s, formData s).

Definition closed_modal : bool * option Category * form := (false, None, empty_form).

(** Resuming a call either leaves the modal alone or closes it. *)
Lemma resume_modal env ls k c s :
  modal_of (fst (resume env ls k c s)) = modal_of s \/
  modal_of (fst (resume env ls k c s)) = closed_modal.
Proof.
  destruct k, c; simpl; try (left; reflexivity);
    destruct (handleResponse _); simpl; auto.
Qed.

Lemma step_complete env ls s n c k :
  lookup_pending s n = Some k -> step env ls s (Complete n c) = resume env ls k c (drop_pending s n).
Proof. simpl. by intros ->. Qed.

(** A step of the page leaves the modal part alone, closes it to the
    default, or leaves the modal open. *)
Lemma step_modal env ls s e s' out :
  enabled s e -> step env ls s e = (s', out) ->
  modal_of s' = modal_of s \/ modal_of s' = closed_modal \/ showModal s' = true.
Proof.
  intros Hen Hst.
  destruct e; simpl in Hst; injection Hst as <- _ || (unfold handleDelete, handleSubmit in Hst);
    simpl in *; try (right; right; done); try (left; reflexivity); try (right; left; reflexivity).
  - destruct confirmed; simpl in Hst; injection Hst as <- _; left; reflexivity.
  - right; right. destruct (_ || _); [|destruct (editingCategory s)]; injection Hst as <- _; done.
  - destruct (lookup_pending s n) as [k|]; [|injection Hst as <- _; left; reflexivity].
    pose proof (resume_modal env ls k c (drop_pending s n)) as H.
    rewrite Hst in H. simpl in H. destruct H as [H|H]; [left|right; left]; exact H.
Qed.

(** ** Properties *)

(** C4: in every state the tab can reach, a closed modal holds the
    default form and no category under edit, so that "Add Category"
    always opens an empty form. *)
Theorem closed_modal_invariant env s :
  reachable env s -> showModal s = false -> editingCategory s = None /\ formData s = empty_form.
Proof.
  intros [ls Hr] Hc.
  pose proof (closed_modal_preserved (cat_machine env) modal_of showModal closed_modal
                (fun s t H => f_equal (fun m => fst (fst m)) H) (step_modal env)
                (mounted env ls) s (fun _ => eq_refl) Hr Hc) as H.
  injection H as _ H1 H2. by split.
Qed.

Lemma closed_modal_invariant_witness :
  reachable None (mounted None ∅) /\ showModal (mounted None ∅) = false /\
  editingCategory (mounted None ∅) = None /\ formData (mounted None ∅) = empty_form.
Proof.
  assert (H : reachable None (mounted None ∅)) by (exists ∅; constructor).
  split; [exact H|]. split; [reflexivity|]. exact (closed_modal_invariant None _ H eq_refl).
Defined.

(** Typing a name while creating a category sets the slug to
    [generateSlug] of the name; while editing one, the slug is kept. *)
Theorem name_change_slug v s :
  f_name (formData (onNameChange v s)) = v /\
  f_slug (formData (onNameChange v s))
    = match editingCategory s with None => generateSlug v | Some _ => f_slug (formData s) end.
Proof. split; reflexivity. Qed.

(** The spec's scenario: in a new category, typing "Gold Chains"
    fills the slug "gold-chains"; editing the slug to "gold-chain" before
    submitting sends the edited slug. *)
Example gold_chains_scenario :
  let s0 := {| (mounted None ∅) with showModal := true |} in
  let s1 := onSlugChange "gold-chain" (onNameChange "Gold Chains" s0) in
  f_slug (formData (onNameChange "Gold Chains" s0)) = "gold-chains" /\
  map req_body (snd (handleSubmit None ∅ s1))
    = [Some (mkForm "Gold Chains" "gold-chain" "" "" 0 true)].
Proof. split; reflexivity. Qed.

(** C8: a submit with an empty name or an empty slug changes nothing and
    sends nothing. *)
Theorem submit_guard env ls s :
  f_name (formData s) = "" \/ f_slug (formData s) = "" -> handleSubmit env ls s = (s, []).
Proof.
  intros H. unfold handleSubmit.
  destruct H as [H|H]; rewrite H; simpl; [done|]. by rewrite orb_true_r.
Qed.

Lemma submit_guard_witness :
  (f_name (formData (mounted None ∅)) = "" \/ f_slug (formData (mounted None ∅)) = "") /\
  handleSubmit None ∅ (mounted None ∅) = (mounted None ∅, []).
Proof.
  assert (H : f_name (formData (mounted None ∅)) = "" \/ f_slug (formData (mounted None ∅)) = "")
    by (left; reflexivity).
  split; [exact H | exact (submit_guard None ∅ _ H)].
Defined.

(** A submit with a name and a slug sends exactly one request: a
    [PUT] of the form to [/category/<id>] when editing, a [POST] to
    [/category] when creating, and awaits its answer. *)
Theorem submit_request env ls s :
  f_name (formData s) <> "" -> f_slug (formData s) <> "" ->
  handleSubmit env ls s =
  match editingCategory s with
  | Some c => (await (KSubmit true) s,
               [mkRequest PUT (base env +++ "/category/" +++ cat_id c)
                  (json_headers (getAuthToken ls)) (Some (formData s))])
  | None => (await (KSubmit false) s,
             [mkRequest POST (base env +++ "/category")
                (json_headers (getAuthToken ls)) (Some (formData s))])
  end.
Proof.
  intros Hn Hs. unfold handleSubmit.
  apply js_truthy_str_true in Hn, Hs. rewrite Hn, Hs. simpl.
  by destruct (editingCategory s).
Qed.

(** The modal's button is enabled exactly when a click on it sends a
    request, and it reads [Update] exactly when a category is under
    edit, the case where the request is the [PUT]. *)
Theorem submit_button_matches_handler env ls s v :
  render_modal s = Some v ->
  (mv_submit_disabled v = false <-> snd (handleSubmit env ls s) <> []) /\
  (mv_submit_label v = "Update" <-> editingCategory s <> None).
Proof.
  unfold render_modal, handleSubmit. destruct (showModal s); [|done]. intros [= <-]. cbn.
  split; [apply guard_request |]; by destruct (editingCategory s).
Qed.

Lemma submit_request_witness :
  let s := {| (mounted None ∅) with formData := mkForm "Rings" "rings" "" "" 0 true |} in
  f_name (formData s) <> "" /\ f_slug (formData s) <> "" /\
  snd (handleSubmit None ∅ s)
  = [mkRequest POST "http://localhost:8787/admin/category"
       [("Content-Type", "application/json")] (Some (formData s))].
Proof.
  cbv zeta. split; [discriminate|]. split; [discriminate|].
  rewrite (submit_request None ∅ _) by discriminate. reflexivity.
Defined.

(** A delete sends its request only after the user confirms; a
    refusal changes nothing. *)
Theorem delete_needs_confirmation env ls id s :
  handleDelete env ls id false s = (s, []) /\
  handleDelete env ls id true s
    = (await KDelete s, [mkRequest DELETE (base env +++ "/category/" +++ id)
                           (auth_header (getAuthToken ls)) None]).
Proof.
  split; reflexivity.
Qed.




(** C9: when a submit fails, the form stays open with what the user
    typed, the category under edit is kept, the error message is shown
    in a toast, and nothing is sent. *)
Theorem submit_failure_keeps_form env ls s n b r m :
  lookup_pending s n = Some (KSubmit b) -> handleResponse r = Err m ->
  let '(s', out) := step env ls s (Complete n (CWritten r)) in
  showModal s' = showModal s /\ formData s' = formData s /\
  editingCategory s' = editingCategory s /\
  toastv s' = Some (mkToast "Error" m "destructive") /\ out = [].
Proof.
  intros Hk Hr. rewrite (step_complete _ _ _ _ _ _ Hk). simpl. rewrite Hr. simpl.
  repeat split.
Qed.

Definition fail_state : state :=
  {| (mounted None ∅) with pending := [(7, KSubmit false)]; showModal := true;
     formData := mkForm "Rings" "rings" "" "" 0 true |}.

Lemma submit_failure_keeps_form_witness :
  lookup_pending fail_state 7 = Some (KSubmit false) /\
  handleResponse (A := unit) (RespFail 409 "Conflict" (Some (Some "Slug exists"))) = Err "Slug exists" /\
  formData (fst (step None ∅ fail_state
                  (Complete 7 (CWritten (RespFail 409 "Conflict" (Some (Some "Slug exists")))))))
  = mkForm "Rings" "rings" "" "" 0 true.
Proof.
  split; [reflexivity|]. split; [reflexivity|].
  pose proof (submit_failure_keeps_form None ∅ fail_state 7 false
                (RespFail 409 "Conflict" (Some (Some "Slug exists"))) "Slug exists"
                eq_refl eq_refl) as H.
  destruct (step _ _ _ _) as [s' out]. simpl. destruct H as (_ & H & _). exact H.
Defined.

(** C10: when a submit succeeds, a toast reports it, the modal closes with
    the default form and no category under edit, and the list is
    fetched again: the only request sent is [GET /categories]. *)
Theorem submit_success_reloads env ls s n b r u :
  lookup_pending s n = Some (KSubmit b) -> handleResponse r = Ok u ->
  let '(s', out) := step env ls s (Complete n (CWritten r)) in
  showModal s' = false /\ formData s' = empty_form /\ editingCategory s' = None /\
  loading s' = true /\
  toastv s' = Some (mkToast "Success" (if b then "Category updated successfully"
                                       else "Category created successfully") "success") /\
  out = [mkRequest GET (base env +++ "/categories") (json_headers (getAuthToken ls)) None].
Proof.
  intros Hk Hr. rewrite (step_complete _ _ _ _ _ _ Hk). simpl. rewrite Hr. simpl.
  repeat split.
Qed.

Lemma submit_success_reloads_witness :
  lookup_pending fail_state 7 = Some (KSubmit false) /\
  handleResponse (A := unit) (RespOk (Some tt)) = Ok tt /\
  showModal (fst (step None ∅ fail_state (Complete 7 (CWritten (RespOk (Some tt)))))) = false.
Proof.
  split; [reflexivity|]. split; [reflexivity|].
  pose proof (submit_success_reloads None ∅ fail_state 7 false (RespOk (Some tt)) tt eq_refl eq_refl) as H.
  destruct (step _ _ _ _) as [s' out]. simpl. destruct H as (H & _). exact H.
Defined.

(** Whenever a fetch completes successfully, its answer becomes the
    list, whatever other fetches are still pending: the last fetch to
    complete wins, not the last one sent. *)
Theorem fetch_completion_sets_list env ls s n r data :
  lookup_pending s n = Some KFetch -> handleResponse r = Ok data ->
  let '(s', out) := step env ls s (Complete n (CFetched r)) in
  categories s' = data /\ loading s' = false /\ out = [].
Proof.
  intros Hk Hr. rewrite (step_complete _ _ _ _ _ _ Hk). simpl. rewrite Hr. simpl. repeat split.
Qed.

Lemma fetch_completion_sets_list_witness :
  lookup_pending (mounted None ∅) 0 = Some KFetch /\
  handleResponse (RespOk (Some [sample_cat "rings" "Rings"])) = Ok [sample_cat "rings" "Rings"] /\
  categories (fst (step None ∅ (mounted None ∅) (Complete 0 (CFetched (RespOk (Some [sample_cat "rings" "Rings"]))))))
  = [sample_cat "rings" "Rings"].
Proof.
  split; [reflexivity|]. split; [reflexivity|].
  pose proof (fetch_completion_sets_list None ∅ (mounted None ∅) 0
                (RespOk (Some [sample_cat "rings" "Rings"])) _ eq_refl eq_refl) as H.
  destruct (step _ _ _ _) as [s' out]. simpl. destruct H as (H & _). exact H.
Defined.

Definition ring : Category := sample_cat "rings" "Rings".
Definition chain : Category := sample_cat "chains" "Chains".

Definition bangle : Category := sample_cat "bangles" "Bangles".

(** The trace of the race: load [rings] and [chains]; delete [rings],
    whose reload is call 3; while it is pending, create "Bangles", whose
    reload is call 6; the second reload answers first, with [chains] and
    [bangles], then the first answers with the list it saw, [chains]. *)
Definition stale_trace : list event := [
  Complete 0 (CFetched (RespOk (Some [ring; chain])));
  ClickDelete "rings" true;
  Complete 1 (CWritten (RespOk (Some tt)));
  ClickAdd;
  InputName "Bangles";
  ClickSubmit;
  Complete 4 (CWritten (RespOk (Some tt)));
  Complete 6 (CFetched (RespOk (Some [chain; bangle])));
  Complete 3 (CFetched (RespOk (Some [chain])))
].

(** C6: overlapping reloads are not ordered: in a reachable trace where a
    category is created while an earlier reload is pending, the earlier
    reload answers last and the tab ends up without the new category,
    although the backend's newest answer had it. *)
Theorem stale_fetch_overwrites :
  match run (cat_machine None) ∅ (mounted None ∅) stale_trace with
  | Some (s', _) => reachable None s' /\ categories s' = [chain] /\ loading s' = false
  | None => False
  end.
Proof.
  destruct (run (cat_machine None) ∅ (mounted None ∅) stale_trace) as [[s' out]|] eqn:E;
    [|vm_compute in E; discriminate].
  split; [exists ∅; exact (run_reachable _ _ _ _ _ _ E)|].
  vm_compute in E. injection E as <- _. split; reflexivity.
Qed.

End CategoriesTab.
