(* ===== verification/SubcategoriesTab.v ===== *)
(** * The Subcategories tab of the admin console

    [src/src/components/admin/SubcategoriesTab.jsx]: the component's
    state (lines 110-125) as the record [state], each handler as a
    function from a state to the next state and the requests it sends,
    and the completion of a request as an event [Complete n c] that
    resumes the await numbered [n].  Unlike the Categories tab, this tab
    fetches two collections at once ([Promise.all], lines 131-144), has
    no toast, and reports every failure with [console.error] only: the
    model keeps the console as a list of logged messages, apart from what
    the page renders.

    The theorems: the closed modal always holds the default form and no
    subcategory under edit; submit sends nothing unless the parent
    category, the name and the slug are set; a failed write or fetch
    changes nothing the page shows (the message goes to the console); a
    fetch sets both lists or neither; a successful write closes the form
    and reloads both lists.  The modal is rendered ([render_modal]):
    its button is enabled exactly when a click sends a request. *)

From S2P Require Import Prelude Slug Catalog Api TabMachine.

#[local] Open Scope list_scope.
#[local] Open Scope nitai_scope.

Module SubcategoriesTab.
Import Slug Catalog Http Storage TabApi TabMachine.

(** ** State *)

(** [formData] (lines 117-125). *)
Record form := mkForm {
  f_categorySlug : string;
  f_name : string;
  f_slug : string;
  f_description : string;
  f_image : string;
  f_sortOrder : Z;
  f_isActive : bool
}.

(** The default form (lines 117-125 and 194-202). *)
Definition empty_form : form := mkForm "" "" "" "" "" 0 true.

(** What an awaited call does when it resumes. *)
Inductive cont :=
| KFetchData   (** [fetchData] after [Promise.all] *)
| KSubmit      (** [handleSubmit] after [update] or [create] *)
| KDelete.     (** [handleDelete] after [delete] *)

(** What the backend answers: the two lists of [fetchData], or a write. *)
Inductive completion :=
| CFetchedData (subs : response (list Subcategory)) (cats : response (list Category))
| CWritten (r : response unit).

Record state := mkState {
  subcategories : list Subcategory;
  categories : list Category;
  loading : bool;
  showModal : bool;
  editingSubcategory : option Subcategory;
  searchTerm : string;
  formData : form;
  console : list (string * string);   (** the [console.error] calls, in order *)
  pending : list (nat * cont);
  next_id : nat
}.

(** The state before the mount effect (lines 110-125). *)
Definition initial_state : state :=
  mkState [] [] true false None "" empty_form [] [] 0.

Abbreviation req := (request form).

(** ** Handlers *)

Section Handlers.
Context (env : option string).

Definition base : string := API_BASE_URL env.

Definition await (k : cont) (s : state) : state :=
  {| s with pending := (next_id s, k) :: pending s; next_id := S (next_id s) |}.

(** [console.error(label, error)]. *)
Definition logError (label message : string) (s : state) : state :=
  {| s with console := console s ++ [(label, message)] |}.

(** [fetchData] up to its [await] (lines 131-137): both calls start
    before the tab waits for the two answers. *)
Definition fetchData (ls : storage) (s : state) : state * list req :=
  (await KFetchData {| s with loading := true |},
   [subcategoryAPI_getAll base ls; categoryAPI_getAll base ls]).

(** [handleCloseModal] (lines 191-203). *)
Definition handleCloseModal (s : state) : state :=
  {| s with showModal := false; editingSubcategory := None; formData := empty_form |}.

(** [handleSubmit] up to its [await] (lines 150-158). *)
Definition handleSubmit (ls : storage) (s : state) : state * list req :=
  let fd := formData s in
  if negb (js_truthy_str (f_categorySlug fd)) || negb (js_truthy_str (f_name fd))
     || negb (js_truthy_str (f_slug fd)) then (s, [])
  else match editingSubcategory s with
       | Some sub => (await KSubmit s, [subcategoryAPI_update base ls (sub_id sub) fd])
       | None => (await KSubmit s, [subcategoryAPI_create base ls fd])
       end.

(** [handleDelete] up to its [await] (lines 166-169); [confirmed] is
    the answer to [confirm(...)]. *)
Definition handleDelete (ls : storage) (id : string) (confirmed : bool) (s : state)
  : state * list req :=
  if negb confirmed then (s, [])
  else (await KDelete s, [subcategoryAPI_delete base ls id]).

(** [handleEdit] (lines 177-189). *)
Definition handleEdit (sub : Subcategory) (s : state) : state :=
  {| s with editingSubcategory := Some sub;
            formData := mkForm (sub_categorySlug sub) (sub_name sub) (sub_slug sub)
                               (sub_description sub) (sub_image sub)
                               (sub_sortOrder sub) (sub_isActive sub);
            showModal := true |}.

(** The parent-category select (line 350). *)
Definition onCategoryChange (v : string) (s : state) : state :=
  let fd := formData s in {| s with formData := {| fd with f_categorySlug := v |} |}.

(** The name input (lines 366-370). *)
Definition onNameChange (v : string) (s : state) : state :=
  let fd := formData s in
  {| s with formData := {| fd with f_name := v;
       f_slug := match editingSubcategory s with Some _ => f_slug fd | None => generateSlug v end |} |}.

(** The other inputs (lines 381, 390, 401, 412, 422). *)
Definition onSlugChange (v : string) (s : state) : state :=
  let fd := formData s in {| s with formData := {| fd with f_slug := v |} |}.
Definition onDescriptionChange (v : string) (s : state) : state :=
  let fd := formData s in {| s with formData := {| fd with f_description := v |} |}.
Definition onImageChange (v : string) (s : state) : state :=
  let fd := formData s in {| s with formData := {| fd with f_image := v |} |}.
Definition onSortOrderChange (v : string) (s : state) : state :=
  let fd := formData s in {| s with formData := {| fd with f_sortOrder := js_parseInt_or_zero v |} |}.
Definition onActiveChange (b : bool) (s : state) : state :=
  let fd := formData s in {| s with formData := {| fd with f_isActive := b |} |}.

(** The rest of each awaiting handler. *)
Definition resume (ls : storage) (k : cont) (c : completion) (s : state) : state * list req :=
  match k, c with
  | KFetchData, CFetchedData rs rc =>                                  (* 134-143 *)
      match promise_all2 (handleResponse rs) (handleResponse rc) with
      | Ok (subs, cats) => ({| s with subcategories := subs; categories := cats; loading := false |}, [])
      | Err m => (let s1 := logError "Error fetching data:" m s in {| s1 with loading := false |}, [])
      end
  | KSubmit, CWritten r =>                                             (* 155-163 *)
      match handleResponse r with
      | Ok _ => let '(s1, out) := fetchData ls s in (handleCloseModal s1, out)
      | Err m => (logError "Error saving subcategory:" m s, [])
      end
  | KDelete, CWritten r =>                                             (* 169-174 *)
      match handleResponse r with
      | Ok _ => fetchData ls s
      | Err m => (logError "Error deleting subcategory:" m s, [])
      end
  | _, _ => (s, [])
  end.
End Handlers.

(** ** Events *)

Inductive event :=
| ClickAdd                                     (* 232 *)
| ClickEdit (sub : Subcategory)                (* 273 *)
| ClickDelete (id : string) (confirmed : bool) (* 279 *)
| CloseModal                                   (* 337, 430 *)
| InputCategory (v : string)                   (* 350 *)
| InputName (v : string)
| InputSlug (v : string)
| InputDescription (v : string)
| InputImage (v : string)
| InputSortOrder (v : string)
| InputActive (b : bool)
| InputSearch (v : string)                     (* 248 *)
| ClickSubmit                                  (* 436 *)
| Complete (n : nat) (c : completion).

Definition lookup_pending (s : state) (n : nat) : option cont :=
  option_map snd (find (fun p => Nat.eqb (fst p) n) (pending s)).

Definition drop_pending (s : state) (n : nat) : state :=
  {| s with pending := List.filter (fun p => negb (Nat.eqb (fst p) n)) (pending s) |}.

Definition step (env : option string) (ls : storage) (s : state) (e : event) : state * list req :=
  match e with
  | ClickAdd => ({| s with showModal := true |}, [])
  | ClickEdit sub => (handleEdit sub s, [])
  | ClickDelete id confirmed => handleDelete env ls id confirmed s
  | CloseModal => (handleCloseModal s, [])
  | InputCategory v => (onCategoryChange v s, [])
  | InputName v => (onNameChange v s, [])
  | InputSlug v => (onSlugChange v s, [])
  | InputDescription v => (onDescriptionChange v s, [])
  | InputImage v => (onImageChange v s, [])
  | InputSortOrder v => (onSortOrderChange v s, [])
  | InputActive b => (onActiveChange b s, [])
  | InputSearch v => ({| s with searchTerm := v |}, [])
  | ClickSubmit => handleSubmit env ls s
  | Complete n c =>
      match lookup_pending s n with
      | Some k => resume env ls k c (drop_pending s n)
      | None => (s, [])
      end
  end.

(** Which events the page lets happen: the modal covers the page while
    it is open; the cards and their buttons are shown once loaded; the
    parent select offers the empty option and the loaded categories
    (lines 353-356); a completion answers a pending call. *)
Definition enabled (s : state) (e : event) : Prop :=
  match e with
  | ClickAdd | InputSearch _ => showModal s = false
  | ClickEdit sub => showModal s = false /\ loading s = false
                     /\ In sub (filteredSubcategories (searchTerm s) (subcategories s))
  | ClickDelete id _ => showModal s = false /\ loading s = false
                     /\ exists sub, In sub (filteredSubcategories (searchTerm s) (subcategories s))
                                    /\ sub_id sub = id
  | InputCategory v => showModal s = true /\ (v = "" \/ exists c, In c (categories s) /\ cat_slug c = v)
  | CloseModal | InputName _ | InputSlug _ | InputDescription _ | InputImage _
  | InputSortOrder _ | InputActive _ | ClickSubmit => showModal s = true
  | Complete n _ => exists k, In (n, k) (pending s)
  end.

Definition enabledb (s : state) (e : event) : bool :=
  match e with
  | ClickAdd | InputSearch _ => negb (showModal s)
  | ClickEdit sub => negb (showModal s) && negb (loading s)
                     && bool_decide (sub ∈ filteredSubcategories (searchTerm s) (subcategories s))
  | ClickDelete id _ => negb (showModal s) && negb (loading s)
                     && existsb (fun sub => sub_id sub ==? id)
                                (filteredSubcategories (searchTerm s) (subcategories s))
  | InputCategory v => showModal s && ((v ==? "") || existsb (fun c => cat_slug c ==? v) (categories s))
  | CloseModal | InputName _ | InputSlug _ | InputDescription _ | InputImage _
  | InputSortOrder _ | InputActive _ | ClickSubmit => showModal s
  | Complete n _ => existsb (fun p => Nat.eqb (fst p) n) (pending s)
  end.

Lemma sub_enabledb_enabled s e : enabledb s e = true -> enabled s e.
Proof.
  destruct e; simpl; intros H; bool_to_prop; repeat split;
    try (by destruct (showModal s)); try (by destruct (loading s)).
  - apply bool_decide_eq_true in H0. by apply list_elem_of_In in H0.
  - apply existsb_exists in H0 as (sub & Hs & Hid). bool_to_prop. eauto.
  - apply orb_true_iff in H0 as [H0|H0]; [left; by apply String.eqb_eq|right].
    apply existsb_exists in H0 as (c & Hc & Hv). bool_to_prop. eauto.
  - apply existsb_exists in H as ([m k] & Hin & Hm). simpl in Hm. bool_to_prop. subst. eauto.
Qed.

(** The tab as a [machine] of [TabMachine]. *)
Definition sub_machine (env : option string) : machine storage state event req :=
  Machine (step env) enabled enabledb sub_enabledb_enabled.

(** The state after the mount effect (lines 127-129). *)
Definition mounted (env : option string) (ls : storage) : state :=
  fst (fetchData env ls initial_state).

Definition reachable (env : option string) (s : state) : Prop :=
  exists ls, star (tab_step (sub_machine env)) (mounted env ls) s.

(** ** The modal as rendered *)

(** The modal (lines 329-446): its title, the parent category select
    with its options (value, text), the inputs showing the form, and the
    submit button's label and [disabled]. *)
Record modal_view := mkModalView {
  mv_title : string;
  mv_category_options : list (string * string);
  mv_categorySlug : string;
  mv_name : string;
  mv_slug : string;
  mv_description : string;
  mv_image : string;
  mv_sortOrder : string;
  mv_isActive : bool;
  mv_submit_label : string;
  mv_submit_disabled : bool
}.

Definition render_modal (s : state) : option modal_view :=
  if showModal s then
    let fd := formData s in
    let editing := match editingSubcategory s with Some _ => true | None => false end in
    Some {| mv_title := if editing then "Edit Subcategory" else "Add Subcategory";
            mv_category_options := ("", "Select category") :: map (fun c => (cat_slug c, cat_name c)) (categories s);
            mv_categorySlug := f_categorySlug fd;
            mv_name := f_name fd; mv_slug := f_slug fd; mv_description := f_description fd;
            mv_image := f_image fd; mv_sortOrder := js_number_string (f_sortOrder fd);
            mv_isActive := f_isActive fd;
            mv_submit_label := if editing then "Update" else "Create";
            mv_submit_disabled := negb (js_truthy_str (f_categorySlug fd)) || negb (js_truthy_str (f_name fd))
                                  || negb (js_truthy_str (f_slug fd)) |}
  else None.

(** ** Lemmas *)

(** The modal part of a state, and what the page renders: everything
    but the console and the bookkeeping of pending calls. *)
Definition modal_of (s : state) : bool * option Subcategory * form :=
  (showModal s, editingSubcategory s, formData s).

Definition closed_modal : bool * option Subcategory * form := (false, None, empty_form).

Definition view (s : state) :=
  (subcategories s, categories s, loading s, modal_of s, searchTerm s).

Lemma sub_resume_modal env ls k c s :
  modal_of (fst (resume env ls k c s)) = modal_of s \/
  modal_of (fst (resume env ls k c s)) = closed_modal.
Proof.
  destruct k, c; simpl; try (left; reflexivity);
    try destruct (promise_all2 _ _) as [[]|]; try destruct (handleResponse _); simpl; auto.
Qed.

Lemma sub_step_complete env ls s n c k :
  lookup_pending s n = Some k -> step env ls s (Complete n c) = resume env ls k c (drop_pending s n).
Proof. simpl. by intros ->. Qed.

Lemma sub_step_modal env ls s e s' out :
  enabled s e -> step env ls s e = (s', out) ->
  modal_of s' = modal_of s \/ modal_of s' = closed_modal \/ showModal s' = true.
Proof.
  intros Hen Hst.
  destruct e; simpl in Hst; injection Hst as <- _ || (unfold handleDelete, handleSubmit in Hst);
    simpl in *; try (right; right; by destruct Hen); try (left; reflexivity); try (right; left; reflexivity).
  - destruct confirmed; simpl in Hst; injection Hst as <- _; left; reflexivity.
  - right; right. destruct (_ || _); [|destruct (editingSubcategory s)]; injection Hst as <- _; done.
  - destruct (lookup_pending s n) as [k|]; [|injection Hst as <- _; left; reflexivity].
    pose proof (sub_resume_modal env ls k c (drop_pending s n)) as H.
    rewrite Hst in H. simpl in H. destruct H as [H|H]; [left|right; left]; exact H.
Qed.

(** ** Properties *)

(** In every state the Subcategories tab can reach, a closed modal
    holds the default form and no subcategory under edit. *)
Theorem sub_closed_modal_invariant env s :
  reachable env s -> showModal s = false ->
  editingSubcategory s = None /\ formData s = empty_form.
Proof.
  intros [ls Hr] Hc.
  pose proof (closed_modal_preserved (sub_machine env) modal_of showModal closed_modal
                (fun s t H => f_equal (fun m => fst (fst m)) H) (sub_step_modal env)
                (mounted env ls) s (fun _ => eq_refl) Hr Hc) as H.
  injection H as _ H1 H2. by split.
Qed.

Lemma sub_closed_modal_invariant_witness :
  reachable None (mounted None ∅) /\ showModal (mounted None ∅) = false /\
  editingSubcategory (mounted None ∅) = None /\ formData (mounted None ∅) = empty_form.
Proof.
  assert (H : reachable None (mounted None ∅)) by (exists ∅; constructor).
  split; [exact H|]. split; [reflexivity|]. exact (sub_closed_modal_invariant None _ H eq_refl).
Defined.

(** A submit with no parent category, no name or no slug changes
    nothing and sends nothing. *)
Theorem sub_submit_guard env ls s :
  f_categorySlug (formData s) = "" \/ f_name (formData s) = "" \/ f_slug (formData s) = "" ->
  handleSubmit env ls s = (s, []).
Proof.
  intros H. unfold handleSubmit.
  destruct H as [H|[H|H]]; rewrite H; simpl; [done| |]; by rewrite ?orb_true_r.
Qed.

Definition no_parent : state :=
  {| (mounted None ∅) with showModal := true; formData := mkForm "" "Solitaire" "solitaire" "" "" 0 true |}.

(** The modal's button is enabled exactly when a click on it sends a
    request; it reads [Update] exactly when a subcategory is under edit. *)
Theorem sub_submit_button_matches_handler env ls s v :
  render_modal s = Some v ->
  (mv_submit_disabled v = false <-> snd (handleSubmit env ls s) <> []) /\
  (mv_submit_label v = "Update" <-> editingSubcategory s <> None).
Proof.
  unfold render_modal, handleSubmit. destruct (showModal s); [|done]. intros [= <-]. cbn.
  split; [apply guard_request |]; by destruct (editingSubcategory s).
Qed.

Lemma sub_submit_guard_witness :
  (f_categorySlug (formData no_parent) = "" \/ f_name (formData no_parent) = ""
   \/ f_slug (formData no_parent) = "") /\
  handleSubmit None ∅ no_parent = (no_parent, []).
Proof.
  assert (H : f_categorySlug (formData no_parent) = "" \/ f_name (formData no_parent) = ""
              \/ f_slug (formData no_parent) = "") by (left; reflexivity).
  split; [exact H | exact (sub_submit_guard None ∅ _ H)].
Defined.

(** A failed save or delete of a subcategory changes nothing the page
    shows: the modal, the form, the lists and the loading flag stay as
    they were, no request is sent, and the error only reaches the
    browser console. *)
Theorem sub_write_failure_silent env ls s n k r m :
  lookup_pending s n = Some k -> k <> KFetchData -> handleResponse r = Err m ->
  let '(s', out) := step env ls s (Complete n (CWritten r)) in
  view s' = view s /\ out = [] /\
  console s' = console s ++ [(if k is KSubmit then "Error saving subcategory:"
                              else "Error deleting subcategory:", m)].
Proof.
  intros Hk Hnf Hr. rewrite (sub_step_complete _ _ _ _ _ _ Hk).
  destruct k; [done| |]; simpl; rewrite Hr; simpl; by repeat split.
Qed.

Definition save_pending : state :=
  {| (mounted None ∅) with pending := [(4, KSubmit)]; showModal := true; loading := false;
     formData := mkForm "rings" "Solitaire" "solitaire" "" "" 0 true |}.

Lemma sub_write_failure_silent_witness :
  lookup_pending save_pending 4 = Some KSubmit /\ KSubmit <> KFetchData /\
  handleResponse (A := unit) (RespFail 500 "Internal Server Error" (Some (Some "Database error")))
    = Err "Database error" /\
  view (fst (step None ∅ save_pending
               (Complete 4 (CWritten (RespFail 500 "Internal Server Error" (Some (Some "Database error")))))))
    = view save_pending.
Proof.
  split; [reflexivity|]. split; [discriminate|]. split; [reflexivity|].
  pose proof (sub_write_failure_silent None ∅ save_pending 4 KSubmit
                (RespFail 500 "Internal Server Error" (Some (Some "Database error"))) "Database error"
                eq_refl ltac:(discriminate) eq_refl) as H.
  destruct (step _ _ _ _) as [s' out]. simpl. destruct H as (H & _). exact H.
Defined.

(** The two lists are loaded together: when the fetch of either
    fails, neither list changes; when both succeed, both are replaced;
    in both cases loading ends and nothing is sent. *)
Theorem sub_fetch_all_or_nothing env ls s n rs rc :
  lookup_pending s n = Some KFetchData ->
  let '(s', out) := step env ls s (Complete n (CFetchedData rs rc)) in
  loading s' = false /\ out = [] /\
  (subcategories s', categories s') =
    match handleResponse rs, handleResponse rc with
    | Ok subs, Ok cats => (subs, cats)
    | _, _ => (subcategories s, categories s)
    end.
Proof.
  intros Hk. rewrite (sub_step_complete _ _ _ _ _ _ Hk). simpl.
  destruct (handleResponse rs), (handleResponse rc); simpl; by repeat split.
Qed.

Lemma sub_fetch_all_or_nothing_witness :
  lookup_pending (mounted None ∅) 0 = Some KFetchData /\
  subcategories (fst (step None ∅ (mounted None ∅)
    (Complete 0 (CFetchedData (RespOk (Some [sample_sub "solitaire" 1])) (NetworkError "Failed to fetch")))))
  = [].
Proof.
  split; [reflexivity|].
  pose proof (sub_fetch_all_or_nothing None ∅ (mounted None ∅) 0
                (RespOk (Some [sample_sub "solitaire" 1])) (NetworkError "Failed to fetch") eq_refl) as H.
  destruct (step _ _ _ _) as [s' out]. destruct H as (_ & _ & H). simpl in H.
  injection H as H _. exact H.
Defined.

(** When a save succeeds, the modal closes with the default form and
    no subcategory under edit, and both lists are fetched again: the
    requests sent are [GET /subcategories] and [GET /categories]. *)
Theorem sub_submit_success_reloads env ls s n r u :
  lookup_pending s n = Some KSubmit -> handleResponse r = Ok u ->
  let '(s', out) := step env ls s (Complete n (CWritten r)) in
  modal_of s' = closed_modal /\ loading s' = true /\
  out = [mkRequest GET (base env +++ "/subcategories") (json_headers (getAuthToken ls)) None;
         mkRequest GET (base env +++ "/categories") (json_headers (getAuthToken ls)) None].
Proof.
  intros Hk Hr. rewrite (sub_step_complete _ _ _ _ _ _ Hk). simpl. rewrite Hr. simpl.
  repeat split.
Qed.

Lemma sub_submit_success_reloads_witness :
  lookup_pending save_pending 4 = Some KSubmit /\
  handleResponse (A := unit) (RespOk (Some tt)) = Ok tt /\
  modal_of (fst (step None ∅ save_pending (Complete 4 (CWritten (RespOk (Some tt)))))) = closed_modal.
Proof.
  split; [reflexivity|]. split; [reflexivity|].
  pose proof (sub_submit_success_reloads None ∅ save_pending 4 (RespOk (Some tt)) tt eq_refl eq_refl) as H.
  destruct (step _ _ _ _) as [s' out]. simpl. destruct H as (H & _). exact H.
Defined.

End SubcategoriesTab.
