(* ===== verification/ProductsTab.v ===== *)
(** * The Products tab of the admin console

    [src/src/components/admin/ProductsTab.jsx]: the component's state
    (lines 89-131) as the record [state] and each handler as a function
    from a state to the next state and the requests it sends, with the
    completion of a request as an event that resumes its await.  The tab
    fetches three collections at once ([Promise.all], lines 148-163),
    reports failures with [console.error] only, and offers, in its form,
    the subcategories of the selected category: the state
    [filteredSubcategories] that the effect of lines 137-146 recomputes
    after every change of the selected category or of the fetched
    subcategories is, between events, always [subcategoriesOf] of them,
    so the model derives it ([options]).

    The theorems: the closed modal always holds the default form and no
    product under edit; changing the category clears the subcategory and
    offers exactly the subcategories of the new category; while a
    product is being created it never has a subcategory without a
    category; submit sends nothing unless the name, slug, category and
    SKU are set; a failed write changes nothing the page shows; a fetch
    sets the three lists or none; the price input reads its value with
    [parseFloat] and falls back to 0.  The modal is rendered
    ([render_modal]): its button is enabled exactly when a click sends a
    request. *)

From Stdlib Require Import QArith.
From S2P Require Import Prelude Slug Catalog Api TabMachine.

#[local] Open Scope list_scope.
#[local] Open Scope nitai_scope.

Module ProductsTab.
Import Slug Catalog Http Storage TabApi TabMachine.

(** ** State *)

(** [formData] (lines 99-131): a product without its [id]. *)
Record form := mkForm {
  pf_name : string;
  pf_slug : string;
  pf_categorySlug : string;
  pf_subCategorySlug : string;
  pf_sku : string;
  pf_pricing : Pricing;
  pf_details : Details;
  pf_images : list string;
  pf_tags : list string;
  pf_inventory : Inventory;
  pf_isActive : bool
}.

(** The defaults of the nested objects (lines 104-128, 239-266). *)
Definition default_pricing : Pricing := mkPricing 0 0 true [].
Definition default_details : Details :=
  mkDetails "" "" "" "" 0 0 0 "" "" "" "".
Definition default_inventory : Inventory := mkInventory 0 true.

(** The default form (lines 99-131 and 237-267). *)
Definition empty_form : form :=
  mkForm "" "" "" "" "" default_pricing default_details [] [] default_inventory true.

Inductive cont :=
| KFetchData   (** [fetchData] after [Promise.all] *)
| KSubmit      (** [handleSubmit] after [update] or [create] *)
| KDelete.     (** [handleDelete] after [delete] *)

Inductive completion :=
| CFetchedData (prods : response (list Product)) (cats : response (list Category))
               (subs : response (list Subcategory))
| CWritten (r : response unit).

Record state := mkState {
  products : list Product;
  categories : list Category;
  subcategories : list Subcategory;
  loading : bool;
  showModal : bool;
  editingProduct : option Product;
  searchTerm : string;
  formData : form;
  console : list (string * string);
  pending : list (nat * cont);
  next_id : nat
}.

(** The state before the mount effect (lines 89-131). *)
Definition initial_state : state :=
  mkState [] [] [] true false None "" empty_form [] [] 0.

(** The subcategory options of the form: [filteredSubcategories]
    (lines 93 and 137-146). *)
Definition options (s : state) : list Subcategory :=
  subcategoriesOf (pf_categorySlug (formData s)) (subcategories s).

Abbreviation req := (request form).

(** ** Handlers *)

Section Handlers.
Context (env : option string).

Definition base : string := API_BASE_URL env.

Definition await (k : cont) (s : state) : state :=
  {| s with pending := (next_id s, k) :: pending s; next_id := S (next_id s) |}.

Definition logError (label message : string) (s : state) : state :=
  {| s with console := console s ++ [(label, message)] |}.

(** [fetchData] up to its [await] (lines 148-155). *)
Definition fetchData (ls : storage) (s : state) : state * list req :=
  (await KFetchData {| s with loading := true |},
   [productAPI_getAll base ls; categoryAPI_getAll base ls; subcategoryAPI_getAll base ls]).

(** [handleCloseModal] (lines 234-268). *)
Definition handleCloseModal (s : state) : state :=
  {| s with showModal := false; editingProduct := None; formData := empty_form |}.

(** [handleSubmit] up to its [await] (lines 169-177). *)
Definition handleSubmit (ls : storage) (s : state) : state * list req :=
  let fd := formData s in
  if negb (js_truthy_str (pf_name fd)) || negb (js_truthy_str (pf_slug fd))
     || negb (js_truthy_str (pf_categorySlug fd)) || negb (js_truthy_str (pf_sku fd)) then (s, [])
  else match editingProduct s with
       | Some p => (await KSubmit s, [productAPI_update base ls (prod_id p) fd])
       | None => (await KSubmit s, [productAPI_create base ls fd])
       end.

(** [handleDelete] up to its [await] (lines 185-189). *)
Definition handleDelete (ls : storage) (id : string) (confirmed : bool) (s : state)
  : state * list req :=
  if negb confirmed then (s, [])
  else (await KDelete s, [productAPI_delete base ls id]).

(** [handleEdit] (lines 196-232). *)
Definition handleEdit (p : Product) (s : state) : state :=
  {| s with editingProduct := Some p;
            formData := mkForm (prod_name p) (prod_slug p) (prod_categorySlug p)
                               (prod_subCategorySlug p) (prod_sku p) (prod_pricing p)
                               (prod_details p) (prod_images p) (prod_tags p)
                               (prod_inventory p) (prod_isActive p);
            showModal := true |}.

(** The name input (lines 436-440). *)
Definition onNameChange (v : string) (s : state) : state :=
  let fd := formData s in
  {| s with formData := {| fd with pf_name := v;
       pf_slug := match editingProduct s with Some _ => pf_slug fd | None => generateSlug v end |} |}.

Definition onSkuChange (v : string) (s : state) : state :=          (* 451 *)
  let fd := formData s in {| s with formData := {| fd with pf_sku := v |} |}.
Definition onSlugChange (v : string) (s : state) : state :=         (* 463 *)
  let fd := formData s in {| s with formData := {| fd with pf_slug := v |} |}.

(** The category select (line 474): the subcategory is cleared. *)
Definition onCategoryChange (v : string) (s : state) : state :=
  let fd := formData s in
  {| s with formData := {| fd with pf_categorySlug := v; pf_subCategorySlug := "" |} |}.

Definition onSubcategoryChange (v : string) (s : state) : state :=  (* 488 *)
  let fd := formData s in {| s with formData := {| fd with pf_subCategorySlug := v |} |}.

(** The price input (line 506): [parseFloat(value) || 0]. *)
Definition onBasePriceChange (v : string) (s : state) : state :=
  let fd := formData s in
  let pr := pf_pricing fd in
  {| s with formData := {| fd with pf_pricing := {| pr with basePrice := js_parseFloat_or_zero v |} |} |}.

(** The stock input (line 516): [parseInt(value) || 0]. *)
Definition onStockChange (v : string) (s : state) : state :=
  let fd := formData s in
  let inv := pf_inventory fd in
  {| s with formData := {| fd with pf_inventory := {| inv with stock := js_parseInt_or_zero v |} |} |}.

Definition onMetalChange (v : string) (s : state) : state :=        (* 527 *)
  let fd := formData s in
  let d := pf_details fd in
  {| s with formData := {| fd with pf_details := {| d with metal := v |} |} |}.

Definition onActiveChange (b : bool) (s : state) : state :=         (* 537 *)
  let fd := formData s in {| s with formData := {| fd with pf_isActive := b |} |}.

(** The rest of each awaiting handler. *)
Definition resume (ls : storage) (k : cont) (c : completion) (s : state) : state * list req :=
  match k, c with
  | KFetchData, CFetchedData rp rc rs =>                               (* 156-162 *)
      match promise_all3 (handleResponse rp) (handleResponse rc) (handleResponse rs) with
      | Ok (ps, cats, subs) =>
          ({| s with products := ps; categories := cats; subcategories := subs; loading := false |}, [])
      | Err m => (let s1 := logError "Error fetching data:" m s in {| s1 with loading := false |}, [])
      end
  | KSubmit, CWritten r =>                                             (* 174-182 *)
      match handleResponse r with
      | Ok _ => let '(s1, out) := fetchData ls s in (handleCloseModal s1, out)
      | Err m => (logError "Error saving product:" m s, [])
      end
  | KDelete, CWritten r =>                                             (* 188-193 *)
      match handleResponse r with
      | Ok _ => fetchData ls s
      | Err m => (logError "Error deleting product:" m s, [])
      end
  | _, _ => (s, [])
  end.
End Handlers.

(** ** Events *)

Inductive event :=
| ClickAdd                                     (* 303 *)
| ClickEdit (p : Product)                      (* 344 *)
| ClickDelete (id : string) (confirmed : bool) (* 350 *)
| CloseModal                                   (* 421, 545 *)
| InputName (v : string)
| InputSku (v : string)
| InputSlug (v : string)
| InputCategory (v : string)
| InputSubcategory (v : string)
| InputBasePrice (v : string)
| InputStock (v : string)
| InputMetal (v : string)
| InputActive (b : bool)
| InputSearch (v : string)                     (* 319 *)
| ClickSubmit                                  (* 551 *)
| Complete (n : nat) (c : completion).

Definition lookup_pending (s : state) (n : nat) : option cont :=
  option_map snd (find (fun p => Nat.eqb (fst p) n) (pending s)).

Definition drop_pending (s : state) (n : nat) : state :=
  {| s with pending := List.filter (fun p => negb (Nat.eqb (fst p) n)) (pending s) |}.

Definition step (env : option string) (ls : storage) (s : state) (e : event) : state * list req :=
  match e with
  | ClickAdd => ({| s with showModal := true |}, [])
  | ClickEdit p => (handleEdit p s, [])
  | ClickDelete id confirmed => handleDelete env ls id confirmed s
  | CloseModal => (handleCloseModal s, [])
  | InputName v => (onNameChange v s, [])
  | InputSku v => (onSkuChange v s, [])
  | InputSlug v => (onSlugChange v s, [])
  | InputCategory v => (onCategoryChange v s, [])
  | InputSubcategory v => (onSubcategoryChange v s, [])
  | InputBasePrice v => (onBasePriceChange v s, [])
  | InputStock v => (onStockChange v s, [])
  | InputMetal v => (onMetalChange v s, [])
  | InputActive b => (onActiveChange b s, [])
  | InputSearch v => ({| s with searchTerm := v |}, [])
  | ClickSubmit => handleSubmit env ls s
  | Complete n c =>
      match lookup_pending s n with
      | Some k => resume env ls k c (drop_pending s n)
      | None => (s, [])
      end
  end.

(** Which events the page lets happen.  The category select offers the
    empty option and the loaded categories (lines 476-479); the
    subcategory select is disabled while no category is selected
    (line 489) and offers the empty option and [options] (490-493). *)
Definition enabled (s : state) (e : event) : Prop :=
  match e with
  | ClickAdd | InputSearch _ => showModal s = false
  | ClickEdit p => showModal s = false /\ loading s = false
                   /\ In p (filteredProducts (searchTerm s) (products s))
  | ClickDelete id _ => showModal s = false /\ loading s = false
                   /\ exists p, In p (filteredProducts (searchTerm s) (products s)) /\ prod_id p = id
  | InputCategory v => showModal s = true /\ (v = "" \/ exists c, In c (categories s) /\ cat_slug c = v)
  | InputSubcategory v => showModal s = true /\ pf_categorySlug (formData s) <> ""
                   /\ (v = "" \/ exists sub, In sub (options s) /\ sub_slug sub = v)
  | CloseModal | InputName _ | InputSku _ | InputSlug _ | InputBasePrice _ | InputStock _
  | InputMetal _ | InputActive _ | ClickSubmit => showModal s = true
  | Complete n _ => exists k, In (n, k) (pending s)
  end.

Definition enabledb (s : state) (e : event) : bool :=
  match e with
  | ClickAdd | InputSearch _ => negb (showModal s)
  | ClickEdit p => negb (showModal s) && negb (loading s)
                   && bool_decide (p ∈ filteredProducts (searchTerm s) (products s))
  | ClickDelete id _ => negb (showModal s) && negb (loading s)
                   && existsb (fun p => prod_id p ==? id) (filteredProducts (searchTerm s) (products s))
  | InputCategory v => showModal s && ((v ==? "") || existsb (fun c => cat_slug c ==? v) (categories s))
  | InputSubcategory v => showModal s && negb (pf_categorySlug (formData s) ==? "")
                   && ((v ==? "") || existsb (fun sub => sub_slug sub ==? v) (options s))
  | CloseModal | InputName _ | InputSku _ | InputSlug _ | InputBasePrice _ | InputStock _
  | InputMetal _ | InputActive _ | ClickSubmit => showModal s
  | Complete n _ => existsb (fun p => Nat.eqb (fst p) n) (pending s)
  end.

Lemma prod_enabledb_enabled s e : enabledb s e = true -> enabled s e.
Proof.
  destruct e; simpl; intros H; bool_to_prop; repeat split;
    try (by destruct (showModal s)); try (by destruct (loading s)).
  - apply bool_decide_eq_true in H0. by apply list_elem_of_In in H0.
  - apply existsb_exists in H0 as (p & Hp & Hid). bool_to_prop. eauto.
  - apply orb_true_iff in H0 as [H0|H0]; [left; by apply String.eqb_eq|right].
    apply existsb_exists in H0 as (c & Hc & Hv). bool_to_prop. eauto.
  - intros Hc. rewrite Hc in H1. discriminate.
  - apply orb_true_iff in H0 as [H0|H0]; [left; by apply String.eqb_eq|right].
    apply existsb_exists in H0 as (sub & Hs & Hv). bool_to_prop. eauto.
  - apply existsb_exists in H as ([m k] & Hin & Hm). simpl in Hm. bool_to_prop. subst. eauto.
Qed.

(** The tab as a [machine] of [TabMachine]. *)
Definition prod_machine (env : option string) : machine storage state event req :=
  Machine (step env) enabled enabledb prod_enabledb_enabled.

(** The state after the mount effect (lines 133-135). *)
Definition mounted (env : option string) (ls : storage) : state :=
  fst (fetchData env ls initial_state).

Definition reachable (env : option string) (s : state) : Prop :=
  exists ls, star (tab_step (prod_machine env)) (mounted env ls) s.

(** ** The modal as rendered *)

(** The modal (lines 413-561): its title, the inputs showing the form,
    the category select and the subcategory select with their options
    (value, text) and the latter's [disabled], and the submit button's
    label and [disabled]. *)
Record modal_view := mkModalView {
  mv_title : string;
  mv_name : string;
  mv_sku : string;
  mv_slug : string;
  mv_category_options : list (string * string);
  mv_categorySlug : string;
  mv_subcategory_options : list (string * string);
  mv_subCategorySlug : string;
  mv_subcategory_disabled : bool;
  mv_basePrice : Q;
  mv_stock : Z;
  mv_metal : string;
  mv_isActive : bool;
  mv_submit_label : string;
  mv_submit_disabled : bool
}.

Definition render_modal (s : state) : option modal_view :=
  if showModal s then
    let fd := formData s in
    let editing := match editingProduct s with Some _ => true | None => false end in
    Some {| mv_title := if editing then "Edit Product" else "Add Product";
            mv_name := pf_name fd; mv_sku := pf_sku fd; mv_slug := pf_slug fd;
            mv_category_options := ("", "Select category") :: map (fun c => (cat_slug c, cat_name c)) (categories s);
            mv_categorySlug := pf_categorySlug fd;
            mv_subcategory_options := ("", "Select subcategory") :: map (fun c => (sub_slug c, sub_name c)) (options s);
            mv_subCategorySlug := pf_subCategorySlug fd;
            mv_subcategory_disabled := negb (js_truthy_str (pf_categorySlug fd));
            mv_basePrice := basePrice (pf_pricing fd);
            mv_stock := stock (pf_inventory fd);
            mv_metal := metal (pf_details fd);
            mv_isActive := pf_isActive fd;
            mv_submit_label := if editing then "Update" else "Create";
            mv_submit_disabled := negb (js_truthy_str (pf_categorySlug fd)) || negb (js_truthy_str (pf_name fd))
                                  || negb (js_truthy_str (pf_slug fd)) || negb (js_truthy_str (pf_sku fd)) |}
  else None.

(** ** Lemmas *)

Definition modal_of (s : state) : bool * option Product * form :=
  (showModal s, editingProduct s, formData s).

Definition closed_modal : bool * option Product * form := (false, None, empty_form).

(** What the page renders: everything but the console and the
    bookkeeping of pending calls. *)
Definition view (s : state) :=
  (products s, categories s, subcategories s, loading s, modal_of s, searchTerm s).

Lemma prod_resume_modal env ls k c s :
  modal_of (fst (resume env ls k c s)) = modal_of s \/
  modal_of (fst (resume env ls k c s)) = closed_modal.
Proof.
  destruct k, c; simpl; try (left; reflexivity);
    try destruct (promise_all3 _ _ _) as [[[]]|]; try destruct (handleResponse _); simpl; auto.
Qed.

Lemma prod_step_complete env ls s n c k :
  lookup_pending s n = Some k -> step env ls s (Complete n c) = resume env ls k c (drop_pending s n).
Proof. simpl. by intros ->. Qed.

Lemma prod_step_modal env ls s e s' out :
  enabled s e -> step env ls s e = (s', out) ->
  modal_of s' = modal_of s \/ modal_of s' = closed_modal \/ showModal s' = true.
Proof.
  intros Hen Hst.
  destruct e; simpl in Hst; injection Hst as <- _ || (unfold handleDelete, handleSubmit in Hst);
    simpl in *; try (right; right; by destruct Hen); try (left; reflexivity); try (right; left; reflexivity).
  - destruct confirmed; simpl in Hst; injection Hst as <- _; left; reflexivity.
  - right; right. destruct (_ || _); [|destruct (editingProduct s)]; injection Hst as <- _; done.
  - destruct (lookup_pending s n) as [k|]; [|injection Hst as <- _; left; reflexivity].
    pose proof (prod_resume_modal env ls k c (drop_pending s n)) as H.
    rewrite Hst in H. simpl in H. destruct H as [H|H]; [left|right; left]; exact H.
Qed.

(** The statement of the creation invariant, and its transfer along
    states that agree on the record under edit and the two slugs. *)
Definition sub_needs_category (s : state) : Prop :=
  editingProduct s = None -> pf_subCategorySlug (formData s) <> "" -> pf_categorySlug (formData s) <> "".

Definition creation_slugs (s : state) : option Product * string * string :=
  (editingProduct s, pf_categorySlug (formData s), pf_subCategorySlug (formData s)).

Lemma sub_needs_category_slugs s t :
  creation_slugs t = creation_slugs s -> sub_needs_category s -> sub_needs_category t.
Proof. unfold sub_needs_category, creation_slugs. intros [= -> -> ->]. done. Qed.

Lemma sub_needs_category_no_sub s :
  pf_subCategorySlug (formData s) = "" -> sub_needs_category s.
Proof. unfold sub_needs_category. intros -> _ []. reflexivity. Qed.

Lemma creation_slugs_modal s t : modal_of t = modal_of s -> creation_slugs t = creation_slugs s.
Proof. unfold modal_of, creation_slugs. intros [= _ -> ->]. reflexivity. Qed.

(** ** Properties *)

(** In every state the Products tab can reach, a closed modal holds
    the default form and no product under edit. *)
Theorem prod_closed_modal_invariant env s :
  reachable env s -> showModal s = false ->
  editingProduct s = None /\ formData s = empty_form.
Proof.
  intros [ls Hr] Hc.
  pose proof (closed_modal_preserved (prod_machine env) modal_of showModal closed_modal
                (fun s t H => f_equal (fun m => fst (fst m)) H) (prod_step_modal env)
                (mounted env ls) s (fun _ => eq_refl) Hr Hc) as H.
  injection H as _ H1 H2. by split.
Qed.

Lemma prod_closed_modal_invariant_witness :
  reachable None (mounted None ∅) /\ showModal (mounted None ∅) = false /\
  editingProduct (mounted None ∅) = None /\ formData (mounted None ∅) = empty_form.
Proof.
  assert (H : reachable None (mounted None ∅)) by (exists ∅; constructor).
  split; [exact H|]. split; [reflexivity|]. exact (prod_closed_modal_invariant None _ H eq_refl).
Defined.

(** C12: choosing a category in the product form clears the subcategory,
    and the subcategories then offered are exactly the fetched ones of
    that category (none for the empty choice), in their fetched order. *)
Theorem category_change_clears_subcategory v s :
  pf_categorySlug (formData (onCategoryChange v s)) = v /\
  pf_subCategorySlug (formData (onCategoryChange v s)) = "" /\
  options (onCategoryChange v s) `sublist_of` subcategories s /\
  (forall sub, In sub (options (onCategoryChange v s)) <->
               v <> "" /\ In sub (subcategories s) /\ sub_categorySlug sub = v).
Proof.
  unfold options, subcategoriesOf. simpl. split; [done|]. split; [done|].
  destruct (js_truthy_str v) eqn:Hv.
  - apply js_truthy_str_true in Hv. split; [apply filter_sublist|].
    intros sub. rewrite filter_In, String.eqb_eq. tauto.
  - apply js_truthy_str_false in Hv. split; [apply sublist_nil_l|]. simpl. tauto.
Qed.

(** C11: while a product is being created, the form never holds a
    subcategory without a category: the subcategory select is disabled
    until a category is chosen, and choosing a category clears it. *)
Theorem prod_subcategory_needs_category env s :
  reachable env s -> editingProduct s = None ->
  pf_subCategorySlug (formData s) <> "" -> pf_categorySlug (formData s) <> "".
Proof.
  intros [ls Hr]. revert Hr. fold (sub_needs_category s).
  apply (star_invariant _ sub_needs_category); [|by intros _ ?].
  intros x y (ls' & e & out & Hen & Hst) Hx.
  destruct e; simpl in Hst;
    try (injection Hst as <- _; apply (sub_needs_category_slugs x); [reflexivity|exact Hx]).
  - injection Hst as <- _. intros H. discriminate H.
  - unfold handleDelete in Hst. destruct confirmed; simpl in Hst; injection Hst as <- _;
      apply (sub_needs_category_slugs x); [reflexivity|exact Hx| reflexivity|exact Hx].
  - injection Hst as <- _. by apply sub_needs_category_no_sub.
  - injection Hst as <- _. by apply sub_needs_category_no_sub.
  - injection Hst as <- _. intros _ _. by destruct Hen as (_ & ? & _).
  - unfold handleSubmit in Hst. destruct (_ || _); [|destruct (editingProduct x)];
      injection Hst as <- _; apply (sub_needs_category_slugs x); done.
  - destruct (lookup_pending x n) as [k|]; [|injection Hst as <- _; exact Hx].
    pose proof (prod_resume_modal env ls' k c (drop_pending x n)) as [H|H]; rewrite Hst in H;
      simpl in H.
    + apply (sub_needs_category_slugs (drop_pending x n)); [by apply creation_slugs_modal|exact Hx].
    + apply sub_needs_category_no_sub. unfold modal_of in H. by injection H as _ _ ->.
Qed.

(** Load one category with one subcategory, open the form, choose both. *)
Definition choose_trace : list event := [
  Complete 0 (CFetchedData (RespOk (Some [])) (RespOk (Some [sample_cat "rings" "Rings"]))
                           (RespOk (Some [sample_sub "solitaire" 1])));
  ClickAdd; InputCategory "rings"; InputSubcategory "solitaire"].

Lemma prod_subcategory_needs_category_witness :
  match run (prod_machine None) ∅ (mounted None ∅) choose_trace with
  | Some (s, _) => reachable None s /\ editingProduct s = None /\
                   pf_subCategorySlug (formData s) <> "" /\ pf_categorySlug (formData s) <> ""
  | None => False
  end.
Proof.
  destruct (run (prod_machine None) ∅ (mounted None ∅) choose_trace) as [[s out]|] eqn:E;
    [|vm_compute in E; discriminate].
  assert (Hr : reachable None s) by (exists ∅; exact (run_reachable _ _ _ _ _ _ E)).
  vm_compute in E. injection E as <- _.
  split; [exact Hr|]. split; [reflexivity|]. split; [discriminate|].
  apply (prod_subcategory_needs_category None _ Hr); [reflexivity|discriminate].
Defined.

(** A submit with no name, slug, category or SKU changes nothing and
    sends nothing; the subcategory is optional. *)
Theorem prod_submit_guard env ls s :
  pf_name (formData s) = "" \/ pf_slug (formData s) = "" \/
  pf_categorySlug (formData s) = "" \/ pf_sku (formData s) = "" ->
  handleSubmit env ls s = (s, []).
Proof.
  intros H. unfold handleSubmit.
  destruct H as [H|[H|[H|H]]]; rewrite H; simpl; [done| | |]; by rewrite ?orb_true_r.
Qed.

Definition no_sku : state :=
  {| (mounted None ∅) with showModal := true;
     formData := {| empty_form with pf_name := "Solitaire Ring"; pf_slug := "solitaire-ring";
                                    pf_categorySlug := "rings" |} |}.

(** The modal's button is enabled exactly when a click on it sends a
    request (its test lists the same four fields as [handleSubmit]'s
    guard, in another order); it reads [Update] exactly when a product
    is under edit. *)
Theorem prod_submit_button_matches_handler env ls s v :
  render_modal s = Some v ->
  (mv_submit_disabled v = false <-> snd (handleSubmit env ls s) <> []) /\
  (mv_submit_label v = "Update" <-> editingProduct s <> None).
Proof.
  unfold render_modal, handleSubmit. destruct (showModal s); [|done]. intros [= <-]. cbn.
  assert (Hg : forall a b c d : bool, negb c || negb a || negb b || negb d = negb a || negb b || negb c || negb d)
    by (intros [] [] [] []; reflexivity).
  rewrite Hg. split; [apply guard_request |]; by destruct (editingProduct s).
Qed.

Lemma prod_submit_guard_witness :
  (pf_name (formData no_sku) = "" \/ pf_slug (formData no_sku) = "" \/
   pf_categorySlug (formData no_sku) = "" \/ pf_sku (formData no_sku) = "") /\
  handleSubmit None ∅ no_sku = (no_sku, []).
Proof.
  assert (H : pf_name (formData no_sku) = "" \/ pf_slug (formData no_sku) = "" \/
              pf_categorySlug (formData no_sku) = "" \/ pf_sku (formData no_sku) = "")
    by (right; right; right; reflexivity).
  split; [exact H | exact (prod_submit_guard None ∅ _ H)].
Defined.

(** A failed save or delete of a product changes nothing the page
    shows, sends nothing, and only logs the error to the console. *)
Theorem prod_write_failure_silent env ls s n k r m :
  lookup_pending s n = Some k -> k <> KFetchData -> handleResponse r = Err m ->
  let '(s', out) := step env ls s (Complete n (CWritten r)) in
  view s' = view s /\ out = [] /\
  console s' = console s ++ [(if k is KSubmit then "Error saving product:"
                              else "Error deleting product:", m)].
Proof.
  intros Hk Hnf Hr. rewrite (prod_step_complete _ _ _ _ _ _ Hk).
  destruct k; [done| |]; simpl; rewrite Hr; simpl; by repeat split.
Qed.

Definition save_pending : state :=
  {| no_sku with pending := [(3, KSubmit)]; loading := false |}.

Lemma prod_write_failure_silent_witness :
  lookup_pending save_pending 3 = Some KSubmit /\ KSubmit <> KFetchData /\
  handleResponse (A := unit) (RespFail 400 "Bad Request" (Some (Some "SKU already exists")))
    = Err "SKU already exists" /\
  view (fst (step None ∅ save_pending
               (Complete 3 (CWritten (RespFail 400 "Bad Request" (Some (Some "SKU already exists")))))))
    = view save_pending.
Proof.
  split; [reflexivity|]. split; [discriminate|]. split; [reflexivity|].
  pose proof (prod_write_failure_silent None ∅ save_pending 3 KSubmit
                (RespFail 400 "Bad Request" (Some (Some "SKU already exists"))) "SKU already exists"
                eq_refl ltac:(discriminate) eq_refl) as H.
  destruct (step _ _ _ _) as [s' out]. simpl. destruct H as (H & _). exact H.
Defined.

(** The three lists are loaded together: when any of the three
    fetches fails none of the lists changes; when all succeed all are
    replaced; loading ends either way. *)
Theorem prod_fetch_all_or_nothing env ls s n rp rc rs :
  lookup_pending s n = Some KFetchData ->
  let '(s', out) := step env ls s (Complete n (CFetchedData rp rc rs)) in
  loading s' = false /\ out = [] /\
  (products s', categories s', subcategories s') =
    match handleResponse rp, handleResponse rc, handleResponse rs with
    | Ok ps, Ok cats, Ok subs => (ps, cats, subs)
    | _, _, _ => (products s, categories s, subcategories s)
    end.
Proof.
  intros Hk. rewrite (prod_step_complete _ _ _ _ _ _ Hk). simpl.
  destruct (handleResponse rp), (handleResponse rc), (handleResponse rs); simpl; by repeat split.
Qed.

Lemma prod_fetch_all_or_nothing_witness :
  lookup_pending (mounted None ∅) 0 = Some KFetchData /\
  categories (fst (step None ∅ (mounted None ∅)
    (Complete 0 (CFetchedData (RespOk (Some [])) (RespOk (Some [sample_cat "rings" "Rings"]))
                              (RespFail 401 "Unauthorized" (Some (Some "Invalid token")))))))
  = [].
Proof.
  split; [reflexivity|].
  pose proof (prod_fetch_all_or_nothing None ∅ (mounted None ∅) 0 (RespOk (Some []))
                (RespOk (Some [sample_cat "rings" "Rings"]))
                (RespFail 401 "Unauthorized" (Some (Some "Invalid token"))) eq_refl) as H.
  destruct (step _ _ _ _) as [s' out]. destruct H as (_ & _ & H). simpl in H.
  injection H as _ H _. exact H.
Defined.

(** The price input stores [parseFloat] of what was typed, and 0 when
    that is not a number or is zero: ["1499.50"] gives 1499.5, ["2e3"]
    gives 2000, the empty field and ["abc"] give 0. *)
Example base_price_input s :
  (basePrice (pf_pricing (formData (onBasePriceChange "1499.50" s))) == 2999 # 2)%Q /\
  (basePrice (pf_pricing (formData (onBasePriceChange "2e3" s))) == 2000)%Q /\
  (basePrice (pf_pricing (formData (onBasePriceChange "" s))) == 0)%Q /\
  (basePrice (pf_pricing (formData (onBasePriceChange "abc" s))) == 0)%Q.
Proof. repeat split; vm_compute; reflexivity. Qed.

End ProductsTab.
