(* ===== verification/Session.v ===== *)
(** * The browser session: [localStorage] shared by two authentication contexts

    Two providers keep a login in the same [localStorage]:
    - the admin console's [AuthProvider]
      ([src/src/contexts/AuthContext.jsx]) under the keys [adminToken]
      and [adminUser]; its mount effect ([checkAuth], lines 23-41) keeps
      a stored user only when it parses and has a truthy [isAdmin], and
      otherwise logs out, which clears both keys and navigates to
      [/login];
    - the storefront's [AuthProvider] ([src/src/contexts/CartContext.jsx]
      lines 242-281) under [authToken] and [user]; its mount effect
      (lines 247-256) parses the stored user without a [try], so a stored
      text that is not JSON throws out of the effect.

    The browser is a [world]: the storage, the current location (what
    [navigate] changes) and the console.  Each provider's state is a
    record and each of its functions maps a world and a state to the
    next ones; the mount effect of the storefront provider returns
    [Err] when it throws.

    The theorems: a login is read back by the next mount (through the
    JSON round trip of [Json]); the admin mount rejects a stored user who
    is not an admin and a stored text that is not JSON, and clears the
    session; the storefront mount throws on such a text; each provider
    only touches its own two keys, so logging in or out of one leaves the
    other's session as it was. *)

From stdpp Require Import gmap.
From S2P Require Import Prelude Api Json.

#[local] Open Scope list_scope.
#[local] Open Scope nitai_scope.

Module Session.
Import Http Storage Json.

(** The browser state the providers share. *)
Record world := mkWorld {
  ls : storage;                        (** [window.localStorage] *)
  location : string;                   (** the path [navigate] went to last *)
  console : list (string * string);    (** the [console.error] calls, in order *)
  alerts : list string                 (** the [window.alert] calls, in order *)
}.

Definition log (label message : string) (w : world) : world :=
  {| w with console := console w ++ [(label, message)] |}.

(** The message of the [TypeError] thrown by [null.isAdmin]. *)
Definition null_property_error : string := "Cannot read properties of null (reading 'isAdmin')".

(** A property read that may give [undefined] ([None]), tested for
    truthiness. *)
Definition opt_truthy_json (o : option json) : bool :=
  match o with Some v => json_truthy v | None => false end.

(** The stored token and user text, when both are set and non-empty
    ([token && userData]). *)
Definition stored_pair (l : storage) (tokenKey userKey : string) : option string :=
  match getItem l tokenKey, getItem l userKey with
  | Some t, Some u => if js_truthy_str t && js_truthy_str u then Some u else None
  | _, _ => None
  end.

(** ** The admin provider, [AuthContext.jsx] *)
Module AdminAuth.

Record state := mkState { user : json; loading : bool }.

(** [useState(null)], [useState(true)] (lines 15-16). *)
Definition initial : state := mkState JNull true.

Definition isAuthenticated (s : state) : bool := json_truthy (user s).

(** [logout] (lines 49-54). *)
Definition logout (w : world) (s : state) : world * state :=
  ({| w with ls := removeItem (removeItem (ls w) "adminToken") "adminUser"; location := "/login" |},
   {| s with user := JNull |}).

(** [login] (lines 43-47). *)
Definition login (token : string) (userData : json) (w : world) (s : state) : world * state :=
  ({| w with ls := setItem (setItem (ls w) "adminToken" token) "adminUser" (stringify userData) |},
   {| s with user := userData |}).

(** [checkAuth] (lines 23-41), run by the mount effect (lines 19-21). *)
Definition checkAuth (w : world) (s : state) : world * state :=
  let '(w', s') :=
    match stored_pair (ls w) "adminToken" "adminUser" with
    | Some userData =>
        match parse_text userData with
        | Some JNull => logout (log "Error parsing user data:" null_property_error w) s
        | Some parsedUser =>
            if opt_truthy_json (get_field "isAdmin" parsedUser) then (w, {| s with user := parsedUser |})
            else logout w s
        | None => logout (log "Error parsing user data:" json_parse_error w) s
        end
    | None => (w, s)
    end in
  (w', {| s' with loading := false |}).

End AdminAuth.

(** ** The storefront provider, [CartContext.jsx] lines 242-281 *)
Module StoreAuth.

Record state := mkState { user : json; isAuthenticated : bool; loading : bool }.

(** Lines 243-245. *)
Definition initial : state := mkState JNull false true.

(** The mount effect (lines 247-256); [Err] is the [SyntaxError] that
    [JSON.parse] throws out of the effect. *)
Definition mount (w : world) (s : state) : result state :=
  match stored_pair (ls w) "authToken" "user" with
  | Some userData =>
      match parse_text userData with
      | Some u => Ok {| user := u; isAuthenticated := true; loading := false |}
      | None => Err json_parse_error
      end
  | None => Ok {| s with loading := false |}
  end.

(** [login] (lines 258-263). *)
Definition login (userData : json) (token : string) (w : world) (s : state) : world * state :=
  ({| w with ls := setItem (setItem (ls w) "authToken" token) "user" (stringify userData) |},
   {| s with user := userData; isAuthenticated := true |}).

(** [logout] (lines 265-270). *)
Definition logout (w : world) (s : state) : world * state :=
  ({| w with ls := removeItem (removeItem (ls w) "authToken") "user" |},
   {| s with user := JNull; isAuthenticated := false |}).

End StoreAuth.

(** ** Lemmas *)

(** The keys each provider writes. *)
Definition admin_keys : list string := ["adminToken"; "adminUser"].
Definition store_keys : list string := ["authToken"; "user"].

(** Writing or removing a key leaves every other key as it was. *)
Lemma getItem_setItem_ne l k k' v : k <> k' -> getItem (setItem l k v) k' = getItem l k'.
Proof. intros H. unfold getItem, setItem. by rewrite lookup_insert_ne. Qed.

Lemma getItem_removeItem_ne l k k' : k <> k' -> getItem (removeItem l k) k' = getItem l k'.
Proof. intros H. unfold getItem, removeItem. by rewrite lookup_delete_ne. Qed.

Lemma getItem_setItem_eq l k v : getItem (setItem l k v) k = Some v.
Proof. unfold getItem, setItem. by rewrite lookup_insert_eq. Qed.

Lemma getItem_removeItem_eq l k : getItem (removeItem l k) k = None.
Proof. unfold getItem, removeItem. by rewrite lookup_delete_eq. Qed.

#[export] Hint Rewrite getItem_setItem_eq getItem_removeItem_eq : nitai_rw.

(** A stored pair written by a login is read back whole. *)
Lemma stored_pair_login l tk uk t u :
  tk <> uk -> js_truthy_str t = true -> js_truthy_str u = true ->
  stored_pair (setItem (setItem l tk t) uk u) tk uk = Some u.
Proof.
  intros Hne Ht Hu. unfold stored_pair.
  rewrite getItem_setItem_eq, getItem_setItem_ne, getItem_setItem_eq by done.
  by rewrite Ht, Hu.
Qed.

Lemma stringify_truthy v : js_truthy_str (stringify v) = true.
Proof. destruct (stringify_head v) as (c & t & -> & _). reflexivity. Qed.

(** An object with a truthy [isAdmin] is not [null]. *)
Lemma isAdmin_not_null u : opt_truthy_json (get_field "isAdmin" u) = true -> u <> JNull.
Proof. by intros H ->. Qed.

(** ** Properties *)

(** C30: an admin login is kept across a reload: after [login] with a
    non-empty token and a user whose [isAdmin] is truthy, the mount
    effect of the next page load restores exactly that user and leaves
    the storage and the location as they are. *)
Theorem admin_login_survives_reload token u w s :
  js_truthy_str token = true -> opt_truthy_json (get_field "isAdmin" u) = true ->
  let '(w1, _) := AdminAuth.login token u w s in
  AdminAuth.checkAuth w1 AdminAuth.initial = (w1, AdminAuth.mkState u false).
Proof.
  intros Ht Ha. unfold AdminAuth.login, AdminAuth.checkAuth. simpl.
  rewrite stored_pair_login by (done || apply stringify_truthy).
  rewrite parse_stringify.
  destruct u; [by destruct (isAdmin_not_null _ Ha)| ..]; simpl in *; by rewrite Ha.
Qed.

Definition asha : json := JObj [("name", JStr "Asha"); ("isAdmin", JBool true)].

Lemma admin_login_survives_reload_witness :
  js_truthy_str "t0k3n" = true /\ opt_truthy_json (get_field "isAdmin" asha) = true /\
  AdminAuth.checkAuth (fst (AdminAuth.login "t0k3n" asha (mkWorld ∅ "/login" [] []) AdminAuth.initial))
    AdminAuth.initial
  = (fst (AdminAuth.login "t0k3n" asha (mkWorld ∅ "/login" [] []) AdminAuth.initial), AdminAuth.mkState asha false).
Proof.
  split; [reflexivity|]. split; [reflexivity|].
  exact (admin_login_survives_reload "t0k3n" asha (mkWorld ∅ "/login" [] []) AdminAuth.initial
           eq_refl eq_refl).
Defined.

(** The admin mount clears a stored session it cannot accept: when
    the stored user text is not JSON, is [null], or has no truthy
    [isAdmin], both keys are removed, no user is kept and the page goes
    to [/login]. *)
Theorem admin_rejects_stored_user w s text :
  stored_pair (ls w) "adminToken" "adminUser" = Some text ->
  match parse_text text with
  | Some p => opt_truthy_json (get_field "isAdmin" p) = false
  | None => True
  end ->
  let '(w', s') := AdminAuth.checkAuth w s in
  getItem (ls w') "adminToken" = None /\ getItem (ls w') "adminUser" = None /\
  location w' = "/login" /\ AdminAuth.user s' = JNull /\ AdminAuth.loading s' = false.
Proof.
  intros Hp Hn. unfold AdminAuth.checkAuth. rewrite Hp.
  destruct (parse_text text) as [p|]; [destruct p; cbn -[get_field opt_truthy_json removeItem getItem];
    try rewrite Hn|]; simpl;
    rewrite getItem_removeItem_ne, getItem_removeItem_eq by done; by rewrite getItem_removeItem_eq.
Qed.

Definition guest_world : world :=
  mkWorld (setItem (setItem ∅ "adminToken" "t0k3n") "adminUser" (stringify (JObj [("name", JStr "Ravi")])))
          "/admin" [] [].

Lemma admin_rejects_stored_user_witness :
  stored_pair (ls guest_world) "adminToken" "adminUser" = Some (stringify (JObj [("name", JStr "Ravi")])) /\
  location (fst (AdminAuth.checkAuth guest_world AdminAuth.initial)) = "/login".
Proof.
  assert (H1 : stored_pair (ls guest_world) "adminToken" "adminUser"
               = Some (stringify (JObj [("name", JStr "Ravi")]))) by reflexivity.
  assert (H2 : match parse_text (stringify (JObj [("name", JStr "Ravi")])) with
               | Some p => opt_truthy_json (get_field "isAdmin" p) = false | None => True end)
    by reflexivity.
  split; [exact H1|].
  pose proof (admin_rejects_stored_user guest_world AdminAuth.initial _ H1 H2) as H.
  destruct (AdminAuth.checkAuth _ _) as [w' s']. simpl. by destruct H as (_ & _ & H & _).
Defined.

(** C31: the same corrupted session text is handled by the admin provider
    and throws out of the storefront provider: when both stored user
    texts are not JSON because nothing in them can begin a JSON value
    (only whitespace, or a first character other than a brace, a quote,
    a digit, [-], [t], [f] or [n]: the text ["undefined"] that
    [setItem] stores for an undefined value, a bare name), the
    storefront mount throws the [SyntaxError] (nothing catches it),
    while the admin mount logs the error and logs out. *)
Theorem corrupted_session_throws w s_store s_admin t1 t2 :
  stored_pair (ls w) "authToken" "user" = Some t1 -> bad_start t1 = true ->
  stored_pair (ls w) "adminToken" "adminUser" = Some t2 -> bad_start t2 = true ->
  StoreAuth.mount w s_store = Err json_parse_error /\
  location (fst (AdminAuth.checkAuth w s_admin)) = "/login" /\
  console (fst (AdminAuth.checkAuth w s_admin)) = console w ++ [("Error parsing user data:", json_parse_error)].
Proof.
  intros H1 P1 H2 P2. apply parse_text_bad_start in P1, P2.
  unfold StoreAuth.mount, AdminAuth.checkAuth. by rewrite H1, P1, H2, P2.
Qed.

Definition corrupted_world : world :=
  mkWorld (setItem (setItem (setItem (setItem ∅ "authToken" "a") "user" "undefined")
                            "adminToken" "b") "adminUser" "Asha")
          "/" [] [].

Lemma corrupted_session_throws_witness :
  StoreAuth.mount corrupted_world StoreAuth.initial = Err json_parse_error.
Proof.
  exact (proj1 (corrupted_session_throws corrupted_world StoreAuth.initial AdminAuth.initial
                  "undefined" "Asha" eq_refl eq_refl eq_refl eq_refl)).
Defined.

(** The admin mount either keeps the storage or logs out. *)
Lemma checkAuth_storage w s :
  ls (fst (AdminAuth.checkAuth w s)) = ls w \/
  ls (fst (AdminAuth.checkAuth w s)) = removeItem (removeItem (ls w) "adminToken") "adminUser".
Proof.
  unfold AdminAuth.checkAuth.
  destruct (stored_pair _ _ _); [|by left].
  destruct (parse_text _) as [[]|]; try (by right);
    cbn -[get_field opt_truthy_json removeItem]; try destruct (opt_truthy_json _);
    first [left; reflexivity | right; reflexivity].
Qed.

(** Each provider touches only its own keys: the admin login,
    logout and mount leave the storefront's [authToken] and [user] as
    they were, and the storefront login and logout leave [adminToken]
    and [adminUser] as they were. *)
Theorem sessions_independent w sa ss token u :
  (forall k, In k store_keys ->
     getItem (ls (fst (AdminAuth.login token u w sa))) k = getItem (ls w) k /\
     getItem (ls (fst (AdminAuth.logout w sa))) k = getItem (ls w) k /\
     getItem (ls (fst (AdminAuth.checkAuth w sa))) k = getItem (ls w) k) /\
  (forall k, In k admin_keys ->
     getItem (ls (fst (StoreAuth.login u token w ss))) k = getItem (ls w) k /\
     getItem (ls (fst (StoreAuth.logout w ss))) k = getItem (ls w) k).
Proof.
  split; intros k Hk; [destruct (checkAuth_storage w sa) as [Hc|Hc]; rewrite Hc|]; simpl;
    repeat destruct Hk as [<-|Hk]; try done;
    rewrite ?getItem_setItem_ne, ?getItem_removeItem_ne by discriminate; done.
Qed.

(** A storefront login is kept across a reload: after [login] with a
    non-empty token, the next mount restores the same user and marks the
    session authenticated. *)
Theorem store_login_survives_reload u token w s :
  js_truthy_str token = true ->
  StoreAuth.mount (fst (StoreAuth.login u token w s)) StoreAuth.initial
  = Ok (StoreAuth.mkState u true false).
Proof.
  intros Ht. unfold StoreAuth.mount, StoreAuth.login. simpl.
  rewrite stored_pair_login by (done || apply stringify_truthy).
  by rewrite parse_stringify.
Qed.

Lemma store_login_survives_reload_witness :
  js_truthy_str "s3ss" = true /\
  StoreAuth.mount (fst (StoreAuth.login (JObj [("email", JStr "asha@example.com")]) "s3ss"
                          (mkWorld ∅ "/" [] []) StoreAuth.initial)) StoreAuth.initial
  = Ok (StoreAuth.mkState (JObj [("email", JStr "asha@example.com")]) true false).
Proof.
  split; [reflexivity|]. exact (store_login_survives_reload _ "s3ss" _ _ eq_refl).
Defined.

End Session.
