(* ===== verification/Cart.v ===== *)
(** * The cart and the wishlist of the storefront, and the header over them

    [src/src/contexts/CartContext.jsx] defines [CartProvider] (lines
    31-155) and [WishlistProvider] (lines 157-240) with the same code
    for fetching the collection, adding an item and removing one; the
    cart also updates a quantity and clears.  Each keeps the fetched
    [items] and a [count]; every request reads the storefront token
    [authToken] from [localStorage] when it is sent.  The header
    ([src/src/components/homepage/MainHeader.jsx]) shows the two counts
    and offers the logout of the storefront session.

    Section [Collection] gives the shared operations once, for a path
    ([/cart], [/wishlist]) and the noun of the messages; an awaited call
    leaves a continuation as in the admin tabs.  The storefront shell
    ([app]) puts the two collections, the storefront session and the
    shared [world] together, with a step per user action and per
    completed request, as a [TabMachine.machine].

    The theorems: in every reachable state each count is the [length] of
    the items it counts; adding without a login only alerts; removing,
    updating and clearing without a login still send their request, with
    the header [Bearer null]; logging out from the header leaves both
    counts as they were; a write that completes after a logout does not
    refetch, so the stale items stay. *)

From stdpp Require Import gmap.
From Stdlib Require Import DecimalString.
From S2P Require Import Prelude Api Json Session TabMachine.

#[local] Open Scope list_scope.
#[local] Open Scope nitai_scope.

Module Cart.
Import Http Storage Json Session TabMachine.

(** [`Bearer ${localStorage.getItem('authToken')}`]. *)
Definition bearer (l : storage) : string :=
  "Bearer " +++ match getItem l "authToken" with Some t => t | None => "null" end.

(** [if (!token)] on [localStorage.getItem('authToken')]. *)
Definition has_token (l : storage) : bool :=
  match getItem l "authToken" with Some t => js_truthy_str t | None => false end.

(** The [length] property, read as [x?.length || 0]. *)
Definition js_length (v : json) : nat :=
  match v with JArr l => List.length l | JStr s => String.length s | _ => 0 end.

(** The message of the [TypeError] of [null.items]. *)
Definition null_items_error : string := "Cannot read properties of null (reading 'items')".

Inductive ccont :=
| KFetch                   (** the fetch, after [await fetch] and [response.json()] *)
| KWrite (label : string)  (** an add, remove or update, then [await fetchCart()] *)
| KClear.                  (** [clearCart] *)

Record coll := mkColl {
  items : json;
  count : nat;
  pending : list (nat * ccont);
  next_id : nat
}.

(** [useState([])], [useState(0)] (lines 32-33, 158-159). *)
Definition coll_initial : coll := mkColl (JArr []) 0 [] 0.

Abbreviation req := (request json).

Section Collection.
Context (env : option string) (path noun : string).

Definition await (k : ccont) (c : coll) : coll :=
  {| c with pending := (next_id c, k) :: pending c; next_id := S (next_id c) |}.

(** [fetchCart] (lines 35-44) and [fetchWishlist] (161-170) up to their
    [await]. *)
Definition fetchList (w : world) (c : coll) : coll * list req :=
  if has_token (ls w) then
    (await KFetch c, [mkRequest GET (app_base env +++ path) [("Authorization", bearer (ls w))] None])
  else (c, []).

(** [addToCart] (lines 56-71) and [addToWishlist] (182-197). *)
Definition addItem (w : world) (item : json) (c : coll) : world * coll * list req :=
  if has_token (ls w) then
    (w, await (KWrite ("Error adding to " +++ noun +++ ":")) c,
     [mkRequest POST (app_base env +++ path +++ "/add")
        [("Content-Type", "application/json"); ("Authorization", bearer (ls w))] (Some item)])
  else ({| w with alerts := alerts w ++ ["Please login to add items to " +++ noun] |}, c, []).

(** [removeFromCart] (lines 81-91) and [removeFromWishlist] (207-217):
    no token check. *)
Definition removeItemOf (w : world) (itemId : json) (c : coll) : coll * list req :=
  (await (KWrite ("Error removing from " +++ noun +++ ":")) c,
   [mkRequest DELETE (app_base env +++ path +++ "/remove")
      [("Content-Type", "application/json"); ("Authorization", bearer (ls w))]
      (Some (JObj [("itemId", itemId)]))]).

(** The rest of an awaited call of the collection. *)
Definition resume (w : world) (k : ccont) (r : response json) (c : coll) : world * coll * list req :=
  match k, r with
  | KFetch, RespOk (Some JNull) => (log ("Error fetching " +++ noun +++ ":") null_items_error w, c, [])
  | KFetch, RespOk (Some data) =>                                     (* 46-50, 172-176 *)
      let its := get_field "items" data in
      (w, {| c with items := match its with Some v => if json_truthy v then v else JArr [] | None => JArr [] end;
                    count := match its with Some v => js_length v | None => 0 end |}, [])
  | KFetch, RespOk None => (log ("Error fetching " +++ noun +++ ":") json_parse_error w, c, [])
  | KFetch, NetworkError m => (log ("Error fetching " +++ noun +++ ":") m w, c, [])
  | KWrite _, RespOk _ => let '(c', out) := fetchList w c in (w, c', out)   (* 73-75 *)
  | KWrite label, NetworkError m => (log label m w, c, [])
  | KClear, RespOk _ => (w, {| c with items := JArr []; count := 0 |}, [])  (* 131-134 *)
  | KClear, NetworkError m => (log "Error clearing cart:" m w, c, [])
  | _, RespFail _ _ _ => (w, c, [])                                  (* [if (response.ok)] *)
  end.
End Collection.

(** The two providers' instances (lines 35-99 and 161-225). *)
Definition fetchCart env := fetchList env "/cart".
Definition addToCart env := addItem env "/cart" "cart".
Definition removeFromCart env := removeItemOf env "/cart" "cart".
Definition resumeCart env := resume env "/cart" "cart".
Definition fetchWishlist env := fetchList env "/wishlist".
Definition addToWishlist env := addItem env "/wishlist" "wishlist".
Definition removeFromWishlist env := removeItemOf env "/wishlist" "wishlist".
Definition resumeWishlist env := resume env "/wishlist" "wishlist".

(** [updateCartItem] (lines 101-111): no token check. *)
Definition updateCartItem (env : option string) (w : world) (itemId quantity : json) (c : coll)
  : coll * list req :=
  (await (KWrite "Error updating cart:") c,
   [mkRequest PUT (app_base env +++ "/cart/update")
      [("Content-Type", "application/json"); ("Authorization", bearer (ls w))]
      (Some (JObj [("itemId", itemId); ("quantity", quantity)]))]).

(** [clearCart] (lines 121-129): no token check. *)
Definition clearCart (env : option string) (w : world) (c : coll) : coll * list req :=
  (await KClear c, [mkRequest DELETE (app_base env +++ "/cart/clear") [("Authorization", bearer (ls w))] None]).

(** ** The storefront shell *)

Record app := mkApp {
  world_of : world;
  auth : StoreAuth.state;
  cart : coll;
  wishlist : coll;
  showUserDropdown : bool
}.

(** The header's user menu, [handleUserAction] (MainHeader.jsx 60-83). *)
Definition handleUserAction (action : string) (a : app) : app :=
  let a := {| a with showUserDropdown := false |} in
  let go p := {| a with world_of := {| (world_of a) with location := p |} |} in
  if action ==? "account" then go "/account"
  else if action ==? "orders" then go "/orders"
  else if action ==? "logout" then
    let '(w', s') := StoreAuth.logout (world_of a) (auth a) in
    {| a with world_of := {| w' with location := "/" |}; auth := s' |}
  else if action ==? "login" then go "/login"
  else if action ==? "signup" then go "/signup"
  else a.

(** The cart badge of the header (MainHeader.jsx 220-222): hidden at 0,
    [9+] above nine. *)
Definition cart_badge (n : nat) : option string :=
  if Nat.eqb n 0 then None
  else if Nat.ltb 9 n then Some "9+"
  else Some (NilZero.string_of_uint (Nat.to_uint n)).

Inductive event :=
| Login (u : json) (token : string)    (** [login] of the storefront provider *)
| UserAction (action : string)         (** an entry of the header's user menu *)
| CartAdd (item : json)
| CartRemove (itemId : json)
| CartUpdate (itemId quantity : json)
| CartClear
| WishAdd (item : json)
| WishRemove (itemId : json)
| CartDone (n : nat) (r : response json)
| WishDone (n : nat) (r : response json).

Definition lookup_cont (c : coll) (n : nat) : option ccont :=
  option_map snd (find (fun p => Nat.eqb (fst p) n) (pending c)).

Definition drop_cont (c : coll) (n : nat) : coll :=
  {| c with pending := List.filter (fun p => negb (Nat.eqb (fst p) n)) (pending c) |}.

Definition step (env : option string) (a : app) (e : event) : app * list req :=
  let w := world_of a in
  match e with
  | Login u t => let '(w', s') := StoreAuth.login u t w (auth a) in ({| a with world_of := w'; auth := s' |}, [])
  | UserAction act => (handleUserAction act a, [])
  | CartAdd item =>
      let '(w', c', out) := addToCart env w item (cart a) in
      ({| a with world_of := w'; cart := c' |}, out)
  | CartRemove id => let '(c', out) := removeFromCart env w id (cart a) in ({| a with cart := c' |}, out)
  | CartUpdate id q => let '(c', out) := updateCartItem env w id q (cart a) in ({| a with cart := c' |}, out)
  | CartClear => let '(c', out) := clearCart env w (cart a) in ({| a with cart := c' |}, out)
  | WishAdd item =>
      let '(w', c', out) := addToWishlist env w item (wishlist a) in
      ({| a with world_of := w'; wishlist := c' |}, out)
  | WishRemove id =>
      let '(c', out) := removeFromWishlist env w id (wishlist a) in
      ({| a with wishlist := c' |}, out)
  | CartDone n r =>
      match lookup_cont (cart a) n with
      | Some k => let '(w', c', out) := resumeCart env w k r (drop_cont (cart a) n) in
                  ({| a with world_of := w'; cart := c' |}, out)
      | None => (a, [])
      end
  | WishDone n r =>
      match lookup_cont (wishlist a) n with
      | Some k => let '(w', c', out) := resumeWishlist env w k r (drop_cont (wishlist a) n) in
                  ({| a with world_of := w'; wishlist := c' |}, out)
      | None => (a, [])
      end
  end.

(** A completion answers a pending call; the other actions are always
    available. *)
Definition enabled (a : app) (e : event) : Prop :=
  match e with
  | CartDone n _ => exists k, In (n, k) (pending (cart a))
  | WishDone n _ => exists k, In (n, k) (pending (wishlist a))
  | _ => True
  end.

Definition enabledb (a : app) (e : event) : bool :=
  match e with
  | CartDone n _ => existsb (fun p => Nat.eqb (fst p) n) (pending (cart a))
  | WishDone n _ => existsb (fun p => Nat.eqb (fst p) n) (pending (wishlist a))
  | _ => true
  end.

Lemma cart_enabledb_enabled a e : enabledb a e = true -> enabled a e.
Proof.
  destruct e; simpl; try done; intros H;
    apply existsb_exists in H as ([m k] & Hin & Hm); simpl in Hm; bool_to_prop; subst; eauto.
Qed.

Definition app_machine (env : option string) : machine unit app event req :=
  Machine (fun _ => step env) enabled enabledb cart_enabledb_enabled.

(** The mount effects, children first (App.jsx 29-32): the wishlist
    fetch, the cart fetch, then the storefront session, whose [Err] is
    the exception that unmounts the page. *)
Definition mount (env : option string) (w : world) : result (app * list req) :=
  let '(wl, out1) := fetchWishlist env w coll_initial in
  let '(ct, out2) := fetchCart env w coll_initial in
  match StoreAuth.mount w StoreAuth.initial with
  | Ok s => Ok (mkApp w s ct wl false, out1 ++ out2)
  | Err m => Err m
  end.

Definition reachable (env : option string) (a : app) : Prop :=
  exists w a0 out, mount env w = Ok (a0, out) /\ star (tab_step (app_machine env)) a0 a.

(** ** Lemmas *)

(** The count of a collection is the length of its items. *)
Definition coll_ok (c : coll) : Prop := count c = js_length (items c).

Lemma falsy_length v : json_truthy v = false -> js_length v = 0.
Proof.
  destruct v; simpl; try done. intros H. apply js_truthy_str_false in H. by subst.
Qed.

Lemma await_ok k c : coll_ok c -> coll_ok (await k c).
Proof. done. Qed.

Lemma fetchList_ok env path w c : coll_ok c -> coll_ok (fst (fetchList env path w c)).
Proof. unfold fetchList. by destruct (has_token _). Qed.

Lemma resume_ok env path noun w k r c :
  coll_ok c -> coll_ok (snd (fst (resume env path noun w k r c))).
Proof.
  intros Hc. unfold resume.
  destruct k; destruct r as [[d|]|? ? ?|m]; try exact Hc; try (destruct d; try exact Hc).
  all: try (pose proof (fetchList_ok env path w c Hc) as H; destruct (fetchList env path w c); exact H).
  all: unfold coll_ok; cbn -[get_field]; try reflexivity.
  all: destruct (get_field "items" _) as [v|]; simpl; [|reflexivity].
  all: destruct (json_truthy v) eqn:Hv; simpl; [reflexivity | by rewrite falsy_length].
Qed.

#[export] Hint Resolve await_ok fetchList_ok resume_ok : nitai.

Definition app_ok (a : app) : Prop := coll_ok (cart a) /\ coll_ok (wishlist a).

Lemma drop_ok c n : coll_ok c -> coll_ok (drop_cont c n).
Proof. done. Qed.

Lemma handleUserAction_colls act a :
  cart (handleUserAction act a) = cart a /\ wishlist (handleUserAction act a) = wishlist a.
Proof.
  unfold handleUserAction. by repeat (destruct (_ ==? _)).
Qed.

Lemma addItem_ok env path noun w item c : coll_ok c -> coll_ok (snd (fst (addItem env path noun w item c))).
Proof. unfold addItem. by destruct (has_token _). Qed.

(** Every step keeps each count equal to the length of its items. *)
Lemma step_ok env a e : app_ok a -> app_ok (fst (step env a e)).
Proof.
  intros [Hc Hw]. destruct e; unfold step, addToCart, removeFromCart, resumeCart, addToWishlist,
    removeFromWishlist, resumeWishlist; cbn -[handleUserAction addItem resume lookup_cont].
  all: cbv zeta.
  - done.
  - unfold app_ok. destruct (handleUserAction_colls action a) as [-> ->]. done.
  - pose proof (addItem_ok env "/cart" "cart" (world_of a) item (cart a) Hc) as H.
    destruct (addItem _ _ _ _ _ _) as [[w' c'] out]. done.
  - split; [|done]. apply await_ok, Hc.
  - split; [|done]. apply await_ok, Hc.
  - split; [|done]. apply await_ok, Hc.
  - pose proof (addItem_ok env "/wishlist" "wishlist" (world_of a) item (wishlist a) Hw) as H.
    destruct (addItem _ _ _ _ _ _) as [[w' c'] out]. done.
  - split; [done|]. apply await_ok, Hw.
  - destruct (lookup_cont (cart a) n) as [k|]; [|done].
    pose proof (resume_ok env "/cart" "cart" (world_of a) k r (drop_cont (cart a) n) (drop_ok _ n Hc)) as H.
    destruct (resume _ _ _ _ _ _ _) as [[w' c'] out]. done.
  - destruct (lookup_cont (wishlist a) n) as [k|]; [|done].
    pose proof (resume_ok env "/wishlist" "wishlist" (world_of a) k r (drop_cont (wishlist a) n) (drop_ok _ n Hw)) as H.
    destruct (resume _ _ _ _ _ _ _) as [[w' c'] out]. done.
Qed.

Lemma mount_ok env w a0 out : mount env w = Ok (a0, out) -> app_ok a0.
Proof.
  unfold mount, fetchWishlist, fetchCart.
  pose proof (fetchList_ok env "/wishlist" w coll_initial eq_refl) as H1.
  pose proof (fetchList_ok env "/cart" w coll_initial eq_refl) as H2.
  destruct (fetchList env "/wishlist" w coll_initial) as [wl o1], (fetchList env "/cart" w coll_initial) as [ct o2].
  destruct (StoreAuth.mount w StoreAuth.initial); [|discriminate]. intros [= <- _]. split; done.
Qed.

(** ** Properties *)

(** In every reachable state of the storefront, the cart count and
    the wishlist count shown by the header are the [length] of the items
    they count (0 where the items have none). *)
Theorem counts_match_items env a :
  reachable env a ->
  count (cart a) = js_length (items (cart a)) /\ count (wishlist a) = js_length (items (wishlist a)).
Proof.
  intros (w & a0 & out & Hm & Hr).
  apply (star_invariant (tab_step (app_machine env)) app_ok a0 a); [|exact (mount_ok _ _ _ _ Hm)|exact Hr].
  intros x y (l & e & o & _ & Hs) Hx. pose proof (step_ok env x e Hx) as H.
  simpl in Hs. rewrite Hs in H. exact H.
Qed.

(** A session with a token, and a cart of two rings fetched at mount. *)
Definition token_world : world :=
  mkWorld (setItem (setItem ∅ "authToken" "s3ss") "user" (stringify (JObj [("name", JStr "Asha")])))
          "/" [] [].

Definition two_rings : json :=
  JObj [("items", JArr [JObj [("sku", JStr "R-1")]; JObj [("sku", JStr "R-2")]])].

Lemma counts_match_items_witness :
  match mount None token_world with
  | Ok (a0, _) =>
      match run (app_machine None) tt a0 [CartDone 0 (RespOk (Some two_rings))] with
      | Some (a, _) => reachable None a /\ count (cart a) = 2
      | None => False
      end
  | Err _ => False
  end.
Proof.
  destruct (mount None token_world) as [[a0 out]|m] eqn:Hm; [|vm_compute in Hm; discriminate].
  destruct (run (app_machine None) tt a0 _) as [[a o]|] eqn:Hr;
    [|vm_compute in Hm; injection Hm as <- _; vm_compute in Hr; discriminate].
  assert (Hreach : reachable None a) by (exists token_world, a0, out; split; [exact Hm|exact (run_reachable _ _ _ _ _ _ Hr)]).
  split; [exact Hreach|].
  destruct (counts_match_items None a Hreach) as [-> _].
  vm_compute in Hm. injection Hm as <- _. vm_compute in Hr. injection Hr as <- _. reflexivity.
Defined.

(** Logging out from the header removes the storefront session and
    goes to [/], but leaves the cart and the wishlist, with their counts
    in the header, as they were, and sends nothing: the previous user's
    counts stay on screen. *)
Theorem logout_keeps_counts env a :
  let '(a', out) := step env a (UserAction "logout") in
  cart a' = cart a /\ wishlist a' = wishlist a /\ out = [] /\
  getItem (ls (world_of a')) "authToken" = None /\ location (world_of a') = "/" /\
  StoreAuth.isAuthenticated (auth a') = false.
Proof.
  simpl. unfold handleUserAction. simpl.
  rewrite getItem_removeItem_ne, getItem_removeItem_eq by discriminate. by repeat split.
Qed.

(** Removing an item, changing a quantity and clearing the cart do
    not check for a login: without a token they still send their request,
    with the header [Authorization: Bearer null]; adding an item without
    a token only alerts and sends nothing. *)
Theorem logged_out_cart_writes env w c itemId q item :
  getItem (ls w) "authToken" = None ->
  let reqs := snd (removeFromCart env w itemId c) ++ snd (updateCartItem env w itemId q c)
              ++ snd (clearCart env w c) in
  List.length reqs = 3 /\ Forall (fun r => In ("Authorization", "Bearer null") (req_headers r)) reqs /\
  addToCart env w item c
    = ({| w with alerts := alerts w ++ ["Please login to add items to cart"] |}, c, []).
Proof.
  intros H. unfold removeFromCart, addToCart, removeItemOf, updateCartItem, clearCart, addItem, has_token, bearer.
  rewrite H.
  split; [reflexivity|]. split; [|reflexivity].
  repeat constructor; simpl; first [left; reflexivity | right; left; reflexivity].
Qed.

Lemma logged_out_cart_writes_witness :
  getItem (ls (mkWorld ∅ "/cart" [] [])) "authToken" = None /\
  Forall (fun r => In ("Authorization", "Bearer null") (req_headers r))
    (snd (clearCart None (mkWorld ∅ "/cart" [] []) coll_initial)).
Proof.
  assert (H0 : getItem (ls (mkWorld ∅ "/cart" [] [])) "authToken" = None) by reflexivity.
  split; [exact H0|].
  destruct (logged_out_cart_writes None (mkWorld ∅ "/cart" [] []) coll_initial (JStr "R-1") (JNum 2)
              (JStr "R-1") H0) as (_ & H & _).
  apply Forall_app in H as [_ H]. apply Forall_app in H as [_ H]. exact H.
Defined.

(** Fetch the two rings, add a third, log out from the header while the
    add is in flight, then let the add succeed. *)
Definition stale_trace : list event :=
  [CartDone 0 (RespOk (Some two_rings)); CartAdd (JObj [("sku", JStr "R-3")]);
   UserAction "logout"; CartDone 1 (RespOk None)].

(** C34: a cart write that completes after a logout does not refetch the
    cart (the refetch finds no token): the storefront stays on the
    previous user's two items, and the only request of the trace after
    mount is the add itself. *)
Theorem stale_cart_after_logout :
  match mount None token_world with
  | Ok (a0, _) =>
      match run (app_machine None) tt a0 stale_trace with
      | Some (a, out) => reachable None a /\ count (cart a) = 2 /\
                         getItem (ls (world_of a)) "authToken" = None /\ List.length out = 1
      | None => False
      end
  | Err _ => False
  end.
Proof.
  destruct (mount None token_world) as [[a0 out]|m] eqn:Hm; [|vm_compute in Hm; discriminate].
  destruct (run (app_machine None) tt a0 _) as [[a o]|] eqn:Hr;
    [|vm_compute in Hm; injection Hm as <- _; vm_compute in Hr; discriminate].
  split; [exists token_world, a0, out; split; [exact Hm|exact (run_reachable _ _ _ _ _ _ Hr)]|].
  vm_compute in Hm. injection Hm as <- _. vm_compute in Hr. injection Hr as <- <-.
  split; [reflexivity|]. split; [reflexivity|reflexivity].
Qed.

End Cart.
