(* ===== verification/Users.v ===== *)
(** * The admin Users page: the fetch, the search, the cart dialog and the CSV export

    [src/src/pages/admin/Users.jsx] loads every user with their cart from
    [GET <API_BASE_URL>/users-with-carts] once, when it mounts
    ([fetchUsersWithCarts], lines 57-89), keeps them as JSON ([users]),
    derives the rows shown from the search box (the effect of lines
    43-55), opens a dialog on the cart of a user ([viewUserCart], lines
    91-94), and exports the rows shown as a CSV file ([downloadExcel],
    lines 96-137).

    The users are JSON values of [Json], read with the optional chains
    and [||] defaults of the code; a property read or a call that throws
    in JavaScript ([null.phone], a [toLowerCase] or a [toFixed] that is
    not a function) is an [Err] of the model.  The two inputs the page
    takes from the browser's locale and clock, [toLocaleDateString] and
    the date part of [toISOString], are the parameters [localeDate] and
    [today] of Section [Export].

    The CSV text is checked against a reader of RFC 4180 records
    ([parse_csv]), written here from the RFC: a field that contains a
    comma, a double quote or a line break is quoted, a quote inside it
    is doubled.  The theorems: the export reads back, record by record,
    as the header and the cells of the rows shown whenever no cell holds
    a line break; a cell with a line break is not quoted and splits its
    record in two; the search matches the query as typed, spaces
    included, although its emptiness is tested after [trim]; the Admin
    badge ([is_admin === 1]) and the export ([is_admin] truthy) disagree
    on [is_admin: true]; the fetch never reads [response.ok], and a
    success without [stats] sets the users and then fails; an open
    dialog always shows a user whose View Cart button was enabled.

    The cart dialog (lines 302-386) is rendered from the selected user
    with the [toFixed(2)] of [Coerce]; the browser's short date format is
    the parameter [shortDate] of Section [Dialog].  Its rows show an
    item's price and total with two decimals; an item without a price
    shows [NaN] as its total, and a price held as a string throws. *)

From stdpp Require Import gmap.
From Stdlib Require Import QArith.
From S2P Require Import Prelude Api Json JsValue Session TabMachine.

#[local] Open Scope list_scope.
#[local] Open Scope nitai_scope.

Module Users.
Import Http Storage Json Session TabMachine.

(** ** JavaScript values the page computes with *)

(** The [TypeError] of a property read on [null] or [undefined]. *)
Definition read_error (what key : string) : string :=
  "Cannot read properties of " +++ what +++ " (reading '" +++ key +++ "')".

(** [o.key] where [o] may be [undefined] ([None]) or [null]. *)
Definition prop (o : option json) (key : string) : result (option json) :=
  match o with
  | None => Err (read_error "undefined" key)
  | Some JNull => Err (read_error "null" key)
  | Some v => Ok (get_field key v)
  end.

(** [a || b] on a property that may be [undefined]. *)
Definition or_default (o : option json) (d : json) : json :=
  match o with Some v => if json_truthy v then v else d | None => d end.

(** How [console.error] shows its second argument. *)
Definition js_display (o : option json) : string :=
  match o with None => "undefined" | Some (JStr s) => s | Some v => stringify v end.

(** The element conversion of [Array.prototype.join]: [null] and
    [undefined] give the empty string, an array its elements joined by
    commas, an object [[object Object]]. *)
Fixpoint join_text (v : json) : string :=
  match v with
  | JNull => ""
  | JBool b => if b then "true" else "false"
  | JNum z => js_number_string z
  | JStr s => s
  | JArr l => String.concat "," ((fix go (l : list json) : list string :=
                                   match l with [] => [] | x :: r => join_text x :: go r end) l)
  | JObj _ => "[object Object]"
  end.

(** The [length] of a value, [None] when it is [undefined]. *)
Definition js_length_opt (v : json) : option nat :=
  match v with JArr l => Some (List.length l) | JStr s => Some (String.length s) | _ => None end.

(** The rupee sign, U+20B9, as its three UTF-8 bytes. *)
Definition rupee : string :=
  String (ascii_of_nat 226) (String (ascii_of_nat 130) (String (ascii_of_nat 185) EmptyString)).

(** [n.toFixed(2)] of an integer. *)
Definition toFixed2 (z : Z) : string := js_number_string z +++ ".00".

(** ** The page state (lines 26-37) *)

Record stats := mkStats {
  totalUsers : option json;
  activeUsers : option json;
  usersWithCarts : option json;
  totalCartValue : option json
}.

Definition stats_initial : stats := mkStats (Some (JNum 0)) (Some (JNum 0)) (Some (JNum 0)) (Some (JNum 0)).

(** [filteredUsers] is not a field: the effect of lines 43-55 recomputes
    it from [searchQuery] and [users] after every change of either, and
    [setFilteredUsers(data.data)] at line 73 is overwritten by that
    effect in the same update; [filteredUsers] below is its value. *)
Record state := mkState {
  users : option json;            (** [undefined] when [data.data] is missing *)
  loading : bool;
  searchQuery : string;
  selectedUser : json;
  cartDialogOpen : bool;
  st : stats;
  downloads : list (string * string)   (** the files saved, name and content *)
}.

Definition initial_state : state := mkState (Some (JArr [])) true "" JNull false stats_initial [].

(** ** The search (lines 43-55) *)

(** [user.f?.toLowerCase().includes(query)]. *)
Definition field_includes (query : string) (o : option json) : result bool :=
  match o with
  | None | Some JNull => Ok false
  | Some (JStr s) => Ok (js_includes (js_to_lower s) query)
  | Some _ => Err "toLowerCase is not a function"
  end.

(** The filter predicate: phone, then name, then email, with [||]. *)
Definition user_matches (query : string) (u : json) : result bool :=
  match u with
  | JNull => Err (read_error "null" "phone")
  | _ =>
      rbind (field_includes query (get_field "phone" u)) (fun b1 =>
      if b1 then Ok true else
      rbind (field_includes query (get_field "name" u)) (fun b2 =>
      if b2 then Ok true else field_includes query (get_field "email" u)))
  end.

(** The effect: every user for a blank query; otherwise those that
    match the lower-cased query, which is not trimmed. *)
Definition filterUsers (q : string) (us : option json) : result (option json) :=
  if js_trim q ==? "" then Ok us
  else match us with
       | Some (JArr l) => rbind (rfilter (user_matches (js_to_lower q)) l) (fun l' => Ok (Some (JArr l')))
       | None => Err (read_error "undefined" "filter")
       | Some JNull => Err (read_error "null" "filter")
       | Some _ => Err "users.filter is not a function"
       end.

Definition filteredUsers (s : state) : result (option json) := filterUsers (searchQuery s) (users s).

(** The table body (lines 242-295): no row when [length === 0],
    otherwise [filteredUsers.map(...)], which throws on a value that is
    not an array. *)
Definition rendered_rows (fu : option json) : result (list json) :=
  match fu with
  | None => Err (read_error "undefined" "length")
  | Some JNull => Err (read_error "null" "length")
  | Some v =>
      match js_length_opt v, v with
      | Some 0, _ => Ok []
      | _, JArr l => Ok l
      | _, _ => Err "filteredUsers.map is not a function"
      end
  end.

(** The cells of a row that the table shows (lines 251-291). *)
Definition admin_badge (u : json) : bool :=
  match get_field "is_admin" u with Some (JNum 1) => true | _ => false end.

Definition cart_badge (u : json) : bool := opt_truthy_json (get_field "hasCart" u).

(** [disabled={!user.hasCart || user.itemCount === 0}] of View Cart. *)
Definition viewCart_enabled (u : json) : bool :=
  cart_badge u && negb (match get_field "itemCount" u with Some (JNum 0) => true | _ => false end).

(** ** The fetch (lines 57-89) *)

(** [import.meta.env.VITE_API_BASE_URL_ADMIN || '...workers.dev/admin'] (line 23). *)
Definition API_BASE_URL (env : option string) : string :=
  match env with
  | Some u => if js_truthy_str u then u else "https://nitai-gems-backend.nitai-gems-backend.workers.dev/admin"
  | None => "https://nitai-gems-backend.nitai-gems-backend.workers.dev/admin"
  end.

(** [fetchUsersWithCarts] up to its [await fetch]: the token is read
    without a check, so a missing one is sent as [Bearer null]. *)
Definition fetchUsersWithCarts (env : option string) (w : world) (s : state)
  : state * list (request json) :=
  ({| s with loading := true |},
   [mkRequest GET (API_BASE_URL env +++ "/users-with-carts")
      [("Authorization", "Bearer " +++ match getItem (ls w) "adminToken" with Some t => t | None => "null" end);
       ("Content-Type", "application/json")] None]).

(** What the two awaits give: the body of the response, [None] when it
    is not JSON, whatever the status, which the code never reads; or the
    rejection of [fetch]. *)
Inductive reply := Body (body : option json) | FetchFailed (message : string).

(** The four reads of [data.stats] of [setStats] (lines 75-80). *)
Definition read_stats (data : json) : result stats :=
  let ds := get_field "stats" data in
  rbind (prop ds "totalUsers") (fun a =>
  rbind (prop ds "usersWithItems") (fun b =>
  rbind (prop ds "usersWithCarts") (fun c =>
  rbind (prop ds "totalCartValue") (fun d => Ok (mkStats a b c d))))).

(** The rest of [fetchUsersWithCarts] after its awaits: [setUsers]
    happens before the reads of [data.stats], so a throw there keeps the
    new users; [finally] ends the loading in every case. *)
Definition resumeFetch (w : world) (r : reply) (s : state) : world * state :=
  let '(w', s') :=
    match r with
    | FetchFailed m => (log "Error fetching users:" m w, s)
    | Body None => (log "Error fetching users:" json_parse_error w, s)
    | Body (Some data) =>
        match prop (Some data) "success" with
        | Err m => (log "Error fetching users:" m w, s)
        | Ok sc =>
            if opt_truthy_json sc then
              let s1 := {| s with users := get_field "data" data |} in
              match read_stats data with
              | Ok stt => (w, {| s1 with st := stt |})
              | Err m => (log "Error fetching users:" m w, s1)
              end
            else (log "Failed to fetch users:" (js_display (get_field "message" data)) w, s)
        end
    end in
  (w', {| s' with loading := false |}).

(** [viewUserCart] (lines 91-94). *)
Definition viewUserCart (u : json) (s : state) : state :=
  {| s with selectedUser := u; cartDialogOpen := true |}.

(** The search input (line 220) and the dialog's [onOpenChange] (line 302). *)
Definition onSearchChange (q : string) (s : state) : state := {| s with searchQuery := q |}.
Definition onOpenChange (b : bool) (s : state) : state := {| s with cartDialogOpen := b |}.

(** ** The CSV export (lines 96-137) *)

Definition comma : ascii := ","%char.
Definition nl : ascii := ascii_of_nat 10.

Definition has_char (c : ascii) (s : string) : bool := str_existsb (Ascii.eqb c) s.

(** The [replace] of line 121: every double quote doubled. *)
Fixpoint double_quotes (s : string) : string :=
  match s with
  | EmptyString => EmptyString
  | String c r => if Ascii.eqb c dq then String dq (String dq (double_quotes r)) else String c (double_quotes r)
  end.

(** The cell of lines 118-123, as [join] turns it into text: a string
    with a comma or a double quote is quoted with its quotes doubled;
    any other value is converted by [join]. *)
Definition csv_cell (v : json) : string :=
  match v with
  | JStr s => if has_char comma s || has_char dq s
              then String dq (double_quotes s +++ String dq EmptyString) else s
  | _ => join_text v
  end.

Definition csv_line (row : list json) : string := String.concat "," (map csv_cell row).

Definition excel_keys : list string :=
  ["Phone"; "Name"; "Email"; "Is Admin"; "Has Cart"; "Items in Cart"; "Cart Value"; "Registered"; "Last Active"].

(** [csvContent] (lines 115-126): the keys of the first row, then a line
    per row, joined by line feeds. *)
Definition csv_content (rows : list (list json)) : string :=
  String.concat (String nl EmptyString) (String.concat "," excel_keys :: map csv_line rows).

Definition yes_no (o : option json) : json := JStr (if opt_truthy_json o then "Yes" else "No").

(** The Cart Value cell (line 109): the rupee sign and [toFixed(2)] of a
    truthy [cartValue], the rupee sign and [0.00] otherwise. *)
Definition cart_value_cell (o : option json) : result json :=
  match o with
  | Some v =>
      if json_truthy v then
        match v with
        | JNum z => Ok (JStr (rupee +++ toFixed2 z))
        | _ => Err "user.cartValue.toFixed is not a function"
        end
      else Ok (JStr (rupee +++ "0.00"))
  | None => Ok (JStr (rupee +++ "0.00"))
  end.

Section Export.
Context (localeDate : option json -> string) (today : string).

(** The object built for a user (lines 102-112), as its values in the
    order of [excel_keys]. *)
Definition excelRow (u : json) : result (list json) :=
  match u with
  | JNull => Err (read_error "null" "phone")
  | _ =>
      rbind (cart_value_cell (get_field "cartValue" u)) (fun cv =>
      Ok [or_default (get_field "phone" u) (JStr "N/A");
          or_default (get_field "name" u) (JStr "N/A");
          or_default (get_field "email" u) (JStr "N/A");
          yes_no (get_field "is_admin" u);
          yes_no (get_field "hasCart" u);
          or_default (get_field "itemCount" u) (JNum 0);
          cv;
          JStr (localeDate (get_field "created_at" u));
          JStr (localeDate (get_field "updated_at" u))])
  end.

Definition csv_filename : string := "nitai_gems_users_" +++ today +++ ".csv".

(** [downloadExcel]: an alert when no user is shown; otherwise the rows,
    the text, and a file saved under [csv_filename]. *)
Definition downloadExcel (w : world) (s : state) : result (world * state) :=
  rbind (filteredUsers s) (fun fu =>
  match fu with
  | None => Err (read_error "undefined" "length")
  | Some JNull => Err (read_error "null" "length")
  | Some v =>
      if match js_length_opt v with Some 0 => true | _ => false end
      then Ok ({| w with alerts := alerts w ++ ["No users to download"] |}, s)
      else match v with
           | JArr l => rbind (rmap_list excelRow l) (fun rows =>
                         Ok (w, {| s with downloads := downloads s ++ [(csv_filename, csv_content rows)] |}))
           | _ => Err "filteredUsers.map is not a function"
           end
  end).

End Export.

(** ** The cart dialog (lines 138-145, 302-386) *)

Section Dialog.
(** [toLocaleDateString('en-US', { year: 'numeric', month: 'short',
    day: 'numeric' })] of [new Date(dateString)], the browser's. *)
Context (shortDate : json -> string).

(** [formatDate] (lines 138-145). *)
Definition formatDate (o : option json) : string :=
  match o with Some d => if json_truthy d then shortDate d else "N/A" | None => "N/A" end.

(** [x?.toFixed(2)] as React renders it: nothing for [undefined] and
    [null]; a [TypeError] on a value that is not a number. *)
Definition opt_toFixed2 (what : string) (o : option json) : result string :=
  match o with
  | None | Some JNull => Ok ""
  | Some (JNum z) => Ok (toFixed2 z)
  | Some _ => Err (what +++ "?.toFixed is not a function")
  end.

(** The text React renders for [{x}]. *)
Definition child_text (v : Coerce.jsval) : string :=
  match Coerce.react_text v with Some t => t | None => "" end.

Record item_row := mkItemRow {
  row_image : Coerce.slot Coerce.jsval;   (** [{item.image && <img/>}] *)
  row_name : Coerce.jsval;                (** [item.name || item.productId] *)
  row_id : string;                        (** [ID: {item.productId}] *)
  row_price : string;                     (** [₹{item.price?.toFixed(2)}] *)
  row_quantity : string;
  row_total : string                      (** [₹{(item.price * item.quantity).toFixed(2)}] *)
}.

(** A row of the items table (lines 344-364); a [null] item throws at
    its first read. *)
Definition item_row_of (item : json) : result item_row :=
  let g k := Coerce.opt_get k (Some item) in
  match item with
  | JNull => Err (read_error "null" "image")
  | _ =>
      rbind (opt_toFixed2 "item.price" (g "price")) (fun p =>
      Ok (mkItemRow (Coerce.and_slot (g "image") (g "image")) (Coerce.js_or (g "name") (g "productId"))
            ("ID: " +++ child_text (g "productId")) (rupee +++ p) (child_text (g "quantity"))
            (rupee +++ Coerce.toFixed2_num
                          (match Coerce.to_number (g "price"), Coerce.to_number (g "quantity") with
                           | Some a, Some b => Some (a * b)%Q
                           | _, _ => None
                           end))))
  end.

(** [selectedUser.cart?.items?.map(...)] (line 344). *)
Definition item_rows (u : json) : result (list item_row) :=
  match Coerce.opt_get "items" (Coerce.opt_get "cart" (Some u)) with
  | None | Some JNull => Ok []
  | Some (JArr l) => rmap_list item_row_of l
  | Some _ => Err "selectedUser.cart?.items?.map is not a function"
  end.

Record dialog := mkDialog {
  description : string;          (** [{name || phone}'s shopping cart] *)
  phone_cell : string;
  name_cell : string;            (** [selectedUser.name || 'N/A'] *)
  email_cell : string;
  total_value : string;          (** [₹{selectedUser.cartValue?.toFixed(2)}] *)
  items_heading : string;        (** [Cart Items ({selectedUser.itemCount})] *)
  item_table : list item_row;
  created : string;              (** [formatDate(selectedUser.cart?.created_at)] *)
  updated : string
}.

(** The dialog's content for the selected user (lines 306-383), in the
    order React evaluates it. *)
Definition dialog_view (u : json) : result dialog :=
  let g k := Coerce.opt_get k (Some u) in
  rbind (opt_toFixed2 "selectedUser.cartValue" (g "cartValue")) (fun tv =>
  rbind (item_rows u) (fun rows =>
  Ok {| description := child_text (Coerce.js_or (g "name") (g "phone")) +++ "'s shopping cart";
        phone_cell := child_text (g "phone");
        name_cell := child_text (Coerce.js_or (g "name") (Some (JStr "N/A")));
        email_cell := child_text (Coerce.js_or (g "email") (Some (JStr "N/A")));
        total_value := rupee +++ tv;
        items_heading := "Cart Items (" +++ child_text (g "itemCount") +++ ")";
        item_table := rows;
        created := formatDate (Coerce.opt_get "created_at" (g "cart"));
        updated := formatDate (Coerce.opt_get "updated_at" (g "cart")) |})).

(** The dialog (lines 302-386): shown while [cartDialogOpen], with its
    content when [selectedUser] is truthy. *)
Definition dialog_shown (s : state) : result (option (option dialog)) :=
  if cartDialogOpen s then
    if json_truthy (selectedUser s) then rbind (dialog_view (selectedUser s)) (fun d => Ok (Some (Some d)))
    else Ok (Some None)
  else Ok None.

End Dialog.

(** ** A reader of RFC 4180 records

    Fields are separated by commas and records by line feeds; a field
    that starts with a double quote runs to the next quote that is not
    doubled, and its doubled quotes stand for one. *)

Fixpoint read_unquoted (s : string) : string * string :=
  match s with
  | EmptyString => (EmptyString, EmptyString)
  | String c r =>
      if Ascii.eqb c comma || Ascii.eqb c nl then (EmptyString, s)
      else let '(f, rest) := read_unquoted r in (String c f, rest)
  end.

(** After the opening quote. *)
Fixpoint read_quoted (s : string) : option (string * string) :=
  match s with
  | EmptyString => None
  | String c r =>
      if Ascii.eqb c dq then
        match r with
        | String c' r' =>
            if Ascii.eqb c' dq then option_map (fun '(f, rest) => (String dq f, rest)) (read_quoted r')
            else Some (EmptyString, r)
        | EmptyString => Some (EmptyString, EmptyString)
        end
      else option_map (fun '(f, rest) => (String c f, rest)) (read_quoted r)
  end.

Definition read_field (s : string) : option (string * string) :=
  match s with
  | String c r => if Ascii.eqb c dq then read_quoted r else Some (read_unquoted s)
  | EmptyString => Some (EmptyString, EmptyString)
  end.

(** A record, and what follows its line feed ([None] at the end of the text). *)
Fixpoint read_record (fuel : nat) (s : string) : option (list string * option string) :=
  match fuel with
  | 0 => None
  | S f =>
      match read_field s with
      | None => None
      | Some (x, rest) =>
          match rest with
          | EmptyString => Some ([x], None)
          | String c r =>
              if Ascii.eqb c comma then option_map (fun '(xs, e) => (x :: xs, e)) (read_record f r)
              else if Ascii.eqb c nl then Some ([x], Some r)
              else None
          end
      end
  end.

Fixpoint read_records (fuel : nat) (s : string) : option (list (list string)) :=
  match fuel with
  | 0 => None
  | S f =>
      match read_record (S (String.length s)) s with
      | Some (r, None) => Some [r]
      | Some (r, Some rest) => option_map (cons r) (read_records f rest)
      | None => None
      end
  end.

Definition parse_csv (s : string) : option (list (list string)) := read_records (S (String.length s)) s.

(** ** The page as a machine *)

Record page := mkPage { world_of : world; state_of : state }.

(** The rows on screen: none while loading; the rows of the table
    otherwise, or the [Err] of a render that throws. *)
Definition rows_shown (s : state) : result (list json) :=
  if loading s then Ok [] else rbind (filteredUsers s) rendered_rows.

Inductive event :=
| FetchDone (r : reply)        (** the awaits of [fetchUsersWithCarts] resume *)
| SearchInput (q : string)
| ViewCart (n : nat)           (** View Cart of the [n]-th row *)
| CloseDialog                  (** [onOpenChange(false)] of the dialog *)
| Download.

Section Page.
Context (env : option string) (localeDate : option json -> string) (today : string).

(** A handler that throws ([downloadExcel] on a row whose [toFixed]
    is not a function) leaves the page as it was. *)
Definition step (p : page) (e : event) : page * list (request json) :=
  let '(w, s) := (world_of p, state_of p) in
  match e with
  | FetchDone r => let '(w', s') := resumeFetch w r s in (mkPage w' s', [])
  | SearchInput q => (mkPage w (onSearchChange q s), [])
  | ViewCart n =>
      match rows_shown s with
      | Ok rows => match rows !! n with Some u => (mkPage w (viewUserCart u s), []) | None => (p, []) end
      | Err _ => (p, [])
      end
  | CloseDialog => (mkPage w (onOpenChange false s), [])
  | Download =>
      match downloadExcel localeDate today w s with
      | Ok (w', s') => (mkPage w' s', [])
      | Err _ => (p, [])
      end
  end.

(** The controls the page shows: the fetch answers while loading; the
    search box, the enabled View Cart buttons, the open dialog's close
    and the enabled Download button once the rows are rendered. *)
Definition enabled (p : page) (e : event) : Prop :=
  let s := state_of p in
  match e with
  | FetchDone _ => loading s = true
  | _ =>
      loading s = false /\
      exists rows, rows_shown s = Ok rows /\
      match e with
      | ViewCart n => exists u, rows !! n = Some u /\ viewCart_enabled u = true
      | CloseDialog => cartDialogOpen s = true
      | Download => rows <> []
      | _ => True
      end
  end.

Definition enabledb (p : page) (e : event) : bool :=
  let s := state_of p in
  match e with
  | FetchDone _ => loading s
  | _ =>
      negb (loading s) &&
      match rows_shown s with
      | Ok rows =>
          match e with
          | ViewCart n => match rows !! n with Some u => viewCart_enabled u | None => false end
          | CloseDialog => cartDialogOpen s
          | Download => negb (bool_decide (rows = []))
          | _ => true
          end
      | Err _ => false
      end
  end.

Lemma users_enabledb_enabled p e : enabledb p e = true -> enabled p e.
Proof.
  unfold enabledb, enabled. destruct e; [done|..];
    destruct (loading (state_of p)); try done; simpl;
    destruct (rows_shown (state_of p)) as [rows|]; try done; intros H; split; try done;
    exists rows; split; try done.
  - destruct (rows !! n) eqn:E; [eauto|done].
  - intros ->. done.
Qed.

Definition users_machine : machine unit page event (request json) :=
  Machine (fun _ => step) enabled enabledb users_enabledb_enabled.

(** The page after its mount effect (lines 39-41). *)
Definition mounted (w : world) : page * list (request json) :=
  let '(s, out) := fetchUsersWithCarts env w initial_state in (mkPage w s, out).

Definition reachable (p : page) : Prop :=
  exists w, star (tab_step users_machine) (fst (mounted w)) p.

End Page.

(** ** Lemmas *)

(** A cell that the reader gets back: no line break, and for a value
    that [join] converts, no comma or double quote either. *)
Definition csv_safe (v : json) : bool :=
  match v with
  | JStr s => negb (has_char nl s)
  | _ => let t := join_text v in negb (has_char comma t || has_char dq t || has_char nl t)
  end.

(** The text a cell stands for. *)
Definition cell_text (v : json) : string :=
  match v with JStr s => s | _ => join_text v end.

(** What may follow a field: the end, a comma or a line feed. *)
Definition field_end (r : string) : bool :=
  match r with EmptyString => true | String c _ => Ascii.eqb c comma || Ascii.eqb c nl end.

Definition record_tail (e : option string) : string :=
  match e with None => EmptyString | Some r => String nl r end.

Lemma has_char_cons c d s : has_char c (String d s) = Ascii.eqb c d || has_char c s.
Proof. reflexivity. Qed.

Lemma read_quoted_double s r :
  match r with String c _ => negb (Ascii.eqb c dq) | EmptyString => true end = true ->
  read_quoted (double_quotes s +++ String dq r) = Some (s, r).
Proof.
  intros Hr. induction s as [|c s IH]; simpl.
  - destruct r as [|c r]; [done|]. simpl in Hr. by destruct (Ascii.eqb c dq).
  - destruct (Ascii.eqb c dq) eqn:E.
    + apply Ascii.eqb_eq in E as ->. rewrite ?sapp_cons. simpl. rewrite IH. done.
    + rewrite ?sapp_cons. simpl. rewrite E, IH. done.
Qed.

Lemma read_unquoted_plain t r :
  has_char comma t = false -> has_char nl t = false -> field_end r = true ->
  read_unquoted (t +++ r) = (t, r).
Proof.
  intros Hc Hn Hr. induction t as [|c t IH]; simpl.
  - rewrite sapp_nil_l. destruct r as [|c r]; [done|]. simpl in Hr |- *. by rewrite Hr.
  - rewrite has_char_cons in Hc, Hn. apply orb_false_iff in Hc as [Hc1 Hc2], Hn as [Hn1 Hn2].
    rewrite Ascii.eqb_sym in Hc1, Hn1. rewrite ?sapp_cons. simpl. rewrite Hc1, Hn1, IH; done.
Qed.

Lemma read_field_plain t r :
  has_char comma t = false -> has_char dq t = false -> has_char nl t = false -> field_end r = true ->
  read_field (t +++ r) = Some (t, r).
Proof.
  intros Hc Hq Hn Hr. destruct t as [|c t].
  - rewrite sapp_nil_l. destruct r as [|c r]; [done|]. simpl in *.
    apply orb_true_iff in Hr as [H|H]; apply Ascii.eqb_eq in H as ->; reflexivity.
  - pose proof (read_unquoted_plain (String c t) r Hc Hn Hr) as H.
    rewrite has_char_cons in Hq. apply orb_false_iff in Hq as [Hq1 _]. rewrite Ascii.eqb_sym in Hq1.
    simpl in H |- *. rewrite Hq1. f_equal. exact H.
Qed.

Lemma field_end_not_dq r :
  field_end r = true -> match r with String c _ => negb (Ascii.eqb c dq) | EmptyString => true end = true.
Proof.
  destruct r as [|c r]; [done|]. simpl. intros H.
  apply orb_true_iff in H as [H|H]; apply Ascii.eqb_eq in H as ->; reflexivity.
Qed.

Lemma read_field_cell v r :
  csv_safe v = true -> field_end r = true -> read_field (csv_cell v +++ r) = Some (cell_text v, r).
Proof.
  intros Hv Hr. destruct v as [| | |s| |]; cbn [csv_safe csv_cell cell_text] in Hv |- *.
  4: { apply negb_true_iff in Hv. destruct (has_char comma s || has_char dq s) eqn:E.
       - rewrite ?sapp_cons, sapp_assoc, ?sapp_cons, sapp_nil_l. simpl.
         by apply read_quoted_double, field_end_not_dq.
       - apply orb_false_iff in E as [Hc Hq]. by apply read_field_plain. }
  all: apply negb_true_iff, orb_false_iff in Hv as [Hv Hn]; apply orb_false_iff in Hv as [Hc Hq];
    by apply read_field_plain.
Qed.

Lemma csv_line_cons v v2 row : csv_line (v :: v2 :: row) = csv_cell v +++ String comma (csv_line (v2 :: row)).
Proof. unfold csv_line. simpl. by rewrite sapp_cons, sapp_nil_l. Qed.

Lemma read_record_line fuel row e :
  row <> [] -> Forall (fun v => csv_safe v = true) row -> List.length row <= fuel ->
  read_record fuel (csv_line row +++ record_tail e) = Some (map cell_text row, e).
Proof.
  revert fuel. induction row as [|v row IH]; intros fuel Hne Hs Hf; [done|].
  apply Forall_cons in Hs as [Hv Hs]. destruct fuel as [|f]; [simpl in Hf; lia|].
  destruct row as [|v2 row].
  - cbn [read_record]. change (csv_line [v]) with (csv_cell v).
    rewrite read_field_cell by (done || by destruct e).
    destruct e; reflexivity.
  - rewrite csv_line_cons, sapp_assoc, sapp_cons. cbn [read_record].
    rewrite read_field_cell by done. simpl. rewrite IH by (done || simpl in *; lia). reflexivity.
Qed.

Lemma concat_count (sep : string) (l : list string) :
  sep <> "" -> List.length l <= S (String.length (String.concat sep l)).
Proof.
  intros Hs. induction l as [|x l IH]; simpl; [lia|].
  destruct l as [|y l]; [simpl; lia|].
  rewrite !sapp_length. destruct sep; [done|]. simpl in *. lia.
Qed.

Lemma csv_line_count row : List.length row <= S (String.length (csv_line row)).
Proof. unfold csv_line. rewrite <- (length_map csv_cell row). by apply concat_count. Qed.

Lemma read_records_lines fuel rows :
  Forall (fun r => r <> [] /\ Forall (fun v => csv_safe v = true) r) rows -> rows <> [] ->
  List.length rows <= fuel ->
  read_records fuel (String.concat (String nl EmptyString) (map csv_line rows))
  = Some (map (map cell_text) rows).
Proof.
  revert fuel. induction rows as [|r rows IH]; intros fuel Hs Hne Hf; [done|].
  apply Forall_cons in Hs as [[Hr Hrs] Hs]. destruct fuel as [|f]; [simpl in Hf; lia|].
  destruct rows as [|r2 rows].
  - cbn [read_records map]. change (String.concat _ [csv_line r]) with (csv_line r).
    rewrite <- (sapp_nil_r (csv_line r)). change EmptyString with (record_tail None) at 2.
    rewrite read_record_line; [reflexivity|done..|].
    pose proof (csv_line_count r). rewrite sapp_length. lia.
  - assert (E : String.concat (String nl EmptyString) (map csv_line (r :: r2 :: rows))
                = csv_line r +++ record_tail (Some (String.concat (String nl EmptyString) (map csv_line (r2 :: rows)))))
      by (simpl; by rewrite sapp_cons, sapp_nil_l).
    rewrite E. cbn [read_records]. rewrite read_record_line; [|done..|].
    + simpl. rewrite IH by (done || simpl in *; lia). reflexivity.
    + pose proof (csv_line_count r). rewrite sapp_length. lia.
Qed.

(** The export reads back as the header and the texts of the cells. *)
Lemma csv_content_reads_back rows :
  Forall (fun r => r <> [] /\ Forall (fun v => csv_safe v = true) r) rows ->
  parse_csv (csv_content rows) = Some (excel_keys :: map (map cell_text) rows).
Proof.
  intros H. unfold parse_csv, csv_content.
  change (String.concat "," excel_keys) with (csv_line (map JStr excel_keys)).
  change (csv_line (map JStr excel_keys) :: map csv_line rows) with (map csv_line (map JStr excel_keys :: rows)).
  change (excel_keys :: map (map cell_text) rows) with (map (map cell_text) (map JStr excel_keys :: rows)).
  apply read_records_lines.
  - constructor; [split; [done | repeat constructor] | done].
  - done.
  - rewrite <- (length_map csv_line). by apply concat_count.
Qed.

Lemma rmap_list_Forall {A B} (f : A -> result B) (P : B -> Prop) l ys :
  (forall x y, f x = Ok y -> P y) -> rmap_list f l = Ok ys -> Forall P ys.
Proof.
  intros Hf. revert ys. induction l as [|x l IH]; simpl; intros ys H.
  - injection H as <-. constructor.
  - destruct (f x) as [y|] eqn:Ex; [|discriminate]. simpl in H.
    destruct (rmap_list f l) as [zs|]; [|discriminate]. injection H as <-. eauto.
Qed.

Lemma excelRow_nonempty ld u row : excelRow ld u = Ok row -> row <> [].
Proof.
  unfold excelRow. destruct u; [discriminate|..];
    destruct (cart_value_cell _); simpl; intros H; try discriminate; injection H as <-; discriminate.
Qed.

Definition plain_field (o : option json) : bool :=
  match o with None | Some JNull | Some (JStr _) => true | _ => false end.

(** A user whose phone, name and email are strings, [null] or absent. *)
Definition plain_user (u : json) : bool :=
  match u with
  | JNull => false
  | _ => plain_field (get_field "phone" u) && plain_field (get_field "name" u) && plain_field (get_field "email" u)
  end.

Definition field_has (q : string) (o : option json) : bool :=
  match o with Some (JStr s) => js_includes (js_to_lower s) q | _ => false end.

Lemma field_includes_plain q o : plain_field o = true -> field_includes q o = Ok (field_has q o).
Proof. destruct o as [[]|]; done. Qed.

Lemma rfilter_ok {A} (f : A -> result bool) (g : A -> bool) l :
  Forall (fun x => f x = Ok (g x)) l -> rfilter f l = Ok (List.filter g l).
Proof.
  induction 1 as [|x l Hx _ IH]; [done|]. simpl. rewrite Hx. simpl. rewrite IH. simpl. by destruct (g x).
Qed.

Lemma user_matches_plain q u :
  plain_user u = true ->
  user_matches q u = Ok (field_has q (get_field "phone" u) || field_has q (get_field "name" u)
                         || field_has q (get_field "email" u)).
Proof.
  intros H. assert (E : user_matches q u =
    rbind (field_includes q (get_field "phone" u)) (fun b1 => if b1 then Ok true else
    rbind (field_includes q (get_field "name" u)) (fun b2 => if b2 then Ok true else
    field_includes q (get_field "email" u)))) by (destruct u; done).
  assert (H' : plain_field (get_field "phone" u) && plain_field (get_field "name" u)
               && plain_field (get_field "email" u) = true) by (destruct u; done).
  apply andb_true_iff in H' as [H' H3]; apply andb_true_iff in H' as [H1 H2].
  rewrite E, (field_includes_plain _ _ H1), (field_includes_plain _ _ H2), (field_includes_plain _ _ H3).
  simpl. by destruct (field_has q (get_field "phone" u)), (field_has q (get_field "name" u)).
Qed.

Definition dialog_ok (p : page) : Prop :=
  cartDialogOpen (state_of p) = true -> viewCart_enabled (selectedUser (state_of p)) = true.

Lemma downloadExcel_dialog ld today w s w' s' :
  downloadExcel ld today w s = Ok (w', s') ->
  selectedUser s' = selectedUser s /\ cartDialogOpen s' = cartDialogOpen s.
Proof.
  unfold downloadExcel. destruct (filteredUsers s) as [[v|]|]; simpl; try discriminate.
  destruct v as [| | |t|l|]; simpl; try discriminate.
  - destruct (String.length t); simpl; intros H; [injection H as _ <-; done | discriminate].
  - destruct (List.length l); simpl; [intros H; injection H as _ <-; done|].
    destruct (rmap_list (excelRow ld) l); simpl; intros H; [injection H as _ <-; done | discriminate].
Qed.


Lemma resumeFetch_dialog w r s :
  selectedUser (snd (resumeFetch w r s)) = selectedUser s /\
  cartDialogOpen (snd (resumeFetch w r s)) = cartDialogOpen s.
Proof.
  unfold resumeFetch. destruct r as [[d|]|m]; cbn -[read_stats prop opt_truthy_json]; [|done..].
  destruct (prop (Some d) "success") as [sc|m]; [|done].
  destruct (opt_truthy_json sc); [|done]. by destruct (read_stats d).
Qed.

Lemma step_dialog_ok ld today p e :
  enabled p e -> dialog_ok p -> dialog_ok (fst (step ld today p e)).
Proof.
  unfold dialog_ok, step. destruct p as [w s]; destruct e; simpl; intros Hen H.
  - pose proof (resumeFetch_dialog w r s) as [E1 E2].
    destruct (resumeFetch w r s) as [w' s']. simpl in *. by rewrite E1, E2.
  - exact H.
  - destruct Hen as (_ & rows & Hrows & u & Hu & Hv). rewrite Hrows, Hu. by intros _.
  - discriminate.
  - destruct (downloadExcel ld today w s) as [[w' s']|] eqn:E; [|exact H].
    apply downloadExcel_dialog in E as [E1 E2]. simpl. by rewrite E1, E2.
Qed.


Definition no_space (o : option json) : bool :=
  match o with Some (JStr s) => negb (has_char " " s) | _ => true end.

Lemma lower_space c : Ascii.eqb " " (js_char_to_lower c) = Ascii.eqb " " c.
Proof. destruct c as [[] [] [] [] [] [] [] []]; reflexivity. Qed.

Lemma has_char_lower s : has_char " " (js_to_lower s) = has_char " " s.
Proof.
  induction s as [|c s IH]; [done|]. unfold has_char in *. cbn [js_to_lower str_existsb]. by rewrite IH, lower_space.
Qed.

Lemma includes_has_char s c t : js_includes s (String c t) = true -> has_char c s = true.
Proof.
  intros H. apply js_includes_spec in H as (a & b & ->).
  unfold has_char in *. induction a as [|d a IH].
  - rewrite sapp_nil_l, sapp_cons. cbn [str_existsb]. by rewrite Ascii.eqb_refl.
  - rewrite sapp_cons. cbn [str_existsb]. by rewrite IH, orb_true_r.
Qed.

Lemma field_has_space q o : no_space o = true -> field_has (String " " q) o = false.
Proof.
  destruct o as [[]|]; try done. simpl. intros H. apply negb_true_iff in H.
  destruct (js_includes (js_to_lower s) (String " " q)) eqn:E; [|done].
  apply includes_has_char in E. by rewrite has_char_lower, H in E.
Qed.

(** ** Theorems *)

Definition date1 (o : option json) : string := "1/2/2025".

Definition admin_world : world := mkWorld (<["adminToken" := "tok"]> ∅) "/admin/users" [] [].

Definition user_asha : json :=
  JObj [("id", JNum 1); ("phone", JStr "9845012345"); ("name", JStr "Asha Rao");
        ("email", JStr "asha@example.com"); ("is_admin", JBool true); ("hasCart", JBool true);
        ("itemCount", JNum 2); ("cartValue", JNum 1250)].

Definition shown (us : list json) : state :=
  {| initial_state with users := Some (JArr us); loading := false |}.

Definition rows_of (us : list json) : list (list json) :=
  match rmap_list (excelRow date1) us with Ok r => r | Err _ => [] end.

(** C32: the CSV file of Download Excel reads back, as RFC 4180 records,
    as the header line and then one record per user shown, holding the
    texts of the nine cells of [excelRow], whenever no cell holds a line
    break (and no cell that is not a string converts to a text with a
    comma or a quote). *)
Theorem download_reads_back (localeDate : option json -> string) (today : string) w s l rows :
  filteredUsers s = Ok (Some (JArr l)) -> l <> [] ->
  rmap_list (excelRow localeDate) l = Ok rows ->
  Forall (Forall (fun v => csv_safe v = true)) rows ->
  exists text,
    downloadExcel localeDate today w s
      = Ok (w, {| s with downloads := downloads s ++ [(csv_filename today, text)] |})
    /\ parse_csv text = Some (excel_keys :: map (map cell_text) rows).
Proof.
  intros Hf Hl Hr Hs. exists (csv_content rows). split.
  - unfold downloadExcel. rewrite Hf. cbn [rbind js_length_opt]. destruct l; [done|].
    cbn [List.length]. by rewrite Hr.
  - apply csv_content_reads_back, Forall_and. split; [|done].
    eapply rmap_list_Forall; [apply excelRow_nonempty | exact Hr].
Qed.

Lemma download_reads_back_witness :
  exists text,
    downloadExcel date1 "2025-01-02" admin_world (shown [user_asha])
      = Ok (admin_world, {| (shown [user_asha]) with downloads := downloads (shown [user_asha])
                              ++ [(csv_filename "2025-01-02", text)] |})
    /\ parse_csv text = Some (excel_keys :: map (map cell_text) (rows_of [user_asha])).
Proof.
  apply (download_reads_back date1 "2025-01-02" admin_world (shown [user_asha]) [user_asha]);
    [reflexivity | discriminate | reflexivity | vm_compute; repeat constructor].
Defined.

Definition user_line_break : json :=
  JObj [("phone", JStr "9000000000"); ("name", JStr (String "A" (String nl (String "B" EmptyString))))].

(** A name with a line break is exported without quotes (the code
    quotes only a comma or a double quote), so the reader of the file
    sees the user's record cut in two at the line break. *)
Theorem export_line_break_splits_record :
  downloadExcel date1 "2025-01-02" admin_world (shown [user_line_break])
    = Ok (admin_world, {| (shown [user_line_break]) with
            downloads := [(csv_filename "2025-01-02", csv_content (rows_of [user_line_break]))] |})
  /\ parse_csv (csv_content (rows_of [user_line_break]))
     = Some [excel_keys; ["9000000000"; "A"];
             ["B"; "N/A"; "No"; "No"; "0"; rupee +++ "0.00"; "1/2/2025"; "1/2/2025"]].
Proof. split; vm_compute; reflexivity. Qed.

(** A search that starts with a space is not blank after [trim], so
    the filter runs, with the query untrimmed: a user whose phone, name
    and email hold no space is never found by it. *)
Theorem search_leading_space q l :
  js_trim q <> "" ->
  Forall (fun u => plain_user u = true /\ no_space (get_field "phone" u) = true /\
                   no_space (get_field "name" u) = true /\ no_space (get_field "email" u) = true) l ->
  filterUsers (" " +++ q) (Some (JArr l)) = Ok (Some (JArr [])).
Proof.
  intros Hq Hl. unfold filterUsers.
  replace (js_trim (" " +++ q)) with (js_trim q) by reflexivity.
  destruct (js_trim q ==? "") eqn:E; [by apply String.eqb_eq in E|].
  rewrite (rfilter_ok _ (fun _ => false)); [by rewrite List.filter_false|].
  eapply Forall_impl; [exact Hl|]. intros u (Hp & H1 & H2 & H3).
  rewrite user_matches_plain by done. simpl.
  by rewrite !field_has_space.
Qed.

Lemma search_leading_space_witness :
  js_trim "9845" <> "" /\
  filterUsers (" " +++ "9845") (Some (JArr [JObj [("phone", JStr "9845012345"); ("name", JStr "Asha")]]))
    = Ok (Some (JArr [])).
Proof.
  assert (H : js_trim "9845" <> "") by discriminate. split; [exact H|].
  apply (search_leading_space "9845" _ H). repeat constructor.
Defined.

(** A user with [is_admin: true] is exported with Is Admin = Yes
    (a truthiness test), but the table shows no Admin badge, which
    requires [is_admin === 1]. *)
Theorem admin_flag_disagrees ld u row :
  get_field "is_admin" u = Some (JBool true) -> excelRow ld u = Ok row ->
  admin_badge u = false /\ nth_error row 3 = Some (JStr "Yes").
Proof.
  intros H Hr. unfold admin_badge. rewrite H. split; [done|].
  destruct u; try discriminate H. unfold excelRow in Hr.
  destruct (cart_value_cell _); cbn [rbind] in Hr; [|discriminate].
  injection Hr as <-. cbn [nth_error]. unfold yes_no. unfold get_field in H. by rewrite H.
Qed.

Lemma admin_flag_disagrees_witness :
  admin_badge user_asha = false /\ nth_error (List.concat (rows_of [user_asha])) 3 = Some (JStr "Yes").
Proof.
  assert (H1 : get_field "is_admin" user_asha = Some (JBool true)) by reflexivity.
  assert (H2 : excelRow date1 user_asha = Ok (List.concat (rows_of [user_asha]))) by reflexivity.
  exact (admin_flag_disagrees date1 user_asha _ H1 H2).
Defined.

(** The fetch never reads [response.ok]: a body whose [success] is
    true but that has no [stats] (or any such answer) sets [users] to
    its [data], then throws at [data.stats.totalUsers]; the error is
    only logged, the statistics keep their old values and loading ends,
    so the page shows the new users beside stale counts. *)
Theorem fetch_partial_update w s d :
  opt_truthy_json (get_field "success" d) = true -> get_field "stats" d = None ->
  resumeFetch w (Body (Some d)) s
  = (log "Error fetching users:" (read_error "undefined" "totalUsers") w,
     {| s with users := get_field "data" d; loading := false |}).
Proof.
  intros H1 H2. destruct d; try discriminate H1.
  unfold resumeFetch, read_stats. cbn [prop]. rewrite H1, H2. reflexivity.
Qed.

Lemma fetch_partial_update_witness :
  resumeFetch admin_world (Body (Some (JObj [("success", JBool true); ("data", JArr [user_asha])]))) initial_state
  = (log "Error fetching users:" (read_error "undefined" "totalUsers") admin_world,
     {| initial_state with users := Some (JArr [user_asha]); loading := false |}).
Proof. apply fetch_partial_update; reflexivity. Defined.

Lemma prop_some d k sc : prop (Some d) k = Ok sc -> sc = get_field k d.
Proof. destruct d; simpl; intros E; try discriminate; by injection E. Qed.

(** A fetch that fails (a rejected [fetch], a body that is not
    JSON, [null], or an answer whose [success] is falsy, whatever its
    HTTP status) keeps the users and the statistics, logs one error,
    and ends the loading. *)
Theorem fetch_failure_keeps_state w r s :
  (forall d, r = Body (Some d) -> opt_truthy_json (get_field "success" d) = false) ->
  let '(w', s') := resumeFetch w r s in
  users s' = users s /\ st s' = st s /\ loading s' = false /\
  exists label msg, console w' = console w ++ [(label, msg)].
Proof.
  intros H. unfold resumeFetch.
  assert (L : forall l m, exists label msg, console (log l m w) = console w ++ [(label, msg)])
    by (intros l m; by exists l, m).
  destruct r as [[d|]|m]; cbn -[prop opt_truthy_json read_stats log]; [|by auto..].
  destruct (prop (Some d) "success") as [sc|m] eqn:E; [|by auto].
  apply prop_some in E as ->. rewrite (H _ eq_refl). by auto.
Qed.

Lemma fetch_failure_keeps_state_witness :
  let '(w', s') := resumeFetch admin_world
                     (Body (Some (JObj [("success", JBool false); ("message", JStr "Invalid token")])))
                     (shown [user_asha]) in
  users s' = Some (JArr [user_asha]) /\ st s' = stats_initial /\ loading s' = false /\
  exists label msg, console w' = [] ++ [(label, msg)].
Proof.
  apply (fetch_failure_keeps_state admin_world _ (shown [user_asha])).
  intros d Hd. injection Hd as <-. reflexivity.
Defined.

(** In every reachable state of the Users page, an open cart
    dialog shows a user whose View Cart button is enabled: one with a
    truthy [hasCart] and an [itemCount] other than [0]. *)
Theorem dialog_shows_enabled_user env ld today p :
  reachable env ld today p -> cartDialogOpen (state_of p) = true ->
  viewCart_enabled (selectedUser (state_of p)) = true.
Proof.
  intros [w Hr]. revert Hr. apply (star_invariant _ dialog_ok).
  - intros x y (l & e & out & Hen & Hs) Hx. change (m_step _ l x e) with (step ld today x e) in Hs.
    pose proof (step_dialog_ok ld today x e Hen Hx) as H. by rewrite Hs in H.
  - by unfold dialog_ok, mounted.
Qed.

Definition dialog_trace : list event :=
  [FetchDone (Body (Some (JObj [("success", JBool true); ("data", JArr [user_asha]);
                                ("stats", JObj [("totalUsers", JNum 1)])]))); ViewCart 0].

Lemma dialog_shows_enabled_user_witness :
  exists p out, run (users_machine date1 "2025-01-02") tt (fst (mounted None admin_world)) dialog_trace
                = Some (p, out)
                /\ cartDialogOpen (state_of p) = true /\ viewCart_enabled (selectedUser (state_of p)) = true.
Proof.
  destruct (run (users_machine date1 "2025-01-02") tt (fst (mounted None admin_world)) dialog_trace)
    as [[p out]|] eqn:E; [|vm_compute in E; discriminate].
  assert (Ho : cartDialogOpen (state_of p) = true) by (vm_compute in E; injection E as <- _; reflexivity).
  exists p, out. split; [reflexivity|]. split; [exact Ho|].
  apply (dialog_shows_enabled_user None date1 "2025-01-02" p); [|exact Ho].
  exists admin_world. exact (run_reachable _ _ _ _ _ _ E).
Defined.

(** ** The cart dialog *)

Lemma item_row_of_num item p :
  item <> JNull -> get_field "price" item = Some (JNum p) ->
  item_row_of item = Ok (mkItemRow (Coerce.and_slot (get_field "image" item) (get_field "image" item))
     (Coerce.js_or (get_field "name" item) (get_field "productId" item))
     ("ID: " +++ child_text (get_field "productId" item)) (rupee +++ toFixed2 p)
     (child_text (get_field "quantity" item))
     (rupee +++ Coerce.toFixed2_num (option_map (Qmult (inject_Z p)) (Coerce.to_number (get_field "quantity" item))))).
Proof.
  intros Hn Hp. unfold item_row_of. cbn [Coerce.opt_get]. rewrite Hp.
  destruct item; try done; cbn [opt_toFixed2 rbind]; by destruct (Coerce.to_number _).
Qed.

(** A row of the cart with integer [price] and [quantity] shows the
    price and the total [price * quantity], both with two decimals. *)
Lemma item_row_total item p q :
  item <> JNull -> get_field "price" item = Some (JNum p) -> get_field "quantity" item = Some (JNum q) ->
  exists r, item_row_of item = Ok r /\ row_price r = rupee +++ toFixed2 p /\
            row_total r = rupee +++ toFixed2 (p * q).
Proof.
  intros Hn Hp Hq. rewrite (item_row_of_num item p Hn Hp), Hq. eexists. split; [reflexivity|].
  split; [done|]. cbn. by rewrite <- inject_Z_mult, Coerce.toFixed2_Q_int.
Qed.

(** C33: in the cart dialog, an item without a price shows the rupee sign alone as its price
    and [NaN] as its total; a price held as a string throws, and the
    dialog of its user does not render. *)
Theorem cart_item_price_errors sd u items item q s :
  item <> JNull -> In item items -> get_field "quantity" item = Some (JNum q) ->
  (get_field "price" item = None ->
   exists r, item_row_of item = Ok r /\ row_price r = rupee /\ row_total r = rupee +++ "NaN") /\
  (get_field "price" item = Some (JStr s) ->
   Coerce.opt_get "items" (Coerce.opt_get "cart" (Some u)) = Some (JArr items) ->
   get_field "cartValue" u = None ->
   exists m, dialog_view sd u = Err m).
Proof.
  intros Hn Hin Hq. split.
  - intros Hp. unfold item_row_of. cbn [Coerce.opt_get]. rewrite Hp, Hq.
    destruct item; try done; by eexists.
  - intros Hp Hi Hv. unfold dialog_view. cbn [Coerce.opt_get]. rewrite Hv. cbn [opt_toFixed2 rbind].
    unfold item_rows. rewrite Hi.
    assert (Hr : item_row_of item = Err "item.price?.toFixed is not a function").
    { unfold item_row_of. cbn [Coerce.opt_get]. rewrite Hp. by destruct item. }
    destruct (rmap_list item_row_of items) as [rows|m] eqn:E.
    + pose proof (rmap_list_ok_in _ _ _ _ E Hin) as [r Hr']. congruence.
    + by exists m.
Qed.

Definition string_price_item : json :=
  JObj [("productId", JStr "ring-01"); ("price", JStr "1500"); ("quantity", JNum 2)].
Definition unpriced_item : json := JObj [("productId", JStr "ring-02"); ("quantity", JNum 1)].
Definition user_string_price : json :=
  JObj [("phone", JStr "9845012345"); ("cart", JObj [("items", JArr [string_price_item])])].

Lemma cart_item_price_errors_witness :
  (exists r, item_row_of unpriced_item = Ok r /\ row_price r = rupee /\ row_total r = rupee +++ "NaN") /\
  (exists m, dialog_view (fun _ => "Jan 2, 2025") user_string_price = Err m).
Proof.
  split.
  - apply (cart_item_price_errors (fun _ => "Jan 2, 2025") user_string_price [unpriced_item] unpriced_item 1 "")
      ; [discriminate | by left | reflexivity | reflexivity].
  - apply (cart_item_price_errors (fun _ => "Jan 2, 2025") user_string_price [string_price_item]
             string_price_item 2 "1500"); [discriminate | by left | reflexivity | reflexivity..].
Defined.

End Users.
