(* ===== verification/Clients.v ===== *)
(** * The two shared API clients: [src/src/lib/api.js] and [src/src/utils/api.js]

    Besides the API objects each admin tab defines for itself ([Api],
    Module [TabApi]), the sources hold two shared clients:
    - [lib/api.js]: [categoryAPI], [subcategoryAPI], [productAPI] and
      [hierarchyAPI] over [VITE_API_BASE_URL] (default
      [http://localhost:8787/admin]), with no [Authorization] header and
      the tabs' [handleResponse] (Module [LibApi]);
    - [utils/api.js]: [api.admin.*] through [authFetch], which throws
      when no admin token is stored and otherwise sets
      [Authorization: Bearer <token>] after the caller's headers, each
      call wrapped in [safeAdminCall], which logs an error and throws it
      again; and [api.public.*] through [publicFetch], without a token.
      Its base URL is [VITE_API_BASE_URL_ADMIN] (default
      [http://localhost:8787]) followed by paths that start with
      [/admin] (Module [AdminApi]).

    Headers are built as JavaScript objects: a key set again keeps its
    place and takes the new value ([obj_set]); a spread sets every key
    of the source in order ([obj_spread]).

    The theorems: a caller cannot replace the bearer header of
    [authFetch]; without a token [authFetch] throws before any request;
    [safeAdminCall] logs every error it passes on; the tabs and
    [utils/api.js] read the same variable [VITE_API_BASE_URL_ADMIN] with
    two conventions, so they reach the same URLs only when it is unset;
    no request of [lib/api.js] carries a token. *)

From stdpp Require Import gmap.
From S2P Require Import Prelude Api Json Session.

#[local] Open Scope list_scope.
#[local] Open Scope nitai_scope.

Module Clients.
Import Http Storage Json Session.

(** ** Headers as JavaScript objects *)

Fixpoint obj_set (o : list (string * string)) (k v : string) : list (string * string) :=
  match o with
  | [] => [(k, v)]
  | (k', v') :: r => if k' ==? k then (k, v) :: r else (k', v') :: obj_set r k v
  end.

Definition obj_spread (o src : list (string * string)) : list (string * string) :=
  fold_left (fun acc '(k, v) => obj_set acc k v) src o.

Definition obj_get (o : list (string * string)) (k : string) : option string :=
  option_map snd (find (fun p => fst p ==? k) o).

(** The [options] argument of [fetch] that the clients pass on. *)
Record options := mkOptions {
  o_method : option method;
  o_headers : list (string * string);
  o_body : option json
}.

Definition no_options : options := mkOptions None [] None.

Definition method_of (o : options) : method :=
  match o_method o with Some m => m | None => GET end.

(** ** [lib/api.js] *)

Module LibApi.

(** [import.meta.env.VITE_API_BASE_URL || 'http://localhost:8787/admin'] (line 2). *)
Definition API_BASE_URL (env : option string) : string :=
  match env with
  | Some u => if js_truthy_str u then u else "http://localhost:8787/admin"
  | None => "http://localhost:8787/admin"
  end.

Definition json_headers : list (string * string) := [("Content-Type", "application/json")].

Definition get (env : option string) (path : string) : request json :=
  mkRequest GET (API_BASE_URL env +++ path) [] None.
Definition send (m : method) (env : option string) (path : string) (data : json) : request json :=
  mkRequest m (API_BASE_URL env +++ path) json_headers (Some data).
Definition remove (env : option string) (path : string) : request json :=
  mkRequest DELETE (API_BASE_URL env +++ path) [] None.

(** [categoryAPI] (lines 14-44). *)
Definition categoryAPI_getAll env := get env "/categories".
Definition categoryAPI_create env data := send POST env "/category" data.
Definition categoryAPI_update env id data := send PUT env ("/category/" +++ id) data.
Definition categoryAPI_delete env id := remove env ("/category/" +++ id).

(** [subcategoryAPI] (lines 47-82). *)
Definition subcategoryAPI_getAll env := get env "/subcategories".
Definition subcategoryAPI_getByCategorySlug env slug := get env ("/subcategories/" +++ slug).
Definition subcategoryAPI_create env data := send POST env "/subcategory" data.
Definition subcategoryAPI_update env id data := send PUT env ("/subcategory/" +++ id) data.
Definition subcategoryAPI_delete env id := remove env ("/subcategory/" +++ id).

(** [productAPI] (lines 85-120). *)
Definition productAPI_getAll env := get env "/products".
Definition productAPI_getById env id := get env ("/products/" +++ id).
Definition productAPI_create env data := send POST env "/products" data.
Definition productAPI_update env id data := send PUT env ("/products/" +++ id) data.
Definition productAPI_delete env id := remove env ("/products/" +++ id).

(** [hierarchyAPI] (lines 123-128). *)
Definition hierarchyAPI_get env := get env "/hierarchy".

(** Every request [lib/api.js] can send, for given arguments. *)
Definition all_requests env (id slug : string) (data : json) : list (request json) :=
  [categoryAPI_getAll env; categoryAPI_create env data; categoryAPI_update env id data;
   categoryAPI_delete env id; subcategoryAPI_getAll env; subcategoryAPI_getByCategorySlug env slug;
   subcategoryAPI_create env data; subcategoryAPI_update env id data; subcategoryAPI_delete env id;
   productAPI_getAll env; productAPI_getById env id; productAPI_create env data;
   productAPI_update env id data; productAPI_delete env id; hierarchyAPI_get env].

End LibApi.

(** ** [utils/api.js] *)

Module AdminApi.

(** [import.meta.env.VITE_API_BASE_URL_ADMIN || 'http://localhost:8787'] (line 2). *)
Definition API_BASE_URL (env : option string) : string :=
  match env with
  | Some u => if js_truthy_str u then u else "http://localhost:8787"
  | None => "http://localhost:8787"
  end.

(** [getAuthToken] (line 5). *)
Definition getAuthToken (ls : storage) : option string := getItem ls "adminToken".

Definition no_token_error : string := "No authentication token found. Please login.".

(** [authFetch] (lines 17-31) up to its [fetch]: the error it throws,
    or the request, whose headers are [Content-Type], the caller's, then
    [Authorization]. *)
Definition authFetch (ls : storage) (url : string) (opts : options) : result (request json) :=
  match getAuthToken ls with
  | Some t =>
      if js_truthy_str t then
        Ok (mkRequest (method_of opts) url
              (obj_set (obj_spread [("Content-Type", "application/json")] (o_headers opts))
                 "Authorization" ("Bearer " +++ t))
              (o_body opts))
      else Err no_token_error
  | None => Err no_token_error
  end.

(** [publicFetch] (lines 34-42) up to its [fetch]. *)
Definition publicFetch (url : string) (opts : options) : request json :=
  mkRequest (method_of opts) url (obj_spread [("Content-Type", "application/json")] (o_headers opts)) (o_body opts).

(** [safeAdminCall] (lines 47-56), on the error thrown before the
    [fetch] and on the one [handleResponse] (lines 8-14) throws after
    it: logged, then thrown again. *)
Definition safe_send (w : world) (r : result (request json)) : world * result (request json) :=
  match r with Ok q => (w, Ok q) | Err m => (log "Admin API error:" m w, Err m) end.

Definition safe_finish (w : world) (resp : response json) : world * result json :=
  match handleResponse_utils resp with
  | Ok v => (w, Ok v)
  | Err m => (log "Admin API error:" m w, Err m)
  end.

Definition admin_get env ls path := authFetch ls (API_BASE_URL env +++ path) no_options.
Definition admin_send env ls (m : method) path (data : json) :=
  authFetch ls (API_BASE_URL env +++ path) (mkOptions (Some m) [] (Some data)).
Definition admin_delete env ls path := authFetch ls (API_BASE_URL env +++ path) (mkOptions (Some DELETE) [] None).

(** [api.admin.categories] (lines 60-66). *)
Definition categories_getAll env ls := admin_get env ls "/admin/categories".
Definition categories_getById env ls id := admin_get env ls ("/admin/category/" +++ id).
Definition categories_create env ls data := admin_send env ls POST "/admin/category" data.
Definition categories_update env ls id data := admin_send env ls PUT ("/admin/category/" +++ id) data.
Definition categories_delete env ls id := admin_delete env ls ("/admin/category/" +++ id).

(** [api.admin.subcategories] (lines 67-73). *)
Definition subcategories_getAll env ls := admin_get env ls "/admin/subcategories".
Definition subcategories_getById env ls id := admin_get env ls ("/admin/subcategory/" +++ id).
Definition subcategories_create env ls data := admin_send env ls POST "/admin/subcategory" data.
Definition subcategories_update env ls id data := admin_send env ls PUT ("/admin/subcategory/" +++ id) data.
Definition subcategories_delete env ls id := admin_delete env ls ("/admin/subcategory/" +++ id).

(** [api.admin.products] (lines 74-80). *)
Definition products_getAll env ls := admin_get env ls "/admin/products".
Definition products_getById env ls id := admin_get env ls ("/admin/products/" +++ id).
Definition products_create env ls data := admin_send env ls POST "/admin/products" data.
Definition products_update env ls id data := admin_send env ls PUT ("/admin/products/" +++ id) data.
Definition products_delete env ls id := admin_delete env ls ("/admin/products/" +++ id).

(** [api.public] (lines 82-90). *)
Definition public_products_getAll env := publicFetch (API_BASE_URL env +++ "/products") no_options.
Definition public_products_getById env id := publicFetch (API_BASE_URL env +++ "/products/" +++ id) no_options.
Definition public_categories_getAll env := publicFetch (API_BASE_URL env +++ "/categories") no_options.

End AdminApi.

(** ** Lemmas *)

Lemma obj_get_set o k v : obj_get (obj_set o k v) k = Some v.
Proof.
  unfold obj_get. induction o as [|[k' v'] o IH]; simpl; [by rewrite String.eqb_refl|].
  destruct (k' ==? k) eqn:E; simpl; [by rewrite String.eqb_refl|]. by rewrite E.
Qed.

Lemma sapp_cancel_l s a b : s +++ a = s +++ b -> a = b.
Proof. induction s as [|c s IH]; [by rewrite !sapp_nil_l|]. rewrite !sapp_cons. intros H. injection H. auto. Qed.

Lemma authFetch_url ls url opts q : AdminApi.authFetch ls url opts = Ok q -> req_url q = url.
Proof.
  unfold AdminApi.authFetch. destruct (AdminApi.getAuthToken ls) as [t|]; [|discriminate].
  destruct (js_truthy_str t); [|discriminate]. intros H. by injection H as <-.
Qed.

(** ** Theorems *)

(** Whatever headers the caller of [authFetch] passes, the request
    it sends carries [Authorization: Bearer <token>] with the stored
    admin token, to the URL it was given. *)
Theorem authFetch_bearer_wins ls url opts t :
  AdminApi.getAuthToken ls = Some t -> t <> "" ->
  exists q, AdminApi.authFetch ls url opts = Ok q /\
            obj_get (req_headers q) "Authorization" = Some ("Bearer " +++ t) /\ req_url q = url.
Proof.
  intros Ht Hne. unfold AdminApi.authFetch. rewrite Ht.
  destruct (js_truthy_str t) eqn:E; [|by apply js_truthy_str_false in E].
  eexists. split; [reflexivity|]. split; [apply obj_get_set | reflexivity].
Qed.

Definition token_storage : storage := <["adminToken" := "tok"]> ∅.

Lemma authFetch_bearer_wins_witness :
  exists q, AdminApi.authFetch token_storage "http://localhost:8787/admin/categories"
              (mkOptions None [("Authorization", "Bearer forged")] None) = Ok q /\
            obj_get (req_headers q) "Authorization" = Some ("Bearer " +++ "tok") /\
            req_url q = "http://localhost:8787/admin/categories".
Proof.
  assert (H : AdminApi.getAuthToken token_storage = Some "tok") by reflexivity.
  exact (authFetch_bearer_wins token_storage _ _ "tok" H ltac:(discriminate)).
Defined.

(** Without a stored admin token (absent or empty), every call of
    [api.admin] throws [No authentication token found. Please login.]
    before any request is sent, and [safeAdminCall] logs it. *)
Theorem authFetch_without_token w ls url opts :
  (forall t, AdminApi.getAuthToken ls = Some t -> t = "") ->
  AdminApi.safe_send w (AdminApi.authFetch ls url opts)
  = (log "Admin API error:" AdminApi.no_token_error w, Err AdminApi.no_token_error).
Proof.
  intros H. unfold AdminApi.authFetch.
  destruct (AdminApi.getAuthToken ls) as [t|] eqn:E; [|reflexivity].
  by rewrite (H t eq_refl).
Qed.

Lemma authFetch_without_token_witness :
  AdminApi.safe_send (mkWorld ∅ "/admin" [] []) (AdminApi.authFetch ∅ "http://localhost:8787/admin/products" no_options)
  = (log "Admin API error:" AdminApi.no_token_error (mkWorld ∅ "/admin" [] []), Err AdminApi.no_token_error).
Proof. apply authFetch_without_token. intros t Ht. discriminate Ht. Defined.

(** The admin tabs and [utils/api.js] read the same variable
    [VITE_API_BASE_URL_ADMIN], the tabs as a base that ends in [/admin],
    [utils/api.js] as a base to which it adds [/admin]: the category
    list is fetched from the same URL by both exactly when the variable
    is unset or empty. *)
Theorem admin_base_two_conventions env ls q :
  AdminApi.categories_getAll env ls = Ok q ->
  (req_url q = req_url (@TabApi.categoryAPI_getAll json (TabApi.API_BASE_URL env) ls)
   <-> forall u, env = Some u -> u = "").
Proof.
  intros H. apply authFetch_url in H. rewrite H. unfold TabApi.categoryAPI_getAll, TabApi.api_getAll. simpl.
  destruct env as [u|]; simpl.
  - destruct (js_truthy_str u) eqn:E; simpl.
    + apply js_truthy_str_true in E. split.
      * intros Heq. apply sapp_cancel_l in Heq. discriminate.
      * intros Hu. by specialize (Hu u eq_refl).
    + split; [|done]. intros _ u' [= <-]. by apply js_truthy_str_false.
  - split; [|done]. by intros _ u' ?.
Qed.

Lemma admin_base_two_conventions_witness :
  exists q, AdminApi.categories_getAll (Some "https://api.example.com/admin") token_storage = Ok q /\
    (req_url q = req_url (@TabApi.categoryAPI_getAll json (TabApi.API_BASE_URL (Some "https://api.example.com/admin")) token_storage)
     <-> forall u, Some "https://api.example.com/admin" = Some u -> u = "").
Proof.
  destruct (AdminApi.categories_getAll (Some "https://api.example.com/admin") token_storage) as [q|m] eqn:E;
    [|discriminate E].
  exists q. split; [reflexivity|]. exact (admin_base_two_conventions _ _ q E).
Defined.

(** No request of [lib/api.js] carries an [Authorization] header,
    although its default base is the admin API. *)
Theorem lib_api_sends_no_token env id slug data :
  Forall (fun q => obj_get (req_headers q) "Authorization" = None) (LibApi.all_requests env id slug data).
Proof. repeat constructor. Qed.

End Clients.
