(* ===== verification/Carousel.v ===== *)
(** * What the homepage carousels share: index arithmetic on JavaScript numbers and the ring they rotate

    The hero banners ([HeroCarousel.jsx]), the reviews
    ([ReviewsCarousel.jsx]) and the reels ([ReelsSection.jsx]) keep the
    position of the slide shown as a JavaScript number and move it with
    [(i + 1) % n] and [(i - 1 + n) % n].  Two facts of JavaScript
    matter there: [%] takes the sign of the dividend, and [x % 0] is
    [NaN], which then absorbs every later addition and remainder.  A
    number used as an index is therefore an integer or [NaN] ([num]).

    The abstract carousel is a ring: the slides in the order the viewer
    meets them, the current one first, [rotate i l] of stdpp for the
    slide [i] of the list [l].  Moving to the next slide rotates the ring
    by one ([Ring.next]), to the previous one by [n - 1] ([Ring.prev]);
    the carousel files prove that their index arithmetic refines these
    two operations.  The rotation lemma here ([rotate_rotate]) and the
    bounds of the JavaScript remainder ([js_rem_step_range]) are the
    facts those refinements use. *)

From stdpp Require Import list.
From S2P Require Import Prelude.

#[local] Open Scope list_scope.

Module Carousel.

(** ** JavaScript numbers as indices *)

(** An integer, or [NaN] ([None]). *)
Definition num := option Z.

Definition js_add (a : num) (b : Z) : num := option_map (fun x => (x + b)%Z) a.

(** [a % n]: the remainder with the sign of the dividend ([Z.rem]), and
    [NaN] for a zero divisor or a [NaN] dividend. *)
Definition js_rem (a : num) (n : Z) : num :=
  match a with
  | Some x => if Z.eqb n 0 then None else Some (Z.rem x n)
  | None => None
  end.

(** [l[x]]: the element at a non-negative integer index, [undefined]
    ([None]) for [NaN], a negative index or one past the end. *)
Definition js_at {A} (l : list A) (x : num) : option A :=
  match x with
  | Some z => if Z.leb 0 z then l !! Z.to_nat z else None
  | None => None
  end.

(** [(i + 1) % n] and [(i - 1 + n) % n]. *)
Definition step_next (i : num) (n : nat) : num := js_rem (js_add i 1) (Z.of_nat n).
Definition step_prev (i : num) (n : nat) : num := js_rem (js_add i (Z.of_nat n - 1)) (Z.of_nat n).

(** An index that designates one of [n] slides. *)
Definition in_range (i : num) (n : nat) : Prop :=
  exists z, i = Some z /\ (0 <= z < Z.of_nat n)%Z.

(** ** The abstract ring *)

Module Ring.
(** The slides as the viewer meets them from slide [i] on. *)
Definition view {A} (i : nat) (l : list A) : list A := rotate i l.
Definition next {A} (r : list A) : list A := rotate 1 r.
Definition prev {A} (r : list A) : list A := rotate (List.length r - 1) r.
End Ring.

(** ** Lemmas *)

#[local] Ltac Zify.zify_post_hook ::= Z.div_mod_to_equations.

Lemma rotate_rotate {A} (l : list A) a b : rotate a (rotate b l) = rotate (b + a) l.
Proof.
  apply list_eq. intros i. destruct (decide (i < List.length l)) as [Hi|Hi].
  - rewrite (lookup_rotate_r l (b + a) i) by lia.
    rewrite (lookup_rotate_r (rotate b l) a i) by (rewrite length_rotate; lia). rewrite length_rotate.
    rewrite (lookup_rotate_r l b) by (apply rotate_nat_add_lt; lia). f_equal.
    unfold rotate_nat_add. rewrite Z2Nat.id by (apply Z.mod_pos_bound; lia).
    rewrite Zplus_mod_idemp_r, Nat2Z.inj_add. do 2 f_equal. lia.
  - rewrite !lookup_ge_None_2; [done|rewrite ?length_rotate; lia..].
Qed.

Lemma js_rem_step_range z n :
  n <> 0 -> (0 <= z < Z.of_nat n)%Z ->
  in_range (step_next (Some z) n) n /\ in_range (step_prev (Some z) n) n.
Proof.
  intros Hn Hz. unfold step_next, step_prev, js_rem, js_add, in_range. simpl.
  destruct (Z.eqb_spec (Z.of_nat n) 0); [lia|].
  rewrite !Z.rem_mod_nonneg by lia. split; eexists; (split; [reflexivity|]); apply Z.mod_pos_bound; lia.
Qed.

(** The remainders of the two steps, as naturals. *)
Lemma step_next_value z n :
  n <> 0 -> (0 <= z < Z.of_nat n)%Z ->
  step_next (Some z) n = Some (Z.of_nat ((Z.to_nat z + 1) mod n)).
Proof.
  intros Hn Hz. unfold step_next, js_rem, js_add. simpl.
  destruct (Z.eqb_spec (Z.of_nat n) 0); [lia|]. f_equal.
  rewrite Z.rem_mod_nonneg by lia. rewrite Nat2Z.inj_mod, Nat2Z.inj_add, Z2Nat.id by lia. reflexivity.
Qed.

Lemma step_prev_value z n :
  n <> 0 -> (0 <= z < Z.of_nat n)%Z ->
  step_prev (Some z) n = Some (Z.of_nat ((Z.to_nat z + (n - 1)) mod n)).
Proof.
  intros Hn Hz. unfold step_prev, js_rem, js_add. simpl.
  destruct (Z.eqb_spec (Z.of_nat n) 0); [lia|]. f_equal.
  rewrite Z.rem_mod_nonneg by lia. rewrite Nat2Z.inj_mod, Nat2Z.inj_add, Z2Nat.id by lia. f_equal. lia.
Qed.

(** [NaN] is absorbing. *)
Lemma step_nan n : step_next None n = None /\ step_prev None n = None.
Proof. done. Qed.

(** Rotating by [a mod n] is rotating by [a]. *)
Lemma rotate_mod {A} (l : list A) a : rotate (a mod List.length l) l = rotate a l.
Proof.
  unfold rotate. destruct (decide (List.length l = 0)) as [E|E].
  - rewrite E. done.
  - by rewrite Nat.Div0.mod_mod.
Qed.

End Carousel.
