(* ===== verification/Hero.v ===== *)
(** * The hero carousel of the homepage ([src/src/components/homepage/HeroCarousel.jsx])

    The component fetches [GET <VITE_APP_BASE_URL>/banners] once
    ([fetchBanners], lines 16-39), keeps the active banners sorted by
    [order], or four local banners when the answer is not usable
    ([loadLocalBanners], lines 41-90), and shows the banner at
    [currentIndex] between its two neighbours.  The index moves with
    [nextSlide] and [prevSlide] (lines 92-98), with the dots
    ([goToSlide], lines 100-102), with an interval of five seconds that
    runs while the banners are loaded and the pointer is not over them
    (lines 104-109), and with the arrow keys, whose listener is on the
    window from the first render on (lines 111-119).

    The state is a record of the four [useState] hooks; each handler is a
    function on it; a timer tick, a key, a dot, the pointer and the
    answer of the fetch are the events of a [TabMachine.machine].  The
    render is a function that either gives the banner shown or throws
    (reading [imageUrl] of [undefined]) as an [Err].

    The theorems: the banners of the answer are the active ones, sorted by
    [order], each one kept; once banners are loaded an integer index always
    designates one of them; [nextSlide] and [prevSlide] refine the
    rotation of the ring of [Carousel]; while nothing stops the interval,
    every banner is shown within as many ticks as there are banners; and
    an arrow key pressed while the banners load turns the index into
    [NaN] ([(0 + 1) % 0]), so the first render of the loaded banners
    throws and the carousel is gone. *)

From stdpp Require Import list sorting.
From S2P Require Import Prelude Api Json Session TabMachine Carousel.

#[local] Open Scope list_scope.
#[local] Open Scope nitai_scope.

Module Hero.
Import Http Json Session TabMachine Carousel.

(** ** The banners *)

(** [banner.order] when it is a number. *)
Definition order_of (b : json) : option Z :=
  match get_field "order" b with Some (JNum z) => Some z | _ => None end.

(** The comparator [(a, b) => a.order - b.order]; a [NaN] result
    counts as [0], as in the specification of [Array.prototype.sort]. *)
Definition compare_order (a b : json) : Z :=
  match order_of a, order_of b with Some x, Some y => (x - y)%Z | _, _ => 0%Z end.

(** A stable sort: each banner goes after the ones that do not compare
    above it.  With a consistent comparator this is the only result the
    specification allows; without one (an [order] that is not a number)
    the order is left to the engine, and this is one of its choices. *)
Fixpoint insert_banner (b : json) (l : list json) : list json :=
  match l with
  | [] => [b]
  | c :: r => if Z.leb (compare_order c b) 0 then c :: insert_banner b r else b :: l
  end.

Definition sort_banners (l : list json) : list json := fold_left (fun acc b => insert_banner b acc) l [].

(** [banner.isActive] of the filter; [null.isActive] throws. *)
Definition is_active (b : json) : result bool :=
  match b with
  | JNull => Err "Cannot read properties of null (reading 'isActive')"
  | _ => Ok (match get_field "isActive" b with Some v => json_truthy v | None => false end)
  end.

Fixpoint filter_active (l : list json) : result (list json) :=
  match l with
  | [] => Ok []
  | b :: r =>
      match is_active b, filter_active r with
      | Ok true, Ok r' => Ok (b :: r')
      | Ok false, Ok r' => Ok r'
      | Err m, _ | _, Err m => Err m
      end
  end.

(** [loadLocalBanners] (lines 41-90).  The image URLs are resolved by
    [new URL(..., import.meta.url)] against the module's address; the
    model keeps the relative paths. *)
Definition local_banner (n : Z) (img mobile title subtitle cta link : string) : json :=
  JObj [("id", JStr ("local-banner-" +++ js_number_string n)); ("imageUrl", JStr img);
        ("mobileImageUrl", JStr mobile); ("title", JStr title); ("subtitle", JStr subtitle);
        ("ctaText", JStr cta); ("ctaLink", JStr link); ("order", JNum n); ("isActive", JBool true)].

Definition localBanners : list json :=
  [local_banner 1 "../media/banners/banner1.jpeg" "../media/banners/banner1-mobile.jpg"
     "Exquisite Diamond Collection" "Discover timeless elegance" "Shop Now" "/collections";
   local_banner 2 "../media/banners/banner2.jpg" "../media/banners/banner2-mobile.jpg"
     "New Arrivals" "Trending diamond jewellery" "Explore" "/new-arrivals";
   local_banner 3 "../media/banners/banner3.jpg" "../media/banners/banner2-mobile.jpg"
     "New Arrivals" "Trending diamond jewellery" "Explore" "/new-arrivals";
   local_banner 4 "../media/banners/banner4.jpg" "../media/banners/banner2-mobile.jpg"
     "New Arrivals" "Trending diamond jewellery" "Explore" "/new-arrivals"].

(** ** The state (lines 7-10) *)

Record state := mkState {
  banners : list json;
  currentIndex : num;
  loading : bool;
  isPaused : bool;
  console : list (string * string)
}.

Definition initial_state : state := mkState [] (Some 0%Z) true false [].

Definition n_banners (s : state) : nat := List.length (banners s).

(** ** The handlers *)

(** [nextSlide], [prevSlide] and [goToSlide] (lines 92-102). *)
Definition nextSlide (s : state) : state :=
  {| s with currentIndex := step_next (currentIndex s) (n_banners s) |}.
Definition prevSlide (s : state) : state :=
  {| s with currentIndex := step_prev (currentIndex s) (n_banners s) |}.
Definition goToSlide (i : nat) (s : state) : state :=
  {| s with currentIndex := Some (Z.of_nat i) |}.

(** The rest of [fetchBanners] after its awaits: the sorted active
    banners when there are some, the local ones otherwise (a failed
    status, a body that is not JSON or not an array, a [null] banner,
    no active banner); [finally] ends the loading. *)
Definition resumeFetch (r : response json) (s : state) : state :=
  let use_local s := {| s with banners := localBanners |} in
  let s' :=
    match r with
    | RespOk (Some (JArr data)) =>
        match filter_active data with
        | Ok (b :: bs) => {| s with banners := sort_banners (b :: bs) |}
        | Ok [] => use_local s
        | Err m => use_local {| s with console := console s ++ [("Error fetching banners:", m)] |}
        end
    | RespOk (Some _) =>
        use_local {| s with console := console s ++ [("Error fetching banners:", "data.filter is not a function")] |}
    | RespOk None => use_local {| s with console := console s ++ [("Error fetching banners:", json_parse_error)] |}
    | RespFail _ _ _ => use_local s
    | NetworkError m => use_local {| s with console := console s ++ [("Error fetching banners:", m)] |}
    end in
  {| s' with loading := false |}.

(** ** The render (lines 121-250) *)

Definition read_image_error : string := "Cannot read properties of undefined (reading 'imageUrl')".

(** The skeleton while loading, nothing without banners; otherwise the
    neighbours [banners[getPrevIndex()].imageUrl] and
    [banners[getNextIndex()].imageUrl] when there are two banners or
    more, then the index of the banner with [index === currentIndex]. *)
Definition render (s : state) : result (option nat) :=
  if loading s then Ok None
  else match banners s with
       | [] => Ok None
       | _ =>
           let n := n_banners s in
           let side_ok := match js_at (banners s) (step_prev (currentIndex s) n),
                                js_at (banners s) (step_next (currentIndex s) n) with
                          | Some _, Some _ => true | _, _ => false end in
           if Nat.ltb 1 n && negb side_ok then Err read_image_error
           else Ok (match currentIndex s with
                    | Some z => if Z.leb 0 z && Z.ltb z (Z.of_nat n) then Some (Z.to_nat z) else None
                    | None => None end)
       end.

Definition rendered (s : state) : bool := match render s with Ok _ => true | Err _ => false end.

(** ** Events *)

Inductive event :=
| FetchDone (r : response json)
| Tick                 (** the interval of line 107 *)
| KeyLeft | KeyRight   (** the window listener of lines 112-115 *)
| Dot (i : nat)        (** [goToSlide(index)] of a dot *)
| MouseEnter | MouseLeave.

Definition step (s : state) (e : event) : state * list (request json) :=
  match e with
  | FetchDone r => (resumeFetch r s, [])
  | Tick | KeyRight => (nextSlide s, [])
  | KeyLeft => (prevSlide s, [])
  | Dot i => (goToSlide i s, [])
  | MouseEnter => ({| s with isPaused := true |}, [])
  | MouseLeave => ({| s with isPaused := false |}, [])
  end.

(** A render that throws unmounts the component: no event is handled
    after it.  Otherwise: the answer while loading; the interval while
    there are banners and no pointer; the keys always; the dots when
    there are two banners or more; the pointer over the loaded banners. *)
Definition enabledb (s : state) (e : event) : bool :=
  rendered s &&
  match e with
  | FetchDone _ => loading s
  | Tick => negb (Nat.eqb (n_banners s) 0) && negb (isPaused s)
  | KeyLeft | KeyRight => true
  | Dot i => negb (loading s) && Nat.ltb 1 (n_banners s) && Nat.ltb i (n_banners s)
  | MouseEnter | MouseLeave => negb (loading s) && negb (Nat.eqb (n_banners s) 0)
  end.

Definition enabled (s : state) (e : event) : Prop := enabledb s e = true.

Definition hero_machine : machine unit state event (request json) :=
  Machine (fun _ => step) enabled enabledb (fun _ _ H => H).

(** The mount effect (lines 12-14): the fetch of line 18 is sent. *)
Definition banners_request (env : option string) : request json :=
  mkRequest GET (app_base env +++ "/banners") [] None.

Definition reachable (s : state) : Prop := star (tab_step hero_machine) initial_state s.

(** ** Lemmas *)

Definition order_le (a b : json) : Prop := (compare_order a b <= 0)%Z.

Lemma insert_banner_perm b l : insert_banner b l ≡ₚ b :: l.
Proof.
  induction l as [|c l IH]; simpl; [done|].
  destruct (Z.leb _ _); [|done]. rewrite IH. apply perm_swap.
Qed.

Lemma sort_banners_perm l : sort_banners l ≡ₚ l.
Proof.
  unfold sort_banners. rewrite <- (app_nil_r l) at 2. generalize (@nil json) as acc.
  induction l as [|b l IH]; intros acc; simpl; [done|].
  rewrite IH, insert_banner_perm. by rewrite Permutation_middle.
Qed.

Lemma compare_order_flip a b : (compare_order a b > 0)%Z -> (compare_order b a <= 0)%Z.
Proof. unfold compare_order. destruct (order_of a), (order_of b); lia. Qed.

Lemma insert_banner_hd c b r :
  HdRel order_le c r -> order_le c b -> HdRel order_le c (insert_banner b r).
Proof.
  intros Hr Hcb. destruct r as [|d r]; simpl; [by constructor|].
  destruct (Z.leb _ _); constructor; [by inversion Hr | done].
Qed.

Lemma insert_banner_sorted b l : Sorted order_le l -> Sorted order_le (insert_banner b l).
Proof.
  induction 1 as [|c r Hs IH Hhd]; simpl; [by repeat constructor|].
  destruct (Z.leb (compare_order c b) 0) eqn:E.
  - constructor; [done|]. apply insert_banner_hd; [done|]. unfold order_le. lia.
  - constructor; [by constructor|]. constructor. apply compare_order_flip. lia.
Qed.

Lemma sort_banners_sorted l : Sorted order_le (sort_banners l).
Proof.
  unfold sort_banners. assert (H : Sorted order_le (@nil json)) by constructor. revert H.
  generalize (@nil json) as acc. induction l as [|b l IH]; intros acc H; simpl; [done|].
  apply IH, insert_banner_sorted, H.
Qed.

Lemma resumeFetch_banners r s : banners (resumeFetch r s) <> [] /\ loading (resumeFetch r s) = false.
Proof.
  split; [|by destruct r as [[[]|]| |]; simpl; repeat case_match].
  assert (Hs : forall b bs, sort_banners (b :: bs) <> []).
  { intros b bs E. pose proof (sort_banners_perm (b :: bs)) as P. rewrite E in P.
    apply Permutation_nil in P. discriminate. }
  destruct r as [[[]|]| |]; simpl; repeat case_match; simpl; try discriminate; apply Hs.
Qed.

Lemma resumeFetch_index r s : currentIndex (resumeFetch r s) = currentIndex s /\ isPaused (resumeFetch r s) = isPaused s.
Proof. destruct r as [[[]|]| |]; simpl; repeat case_match; done. Qed.

(** The invariant: banners only come with the answer, and an integer
    index designates a banner once there are some. *)
Definition index_ok (s : state) : Prop :=
  (loading s = true -> banners s = []) /\
  match currentIndex s with
  | Some z => (banners s = [] /\ z = 0%Z) \/ (0 <= z < Z.of_nat (n_banners s))%Z
  | None => True
  end.

Lemma hero_step_index_ok s e : enabled s e -> index_ok s -> index_ok (fst (step s e)).
Proof.
  unfold enabled, enabledb. intros Hen [Hl Hi]. apply andb_true_iff in Hen as [Hr He].
  destruct e; cbn [fst step] in *; unfold index_ok.
  - pose proof (resumeFetch_banners r s) as [Hb Hlo]. pose proof (resumeFetch_index r s) as [-> _].
    rewrite Hlo. split; [done|]. rewrite (Hl He) in Hi.
    destruct (currentIndex s) as [z|]; [|done]. destruct Hi as [[_ ->]|Hi]; [|unfold n_banners in Hi; rewrite (Hl He) in Hi; simpl in Hi; lia].
    right. unfold n_banners. destruct (banners (resumeFetch r s)); [done|simpl; lia].
  - split; [done|]. unfold nextSlide; simpl. destruct (currentIndex s) as [z|]; [|done].
    destruct (decide (n_banners s = 0)) as [E|E]; [unfold step_next, js_rem; rewrite E; simpl; done|].
    destruct Hi as [[Hb _]|Hi]; [unfold n_banners in E; by rewrite Hb in E|].
    destruct (js_rem_step_range z _ E Hi) as [(z' & -> & Hz') _]. by right.
  - split; [done|]. unfold prevSlide; simpl. destruct (currentIndex s) as [z|]; [|done].
    destruct (decide (n_banners s = 0)) as [E|E]; [unfold step_prev, js_rem; rewrite E; simpl; done|].
    destruct Hi as [[Hb _]|Hi]; [unfold n_banners in E; by rewrite Hb in E|].
    destruct (js_rem_step_range z _ E Hi) as [_ (z' & -> & Hz')]. by right.
  - split; [done|]. unfold nextSlide; simpl. destruct (currentIndex s) as [z|]; [|done].
    destruct (decide (n_banners s = 0)) as [E|E]; [unfold step_next, js_rem; rewrite E; simpl; done|].
    destruct Hi as [[Hb _]|Hi]; [unfold n_banners in E; by rewrite Hb in E|].
    destruct (js_rem_step_range z _ E Hi) as [(z' & -> & Hz') _]. by right.
  - split; [done|]. simpl. right. apply andb_true_iff in He as [_ He]. apply Nat.ltb_lt in He. unfold n_banners in *; simpl in *; lia.
  - done.
  - done.
Qed.

Lemma hero_reachable_index_ok s : reachable s -> index_ok s.
Proof.
  apply (star_invariant _ index_ok).
  - intros x y (l & e & out & Hen & Hs) Hx. change (step x e = (y, out)) in Hs.
    pose proof (hero_step_index_ok x e Hen Hx) as H. by rewrite Hs in H.
  - split; [done|]. by left.
Qed.

Lemma js_at_in_range {A} (l : list A) i : in_range i (List.length l) -> exists x, js_at l i = Some x.
Proof.
  intros (z & -> & Hz). simpl. destruct (Z.leb_spec 0 z); [|lia].
  apply lookup_lt_is_Some_2. lia.
Qed.

Lemma render_in_range s z :
  loading s = false -> banners s <> [] -> currentIndex s = Some z -> (0 <= z < Z.of_nat (n_banners s))%Z ->
  render s = Ok (Some (Z.to_nat z)).
Proof.
  intros Hl Hb Hz Hr. assert (Hn : n_banners s <> 0) by (unfold n_banners; destruct (banners s); simpl; done || lia).
  destruct (js_rem_step_range z _ Hn Hr) as [Hnext Hprev].
  destruct (js_at_in_range (banners s) _ Hnext) as [x1 E1].
  destruct (js_at_in_range (banners s) _ Hprev) as [x2 E2].
  unfold render. rewrite Hl, Hz. unfold n_banners in *.
  destruct (banners s) as [|b bs] eqn:Eb; [done|]. cbv zeta. rewrite E1, E2. simpl.
  destruct (Z.leb_spec 0 z), (Z.ltb_spec z (Z.of_nat (S (List.length bs)))); simpl in *; try lia.
  by rewrite andb_false_r.
Qed.

Lemma index_of_reachable s z :
  reachable s -> banners s <> [] -> currentIndex s = Some z ->
  loading s = false /\ (0 <= z < Z.of_nat (n_banners s))%Z.
Proof.
  intros Hr Hb Hz. destruct (hero_reachable_index_ok s Hr) as [Hl Hi]. rewrite Hz in Hi.
  split; [destruct (loading s); [by specialize (Hl eq_refl)|done]|].
  by destruct Hi as [[? _]|Hi].
Qed.

Lemma ticks_run s z k :
  banners s <> [] -> loading s = false -> isPaused s = false -> currentIndex s = Some z ->
  (0 <= z < Z.of_nat (n_banners s))%Z ->
  run hero_machine tt s (repeat Tick k)
  = Some ({| s with currentIndex := Some (Z.of_nat ((Z.to_nat z + k) mod n_banners s)) |}, []).
Proof.
  revert s z. induction k as [|k IH]; intros s z Hb Hl Hp Hz Hr; simpl.
  - destruct s; simpl in *; subst. rewrite Nat.add_0_r, Nat.mod_small, Z2Nat.id by lia. reflexivity.
  - assert (Hn : n_banners s <> 0) by (unfold n_banners; destruct (banners s); simpl; done || lia).
    unfold enabledb, rendered. rewrite (render_in_range s z) by done. rewrite Hp.
    destruct (Nat.eqb_spec (n_banners s) 0); [done|]. simpl.
    pose proof (js_rem_step_range z _ Hn Hr) as [(z' & E & Hz') _].
    assert (Hz1 : currentIndex (nextSlide s) = Some z') by (unfold nextSlide; simpl; by rewrite Hz).
    rewrite (IH (nextSlide s) z' Hb Hl Hp Hz1 Hz'). f_equal.
    unfold nextSlide. simpl. rewrite Hz in *. rewrite step_next_value in E by done.
    injection E as <-. rewrite Nat2Z.id, Nat.Div0.add_mod_idemp_l. unfold n_banners; simpl. replace (Z.to_nat z + 1 + k) with (Z.to_nat z + S k) by lia. by rewrite Hp.
Qed.

(** ** Theorems *)

Definition server_error : response json := RespFail 500 "Internal Server Error" None.

(** In every reachable state of the hero carousel, once banners are
    loaded an index that is a number designates one of them. *)
Theorem hero_index_in_range s z :
  reachable s -> banners s <> [] -> currentIndex s = Some z -> (0 <= z < Z.of_nat (n_banners s))%Z.
Proof. intros Hr Hb Hz. apply (index_of_reachable s z Hr Hb Hz). Qed.

Lemma hero_index_in_range_witness :
  exists s, run hero_machine tt initial_state [FetchDone server_error; Tick; KeyLeft; KeyLeft] = Some (s, [])
            /\ (0 <= 3 < Z.of_nat (n_banners s))%Z.
Proof.
  destruct (run hero_machine tt initial_state [FetchDone server_error; Tick; KeyLeft; KeyLeft]) as [[s out]|] eqn:E;
    [|vm_compute in E; discriminate].
  assert (Eo : out = []) by (vm_compute in E; by injection E).
  assert (Hi : currentIndex s = Some 3%Z) by (vm_compute in E; injection E as <-; reflexivity).
  assert (Hb : banners s <> []) by (vm_compute in E; injection E as <-; discriminate).
  subst out. exists s. split; [reflexivity|].
  exact (hero_index_in_range s 3 (run_reachable _ _ _ _ _ _ E) Hb Hi).
Defined.

(** When the answer is an array whose active banners are not all
    missing, the carousel shows exactly those banners, each once, in
    ascending [order] (the comparator [a.order - b.order]); loading ends. *)
Theorem hero_answer_banners data bs s :
  filter_active data = Ok bs -> bs <> [] ->
  banners (resumeFetch (RespOk (Some (JArr data))) s) ≡ₚ bs /\
  Sorted order_le (banners (resumeFetch (RespOk (Some (JArr data))) s)) /\
  loading (resumeFetch (RespOk (Some (JArr data))) s) = false.
Proof.
  intros Hf Hne. unfold resumeFetch. rewrite Hf. destruct bs as [|b bs]; [done|]. simpl.
  split; [apply sort_banners_perm|]. split; [apply sort_banners_sorted | done].
Qed.

Definition two_banners : list json :=
  [JObj [("id", JStr "b2"); ("order", JNum 2); ("isActive", JBool true)];
   JObj [("id", JStr "off"); ("order", JNum 0); ("isActive", JBool false)];
   JObj [("id", JStr "b1"); ("order", JNum 1); ("isActive", JBool true)]].

Lemma hero_answer_banners_witness :
  banners (resumeFetch (RespOk (Some (JArr two_banners))) initial_state)
    ≡ₚ [List.nth 0 two_banners JNull; List.nth 2 two_banners JNull] /\
  Sorted order_le (banners (resumeFetch (RespOk (Some (JArr two_banners))) initial_state)) /\
  loading (resumeFetch (RespOk (Some (JArr two_banners))) initial_state) = false.
Proof. apply hero_answer_banners; [reflexivity | discriminate]. Defined.

(** The ring the viewer sees: the banners from the current one on. *)
Definition abs (s : state) : option (list json) :=
  match currentIndex s with Some z => Some (Ring.view (Z.to_nat z) (banners s)) | None => None end.

(** C14: the index arithmetic refines the ring: on an index that
    designates a banner, [nextSlide] rotates the ring by one and
    [prevSlide] rotates it back, and the head of the ring is the banner
    [banners[currentIndex]] shown. *)
Theorem hero_refines_ring s z :
  currentIndex s = Some z -> (0 <= z < Z.of_nat (n_banners s))%Z ->
  abs (nextSlide s) = option_map Ring.next (abs s) /\
  abs (prevSlide s) = option_map Ring.prev (abs s) /\
  head (Ring.view (Z.to_nat z) (banners s)) = js_at (banners s) (Some z).
Proof.
  intros Hz Hr. assert (Hn : n_banners s <> 0) by lia.
  unfold abs, nextSlide, prevSlide, Ring.view, Ring.next, Ring.prev. simpl. rewrite Hz.
  rewrite step_next_value, step_prev_value by done. simpl. rewrite !Nat2Z.id.
  unfold n_banners. rewrite !rotate_mod, !rotate_rotate, length_rotate.
  split; [done|]. split; [done|].
  rewrite head_lookup, lookup_rotate_r, rotate_nat_add_0 by (unfold n_banners in *; lia).
  simpl. destruct (Z.leb_spec 0 z); [done|lia].
Qed.

Lemma hero_refines_ring_witness :
  let s := {| initial_state with banners := localBanners; loading := false |} in
  abs (nextSlide s) = option_map Ring.next (abs s) /\
  abs (prevSlide s) = option_map Ring.prev (abs s) /\
  head (Ring.view 0 (banners s)) = js_at (banners s) (Some 0%Z).
Proof. intros s. apply (hero_refines_ring s 0); [reflexivity | unfold n_banners; simpl; lia]. Defined.

(** C15: while the pointer is not over the loaded banners, the interval
    shows every banner: from any reachable state with a numeric index,
    each banner is the one shown after fewer ticks than there are
    banners. *)
Theorem hero_autoplay_shows_every_banner s j :
  reachable s -> banners s <> [] -> isPaused s = false -> currentIndex s <> None -> j < n_banners s ->
  exists k s', k < n_banners s /\ run hero_machine tt s (repeat Tick k) = Some (s', []) /\
               render s' = Ok (Some j).
Proof.
  intros Hr Hb Hp Hz Hj. destruct (currentIndex s) as [z|] eqn:Ez; [|done].
  destruct (index_of_reachable s z Hr Hb Ez) as [Hl Hz'].
  set (n := n_banners s) in *. set (k := (j + n - Z.to_nat z) mod n).
  assert (Hk : (Z.to_nat z + k) mod n = j).
  { subst k. rewrite Nat.Div0.add_mod_idemp_r. replace (Z.to_nat z + (j + n - Z.to_nat z)) with (j + 1 * n) by lia.
    rewrite Nat.Div0.mod_add. apply Nat.mod_small. lia. }
  exists k, {| s with currentIndex := Some (Z.of_nat j) |}. split; [apply Nat.mod_upper_bound; lia|].
  split; [rewrite (ticks_run s z k) by done; fold n; by rewrite Hk|].
  rewrite <- (Nat2Z.id j) at 2.
  apply render_in_range; simpl; [done..|]. unfold n_banners in *. simpl. lia.
Qed.

Lemma hero_autoplay_shows_every_banner_witness :
  exists s, run hero_machine tt initial_state [FetchDone server_error] = Some (s, []) /\
    exists k s', k < n_banners s /\ run hero_machine tt s (repeat Tick k) = Some (s', []) /\
                 render s' = Ok (Some 2).
Proof.
  destruct (run hero_machine tt initial_state [FetchDone server_error]) as [[s out]|] eqn:E;
    [|vm_compute in E; discriminate].
  assert (Eo : out = []) by (vm_compute in E; by injection E). subst out.
  assert (Hb : banners s <> []) by (vm_compute in E; injection E as <-; discriminate).
  assert (Hp : isPaused s = false) by (vm_compute in E; injection E as <-; reflexivity).
  assert (Hz : currentIndex s <> None) by (vm_compute in E; injection E as <-; discriminate).
  assert (Hj : 2 < n_banners s) by (vm_compute in E; injection E as <-; vm_compute; lia).
  exists s. split; [reflexivity|].
  exact (hero_autoplay_shows_every_banner s 2 (run_reachable _ _ _ _ _ _ E) Hb Hp Hz Hj).
Defined.

(** C16: an arrow key pressed while the banners load computes
    [(0 + 1) % 0], which is [NaN]; from then on, in every reachable state
    with two banners or more, the render reads [imageUrl] of
    [banners[NaN]] and throws, so the carousel is never shown. *)
Theorem hero_nan_index_crashes s :
  reachable s -> currentIndex s = None -> 1 < n_banners s -> render s = Err read_image_error.
Proof.
  intros Hr Hz Hn. destruct (hero_reachable_index_ok s Hr) as [Hl _].
  assert (Hb : banners s <> []) by (intros E; unfold n_banners in Hn; rewrite E in Hn; simpl in Hn; lia).
  unfold render. destruct (loading s); [by specialize (Hl eq_refl)|].
  rewrite Hz. destruct (banners s); [done|]. simpl.
  destruct (Nat.ltb_spec 1 (n_banners s)); [done|lia].
Qed.

Lemma hero_nan_index_crashes_witness :
  exists s, run hero_machine tt initial_state [KeyRight; FetchDone server_error] = Some (s, []) /\
            render s = Err read_image_error.
Proof.
  destruct (run hero_machine tt initial_state [KeyRight; FetchDone server_error]) as [[s out]|] eqn:E;
    [|vm_compute in E; discriminate].
  assert (Eo : out = []) by (vm_compute in E; by injection E). subst out.
  assert (Hz : currentIndex s = None) by (vm_compute in E; injection E as <-; reflexivity).
  assert (Hn : 1 < n_banners s) by (vm_compute in E; injection E as <-; vm_compute; lia).
  exists s. split; [reflexivity|].
  exact (hero_nan_index_crashes s (run_reachable _ _ _ _ _ _ E) Hz Hn).
Defined.

End Hero.
