(* ===== verification/Reviews.v ===== *)
(** * The reviews carousel of the homepage ([src/src/components/homepage/ReviewsCarousel.jsx])

    The component fetches [GET <VITE_APP_BASE_URL>/reviews?featured=true&limit=10]
    once ([fetchReviews], lines 29-43) and keeps the answer as it is
    ([setReviews(data)], no check that it is an array).  It shows three
    reviews from [currentIndex] on, cyclically ([getVisibleReviews],
    lines 80-89), moves with [nextSlide], [prevSlide] and [goToSlide]
    (lines 45-55), and advances every five seconds while the pointer is
    not over it and there are reviews (lines 15-27).  Each card shows the
    avatar or the initials of the name ([getInitials], lines 57-64) and
    the age of the review ([getRelativeTime], lines 66-78).

    The state is the record of the hooks; the answer is JSON, so the
    [length] and the element reads of the code ([length_of], [js_index])
    may give [undefined]; a card
    that reads a property of [undefined] or calls [split] on it makes the
    render throw ([Err]).  [getRelativeTime] takes [now - date] in
    milliseconds, [NaN] for a date that does not parse.

    The theorems: with three reviews or more the three cards are the
    first three of the ring of [Carousel] from the current review, and
    the index stays in range; with one review the same card is shown
    three times; a review with neither avatar nor name makes the whole
    section throw; a date in the future is shown as a negative number of
    days; a review without a date is shown as [NaN years ago]; the month
    count is between 2 and 12; the initials have at most two letters. *)

From stdpp Require Import list.
From S2P Require Import Prelude Api Json Session TabMachine Carousel.

#[local] Open Scope list_scope.
#[local] Open Scope nitai_scope.

Module Reviews.
Import Http Json Session TabMachine Carousel.

(** ** JavaScript helpers *)

(** [String.prototype.toUpperCase] on ASCII letters. *)
Definition js_char_to_upper (c : ascii) : ascii :=
  if is_lower c then ascii_of_nat (nat_of_ascii c - 32) else c.

Fixpoint js_to_upper (s : string) : string :=
  match s with
  | EmptyString => EmptyString
  | String c r => String (js_char_to_upper c) (js_to_upper r)
  end.

(** [n[0]] of a piece: its first character, [undefined] for the empty
    piece, which [join('')] writes as nothing. *)
Definition first_char (p : string) : string :=
  match p with EmptyString => EmptyString | String c _ => String c EmptyString end.

(** [getInitials] (lines 57-64); [name.split] throws when the name is
    not a string. *)
Definition getInitials (name : option json) : result string :=
  match name with
  | Some (JStr s) =>
      Ok (String.substring 0 2 (js_to_upper (String.concat "" (map first_char (js_split " " s)))))
  | Some JNull => Err "Cannot read properties of null (reading 'split')"
  | Some _ => Err "name.split is not a function"
  | None => Err "Cannot read properties of undefined (reading 'split')"
  end.

(** [Math.floor(diffInMs / (1000 * 60 * 60 * 24))]. *)
Definition days_of (ms : Z) : Z := Z.div ms 86400000.

(** [getRelativeTime] (lines 66-78) of [now - date]: every comparison
    with [NaN] is false, so a date that does not parse falls through to
    the last line. *)
Definition getRelativeTime (diffInMs : num) : string :=
  match diffInMs with
  | None => "NaN years ago"
  | Some ms =>
      let d := days_of ms in
      if Z.eqb d 0 then "Today"
      else if Z.eqb d 1 then "Yesterday"
      else if Z.ltb d 30 then js_number_string d +++ " days ago"
      else if Z.ltb d 60 then "1 month ago"
      else if Z.ltb d 365 then js_number_string (Z.div d 30) +++ " months ago"
      else js_number_string (Z.div d 365) +++ " years ago"
  end.

(** [reviews[i]] of the answer: an element of an array, a character of a
    string, [undefined] otherwise. *)
Definition js_index (v : json) (i : num) : option json :=
  match v with
  | JArr l => js_at l i
  | JStr s => option_map (fun c => JStr (String c EmptyString)) (js_at (list_ascii_of_string s) i)
  | _ => None
  end.

(** [reviews.length], [undefined] for a value without one. *)
Definition length_of (v : json) : option nat :=
  match v with JArr l => Some (List.length l) | JStr s => Some (String.length s) | _ => None end.

(** ** The state (lines 5-8) *)

Record state := mkState {
  reviews : json;
  loading : bool;
  currentIndex : num;
  isHovered : bool;
  console : list (string * string)
}.

Definition initial_state : state := mkState (JArr []) true (Some 0%Z) false [].

(** ** The handlers *)

(** [(prev + 1) % reviews.length] and [(prev - 1 + reviews.length) % reviews.length]. *)
Definition nextSlide (s : state) : state :=
  {| s with currentIndex := match length_of (reviews s) with
                            | Some n => step_next (currentIndex s) n | None => None end |}.
Definition prevSlide (s : state) : state :=
  {| s with currentIndex := match length_of (reviews s) with
                            | Some n => step_prev (currentIndex s) n | None => None end |}.
Definition goToSlide (i : nat) (s : state) : state := {| s with currentIndex := Some (Z.of_nat i) |}.

(** The rest of [fetchReviews]: the answer of an [ok] response becomes
    [reviews] whatever it is; the errors are logged; [finally] ends the
    loading. *)
Definition resumeFetch (r : response json) (s : state) : state :=
  let s' :=
    match r with
    | RespOk (Some data) => {| s with reviews := data |}
    | RespOk None => {| s with console := console s ++ [("Error fetching reviews:", json_parse_error)] |}
    | RespFail _ _ _ => s
    | NetworkError m => {| s with console := console s ++ [("Error fetching reviews:", m)] |}
    end in
  {| s' with loading := false |}.

(** [getVisibleReviews] (lines 80-89). *)
Definition getVisibleReviews (v : json) (i : num) : list (option json) :=
  match length_of v with
  | Some 0 => []
  | n =>
      map (fun k => js_index v (match n with Some n => js_rem (js_add i k) (Z.of_nat n) | None => None end))
          [0; 1; 2]%Z
  end.

(** ** The render (lines 91-241) *)

(** One card: [review.id] for the key, then the avatar or the initials
    of [review.customerName]; the other reads do not throw. *)
Definition render_card (r : option json) : result unit :=
  match r with
  | None => Err "Cannot read properties of undefined (reading 'id')"
  | Some JNull => Err "Cannot read properties of null (reading 'id')"
  | Some v =>
      match get_field "customerAvatar" v with
      | Some a => if json_truthy a then Ok tt else match getInitials (get_field "customerName" v) with Ok _ => Ok tt | Err m => Err m end
      | None => match getInitials (get_field "customerName" v) with Ok _ => Ok tt | Err m => Err m end
      end
  end.

Fixpoint render_cards (l : list (option json)) : result (list json) :=
  match l with
  | [] => Ok []
  | r :: rs =>
      match render_card r, render_cards rs with
      | Ok _, Ok vs => Ok (match r with Some v => v :: vs | None => vs end)
      | Err m, _ | _, Err m => Err m
      end
  end.

(** The skeleton while loading, nothing for [length === 0], otherwise
    the visible cards, or the error of the first card that throws. *)
Definition render (s : state) : result (list json) :=
  if loading s then Ok []
  else match length_of (reviews s) with
       | Some 0 => Ok []
       | _ => render_cards (getVisibleReviews (reviews s) (currentIndex s))
       end.

Definition rendered (s : state) : bool := match render s with Ok _ => true | Err _ => false end.

(** ** Events *)

Inductive event :=
| FetchDone (r : response json)
| Tick                          (** the interval of lines 17-19 *)
| Next | Prev | Dot (i : nat)    (** arrows and dots, shown for more than three reviews *)
| MouseEnter | MouseLeave.

Definition step (s : state) (e : event) : state * list (request json) :=
  match e with
  | FetchDone r => (resumeFetch r s, [])
  | Tick | Next => (nextSlide s, [])
  | Prev => (prevSlide s, [])
  | Dot i => (goToSlide i s, [])
  | MouseEnter => ({| s with isHovered := true |}, [])
  | MouseLeave => ({| s with isHovered := false |}, [])
  end.

Definition has_reviews (s : state) : bool :=
  match length_of (reviews s) with Some n => Nat.ltb 0 n | None => false end.

Definition more_than_three (s : state) : bool :=
  match length_of (reviews s) with Some n => Nat.ltb 3 n | None => false end.

Definition enabledb (s : state) (e : event) : bool :=
  rendered s &&
  match e with
  | FetchDone _ => loading s
  | Tick => negb (isHovered s) && has_reviews s
  | Next | Prev => negb (loading s) && more_than_three s
  | Dot i => negb (loading s) && more_than_three s &&
             match length_of (reviews s) with Some n => Nat.ltb i n | None => false end
  | MouseEnter | MouseLeave => negb (loading s) && has_reviews s
  end.

Definition enabled (s : state) (e : event) : Prop := enabledb s e = true.

Definition reviews_machine : machine unit state event (request json) :=
  Machine (fun _ => step) enabled enabledb (fun _ _ H => H).

(** The mount effect (lines 11-13): [fetchReviews] sends the request of
    lines 31-33, whose answer is [FetchDone]. *)
Definition reviews_request (env : option string) : request json :=
  mkRequest GET (app_base env +++ "/reviews?featured=true&limit=10") [] None.

Definition reachable (s : state) : Prop := star (tab_step reviews_machine) initial_state s.

(** ** Lemmas *)

#[local] Ltac Zify.zify_post_hook ::= Z.div_mod_to_equations.

Lemma window_index l z k :
  l <> [] -> (0 <= z)%Z -> (0 <= k)%Z ->
  js_index (JArr l) (js_rem (js_add (Some z) k) (Z.of_nat (List.length l)))
  = l !! rotate_nat_add (Z.to_nat z) (Z.to_nat k) (List.length l).
Proof.
  intros Hl Hz Hk. assert (Hn : List.length l <> 0) by (destruct l; simpl; done || lia).
  simpl. destruct (Z.eqb_spec (Z.of_nat (List.length l)) 0); [lia|].
  rewrite Z.rem_mod_nonneg by lia.
  unfold rotate_nat_add. rewrite !Z2Nat.id by lia. simpl.
  destruct (Z.leb_spec 0 ((z + k) mod Z.of_nat (List.length l))); [done|lia].
Qed.

Lemma visible_arr l i :
  l <> [] ->
  getVisibleReviews (JArr l) i
  = map (fun k => js_index (JArr l) (js_rem (js_add i k) (Z.of_nat (List.length l)))) [0; 1; 2]%Z.
Proof. intros Hl. unfold getVisibleReviews. cbn [length_of]. by destruct l. Qed.

Lemma render_arr s l :
  loading s = false -> reviews s = JArr l -> l <> [] ->
  render s = render_cards (getVisibleReviews (JArr l) (currentIndex s)).
Proof. intros Hl Hv Hne. unfold render. rewrite Hl, Hv. by destruct l. Qed.

(** The invariant: the index is a number, [0] or one that designates a
    review, and the answer only comes while loading. *)
Definition index_ok (s : state) : Prop :=
  (loading s = true -> reviews s = JArr []) /\
  exists z, currentIndex s = Some z /\
  (z = 0%Z \/ exists n, length_of (reviews s) = Some n /\ (0 <= z < Z.of_nat n)%Z).

Lemma next_prev_in_range z n :
  0 < n -> (z = 0%Z \/ (0 <= z < Z.of_nat n)%Z) ->
  in_range (step_next (Some z) n) n /\ in_range (step_prev (Some z) n) n.
Proof. intros Hn Hz. apply js_rem_step_range; lia. Qed.

Lemma reviews_step_index_ok s e : enabled s e -> index_ok s -> index_ok (fst (step s e)).
Proof.
  unfold enabled, enabledb. intros Hen (Hl & z & Hz & Hr). apply andb_true_iff in Hen as [_ He].
  assert (Hnext : forall n, length_of (reviews s) = Some n -> 0 < n -> index_ok (nextSlide s) /\ index_ok (prevSlide s)).
  { intros n En Hn. assert (Hz' : z = 0%Z \/ (0 <= z < Z.of_nat n)%Z).
    { destruct Hr as [->|(n' & En' & Hr)]; [by left|]. rewrite En in En'. injection En' as <-. by right. }
    destruct (next_prev_in_range z n Hn Hz') as [(z1 & E1 & R1) (z2 & E2 & R2)].
    unfold nextSlide, prevSlide, index_ok; simpl; rewrite En, Hz, E1, E2.
    split; (split; [done|]); eexists; (split; [reflexivity|]); right; eauto. }
  destruct e; cbn [fst step].
  - unfold index_ok. destruct (resumeFetch r s) eqn:E. split; [|exists z; split].
    + unfold resumeFetch in E. destruct r as [[d|]| |]; injection E; intros; subst; done.
    + unfold resumeFetch in E. destruct r as [[d|]| |]; injection E; intros; subst; done.
    + left. destruct Hr as [->|(n & En & Hr)]; [done|]. rewrite (Hl He) in En. injection En as <-. simpl in Hr. lia.
  - apply andb_true_iff in He as [_ He]. unfold has_reviews in He.
    destruct (length_of (reviews s)) as [n|] eqn:En; [|done]. apply Nat.ltb_lt in He. by apply (Hnext n).
  - apply andb_true_iff in He as [_ He]. unfold more_than_three in He.
    destruct (length_of (reviews s)) as [n|] eqn:En; [|done]. apply Nat.ltb_lt in He. apply (Hnext n); [done|lia].
  - apply andb_true_iff in He as [_ He]. unfold more_than_three in He.
    destruct (length_of (reviews s)) as [n|] eqn:En; [|done]. apply Nat.ltb_lt in He. apply (Hnext n); [done|lia].
  - apply andb_true_iff in He as [_ He]. destruct (length_of (reviews s)) as [n|] eqn:En; [|done].
    apply Nat.ltb_lt in He. split; [done|]. exists (Z.of_nat i). split; [done|]. right. exists n. simpl. split; [done|lia].
  - split; [done|]. exists z. done.
  - split; [done|]. exists z. done.
Qed.

Lemma reviews_reachable_index_ok s : reachable s -> index_ok s.
Proof.
  apply (star_invariant _ index_ok).
  - intros x y (l & e & out & Hen & Hs) Hx. change (step x e = (y, out)) in Hs.
    pose proof (reviews_step_index_ok x e Hen Hx) as H. by rewrite Hs in H.
  - split; [done|]. exists 0%Z. split; [done|]. by left.
Qed.

Lemma substring_0_length n s : String.length (String.substring 0 n s) <= n.
Proof.
  revert s. induction n as [|n IH]; intros s; [destruct s; simpl; lia|].
  destruct s as [|c s]; simpl; [lia|]. specialize (IH s). lia.
Qed.

(** ** Theorems *)

(** C17: with three reviews or more, the three cards shown are the first
    three of the ring of [Carousel] from the current review: the index
    arithmetic of [getVisibleReviews] refines the rotation. *)
Theorem reviews_window_refines_ring l z :
  3 <= List.length l -> (0 <= z < Z.of_nat (List.length l))%Z ->
  getVisibleReviews (JArr l) (Some z) = map Some (take 3 (Ring.view (Z.to_nat z) l)).
Proof.
  intros H3 Hz. assert (Hl : l <> []) by (destruct l; [simpl in H3; lia | done]).
  rewrite visible_arr by done. unfold Ring.view. cbn [map].
  rewrite !window_index by (done || lia).
  destruct (rotate (Z.to_nat z) l) as [|a [|b [|c r]]] eqn:Er;
    pose proof (length_rotate l (Z.to_nat z)) as Hlen; rewrite Er in Hlen; simpl in Hlen; try lia.
  simpl. rewrite <- !(lookup_rotate_r l (Z.to_nat z)) by lia. rewrite Er. done.
Qed.

Definition three_reviews : list json :=
  [JObj [("id", JNum 1); ("customerName", JStr "Asha Rao")];
   JObj [("id", JNum 2); ("customerName", JStr "Ravi")];
   JObj [("id", JNum 3); ("customerName", JStr "Meera")];
   JObj [("id", JNum 4); ("customerName", JStr "Kiran")]].

Lemma reviews_window_refines_ring_witness :
  getVisibleReviews (JArr three_reviews) (Some 2%Z) = map Some (take 3 (Ring.view 2 three_reviews)).
Proof. apply (reviews_window_refines_ring three_reviews 2); simpl; lia. Defined.

(** With a single review the carousel shows three cards, all the
    same review. *)
Theorem single_review_three_cards r :
  getVisibleReviews (JArr [r]) (Some 0%Z) = [Some r; Some r; Some r].
Proof. reflexivity. Qed.

(** In every reachable state of the reviews carousel the index is a
    number, and it designates a review whenever there are some. *)
Theorem reviews_index_in_range s n :
  reachable s -> length_of (reviews s) = Some n -> 0 < n ->
  exists z, currentIndex s = Some z /\ (0 <= z < Z.of_nat n)%Z.
Proof.
  intros Hr En Hn. destruct (reviews_reachable_index_ok s Hr) as (_ & z & Hz & Hi). exists z. split; [done|].
  destruct Hi as [->|(n' & En' & Hi)]; [lia|]. rewrite En in En'. by injection En' as <-.
Qed.

Lemma reviews_index_in_range_witness :
  exists s, run reviews_machine tt initial_state [FetchDone (RespOk (Some (JArr three_reviews))); Tick; Prev; Prev]
            = Some (s, []) /\ exists z, currentIndex s = Some z /\ (0 <= z < Z.of_nat 4)%Z.
Proof.
  destruct (run reviews_machine tt initial_state [FetchDone (RespOk (Some (JArr three_reviews))); Tick; Prev; Prev])
    as [[s out]|] eqn:E; [|vm_compute in E; discriminate].
  assert (Eo : out = []) by (vm_compute in E; by injection E). subst out.
  assert (En : length_of (reviews s) = Some 4) by (vm_compute in E; injection E as <-; reflexivity).
  exists s. split; [reflexivity|].
  exact (reviews_index_in_range s 4 (run_reachable _ _ _ _ _ _ E) En ltac:(lia)).
Defined.

(** A review shown with neither [customerAvatar] nor [customerName]
    makes [getInitials] call [split] on [undefined]: the render of the
    whole section throws. *)
Theorem nameless_review_crashes s l z r :
  loading s = false -> reviews s = JArr l -> currentIndex s = Some z -> (0 <= z)%Z ->
  l !! Z.to_nat z = Some r -> r <> JNull ->
  get_field "customerAvatar" r = None -> get_field "customerName" r = None ->
  render s = Err "Cannot read properties of undefined (reading 'split')".
Proof.
  intros Hl Hv Hz Hz0 Hr Hn Ha Hc. assert (Hne : l <> []) by (intros ->; discriminate).
  rewrite (render_arr s l Hl Hv Hne), Hz, visible_arr by done. cbn [map render_cards].
  rewrite window_index by (done || lia). unfold rotate_nat_add. rewrite Z.add_0_r, Z2Nat.id by lia.
  assert (Hlt : (z < Z.of_nat (List.length l))%Z) by (apply lookup_lt_Some in Hr; lia).
  rewrite Z.mod_small, Hr by lia.
  assert (Hcard : render_card (Some r) = Err "Cannot read properties of undefined (reading 'split')")
    by (unfold render_card; destruct r; try done; rewrite Ha, Hc; done).
  by rewrite Hcard.
Qed.

Definition nameless : json := JObj [("id", JNum 7); ("rating", JNum 5)].

Lemma nameless_review_crashes_witness :
  render {| initial_state with reviews := JArr [nameless]; loading := false |}
  = Err "Cannot read properties of undefined (reading 'split')".
Proof.
  apply (nameless_review_crashes _ [nameless] 0 nameless); first [reflexivity | lia | discriminate].
Defined.

(** A review dated in the future ([now - date] negative) is shown as
    a negative number of days, [-N days ago]. *)
Theorem future_review_negative_days ms :
  (ms < 0)%Z ->
  (days_of ms < 0)%Z /\ getRelativeTime (Some ms) = js_number_string (days_of ms) +++ " days ago".
Proof.
  intros H. assert (Hd : (days_of ms < 0)%Z) by (unfold days_of; apply Z.div_lt_upper_bound; lia).
  split; [done|]. unfold getRelativeTime.
  destruct (Z.eqb_spec (days_of ms) 0), (Z.eqb_spec (days_of ms) 1), (Z.ltb_spec (days_of ms) 30); try lia.
  reflexivity.
Qed.

Lemma future_review_negative_days_witness :
  (days_of (-3 * 86400000) < 0)%Z /\ getRelativeTime (Some (-3 * 86400000)%Z) = "-3" +++ " days ago".
Proof. exact (future_review_negative_days (-3 * 86400000) ltac:(lia)). Defined.

(** From 60 days to a year the age is shown as a whole number of
    months between 2 and 12 (a review of 360 to 364 days is [12 months
    ago]). *)
Theorem relative_time_months_bounds ms :
  (60 <= days_of ms < 365)%Z ->
  exists m, (2 <= m <= 12)%Z /\ getRelativeTime (Some ms) = js_number_string m +++ " months ago".
Proof.
  intros H. exists (days_of ms / 30)%Z. split; [lia|].
  unfold getRelativeTime.
  destruct (Z.eqb_spec (days_of ms) 0), (Z.eqb_spec (days_of ms) 1), (Z.ltb_spec (days_of ms) 30),
    (Z.ltb_spec (days_of ms) 60), (Z.ltb_spec (days_of ms) 365); try lia.
  reflexivity.
Qed.

Lemma relative_time_months_bounds_witness :
  exists m, (2 <= m <= 12)%Z /\ getRelativeTime (Some (362 * 86400000)%Z) = js_number_string m +++ " months ago".
Proof. apply relative_time_months_bounds. unfold days_of. lia. Defined.

(** The initials of a card have at most two characters. *)
Theorem initials_at_most_two name i : getInitials name = Ok i -> String.length i <= 2.
Proof.
  destruct name as [[]|]; simpl; intros H; try discriminate. injection H as <-. apply substring_0_length.
Qed.

Lemma initials_at_most_two_witness : String.length "AR" <= 2.
Proof. exact (initials_at_most_two (Some (JStr "asha rao")) "AR" eq_refl). Defined.

End Reviews.
