(* ===== verification/Reels.v ===== *)
(** * The reels of the homepage ([src/src/components/homepage/ReelsSection.jsx])

    The section fetches [GET <VITE_APP_BASE_URL>/reels] once
    ([fetchReels], lines 21-42) and keeps the active reels, or three
    local ones ([loadLocalReels], lines 44-74).  A click on one of the
    first five stacked cards opens a full-screen player on it
    ([openModal], lines 76-81).  The player plays the reels in turn: when
    a video starts ([handleVideoPlay], lines 128-146) an interval adds
    [100 / (duration * 10)] to the progress every 100 ms and, once the
    progress has reached 100, goes to the next reel ([goToNextReel],
    lines 110-118), which closes the player after the last one.  A pause
    clears the interval, the end of a video goes to the next reel, the
    arrows move by one, a click on the video asks it to pause or play
    ([togglePlay], lines 92-101), the cross closes ([closeModal], lines
    83-90).
    The effect of lines 159-169 clears the interval and starts the video
    again whenever the player opens or the reel changes.

    The state is the record of the hooks, with the interval as the step
    it adds ([interval], [None] once cleared).  The video element is the
    environment: its [play] event carries the duration it reports.  The
    progress is a double in the code and a rational ([Q]) here: the
    model adds exactly [100 / (duration * 10)], where the browser rounds
    each sum, which can move the tick at which 100 is reached by one for
    durations whose tenth is not a power of two.  A duration is read as
    a JSON number; a string duration, which JavaScript would convert, is
    not modelled.

    The render (lines 171-408) is modelled down to what it shows: the
    skeleton while loading, nothing without reels, else the stack of the
    first five reels placed by [getStackPosition], the indicators under
    it, and the player with its progress bars, arrows and the current
    reel's video, title and description.

    The theorems: while the player is open the index designates a reel,
    whose video the player renders, with its progress bars full before
    that reel, partial on it and empty after it; the stack shows at
    most five cards at the places of the table, in order, the front one
    alone with its title; the indicators under the stack are static; and
    the autoplay terminates: from a reel just opened, if the video
    element reports a positive duration whenever it starts, the player
    closes by itself after a number of timer ticks and starts that is
    the sum, over the reels left, of [ceil(10 * duration) + 2]. *)

From stdpp Require Import list.
From Stdlib Require Import QArith Qround.
From S2P Require Import Prelude Api Json Session TabMachine JsValue.

#[local] Open Scope list_scope.
#[local] Open Scope nitai_scope.

Module Reels.
Import Http Json Session TabMachine.

(** ** The reels *)

Definition is_active (r : json) : result bool :=
  match r with
  | JNull => Err "Cannot read properties of null (reading 'isActive')"
  | _ => Ok (match get_field "isActive" r with Some v => json_truthy v | None => false end)
  end.

Fixpoint filter_active (l : list json) : result (list json) :=
  match l with
  | [] => Ok []
  | r :: rs =>
      match is_active r, filter_active rs with
      | Ok true, Ok rs' => Ok (r :: rs')
      | Ok false, Ok rs' => Ok rs'
      | Err m, _ | _, Err m => Err m
      end
  end.

(** [loadLocalReels] (lines 44-74); the video URLs are kept relative. *)
Definition local_reel (id video title description : string) (duration : Z) : json :=
  JObj [("id", JStr id); ("videoUrl", JStr video); ("title", JStr title);
        ("description", JStr description); ("duration", JNum duration); ("isActive", JBool true)].

Definition localReels : list json :=
  [local_reel "local-1" "../media/videos/video1.mp4" "Diamond Styling Tips" "Exquisite Vines Diamond Necklace Set" 45;
   local_reel "local-2" "../media/videos/video2.mp4" "Elegant Diamond Jewellery" "Every Day Diamond Collection" 60;
   local_reel "local-3" "../media/videos/video3.mp4" "Precious Necklace Jewellery" "Precious Stones Collection" 60].

(** ** The state (lines 7-15) *)

Record state := mkState {
  reels : list json;
  loading : bool;
  currentReelIndex : nat;
  isPlaying : bool;
  isMuted : bool;
  progress : Q;
  showModal : bool;
  interval : option Q;     (** the running interval of line 136 and what it adds *)
  console : list (string * string)
}.

Definition initial_state : state := mkState [] true 0 false true 0%Q false None [].

Definition n_reels (s : state) : nat := List.length (reels s).

(** ** The handlers *)

(** The rest of [fetchReels] after its awaits. *)
Definition resumeFetch (r : response json) (s : state) : state :=
  let use_local s := {| s with reels := localReels |} in
  let log m s := {| s with console := console s ++ [("Error fetching reels:", m)] |} in
  let s' :=
    match r with
    | RespOk (Some (JArr data)) =>
        match filter_active data with
        | Ok (x :: xs) => {| s with reels := x :: xs |}
        | Ok [] => use_local s
        | Err m => use_local (log m s)
        end
    | RespOk (Some _) => use_local (log "data.filter is not a function" s)
    | RespOk None => use_local (log json_parse_error s)
    | RespFail _ _ _ => use_local s
    | NetworkError m => use_local (log m s)
    end in
  {| s' with loading := false |}.

(** [closeModal] (lines 83-90). *)
Definition closeModal (s : state) : state :=
  {| s with showModal := false; isPlaying := false; progress := 0%Q; interval := None |}.

(** [openModal] (lines 76-81), then the effect of lines 159-169, which
    clears the interval and starts the video. *)
Definition openModal (i : nat) (s : state) : state :=
  {| s with currentReelIndex := i; showModal := true; progress := 0%Q; isPlaying := true; interval := None |}.

(** [goToNextReel] (lines 110-118); a change of reel runs the cleanup of
    the effect, which clears the interval. *)
Definition goToNextReel (s : state) : state :=
  if Nat.ltb (currentReelIndex s) (n_reels s - 1)
  then {| s with currentReelIndex := S (currentReelIndex s); progress := 0%Q; isPlaying := false; interval := None |}
  else closeModal s.

(** [goToPreviousReel] (lines 120-126). *)
Definition goToPreviousReel (s : state) : state :=
  match currentReelIndex s with
  | S i => {| s with currentReelIndex := i; progress := 0%Q; isPlaying := false; interval := None |}
  | 0 => s
  end.

(** [reels[i]?.duration] when it is a non-zero number. *)
Definition reel_duration (r : option json) : option Q :=
  match r with
  | Some v => match get_field "duration" v with Some (JNum z) => if Z.eqb z 0 then None else Some (inject_Z z) | _ => None end
  | None => None
  end.

(** [videoRef.current?.duration || reels[i]?.duration || 10], for the
    duration the video reports and the reel shown. *)
Definition play_duration (video : option Q) (r : option json) : Q :=
  let fallback := match reel_duration r with Some d => d | None => 10%Q end in
  match video with
  | Some d => if Qeq_bool d 0%Q then fallback else d
  | None => fallback
  end.

(** What the interval adds for a duration (line 137). *)
Definition progress_step (d : Q) : Q := (100 / (d * 10))%Q.

(** [handleVideoPlay] (lines 128-146): the old interval is cleared and a
    new one adds [100 / (duration * 10)]. *)
Definition handleVideoPlay (video : option Q) (s : state) : state :=
  {| s with isPlaying := true;
            interval := Some (progress_step (play_duration video (reels s !! currentReelIndex s))) |}.

(** One run of the interval's callback: at 100 or more it clears itself,
    goes to the next reel and sets the progress to [0]; otherwise it adds
    its step. *)
Definition progressTick (s : state) : state :=
  match interval s with
  | Some st =>
      if Qle_bool 100 (progress s) then {| (goToNextReel s) with progress := 0%Q; interval := None |}
      else {| s with progress := (progress s + st)%Q |}
  | None => s
  end.

(** [togglePlay] (lines 92-101): the flag flips and the video is asked
    to pause or play; the video answers later with its [pause] or [play]
    event ([VideoPause], [VideoPlay]). *)
Definition togglePlay (s : state) : state := {| s with isPlaying := negb (isPlaying s) |}.

(** [toggleMute] (lines 103-108). *)
Definition toggleMute (s : state) : state := {| s with isMuted := negb (isMuted s) |}.

(** [handleVideoPause] (lines 148-153). *)
Definition handleVideoPause (s : state) : state := {| s with isPlaying := false; interval := None |}.

(** ** Events *)

Inductive event :=
| FetchDone (r : response json)
| Open (i : nat)              (** a click on a stacked card *)
| Close | NextReel | PrevReel | TogglePlay | ToggleMute
| VideoPlay (duration : option Q)   (** the [play] event, with [video.duration] *)
| VideoPause | VideoEnded
| ProgressTick.

Definition step (s : state) (e : event) : state * list (request json) :=
  match e with
  | FetchDone r => (resumeFetch r s, [])
  | Open i => (openModal i s, [])
  | Close => (closeModal s, [])
  | NextReel | VideoEnded => (goToNextReel s, [])
  | PrevReel => (goToPreviousReel s, [])
  | TogglePlay => (togglePlay s, [])
  | ToggleMute => (toggleMute s, [])
  | VideoPlay d => (handleVideoPlay d s, [])
  | VideoPause => (handleVideoPause s, [])
  | ProgressTick => (progressTick s, [])
  end.

(** The cards are the first five reels ([reels.slice(0, 5)]), under the
    closed player; the player's controls, the video's events and the
    interval while it is open. *)
Definition enabledb (s : state) (e : event) : bool :=
  match e with
  | FetchDone _ => loading s
  | Open i => negb (loading s) && negb (showModal s) && Nat.ltb i (Nat.min 5 (n_reels s))
  | Close | TogglePlay | ToggleMute | VideoPlay _ | VideoPause | VideoEnded => showModal s
  | NextReel => showModal s && Nat.ltb (currentReelIndex s) (n_reels s - 1)
  | PrevReel => showModal s && Nat.ltb 0 (currentReelIndex s)
  | ProgressTick => showModal s && match interval s with Some _ => true | None => false end
  end.

Definition enabled (s : state) (e : event) : Prop := enabledb s e = true.

Definition reels_machine : machine unit state event (request json) :=
  Machine (fun _ => step) enabled enabledb (fun _ _ H => H).

Definition reachable (s : state) : Prop := star (tab_step reels_machine) initial_state s.

(** The mount effect (lines 17-19): [fetchReels] sends the request of
    line 23, whose answer is [FetchDone]. *)
Definition reels_request (env : option string) : request json :=
  mkRequest GET (app_base env +++ "/reels") [] None.

(** ** The render (lines 171-408) *)

Record position := mkPosition { rotate : Z; scale : Q; zIndex : Z; x : Z }.

(** [positions] (lines 190-196). *)
Definition positions : list position := [
  mkPosition 0 1 50 0; mkPosition (-3) (95 # 100) 40 (-30); mkPosition 3 (9 # 10) 30 30;
  mkPosition (-2) (85 # 100) 20 (-40); mkPosition 2 (8 # 10) 10 40
].

(** [getStackPosition] (lines 189-198): [positions[index] || {...}]; an
    entry of the table is an object, hence truthy. *)
Definition getStackPosition (index : nat) : position :=
  match positions !! index with
  | Some p => p
  | None => mkPosition 0 (75 # 100) 0 0
  end.

(** A card of the stack (lines 244-303): its [key], its place, the
    thumbnail's [src], and on the front card ([index === 0]) the "Live"
    controls and the title and description. *)
Record stack_card := mkStackCard {
  card_key : Coerce.jsval;
  card_position : position;
  card_video : Coerce.jsval;
  card_front_info : option (Coerce.jsval * Coerce.jsval)
}.

Definition to_stack_card (index : nat) (reel : json) : stack_card :=
  mkStackCard (Coerce.opt_get "id" (Some reel)) (getStackPosition index)
    (Coerce.opt_get "videoUrl" (Some reel))
    (if Nat.eqb index 0 then Some (Coerce.opt_get "title" (Some reel), Coerce.opt_get "description" (Some reel))
     else None).

(** A progress indicator under the stack (lines 305-315): its width
    class and whether it is the dark one. *)
Record indicator := mkIndicator { ind_width : string; ind_dark : bool }.

Definition indicators (rs : list json) : list indicator :=
  imap (fun index _ => mkIndicator (if Nat.ltb index (List.length rs) then "w-12" else "w-8") (Nat.eqb index 0)) rs.

(** The width of a progress bar of the player (lines 324-335). *)
Inductive bar := Full | Partial (p : Q) | Empty.

Definition bars (s : state) : list bar :=
  imap (fun index _ =>
          if Nat.ltb index (currentReelIndex s) then Full
          else if Nat.eqb index (currentReelIndex s) then Partial (progress s) else Empty) (reels s).

Record player := mkPlayer {
  progress_bars : list bar;
  prev_arrow : bool;                 (** [currentReelIndex > 0] *)
  next_arrow : bool;                 (** [currentReelIndex < reels.length - 1] *)
  video_src : Coerce.jsval;          (** [reels[currentReelIndex]?.videoUrl] *)
  video_muted : bool;
  mute_icon_off : bool;              (** [isMuted ? <VolumeX/> : <Volume2/>] *)
  info_title : Coerce.jsval;
  info_description : Coerce.slot Coerce.jsval
}.

(** The player (lines 321-408). *)
Definition player_view (s : state) : player :=
  let r := reels s !! currentReelIndex s in
  let d := Coerce.opt_get "description" r in
  {| progress_bars := bars s;
     prev_arrow := Nat.ltb 0 (currentReelIndex s);
     next_arrow := Nat.ltb (currentReelIndex s) (n_reels s - 1);
     video_src := Coerce.opt_get "videoUrl" r;
     video_muted := isMuted s;
     mute_icon_off := isMuted s;
     info_title := Coerce.opt_get "title" r;
     info_description := Coerce.and_slot d d |}.

Inductive page :=
| Skeleton                          (** [if (loading)] (lines 171-185) *)
| Hidden                            (** [if (reels.length === 0) return null] *)
| Section (cards : list stack_card) (dots : list indicator) (modal : option player).

(** The render: the stack of the first five reels, the indicators, and
    the player when it is open. *)
Definition render (s : state) : page :=
  if loading s then Skeleton
  else if Nat.eqb (n_reels s) 0 then Hidden
  else Section (imap to_stack_card (firstn 5 (reels s))) (indicators (reels s))
               (if showModal s then Some (player_view s) else None).

(** ** The index while the player is open *)

Definition index_ok (s : state) : Prop :=
  (loading s = true -> showModal s = false) /\
  (showModal s = true -> currentReelIndex s < n_reels s).

Lemma resumeFetch_fields r s :
  showModal (resumeFetch r s) = showModal s /\ currentReelIndex (resumeFetch r s) = currentReelIndex s /\
  loading (resumeFetch r s) = false.
Proof.
  unfold resumeFetch. destruct r as [[[]|]| |]; try done.
  destruct (filter_active _) as [[]|]; done.
Qed.

Lemma goToNextReel_ok s : index_ok s -> index_ok (goToNextReel s).
Proof.
  intros [Hl Hi]. unfold goToNextReel, n_reels in *.
  destruct (Nat.ltb_spec (currentReelIndex s) (List.length (reels s) - 1)); split; cbn; unfold n_reels; cbn; intros Hm; try discriminate; auto; specialize (Hi Hm); lia.
Qed.

Lemma reels_step_index_ok s e : enabled s e -> index_ok s -> index_ok (fst (step s e)).
Proof.
  unfold enabled, enabledb. intros Hen Hok. pose proof Hok as [Hl Hi].
  destruct e; cbn [fst step]; try by apply goToNextReel_ok.
  - destruct (resumeFetch_fields r s) as (H1 & H2 & H3). unfold index_ok, n_reels in *.
    rewrite H1, H3, (Hl Hen). done.
  - apply andb_true_iff in Hen as [[Hlo _]%andb_true_iff Hlt%Nat.ltb_lt].
    apply negb_true_iff in Hlo. unfold n_reels in *. split; cbn; [congruence|]. intros _. lia.
  - done.
  - unfold goToPreviousReel. destruct (currentReelIndex s) eqn:E; [done|].
    unfold n_reels in *. split; cbn; [done|]. intros H. specialize (Hi H). lia.
  - done.
  - done.
  - done.
  - done.
  - unfold progressTick. destruct (interval s); [|done].
    destruct (Qle_bool 100 (progress s)); [|done].
    by destruct (goToNextReel_ok s Hok) as [H1 H2].
Qed.

Lemma reels_reachable_index_ok s : reachable s -> index_ok s.
Proof.
  apply (star_invariant _ index_ok).
  - intros x y (l & e & out & Hen & Hs) Hx. change (step x e = (y, out)) in Hs.
    pose proof (reels_step_index_ok x e Hen Hx) as H. by rewrite Hs in H.
  - done.
Qed.

(** ** The render *)

(** The bars of [bars]: full before the current reel, its progress,
    empty after it. *)
Lemma imap_bars {A} (l : list A) (k : nat) (p : Q) : (k < List.length l)%nat ->
  imap (fun i _ => if Nat.ltb i k then Full else if Nat.eqb i k then Partial p else Empty) l
  = replicate k Full ++ Partial p :: replicate (List.length l - k - 1) Empty.
Proof.
  intros Hk. apply list_eq. intros j. rewrite list_lookup_imap.
  destruct (decide (j < k)) as [Hj|Hj].
  - rewrite lookup_app_l by (rewrite length_replicate; lia). rewrite lookup_replicate_2 by lia.
    destruct (lookup_lt_is_Some_2 l j) as [x ->]; [lia|]. cbn -[Nat.ltb Nat.eqb]. by rewrite (proj2 (Nat.ltb_lt _ _) Hj).
  - rewrite lookup_app_r by (rewrite length_replicate; lia). rewrite length_replicate.
    destruct (decide (j = k)) as [->|Hjk].
    + rewrite Nat.sub_diag. destruct (lookup_lt_is_Some_2 l k) as [x ->]; [lia|]. cbn -[Nat.ltb Nat.eqb].
      by rewrite Nat.ltb_irrefl, Nat.eqb_refl.
    + rewrite lookup_cons_ne_0 by lia.
      destruct (decide (j < List.length l)) as [Hl|Hl].
      * rewrite lookup_replicate_2 by lia. destruct (lookup_lt_is_Some_2 l j) as [x ->]; [lia|]. cbn -[Nat.ltb Nat.eqb].
        rewrite (proj2 (Nat.ltb_ge _ _)), (proj2 (Nat.eqb_neq _ _)); [done|lia|lia].
      * rewrite (lookup_ge_None_2 l j) by lia. symmetry. apply lookup_replicate_None. lia.
Qed.

Lemma render_section s :
  loading s = false -> n_reels s <> 0%nat ->
  render s = Section (imap to_stack_card (firstn 5 (reels s))) (indicators (reels s))
                     (if showModal s then Some (player_view s) else None).
Proof. intros Hl Hn. unfold render. rewrite Hl. by destruct (Nat.eqb_spec (n_reels s) 0). Qed.

Lemma render_section_inv s cards dots m :
  render s = Section cards dots m ->
  loading s = false /\ reels s <> [] /\ cards = imap to_stack_card (firstn 5 (reels s)) /\
  dots = indicators (reels s).
Proof.
  unfold render, n_reels. destruct (loading s); [done|].
  destruct (reels s); [done|]. by intros [= <- <- _].
Qed.

Definition server_error : response json := RespFail 500 "Internal Server Error" None.

(** C18: While the player is open, the reel it shows exists: after any
    sequence of fetches, clicks, arrows, video events and timer ticks,
    [currentReelIndex] designates a reel of [reels], so that
    [reels[currentReelIndex]] at line 321 is never [undefined]; the
    player shows that reel's video, and its progress bars are full for
    the reels before it, the current progress for it, and empty for the
    reels after it. *)
Theorem reels_open_index_in_range s :
  reachable s -> showModal s = true ->
  exists r cards dots, reels s !! currentReelIndex s = Some r /\
    render s = Section cards dots (Some (player_view s)) /\
    video_src (player_view s) = Coerce.opt_get "videoUrl" (Some r) /\
    progress_bars (player_view s) =
      replicate (currentReelIndex s) Full ++
      Partial (progress s) :: replicate (n_reels s - currentReelIndex s - 1) Empty.
Proof.
  intros Hr Hm. destruct (reels_reachable_index_ok s Hr) as [Hl Hi].
  specialize (Hi Hm). destruct (lookup_lt_is_Some_2 _ _ Hi) as [r Hr'].
  exists r, (imap to_stack_card (firstn 5 (reels s))), (indicators (reels s)).
  assert (Hl' : loading s = false) by (destruct (loading s); [by rewrite (Hl eq_refl) in Hm | done]).
  rewrite (render_section s Hl') by lia.
  rewrite Hm. split_and!; [done | done | cbn; by rewrite Hr' |].
  cbn [progress_bars player_view]. exact (imap_bars (reels s) _ _ Hi).
Qed.

Lemma reels_open_index_in_range_witness :
  exists s, run reels_machine tt initial_state [FetchDone server_error; Open 1; VideoEnded] = Some (s, []) /\
    currentReelIndex s = 2 /\ exists r, reels s !! currentReelIndex s = Some r.
Proof.
  destruct (run reels_machine tt initial_state [FetchDone server_error; Open 1; VideoEnded]) as [[s out]|] eqn:E;
    [|vm_compute in E; discriminate].
  assert (Eo : out = []) by (vm_compute in E; by injection E).
  assert (Hi : currentReelIndex s = 2) by (vm_compute in E; injection E as <-; reflexivity).
  assert (Hm : showModal s = true) by (vm_compute in E; injection E as <-; reflexivity).
  subst out. exists s. split; [reflexivity|]. split; [exact Hi|].
  destruct (reels_open_index_in_range s (run_reachable _ _ _ _ _ _ E) Hm) as (r & _ & _ & Hr & _).
  by exists r.
Defined.

(** ** The autoplay *)

(** The ticks of the interval a reel of duration [d] takes before its
    progress reaches 100: [ceil(10 * d)]. *)
Definition ticks (d : Q) : nat := Z.to_nat (Qceiling (10 * d)).

(** What the callback's last run leaves (line 141): the next reel, or the
    closed player, with no interval and no progress. *)
Definition advance (s : state) : state := {| (goToNextReel s) with progress := 0%Q; interval := None |}.

Section Autoplay.
(** The duration the video element reports when reel [j] starts. *)
Context (video : nat -> option Q).

(** The environment that lets the player run: the video starts when no
    interval runs, and the interval fires otherwise. *)
Definition auto_event (s : state) : event :=
  match interval s with None => VideoPlay (video (currentReelIndex s)) | Some _ => ProgressTick end.

Fixpoint autoplay (fuel : nat) (s : state) : state :=
  match fuel with
  | 0 => s
  | S f => if showModal s then autoplay f (fst (step s (auto_event s))) else s
  end.

(** The events reel [j] takes: its start, its ticks and the last one. *)
Definition reel_cost (rs : list json) (j : nat) : nat := ticks (play_duration (video j) (rs !! j)) + 2.

(** The events from the reel shown to the end of the list. *)
Definition autoplay_bound (s : state) : nat :=
  sum_list_with (reel_cost (reels s)) (seq (currentReelIndex s) (n_reels s - currentReelIndex s)).

End Autoplay.

(** *** Lemmas *)

Lemma autoplay_closed video f s : showModal s = false -> autoplay video f s = s.
Proof. intros H. destruct f; simpl; [done|]. by rewrite H. Qed.

Lemma autoplay_add video a b s : autoplay video (a + b) s = autoplay video b (autoplay video a s).
Proof.
  revert s. induction a as [|a IH]; intros s; [done|]. simpl.
  destruct (showModal s) eqn:Hm; [apply IH|]. by rewrite autoplay_closed.
Qed.

(** [advance] reads neither the progress nor the interval nor
    [isPlaying]. *)
Lemma advance_eq s t :
  reels s = reels t -> loading s = loading t -> currentReelIndex s = currentReelIndex t ->
  isMuted s = isMuted t -> showModal s = showModal t -> console s = console t ->
  advance s = advance t.
Proof.
  destruct s, t; simpl. intros -> -> -> -> -> ->.
  unfold advance, goToNextReel, closeModal, n_reels; simpl.
  by destruct (Nat.ltb _ _).
Qed.

#[local] Open Scope Q_scope.

Lemma progress_step_scaled d k : 0 < d -> k * progress_step d == 100 * (k / (d * 10)).
Proof. intros Hd. unfold progress_step. field. intros H. rewrite H in Hd. apply (Qlt_irrefl 0 Hd). Qed.

Lemma ticks_value d : 0 < d -> inject_Z (Z.of_nat (ticks d)) = inject_Z (Qceiling (10 * d)).
Proof.
  intros Hd. unfold ticks. rewrite Z2Nat.id; [done|].
  assert (H : 0 < 10 * d) by (apply Qmult_lt_0_compat; [reflexivity|done]).
  pose proof (Qle_ceiling (10 * d)) as Hc.
  assert (H' : inject_Z 0 < inject_Z (Qceiling (10 * d))) by (eapply Qlt_le_trans; [exact H|exact Hc]).
  rewrite <- Zlt_Qlt in H'. lia.
Qed.

(** Before [ticks d] runs the progress is below 100. *)
Lemma progress_below d k : 0 < d -> (k < ticks d)%nat -> inject_Z (Z.of_nat k) * progress_step d < 100.
Proof.
  intros Hd Hk. rewrite progress_step_scaled by done.
  assert (Hk' : inject_Z (Z.of_nat k) < 10 * d).
  { apply Qle_lt_trans with (inject_Z (Qceiling (10 * d) - 1)); [|apply Qceiling_lt].
    rewrite <- Zle_Qle. unfold ticks in Hk. lia. }
  assert (H : inject_Z (Z.of_nat k) / (d * 10) < 1).
  { apply Qlt_shift_div_r; [apply Qmult_lt_0_compat; [done|reflexivity]|].
    rewrite Qmult_1_l, Qmult_comm. exact Hk'. }
  rewrite <- (Qmult_1_r 100) at 2.
  apply Qmult_lt_l; [reflexivity|exact H].
Qed.

(** After [ticks d] runs it has reached 100. *)
Lemma progress_reached d : 0 < d -> 100 <= inject_Z (Z.of_nat (ticks d)) * progress_step d.
Proof.
  intros Hd. rewrite progress_step_scaled, ticks_value by done.
  assert (H : 1 <= inject_Z (Qceiling (10 * d)) / (d * 10)).
  { apply Qle_shift_div_l; [apply Qmult_lt_0_compat; [done|reflexivity]|].
    rewrite Qmult_1_l, Qmult_comm. apply Qle_ceiling. }
  rewrite <- (Qmult_1_r 100) at 1.
  apply Qmult_le_l; [reflexivity|exact H].
Qed.

(** The ticks of one reel: from [k] ticks in, the remaining ones and
    the last run of the callback lead to [advance]. *)
Lemma tick_phase video d k s :
  0 < d -> showModal s = true -> interval s = Some (progress_step d) ->
  progress s == inject_Z (Z.of_nat k) * progress_step d -> (k <= ticks d)%nat ->
  autoplay video (ticks d - k + 1) s = advance s.
Proof.
  intros Hd Hm Hi. remember (ticks d - k)%nat as m eqn:Em. revert k s Em Hm Hi.
  induction m as [|m IH]; intros k s Em Hm Hi Hp Hk; simpl; rewrite Hm; unfold auto_event; rewrite Hi; simpl.
  - unfold progressTick. rewrite Hi.
    replace (Qle_bool 100 (progress s)) with true; [done|]. symmetry. apply Qle_bool_iff.
    rewrite Hp. replace k with (ticks d) by lia. by apply progress_reached.
  - unfold progressTick. rewrite Hi.
    replace (Qle_bool 100 (progress s)) with false.
    2:{ symmetry. apply not_true_iff_false. rewrite Qle_bool_iff. apply Qlt_not_le.
        rewrite Hp. apply progress_below; [done|lia]. }
    rewrite (IH (S k)); [|lia|done|done| |lia].
    + by apply advance_eq.
    + simpl. rewrite Hp, Nat2Z.inj_succ, <- Z.add_1_r, inject_Z_plus. ring.
Qed.

(** One reel, from its start: the video starts, the interval runs, the
    player goes on. *)
Lemma reel_phase video s :
  let d := play_duration (video (currentReelIndex s)) (reels s !! currentReelIndex s) in
  0 < d -> showModal s = true -> interval s = None -> progress s == 0 ->
  autoplay video (reel_cost video (reels s) (currentReelIndex s)) s = advance s.
Proof.
  intros d Hd Hm Hi Hp. unfold reel_cost. fold d.
  replace (ticks d + 2)%nat with (S (ticks d - 0 + 1)) by lia. simpl. rewrite Hm. unfold auto_event. rewrite Hi. simpl.
  rewrite (tick_phase video d 0); [by apply advance_eq|done|done|done| |lia].
  simpl. rewrite Hp. reflexivity.
Qed.

(** C13: The autoplay of the player terminates.  From a reel just shown
    (no interval, no progress), if the video element reports a positive
    duration, or none and the reel's or the default one is positive,
    the player closes by itself after at most [autoplay_bound] starts
    and timer ticks: [ceil(10 * duration) + 2] for each reel left. *)
Theorem reels_autoplay_terminates video s :
  showModal s = true -> interval s = None -> progress s == 0 -> (currentReelIndex s < n_reels s)%nat ->
  (forall j, (currentReelIndex s <= j < n_reels s)%nat -> 0 < play_duration (video j) (reels s !! j)) ->
  showModal (autoplay video (autoplay_bound video s) s) = false.
Proof.
  remember (n_reels s - currentReelIndex s)%nat as m eqn:Em. revert s Em.
  induction m as [|m IH]; intros s Em Hm Hi Hp Hn Hd; [lia|].
  unfold autoplay_bound. rewrite <- Em. simpl. rewrite autoplay_add, reel_phase by (auto with lia).
  destruct (Nat.ltb_spec (currentReelIndex s) (n_reels s - 1)) as [Hlt|Hge].
  - assert (Ea : advance s = {| s with currentReelIndex := S (currentReelIndex s); progress := 0; isPlaying := false; interval := None |}).
    { unfold advance, goToNextReel. by destruct (Nat.ltb_spec (currentReelIndex s) (n_reels s - 1)); [|lia]. }
    rewrite Ea. set (t := {| s with currentReelIndex := S (currentReelIndex s); progress := 0; isPlaying := false; interval := None |}).
    assert (Hb : sum_list_with (reel_cost video (reels s)) (seq (S (currentReelIndex s)) m) = autoplay_bound video t).
    { unfold autoplay_bound, t, n_reels in *; simpl. do 2 f_equal. lia. }
    rewrite Hb. apply IH; unfold t, n_reels in *; simpl; try done; try lia.
    intros j Hj. apply Hd. unfold n_reels. lia.
  - assert (Hc : showModal (advance s) = false).
    { unfold advance, goToNextReel. by destruct (Nat.ltb_spec (currentReelIndex s) (n_reels s - 1)); [lia|]. }
    by rewrite autoplay_closed.
Qed.

Lemma reels_autoplay_terminates_witness :
  exists s, run reels_machine tt initial_state [FetchDone server_error; Open 0] = Some (s, []) /\
    autoplay_bound (fun _ => None) s = 1656%nat /\
    showModal (autoplay (fun _ => None) (autoplay_bound (fun _ => None) s) s) = false.
Proof.
  destruct (run reels_machine tt initial_state [FetchDone server_error; Open 0]) as [[s out]|] eqn:E;
    [|vm_compute in E; discriminate].
  vm_compute in E. injection E as <- <-. eexists. split; [reflexivity|]. split; [vm_compute; reflexivity|].
  apply reels_autoplay_terminates; [reflexivity..|vm_compute; lia|].
  intros j Hj. vm_compute in Hj. destruct j as [|[|[|j]]]; [vm_compute; reflexivity..|lia].
Defined.

(** C19: the stack of cards: at most five of the reels, at the places
    of [positions] in order (the fallback of [getStackPosition] is never
    used), so that each card lies under the one before it; only the
    front card, upright and full-size, shows the title and description. *)
Theorem stack_front_on_top s cards dots m :
  render s = Section cards dots m ->
  (1 <= List.length cards <= 5)%nat /\
  map card_position cards = firstn (List.length cards) positions /\
  map (fun c => bool_decide (card_front_info c <> None)) cards = true :: List.repeat false (List.length cards - 1).
Proof.
  intros (_ & Hne & -> & _)%render_section_inv.
  destruct (reels s) as [|r0 [|r1 [|r2 [|r3 [|r4 rs]]]]]; [done|..]; vm_compute; split_and!; try lia; done.
Qed.

Lemma stack_front_on_top_witness :
  render (resumeFetch server_error initial_state) =
    Section (imap to_stack_card localReels) (indicators localReels) None /\
  map card_position (imap to_stack_card localReels) = firstn 3 positions.
Proof.
  assert (H : render (resumeFetch server_error initial_state) =
              Section (imap to_stack_card localReels) (indicators localReels) None) by reflexivity.
  split; [exact H|]. apply (stack_front_on_top _ _ _ _ H).
Defined.

(** The indicators under the stack do not follow anything: one per reel,
    all of the same width (the test [index < reels.length] always
    holds), the first one dark whatever reel was last played. *)
Lemma indicators_static s cards dots m :
  render s = Section cards dots m ->
  List.length dots = n_reels s /\
  forall i d, dots !! i = Some d -> ind_width d = "w-12" /\ ind_dark d = Nat.eqb i 0.
Proof.
  intros (_ & _ & _ & ->)%render_section_inv. unfold indicators, n_reels. rewrite length_imap.
  split; [done|]. intros i d Hd. rewrite list_lookup_imap in Hd.
  destruct (reels s !! i) eqn:E; [|done]. injection Hd as <-. cbn -[Nat.ltb Nat.eqb].
  apply lookup_lt_Some in E. by rewrite (proj2 (Nat.ltb_lt _ _) E).
Qed.

End Reels.
