(* ===== verification/ProductDetail.v ===== *)
(** * The product page ([src/src/pages/ProductDetailPage.jsx])

    The page reads the product slug from the route, fetches
    [GET <VITE_APP_BASE_URL>/products/slug/<slug>] whenever the slug
    changes ([fetchProduct], lines 19-53), selects the first necklace
    layer of the answer, and shows the product: its price with the
    discount badge ([getCurrentPrice], [getOriginalPrice], [hasDiscount],
    [getDiscountPercent], [formatPrice], lines 82-112), the image gallery,
    the weight select of the layers (lines 349-372), the availability and
    the purchase buttons (lines 374-410), and the detail sections.

    The values the page reads are JSON values of [Json] or [undefined]
    ([jsval]) and the page compares, subtracts and prints them with the
    coercions of Module [Coerce] of [JsValue.v] ([ToPrimitive],
    [ToNumber], [<], [toLocaleString('en-IN')] with its Indian digit
    grouping [12,34,567]).  Numbers are the integers of [Json] and the
    rationals [parseFloat] produces; a numeric string is converted by
    [Number()] on decimal literals ([Infinity] and hexadecimal strings
    are [NaN] here), and the discount is computed exactly, where the
    browser divides in doubles, so at an exact tie of [Math.round] the
    two may differ by one.

    The state is the record of the hooks; a fetch is a request in the
    step's output and its completion an event carrying the answer.

    The theorems ([toLocaleString('en-IN')] losing no digit is proved in
    [JsValue.v]): the option text of a layer's
    weight, read back with [parseFloat], finds that layer again; the
    discount badge is between 0 and 100 for positive prices, and can read
    [0% OFF] or [100% OFF]; a product without layers opened after one
    with layers keeps the old layer and shows its price; [Add to Cart]
    and [Buy Now] only log. *)

From stdpp Require Import list.
From Stdlib Require Import QArith Qround Lqa.
From S2P Require Import Prelude Api Json Session TabMachine JsValue.

#[local] Open Scope list_scope.
#[local] Open Scope nitai_scope.

(** ** The page *)

Module ProductDetail.
Import Http Json Coerce TabMachine.

(** [v[i]] for an array, a string or an object key; [undefined]
    otherwise. *)
Definition js_index (v : jsval) (i : nat) : jsval :=
  match v with
  | Some (JArr l) => l !! i
  | Some (JStr s) => option_map (fun c => JStr (String c EmptyString)) (String.get i s)
  | Some (JObj _ as o) => get_field (num_text (Z.of_nat i)) o
  | _ => None
  end.

(** [v?.length] *)
Definition length_of (v : jsval) : jsval :=
  match v with
  | Some (JArr l) => Some (JNum (Z.of_nat (List.length l)))
  | Some (JStr s) => Some (JNum (Z.of_nat (String.length s)))
  | Some (JObj _ as o) => get_field "length" o
  | _ => None
  end.

(** [v?.length > 0] *)
Definition nonempty (v : jsval) : bool := js_lt (Some (JNum 0)) (length_of v).

(** What the console receives. *)
Inductive log :=
| LogValue (label : string) (v : jsval)
| LogItem (label : string) (fields : list (string * jsval)).

(** The state (lines 9-17): the route parameters and the hooks, with the
    number of fetches not yet answered. *)
Record state := mkState {
  slug : string;
  categorySlug : option string;
  subCategorySlug : option string;
  product : json;
  loading : bool;
  error : option string;
  selectedImage : nat;
  selectedLayer : jsval;
  isInWishlist : bool;
  expandedSection : option string;
  inflight : nat;
  console : list log
}.

Definition product_url (env : option string) (sl : string) : string :=
  match env with Some u => u | None => "undefined" end +++ "/products/slug/" +++ sl.

(** [fetchProduct] up to its await (lines 23-31). *)
Definition fetchProduct (env : option string) (s : state) : state * list (request json) :=
  let url := product_url env (slug s) in
  ({| s with loading := true; error := None; inflight := S (inflight s);
             console := console s ++ [LogValue "Fetching product from:" (Some (JStr url))] |},
   [mkRequest GET url [] None]).

(** The mount, with the route's parameters: the effect of lines 19-21
    fetches the product. *)
Definition mount (env : option string) (sl : string) (c sc : option string) : state * list (request json) :=
  fetchProduct env (mkState sl c sc JNull true None 0 None false None 0 []).

Definition null_read_error (k : string) : string := "Cannot read properties of null (reading '" +++ k +++ "')".

(** The rest of [fetchProduct] after its awaits (lines 33-52). *)
Definition resumeFetch (r : response json) (s : state) : state :=
  let fail m s := {| s with error := Some m; console := console s ++ [LogValue "Error fetching product:" (Some (JStr m))] |} in
  let s' :=
    match r with
    | RespOk (Some data) =>
        let s1 := {| s with console := console s ++ [LogValue "Product fetched:" (Some data)]; product := data |} in
        match data with
        | JNull => fail (null_read_error "necklaceLayers") s1
        | _ =>
            let layers := get_field "necklaceLayers" data in
            if nonempty layers then {| s1 with selectedLayer := js_index layers 0 |} else s1
        end
    | RespOk None => fail json_parse_error s
    | RespFail status _ _ => fail (if Z.eqb status 404 then "Product not found" else "Failed to fetch product") s
    | NetworkError m => fail m s
    end in
  {| s' with loading := false; inflight := pred (inflight s) |}.

(** ** Prices (lines 82-112) *)

Definition pricing (s : state) : jsval := opt_get "pricing" (Some (product s)).

Definition getCurrentPrice (s : state) : jsval :=
  if truthy (selectedLayer s)
  then js_or (opt_get "discountedPrice" (selectedLayer s)) (opt_get "basePrice" (selectedLayer s))
  else js_or (js_or (opt_get "discountedPrice" (pricing s)) (opt_get "basePrice" (pricing s))) (Some (JNum 0)).

Definition getOriginalPrice (s : state) : jsval :=
  if truthy (selectedLayer s) then opt_get "basePrice" (selectedLayer s)
  else js_or (opt_get "basePrice" (pricing s)) (Some (JNum 0)).

Definition hasDiscount (s : state) : bool := js_lt (getCurrentPrice s) (getOriginalPrice s).

(** A number [Math.round] can give here. *)
Inductive percent := Pct (z : Z) | PctPosInf | PctNegInf | PctNaN.

(** [Math.round(((original - current) / original) * 100)]: [Math.round]
    is [floor(x + 1/2)]; a zero divisor gives an infinity or [NaN]. *)
Definition round_percent (c o : Q) : percent :=
  (if Qeq_bool o 0 then
    if Qeq_bool (o - c) 0 then PctNaN else if Qle_bool 0 (o - c) then PctPosInf else PctNegInf
  else Pct (Qfloor ((o - c) / o * 100 + (1 # 2))))%Q.

Definition getDiscountPercent (s : state) : percent :=
  if negb (hasDiscount s) then Pct 0
  else match to_number (getCurrentPrice s), to_number (getOriginalPrice s) with
       | Some c, Some o => round_percent c o
       | _, _ => PctNaN
       end.

Definition percent_text (p : percent) : string :=
  match p with Pct z => num_text z | PctPosInf => "Infinity" | PctNegInf => "-Infinity" | PctNaN => "NaN" end.

(** The rupee sign, three bytes in UTF-8. *)
Definition rupee : string :=
  String (ascii_of_nat 226) (String (ascii_of_nat 130) (String (ascii_of_nat 185) EmptyString)).

Definition formatPrice (price : jsval) : string :=
  match price with
  | Some v => if json_truthy v then rupee +++ to_locale_string v else rupee +++ "0"
  | None => rupee +++ "0"
  end.

(** ** The handlers *)

(** [handleAddToCart] (lines 114-125): it builds the cart item and logs
    it; nothing else. *)
Definition cart_item (s : state) : list (string * jsval) :=
  let p := Some (product s) in
  [("productId", opt_get "id" p); ("name", opt_get "name" p); ("slug", opt_get "slug" p);
   ("image", js_index (opt_get "images" p) 0); ("price", getCurrentPrice s);
   ("layer", selectedLayer s); ("quantity", Some (JNum 1))].

Definition handleAddToCart (s : state) : state :=
  {| s with console := console s ++ [LogItem "Add to cart:" (cart_item s)] |}.

(** [handleBuyNow] (lines 127-130). *)
Definition handleBuyNow (s : state) : state :=
  let s1 := handleAddToCart s in {| s1 with console := console s1 ++ [LogValue "Buy now" None] |}.

(** [toggleWishlist] and [toggleSection] (lines 132-138). *)
Definition toggleWishlist (s : state) : state := {| s with isInWishlist := negb (isInWishlist s) |}.

Definition toggleSection (title : string) (s : state) : state :=
  {| s with expandedSection := if option_eq_dec (expandedSection s) (Some title) then None else Some title |}.

Definition layers (s : state) : jsval := get_field "necklaceLayers" (product s).

(** The label of a layer's option (line 367). *)
Definition layer_label (layer : json) : string :=
  template (get_field "weight" layer) +++ "g - "
  +++ formatPrice (js_or (get_field "discountedPrice" layer) (get_field "basePrice" layer)).

(** The value of the option: the weight's text, or the option's text when
    the weight is [null] or [undefined] (React sets no attribute then). *)
Definition layer_value (layer : json) : string :=
  match get_field "weight" layer with
  | Some JNull | None => layer_label layer
  | Some w => to_string w
  end.

(** The weight select's [onChange] (lines 357-362):
    [necklaceLayers.find(l => l.weight === parseFloat(value))]. *)
Definition weight_matches (q : option Q) (l : json) : result bool :=
  match l with
  | JNull => Err (null_read_error "weight")
  | _ => Ok (match get_field "weight" l, q with
             | Some (JNum w), Some q => Qeq_bool (inject_Z w) q
             | _, _ => false
             end)
  end.

Fixpoint rfind (f : json -> result bool) (l : list json) : result jsval :=
  match l with
  | [] => Ok None
  | x :: r => rbind (f x) (fun b => if b then Ok (Some x) else rfind f r)
  end.

Definition selectLayer (value : string) (s : state) : result state :=
  match layers s with
  | Some (JArr l) => rbind (rfind (weight_matches (js_parseFloat value)) l) (fun found => Ok {| s with selectedLayer := found |})
  | _ => Err "product.necklaceLayers.find is not a function"
  end.

(** ** The render (lines 168-587) *)

Record view := mkView {
  main_image : jsval;                  (** [product.images?.[selectedImage] || '/placeholder.jpg'] *)
  out_of_stock : bool;                 (** the overlay and the disabled buttons *)
  thumbnails : list json;
  price_text : string;
  struck_text : option string;
  badge_text : option string;
  layer_options : option (string * list (string * string));   (** the label and (value, text) of each option *)
  stock_text : option string;
  wishlist_text : string;
  sections : list string
}.

Inductive page := Loading | NotFound (slug : string) (error : option string) | Shown (v : view).

Definition not_function (what : string) : string := what +++ ".map is not a function".

(** [cond && v.map(f)]: the array, or the [TypeError] of [map] on
    anything else. *)
Definition map_if (cond : bool) (what : string) (v : jsval) : result (list json) :=
  if cond then match v with Some (JArr l) => Ok l | _ => Err (not_function what) end else Ok [].

Definition render_layers (s : state) : result (option (string * list (string * string))) :=
  if nonempty (layers s) then
    match layers s with
    | Some (JArr l) =>
        rbind (rmap_list (fun layer => match layer with
                                       | JNull => Err (null_read_error "weight")
                                       | _ => Ok (layer_value layer, layer_label layer)
                                       end) l)
              (fun opts => Ok (Some ("Select Weight: " +++ template (opt_get "weight" (selectedLayer s)) +++ "g", opts)))
    | _ => Err (not_function "product.necklaceLayers")
    end
  else Ok None.

Definition details (s : state) : jsval := opt_get "details" (Some (product s)).

(** The detail sections shown (lines 433, 469, 510, 533, 552). *)
Definition sections_shown (s : state) : list string :=
  let d k := opt_get k (details s) in
  (if truthy (js_or (js_or (d "metal") (d "metalPurity")) (d "metalWeight")) then ["METAL DETAILS"] else [])
  ++ (if truthy (js_or (js_or (d "stone") (d "stoneType")) (d "stoneWeight")) then ["DIAMOND/STONE DETAILS"] else [])
  ++ (if truthy (js_or (d "size") (d "certification")) then ["GENERAL DETAILS"] else [])
  ++ (if nonempty (opt_get "tags" (Some (product s))) then ["FEATURES"] else [])
  ++ (if truthy (opt_get "couponApplicable" (pricing s)) then ["OFFERS"] else []).

Definition render (s : state) : result page :=
  if loading s then Ok Loading
  else if negb (match error s with None => true | Some _ => false end) || negb (json_truthy (product s))
  then Ok (NotFound (slug s) (error s))
  else
    let p := Some (product s) in
    let images := opt_get "images" p in
    let in_stock := truthy (opt_get "inStock" (opt_get "inventory" p)) in
    rbind (map_if (js_lt (Some (JNum 1)) (length_of images)) "product.images" images) (fun thumbs =>
    rbind (render_layers s) (fun opts =>
    rbind (map_if (nonempty (opt_get "tags" p)) "product.tags" (opt_get "tags" p)) (fun _ =>
    rbind (map_if (truthy (opt_get "couponApplicable" (pricing s)) && nonempty (opt_get "couponList" (pricing s)))
                  "product.pricing.couponList" (opt_get "couponList" (pricing s))) (fun _ =>
    Ok (Shown (mkView
      (js_or (js_index images (selectedImage s)) (Some (JStr "/placeholder.jpg")))
      (negb in_stock)
      thumbs
      (formatPrice (getCurrentPrice s))
      (if hasDiscount s then Some (formatPrice (getOriginalPrice s)) else None)
      (if hasDiscount s then Some (percent_text (getDiscountPercent s) +++ "% OFF") else None)
      opts
      (if truthy (opt_get "inventory" p)
       then Some (if in_stock then "In Stock (" +++ template (opt_get "stock" (opt_get "inventory" p)) +++ " available)"
                  else "Out of Stock")
       else None)
      (if isInWishlist s then "Wishlisted" else "Add to Wishlist")
      (sections_shown s))))))).

Definition shown (s : state) : option view :=
  match render s with Ok (Shown v) => Some v | _ => None end.

(** ** Events *)

Inductive event :=
| Navigate (sl : string) (c sc : option string)   (** the route's parameters change *)
| FetchDone (r : response json)
| SelectImage (i : nat)
| SelectLayer (i : nat)     (** the [i]-th option of the weight select *)
| AddToCart | BuyNow | ToggleWishlist
| ToggleSection (title : string).

Definition step (env : option string) (s : state) (e : event) : state * list (request json) :=
  match e with
  | Navigate sl c sc =>
      let s1 := {| s with slug := sl; categorySlug := c; subCategorySlug := sc |} in
      if String.eqb sl (slug s) then (s1, []) else fetchProduct env s1
  | FetchDone r => (resumeFetch r s, [])
  | SelectImage i => ({| s with selectedImage := i |}, [])
  | SelectLayer i =>
      match layers s with
      | Some (JArr l) =>
          match l !! i with
          | Some layer => match selectLayer (layer_value layer) s with Ok s' => (s', []) | Err _ => (s, []) end
          | None => (s, [])
          end
      | _ => (s, [])
      end
  | AddToCart => (handleAddToCart s, [])
  | BuyNow => (handleBuyNow s, [])
  | ToggleWishlist => (toggleWishlist s, [])
  | ToggleSection t => (toggleSection t s, [])
  end.

(** Navigation and answers at any time; the controls of the product
    while it is shown: the thumbnails, the options of the select, the
    purchase buttons unless disabled, the section headers. *)
Definition enabledb (s : state) (e : event) : bool :=
  match e with
  | Navigate _ _ _ => true
  | FetchDone _ => Nat.ltb 0 (inflight s)
  | _ =>
      match shown s with
      | None => false
      | Some v =>
          match e with
          | SelectImage i => Nat.ltb i (List.length (thumbnails v))
          | SelectLayer i => match layer_options v with Some (_, opts) => Nat.ltb i (List.length opts) | None => false end
          | AddToCart | BuyNow => negb (out_of_stock v)
          | ToggleWishlist => true
          | ToggleSection t => existsb (String.eqb t) (sections v)
          | _ => false
          end
      end
  end.

Definition enabled (s : state) (e : event) : Prop := enabledb s e = true.

Definition product_machine : machine (option string) state event (request json) :=
  Machine step enabled enabledb (fun _ _ H => H).

(** ** Theorems *)

#[local] Open Scope Q_scope.

(** [Math.round] of a ratio strictly between 0 and 100 is between 0 and
    100. *)
Lemma round_between x : 0 < x < 100 -> (0 <= Qfloor (x + (1 # 2)) <= 100)%Z.
Proof.
  intros [H0 H1]. pose proof (Qfloor_le (x + (1 # 2))) as Hle. pose proof (Qlt_floor (x + (1 # 2))) as Hlt.
  set (f := Qfloor (x + (1 # 2))) in *. rewrite inject_Z_plus in Hlt.
  assert (E1 : inject_Z 1 == 1) by reflexivity. rewrite E1 in Hlt.
  split.
  - assert (H : inject_Z (-1) < inject_Z f).
    { assert (Em : inject_Z (-1) == -1) by reflexivity. rewrite Em. lra. }
    rewrite <- Zlt_Qlt in H. lia.
  - assert (H : inject_Z f < inject_Z 101).
    { assert (E101 : inject_Z 101 == 101) by reflexivity. rewrite E101. lra. }
    rewrite <- Zlt_Qlt in H. lia.
Qed.

Lemma ratio_between c o : 0 < c -> c < o -> 0 < (o - c) / o * 100 < 100.
Proof.
  intros Hc Ho. assert (Hop : 0 < o) by lra.
  assert (E : (o - c) / o * 100 == 100 - 100 * (c / o)) by (field; intros E; rewrite E in Hop; lra).
  assert (Hq : 0 < c / o < 1).
  { split; [apply Qlt_shift_div_l; lra | apply Qlt_shift_div_r; lra]. }
  rewrite E. lra.
Qed.

Lemma js_lt_num a b : js_lt (Some (JNum a)) (Some (JNum b)) = Z.ltb a b.
Proof.
  unfold js_lt. simpl. destruct (Z.ltb_spec a b) as [H|H].
  - apply negb_true_iff, not_true_iff_false. rewrite Qle_bool_iff, <- Zle_Qle. lia.
  - apply negb_false_iff. rewrite Qle_bool_iff, <- Zle_Qle. lia.
Qed.

(** [Math.round] of the discount of two integer prices [0 < c < o] is
    a percentage between 0 and 100. *)
Lemma round_percent_between c o :
  (0 < c < o)%Z -> exists p, round_percent (inject_Z c) (inject_Z o) = Pct p /\ (0 <= p <= 100)%Z.
Proof.
  intros Hco. unfold round_percent. destruct (Qeq_bool (inject_Z o) 0) eqn:E.
  - exfalso. apply Qeq_bool_iff, (proj1 (inject_Z_injective o 0)) in E. lia.
  - eexists. split; [reflexivity|]. apply round_between, ratio_between.
    + change 0 with (inject_Z 0). rewrite <- Zlt_Qlt. lia.
    + rewrite <- Zlt_Qlt. lia.
Qed.

(** C21: with a current price and an original price that are numbers,
    [0 < current < original], the product shows the original price
    struck through and a badge [p% OFF] whose [p], the rounded
    percentage of [getDiscountPercent], is between 0 and 100: it can
    read [0% OFF] or [100% OFF], never more nor less. *)
Theorem discount_percent_bounds s c o :
  getCurrentPrice s = Some (JNum c) -> getOriginalPrice s = Some (JNum o) -> (0 < c < o)%Z ->
  hasDiscount s = true /\ exists p, getDiscountPercent s = Pct p /\ (0 <= p <= 100)%Z.
Proof.
  intros Hc Ho Hco. assert (Hd : hasDiscount s = true) by (unfold hasDiscount; rewrite Hc, Ho, js_lt_num; lia).
  split; [done|]. unfold getDiscountPercent. rewrite Hd, Hc, Ho. cbn -[round_percent].
  by apply round_percent_between.
Qed.

Definition ring_product : json :=
  JObj [("id", JNum 7); ("name", JStr "Solitaire Ring"); ("slug", JStr "solitaire-ring");
        ("pricing", JObj [("basePrice", JNum 1000); ("discountedPrice", JNum 996)]);
        ("inventory", JObj [("inStock", JBool true); ("stock", JNum 3)])].

Definition ring_page : state :=
  resumeFetch (RespOk (Some ring_product)) (fst (mount None "solitaire-ring" None None)).

Lemma discount_percent_bounds_witness :
  (hasDiscount ring_page = true /\ exists p, getDiscountPercent ring_page = Pct p /\ (0 <= p <= 100)%Z) /\
  option_map badge_text (shown ring_page) = Some (Some "0% OFF").
Proof.
  split; [|vm_compute; reflexivity].
  apply (discount_percent_bounds ring_page 996 1000); [vm_compute; reflexivity..|lia].
Defined.

#[local] Close Scope Q_scope.

Lemma resumeFetch_object data s :
  data <> JNull ->
  resumeFetch (RespOk (Some data)) s =
  let s1 := {| s with console := console s ++ [LogValue "Product fetched:" (Some data)]; product := data |} in
  let s2 := if nonempty (get_field "necklaceLayers" data) then {| s1 with selectedLayer := js_index (get_field "necklaceLayers" data) 0 |} else s1 in
  {| s2 with loading := false; inflight := pred (inflight s) |}.
Proof. intros H. destruct data; [done|reflexivity..]. Qed.

(** C20: the page keeps the layer of the previous product.  When the
    route moves from a product whose layer is selected to another product
    without layers, the answer sets the new product but leaves
    [selectedLayer] (and [selectedImage]) as they were: the price shown
    for the new product is the old layer's. *)
Theorem stale_layer_after_navigation env s sl c sc data :
  truthy (selectedLayer s) = true -> sl <> slug s -> data <> JNull ->
  nonempty (get_field "necklaceLayers" data) = false ->
  let s' := resumeFetch (RespOk (Some data)) (fst (step env s (Navigate sl c sc))) in
  product s' = data /\ slug s' = sl /\ selectedLayer s' = selectedLayer s /\ selectedImage s' = selectedImage s /\
  getCurrentPrice s' = js_or (opt_get "discountedPrice" (selectedLayer s)) (opt_get "basePrice" (selectedLayer s)).
Proof.
  intros Hl Hsl Hd Hn s'. unfold s', step. destruct (String.eqb_spec sl (slug s)) as [E|_]; [done|].
  rewrite resumeFetch_object by done. cbn zeta. rewrite Hn. unfold getCurrentPrice. cbn. by rewrite Hl.
Qed.

Definition layer_of (w price : Z) : json := JObj [("weight", JNum w); ("basePrice", JNum price)].

Definition necklace : json :=
  JObj [("id", JNum 1); ("name", JStr "Layered Necklace"); ("slug", JStr "layered-necklace");
        ("necklaceLayers", JArr [layer_of 10 45000; layer_of 12 52000]);
        ("inventory", JObj [("inStock", JBool true); ("stock", JNum 2)])].

Definition earrings : json :=
  JObj [("id", JNum 2); ("name", JStr "Stud Earrings"); ("slug", JStr "stud-earrings");
        ("pricing", JObj [("basePrice", JNum 20000)]);
        ("inventory", JObj [("inStock", JBool true); ("stock", JNum 5)])].

Definition necklace_page : state :=
  resumeFetch (RespOk (Some necklace)) (fst (mount None "layered-necklace" None None)).

Lemma stale_layer_after_navigation_witness :
  let s' := resumeFetch (RespOk (Some earrings)) (fst (step None necklace_page (Navigate "stud-earrings" None None))) in
  (product s' = earrings /\ slug s' = "stud-earrings" /\ selectedLayer s' = selectedLayer necklace_page /\
   selectedImage s' = selectedImage necklace_page /\
   getCurrentPrice s' = js_or (opt_get "discountedPrice" (selectedLayer necklace_page)) (opt_get "basePrice" (selectedLayer necklace_page))) /\
  option_map price_text (shown s') = Some (rupee +++ "45,000").
Proof.
  split; [|vm_compute; reflexivity].
  apply stale_layer_after_navigation; [vm_compute; reflexivity|discriminate|discriminate|vm_compute; reflexivity].
Defined.

Lemma rfind_index f l i y :
  l !! i = Some y -> f y = Ok true -> (forall j x, j < i -> l !! j = Some x -> f x = Ok false) ->
  rfind f l = Ok (Some y).
Proof.
  revert i. induction l as [|x l IH]; intros i Hi Hy Hbefore; [done|].
  destruct i as [|i]; simpl in Hi |- *.
  - injection Hi as ->. by rewrite Hy.
  - rewrite (Hbefore 0 x) by (done || lia). simpl.
    apply (IH i); [done|done|]. intros j z Hj Hz. apply (Hbefore (S j)); [lia|done].
Qed.

(** The text of a number's option, read back by [parseFloat], matches
    exactly the layers of that weight. *)
Lemma weight_matches_num_text w x :
  x <> JNull ->
  exists b, weight_matches (js_parseFloat (num_text w)) x = Ok b /\
            (b = true <-> get_field "weight" x = Some (JNum w)).
Proof.
  intros Hx. destruct (parseFloat_num_text w) as (q & Hp & Hq). rewrite Hp.
  assert (E : weight_matches (Some q) x =
              Ok (match get_field "weight" x with Some (JNum w') => Qeq_bool (inject_Z w') q | _ => false end))
    by (destruct x; done).
  rewrite E. eexists; split; [reflexivity|].
  destruct (get_field "weight" x) as [[|b|w'|t|l|l]|]; split; intros H; try discriminate.
  - apply Qeq_bool_iff in H. rewrite Hq in H. apply (proj1 (inject_Z_injective w' w)) in H. by subst.
  - injection H as ->. apply Qeq_bool_iff. by rewrite Hq.
Qed.

(** C22: the weight select finds the layer of the option chosen.  The
    option's value is the text of the layer's weight ([String(weight)]);
    its [onChange] reads it back with [parseFloat] and looks the layer up
    by [===]; when the weights are numbers and no other layer has the
    same one, the layer selected is the one whose option was chosen. *)
Theorem layer_select_roundtrip env s l i layer w :
  layers s = Some (JArr l) -> l !! i = Some layer -> get_field "weight" layer = Some (JNum w) ->
  (forall j x, l !! j = Some x -> x <> JNull /\ (get_field "weight" x = Some (JNum w) -> j = i)) ->
  fst (step env s (SelectLayer i)) = {| s with selectedLayer := Some layer |}.
Proof.
  intros Hl Hi Hw Hothers. cbn [step]. rewrite Hl, Hi.
  assert (Hv : layer_value layer = num_text w) by (unfold layer_value; by rewrite Hw).
  unfold selectLayer. rewrite Hl, Hv.
  rewrite (rfind_index _ l i layer); [done|done| |].
  - destruct (weight_matches_num_text w layer) as (b & Hb & Hbt); [by apply (Hothers i)|].
    rewrite Hb. f_equal. by apply Hbt.
  - intros j x Hj Hx. destruct (Hothers j x Hx) as [Hn Hu].
    destruct (weight_matches_num_text w x Hn) as (b & Hb & Hbt). rewrite Hb. f_equal.
    destruct b; [|done]. exfalso. assert (j = i) by (apply Hu, Hbt; done). lia.
Qed.

Lemma layer_select_roundtrip_witness :
  fst (step None necklace_page (SelectLayer 1)) = {| necklace_page with selectedLayer := Some (layer_of 12 52000) |} /\
  option_map price_text (shown (fst (step None necklace_page (SelectLayer 1)))) = Some (rupee +++ "52,000").
Proof.
  split; [|vm_compute; reflexivity].
  apply (layer_select_roundtrip None necklace_page [layer_of 10 45000; layer_of 12 52000] 1 _ 12);
    [reflexivity..|].
  intros j x Hx. destruct j as [|[|j]]; simpl in Hx; try discriminate; injection Hx as <-;
    (split; [discriminate|]); simpl; intros H; [discriminate|done].
Defined.

End ProductDetail.
