(* ===== verification/ProductCard.v ===== *)
(** * The product card of the listings

    [src/src/components/products/ProductCard.jsx] renders one product of a
    listing: a link built by [getProductUrl] from the route parameters
    (modelled in [Routes]), two images that slide on hover, a discount
    badge, an out-of-stock overlay, the name and the prices, and a heart
    button with its own [isInWishlist] state.

    The card computes its discount differently from the product page:
    [hasDiscount] is [pricing?.discountedPrice && discountedPrice <
    basePrice], a JavaScript value, not a boolean, and the badge is
    rendered by [{hasDiscount && (...)}]; React renders a falsy number
    as text.  The model keeps the value ([js_and]) and what React does
    with each falsy child ([react_text], [and_slot]).  [formatPrice] is the product
    page's code, the same lines in both files.

    The theorems: a discounted price of [0] puts a stray [0] where the
    badge goes and shows the base price alone; with [0 < discounted <
    base] the badge shows a percentage between 0 and 100 next to the
    struck base price; the heart is local state: the toggling guard is
    never set between events, two clicks give the heart back, and no
    request is made. *)

From stdpp Require Import list.
From Stdlib Require Import QArith Qround.
From S2P Require Import Prelude Api Json Routes JsValue ProductDetail.

#[local] Open Scope list_scope.
#[local] Open Scope nitai_scope.

Module ProductCard.
Import Http Json Coerce.

Definition pricing (product : json) : jsval := opt_get "pricing" (Some product).

(** [product.pricing?.discountedPrice && product.pricing.discountedPrice <
    product.pricing.basePrice] (lines 11-12). *)
Definition hasDiscount (product : json) : jsval :=
  let d := opt_get "discountedPrice" (pricing product) in
  js_and d (Some (JBool (js_lt d (opt_get "basePrice" (pricing product))))).

(** [hasDiscount ? Math.round(((basePrice - discountedPrice) / basePrice)
    * 100) : 0] (lines 14-16). *)
Definition discountPercent (product : json) : ProductDetail.percent :=
  if truthy (hasDiscount product) then
    match to_number (opt_get "basePrice" (pricing product)),
          to_number (opt_get "discountedPrice" (pricing product)) with
    | Some b, Some d => ProductDetail.round_percent d b
    | _, _ => ProductDetail.PctNaN
    end
  else ProductDetail.Pct 0.

(** [formatPrice] (lines 18-21): the same code as the product page's. *)
Definition formatPrice : jsval -> string := ProductDetail.formatPrice.

Record state := mkState {
  product : json;
  categorySlug : option string;       (** [useParams()] of the listing route *)
  subCategorySlug : option string;
  isHovered : bool;
  isTogglingWishlist : bool;
  isInWishlist : bool
}.

Definition initial (p : json) (cat sub : option string) : state := mkState p cat sub false false false.

(** [handleWishlistToggle] (lines 23-38): nothing is awaited, so the
    three updates of one click are batched and the guard is back to
    [false] when the handler returns; no request is sent. *)
Definition handleWishlistToggle (s : state) : state :=
  if isTogglingWishlist s then s
  else {| s with isTogglingWishlist := false; isInWishlist := negb (isInWishlist s) |}.

Inductive event := MouseEnter | MouseLeave | WishlistClick.

Definition step (s : state) (e : event) : state :=
  match e with
  | MouseEnter => {| s with isHovered := true |}
  | MouseLeave => {| s with isHovered := false |}
  | WishlistClick => handleWishlistToggle s
  end.

Record view := mkView {
  link : string;
  first_image : jsval;
  second_image : slot jsval;
  slid : bool;
  badge_slot : slot string;
  heart_filled : bool;
  heart_label : string;
  out_of_stock : bool;
  name : jsval;
  struck_price : option string;
  price : string
}.

Definition render (s : state) : view :=
  let p := product s in
  let images := opt_get "images" (Some p) in
  let hd := hasDiscount p in
  {| link := Routes.getProductUrl (categorySlug s) (subCategorySlug s) (template (opt_get "slug" (Some p)));
     first_image := js_or (ProductDetail.js_index images 0) (Some (JStr "/placeholder.jpg"));
     second_image := let v := ProductDetail.js_index images 1 in and_slot v v;
     slid := isHovered s;
     badge_slot := and_slot hd (ProductDetail.percent_text (discountPercent p) +++ "% OFF");
     heart_filled := isInWishlist s;
     heart_label := if isInWishlist s then "Remove from wishlist" else "Add to wishlist";
     out_of_stock := negb (truthy (opt_get "inStock" (opt_get "inventory" (Some p))));
     name := opt_get "name" (Some p);
     struck_price := if truthy hd then Some (formatPrice (opt_get "basePrice" (pricing p))) else None;
     price := if truthy hd then formatPrice (opt_get "discountedPrice" (pricing p))
              else formatPrice (opt_get "basePrice" (pricing p)) |}.

Fixpoint run (s : state) (es : list event) : state :=
  match es with [] => s | e :: es' => run (step s e) es' end.

(** ** Lemmas and theorems *)

Lemma truthy_num z : z <> 0%Z -> truthy (Some (JNum z)) = true.
Proof. intros Hz. cbn. by apply negb_true_iff, Z.eqb_neq. Qed.

Lemma to_number_num z : to_number (Some (JNum z)) = Some (inject_Z z).
Proof. reflexivity. Qed.

(** C23: a discounted price of [0] (a product on sale whose discounted
    price was cleared to zero) makes [hasDiscount] the number [0]: React
    renders a stray [0] where the badge goes, and the card shows the base
    price alone. *)
Theorem zero_discount_renders_zero s :
  opt_get "discountedPrice" (pricing (product s)) = Some (JNum 0) ->
  badge_slot (render s) = Text "0" /\ struck_price (render s) = None /\
  price (render s) = formatPrice (opt_get "basePrice" (pricing (product s))).
Proof. intros Hd. unfold render, and_slot, hasDiscount, js_and. cbn zeta. by rewrite Hd. Qed.

(** With integer prices [0 < discounted < base], the card shows the
    base price struck through, the discounted price, and a badge [p% OFF]
    with [p] between 0 and 100. *)
Theorem card_discount_badge_bounds s d b :
  opt_get "discountedPrice" (pricing (product s)) = Some (JNum d) ->
  opt_get "basePrice" (pricing (product s)) = Some (JNum b) -> (0 < d < b)%Z ->
  exists p, badge_slot (render s) = Shown (num_text p +++ "% OFF") /\ (0 <= p <= 100)%Z /\
            struck_price (render s) = Some (formatPrice (Some (JNum b))) /\
            price (render s) = formatPrice (Some (JNum d)).
Proof.
  intros Hd Hb Hdb.
  assert (Ht : truthy (hasDiscount (product s)) = true).
  { unfold hasDiscount, js_and. rewrite Hd, Hb, truthy_num by lia. cbn -[js_lt]. by rewrite ProductDetail.js_lt_num, (proj2 (Z.ltb_lt d b)) by lia. }
  destruct (ProductDetail.round_percent_between d b Hdb) as (p & Hp & Hb').
  exists p. unfold render, and_slot. cbn zeta. rewrite Ht, Hd, Hb.
  unfold discountPercent. rewrite Ht, Hb, Hd, !to_number_num, Hp. done.
Qed.

Definition cleared_sale : json :=
  JObj [("name", JStr "Pearl Studs"); ("slug", JStr "pearl-studs");
        ("pricing", JObj [("basePrice", JNum 5000); ("discountedPrice", JNum 0)]);
        ("inventory", JObj [("inStock", JBool true)])].

Lemma zero_discount_renders_zero_witness :
  let s := initial cleared_sale (Some "earrings") None in
  opt_get "discountedPrice" (pricing (product s)) = Some (JNum 0) /\
  badge_slot (render s) = Text "0" /\ price (render s) = ProductDetail.rupee +++ "5,000" /\
  link (render s) = "/products/category/earrings/pearl-studs".
Proof.
  cbv zeta. split; [reflexivity|].
  destruct (zero_discount_renders_zero (initial cleared_sale (Some "earrings") None) eq_refl) as (Hb & _ & Hp).
  split; [exact Hb|]. split; [rewrite Hp; vm_compute; reflexivity | reflexivity].
Defined.

Definition gold_hoops : json :=
  JObj [("name", JStr "Gold Hoops"); ("slug", JStr "gold-hoops"); ("images", JArr [JStr "/h1.jpg"; JStr "/h2.jpg"]);
        ("pricing", JObj [("basePrice", JNum 50000); ("discountedPrice", JNum 45000)]);
        ("inventory", JObj [("inStock", JBool true)])].

Lemma card_discount_badge_bounds_witness :
  let s := initial gold_hoops None None in
  opt_get "discountedPrice" (pricing (product s)) = Some (JNum 45000) /\
  opt_get "basePrice" (pricing (product s)) = Some (JNum 50000) /\ (0 < 45000 < 50000)%Z /\
  badge_slot (render s) = Shown "10% OFF" /\
  struck_price (render s) = Some (ProductDetail.rupee +++ "50,000").
Proof.
  cbv zeta. split; [reflexivity|]. split; [reflexivity|]. split; [lia|].
  destruct (card_discount_badge_bounds (initial gold_hoops None None) 45000 50000 eq_refl eq_refl ltac:(lia))
    as (p & _ & _ & Hs & _).
  split; [vm_compute; reflexivity|]. rewrite Hs. vm_compute. reflexivity.
Defined.

(** The toggling guard is never [true] between events. *)
Lemma run_not_toggling s es : isTogglingWishlist s = false -> isTogglingWishlist (run s es) = false.
Proof.
  revert s. induction es as [|e es IH]; intros s Hs; [done|]. cbn [run]. apply IH.
  destruct e; cbn; [done | done |]. unfold handleWishlistToggle. by rewrite Hs.
Qed.

(** The events of a card change neither its product nor its route. *)
Lemma run_props s es :
  product (run s es) = product s /\ categorySlug (run s es) = categorySlug s /\
  subCategorySlug (run s es) = subCategorySlug s.
Proof.
  revert s. induction es as [|e es IH]; intros s; [done|]. cbn [run]. rewrite !(proj1 (IH _)), !(proj1 (proj2 (IH _))), !(proj2 (proj2 (IH _))).
  destruct e; cbn; [done | done |]. unfold handleWishlistToggle. by destruct (isTogglingWishlist s).
Qed.

(** The heart is local state: from the card as mounted, after any
    events the guard is off and the product and route are unchanged;
    every click flips the heart, so two clicks give it back. *)
Theorem heart_is_local p cat sub es :
  let s := run (initial p cat sub) es in
  isTogglingWishlist s = false /\ product s = p /\ categorySlug s = cat /\ subCategorySlug s = sub /\
  isInWishlist (step s WishlistClick) = negb (isInWishlist s) /\
  isInWishlist (run s [WishlistClick; WishlistClick]) = isInWishlist s.
Proof.
  cbv zeta. pose proof (run_not_toggling (initial p cat sub) es eq_refl) as Hg.
  destruct (run_props (initial p cat sub) es) as (-> & -> & ->).
  do 4 (split; [done|]).
  cbn [run step]. unfold handleWishlistToggle. rewrite Hg. cbn. by rewrite negb_involutive.
Qed.

End ProductCard.
