(* ===== verification/CategoryCards.v ===== *)
(** * The category cards of the home page

    [src/src/components/homepage/CategoryCardsSection.jsx] fetches the
    categories once, keeps the first [limit] of them (7 by default) and
    the total, and renders a skeleton, an error box with Try Again, or a
    grid of category cards followed by a View All card.  A second effect
    animates a background with the section's scroll position: a scroll
    listener that schedules a measurement ([update]) on the next
    animation frame, and a [requestAnimationFrame] loop ([smoothStep])
    that moves [current] toward [target] by 12% of the gap per frame
    until the gap is at most 0.0005.

    Module [Anim] is that second effect once it has found its element:
    the closure's variables ([ticking], [rafId], [target], [current]) as
    a record, the queue of requested frames, and a step per scroll and
    per frame; numbers are exact rationals, [NaN] is [None].  Module
    [CategoryCards] is the component: state, fetch and its completion,
    Try Again, the clicks, and the render.

    The theorems: after any scrolls and frames, once the scrolling stops
    the [requestAnimationFrame] loop requests nothing more within 61
    frames (termination, with the bound computed from 0.88^60 < 0.0005,
    over an invariant of the frames requested);
    the grid shows at most [limit] categories; and the animation never
    starts, because the effect runs once, after the first render, which
    is the skeleton: [sectionRef] is attached only to the grid, so the
    effect finds no element and returns. *)

From stdpp Require Import list.
From Stdlib Require Import QArith Qabs Qminmax Lqa.
From S2P Require Import Prelude Api Json TabMachine Routes JsValue ProductDetail Cart.

#[local] Open Scope list_scope.
#[local] Open Scope nitai_scope.

Module Anim.

(** A callback given to [requestAnimationFrame]. *)
Inductive callback := CbUpdate | CbSmooth.

Record anim := mkAnim {
  ticking : bool;
  rafId : option nat;                  (** the frame requested for [smoothStep] *)
  target : option Q;
  current : option Q;
  queue : list (nat * callback);       (** requested frames, in order *)
  next_id : nat;                       (** the next id [requestAnimationFrame] returns *)
  progress : option (option Q)         (** the last [--progress] written *)
}.

(** What [update] reads: the viewport height
    ([innerHeight || clientHeight]), the section's top and height. *)
Record measure := mkMeasure { viewHeight : Q; top : Q; height : Q }.

(** [requestAnimationFrame(cb)]: queues [cb], returns its id. *)
Definition raf (cb : callback) (a : anim) : anim * nat :=
  ({| a with queue := queue a ++ [(next_id a, cb)]; next_id := S (next_id a) |}, next_id a).

(** [Math.max(0, Math.min(1, (viewHeight - rect.top) / (viewHeight +
    rect.height)))]: a zero divisor gives an infinity, clamped, or
    [NaN]. *)
Definition target_of (m : measure) : option Q :=
  let num := (viewHeight m - top m)%Q in
  let den := (viewHeight m + height m)%Q in
  if Qeq_bool den 0 then
    if Qeq_bool num 0 then None else if Qle_bool 0 num then Some 1%Q else Some 0%Q
  else Some (Qmax 0 (Qmin 1 (num / den))).

(** [Math.abs(target - current) > 0.0005]; false on [NaN]. *)
Definition far (t c : option Q) : bool :=
  match t, c with
  | Some t, Some c => negb (Qle_bool (Qabs (t - c)) (5 # 10000))
  | _, _ => false
  end.

(** [current += (target - current) * 0.12] (line 28). *)
Definition next_current (t c : option Q) : option Q :=
  match t, c with
  | Some t, Some c => Some (c + (t - c) * (12 # 100))%Q
  | _, _ => None
  end.

(** [smoothStep] (lines 27-35). *)
Definition smoothStep (a : anim) : anim :=
  let c := next_current (target a) (current a) in
  let a := {| a with current := c; progress := Some c |} in
  if far (target a) c then let '(a', id) := raf CbSmooth a in {| a' with rafId := Some id |}
  else {| a with rafId := None |}.

(** [update] (lines 37-44). *)
Definition update (m : measure) (a : anim) : anim :=
  let a := {| a with target := target_of m |} in
  let a := match rafId a with
           | Some _ => a
           | None => let '(a', id) := raf CbSmooth a in {| a' with rafId := Some id |}
           end in
  {| a with ticking := false |}.

(** [onScroll] (lines 46-51), for [scroll] and [resize]. *)
Definition onScroll (a : anim) : anim :=
  if ticking a then a else {| (fst (raf CbUpdate a)) with ticking := true |}.

Definition run_callback (m : measure) (a : anim) (cb : callback) : anim :=
  match cb with CbUpdate => update m a | CbSmooth => smoothStep a end.

(** An animation frame: the callbacks requested before it run in order;
    those they request wait for the next frame. *)
Definition frame (m : measure) (a : anim) : anim :=
  fold_left (fun a p => run_callback m a (snd p)) (queue a) {| a with queue := [] |}.

(** The effect's body once [sectionRef.current] is set (lines 22-54):
    the closure's variables, then a first [update]. *)
Definition start (m : measure) : anim :=
  update m (mkAnim false None (Some 0%Q) (Some 0%Q) [] 1 None).

Fixpoint frames (n : nat) (m : measure) (a : anim) : anim :=
  match n with O => a | S n' => frames n' m (frame m a) end.

(** ** The loop stops *)

#[local] Open Scope Q_scope.

(** [decay n] is [0.88^n], the factor of the gap after [n] frames. *)
Fixpoint decay (n : nat) : Q := match n with O => 1 | S n' => (88 # 100) * decay n' end.

Lemma decay_nonneg n : 0 <= decay n.
Proof. induction n as [|n IH]; cbn [decay]; [lra | apply Qmult_le_0_compat; [lra | done]]. Qed.

(** One [smoothStep] multiplies the gap by 0.88. *)
Lemma gap_next t c : Qabs (t - (c + (t - c) * (12 # 100))) == Qabs (t - c) * (88 # 100).
Proof.
  assert (E : t - (c + (t - c) * (12 # 100)) == (t - c) * (88 # 100)) by ring.
  rewrite E, Qabs_Qmult. reflexivity.
Qed.

(** A frame with only [smoothStep] pending. *)
Lemma frame_smooth m a i t c :
  queue a = [(i, CbSmooth)] -> target a = Some t -> current a = Some c ->
  target (frame m a) = Some t /\ current (frame m a) = Some (c + (t - c) * (12 # 100)) /\
  (if far (Some t) (Some (c + (t - c) * (12 # 100))) then queue (frame m a) = [(next_id a, CbSmooth)]
   else queue (frame m a) = [] /\ rafId (frame m a) = None).
Proof.
  intros Hq Ht Hc. unfold frame. rewrite Hq. cbn [fold_left snd run_callback].
  unfold smoothStep, next_current. cbn [target current]. rewrite Ht, Hc. cbn [target].
  by destruct (far _ _).
Qed.

Lemma far_false t c : Qabs (t - c) <= 5 # 10000 -> far (Some t) (Some c) = false.
Proof. intros H. unfold far. apply negb_false_iff, Qle_bool_iff, H. Qed.

(** With the gap [g], the loop stops within [n + 1] frames as soon as
    [g * 0.88^(n+1)] is at most 0.0005. *)
Lemma smooth_stops m n : forall a i t c,
  queue a = [(i, CbSmooth)] -> target a = Some t -> current a = Some c ->
  Qabs (t - c) * decay (S n) <= 5 # 10000 ->
  exists k, (1 <= k <= S n)%nat /\ queue (frames k m a) = [] /\ rafId (frames k m a) = None.
Proof.
  induction n as [|n IH]; intros a i t c Hq Ht Hc Hd;
    destruct (frame_smooth m a i t c Hq Ht Hc) as (Ht' & Hc' & Hf);
    pose proof (gap_next t c) as Hg.
  - rewrite far_false in Hf by (rewrite Hg; cbn [decay] in Hd; lra). exists 1%nat. split; [lia | exact Hf].
  - destruct (far _ _) eqn:E.
    + destruct (IH (frame m a) (next_id a) t _ Hf Ht' Hc') as (k & Hk & Hq' & Hr').
      { rewrite Hg. cbn [decay] in Hd |- *. nra. }
      exists (S k). split; [lia | split; [exact Hq' | exact Hr']].
    + exists 1%nat. split; [lia | exact Hf].
Qed.

Lemma decay_60 : decay 60 <= 5 # 10000.
Proof. apply Qle_bool_iff. vm_compute. reflexivity. Qed.

(** ** The invariant of the frames requested *)

Definition in01 (v : option Q) : Prop := match v with Some q => 0 <= q <= 1 | None => True end.

Definition callback_eqb (x y : callback) : bool :=
  match x, y with CbUpdate, CbUpdate | CbSmooth, CbSmooth => true | _, _ => false end.

Definition has (cb : callback) (a : anim) : bool := existsb (fun p => callback_eqb (snd p) cb) (queue a).

Definition shape_ok (l : list callback) : bool :=
  match l with [] | [_] => true | [x; y] => negb (callback_eqb x y) | _ => false end.

(** At most one frame of each callback is requested; [rafId] is set
    exactly while a [smoothStep] is pending and [ticking] exactly while
    an [update] is; [target] and [current] are in [0, 1] or [NaN]. *)
Definition anim_ok (a : anim) : Prop :=
  in01 (target a) /\ in01 (current a) /\ shape_ok (map snd (queue a)) = true /\
  (rafId a = None <-> has CbSmooth a = false) /\ ticking a = has CbUpdate a.

Lemma target_of_in01 m : in01 (target_of m).
Proof.
  unfold target_of. cbv zeta. destruct (Qeq_bool (viewHeight m + height m) 0).
  - destruct (Qeq_bool (viewHeight m - top m) 0); [done|].
    destruct (Qle_bool 0 (viewHeight m - top m)); cbn; lra.
  - cbn. split; [apply Q.le_max_l | apply Q.max_lub; [lra | apply Q.le_min_l]].
Qed.

Lemma next_current_in01 t c : in01 t -> in01 c -> in01 (next_current t c).
Proof. destruct t as [t|], c as [c|]; cbn; [lra | done..]. Qed.

#[local] Hint Resolve target_of_in01 next_current_in01 : core.

Ltac anim_cases :=
  repeat (first [ progress cbn [fold_left fst snd run_callback map shape_ok callback_eqb negb existsb has
                                 target current ticking queue rafId next_id app orb
                                 update smoothStep raf] in *
                | progress unfold smoothStep, update, raf
                | case_match ]);
  repeat split; try done; try (intros; discriminate); auto; try congruence;
  try (match goal with H : _ <-> _ |- _ => destruct H end; intuition congruence).

Lemma start_ok m : anim_ok (start m).
Proof. unfold anim_ok, start, update, raf. anim_cases. Qed.

Lemma onScroll_ok a : anim_ok a -> anim_ok (onScroll a).
Proof.
  unfold onScroll. intros Ha. destruct (ticking a) eqn:Hk; [exact Ha|]. destruct Ha as (Ht & Hc & Hs & Hr & Htk).
  unfold has in Hr, Htk. unfold anim_ok, raf, has.
  destruct (queue a) as [|[i1 c1] [|[i2 c2] [|p3 l]]]; [| destruct c1 | destruct c1, c2 | cbn in Hs; discriminate];
    anim_cases.
Qed.

(** A frame keeps the invariant and leaves no [update] pending: only a
    scroll requests one. *)
Lemma frame_ok m a : anim_ok a -> anim_ok (frame m a) /\ has CbUpdate (frame m a) = false.
Proof.
  intros (Ht & Hc & Hs & Hr & Htk). unfold has in Hr, Htk. unfold anim_ok, frame, has, update, smoothStep, raf.
  destruct (queue a) as [|[i1 c1] [|[i2 c2] [|p3 l]]]; [| destruct c1 | destruct c1, c2 | cbn in Hs; discriminate];
    anim_cases.
Qed.

Lemma frame_smooth_nan m a i :
  queue a = [(i, CbSmooth)] -> target a = None \/ current a = None ->
  queue (frame m a) = [] /\ rafId (frame m a) = None.
Proof.
  intros Hq H. unfold frame. rewrite Hq. cbn [fold_left snd run_callback]. unfold smoothStep, next_current.
  cbn [target current]. destruct H as [-> | ->]; [done | by destruct (target a)].
Qed.

Lemma gap_le_1 t c : 0 <= t <= 1 -> 0 <= c <= 1 -> Qabs (t - c) <= 1.
Proof. intros Ht Hc. apply Qabs_Qle_condition. lra. Qed.

(** From a state of the invariant, with no more scrolls, nothing is
    requested after at most 61 frames. *)
Lemma frames_stop m a :
  anim_ok a -> exists k, (k <= 61)%nat /\ queue (frames k m a) = [] /\ rafId (frames k m a) = None.
Proof.
  intros Ha. destruct (frame_ok m a Ha) as [(Ht & Hc & Hs & Hr & Htk) Hu].
  unfold has in Hr, Hu.
  destruct (queue (frame m a)) as [|[i c1] [|[i2 c2] l]] eqn:Hq.
  - exists 1%nat. split; [lia|]. split; [exact Hq | by apply Hr].
  - destruct c1; [discriminate|].
    destruct (target (frame m a)) as [t|] eqn:Et; [destruct (current (frame m a)) as [c|] eqn:Ec|].
    + destruct (smooth_stops m 59 (frame m a) i t c Hq Et Ec) as (k & Hk & Hq' & Hr').
      { cbn in Ht, Hc. pose proof (gap_le_1 t c Ht Hc). pose proof decay_60. pose proof (decay_nonneg 60).
        cbn [decay] in *. nra. }
      exists (S k). split; [lia | split; [exact Hq' | exact Hr']].
    + exists 2%nat. split; [lia|]. exact (frame_smooth_nan m (frame m a) i Hq (or_intror Ec)).
    + exists 2%nat. split; [lia|]. exact (frame_smooth_nan m (frame m a) i Hq (or_introl Et)).
  - destruct c1, c2, l; cbn in Hs, Hu; discriminate.
Qed.

(** The events the effect's listeners see. *)
Inductive aevent := AScroll | AFrame (m : measure).

Definition astep (a : anim) (e : aevent) : anim :=
  match e with AScroll => onScroll a | AFrame m => frame m a end.

Lemma arun_ok a es : anim_ok a -> anim_ok (fold_left astep es a).
Proof.
  revert a. induction es as [|[|m] es IH]; intros a Ha; [done | apply IH, onScroll_ok, Ha | apply IH, frame_ok, Ha].
Qed.

(** C26: the scroll animation's [requestAnimationFrame] loop ends: from
    the effect's start, after any scrolls and frames, once the scrolling
    stops at most 61 frames run before no frame is requested and
    [rafId] is [null] again (one frame for a pending measurement, then
    at most 60 steps of [smoothStep], as 0.88^60 < 0.0005). *)
Theorem smooth_loop_terminates m0 es m :
  let a := fold_left astep es (start m0) in
  exists k, (k <= 61)%nat /\ queue (frames k m a) = [] /\ rafId (frames k m a) = None.
Proof. apply frames_stop, arun_ok, start_ok. Qed.

End Anim.

Module CategoryCards.
Import Http Json Coerce TabMachine Anim.

Record state := mkState {
  limit : nat;                     (** the prop, 7 by default *)
  categories : json;
  totalCategories : jsval;
  loading : bool;
  error : option string;           (** [err.message] *)
  awaiting : bool;                 (** a fetch not yet answered *)
  location : string;
  console : list (string * string);
  anim : option anim               (** the scroll effect, once it found its element *)
}.

Definition initial (limit : nat) : state :=
  mkState limit (JArr []) (Some (JNum 0)) true None false "/" [] None.

(** [fetchCategories] up to its await (lines 63-66). *)
Definition fetchCategories (env : option string) (s : state) : state * list (request json) :=
  ({| s with loading := true; awaiting := true |},
   [mkRequest GET (Http.app_base env +++ "/categories") [] None]).

(** [data.slice(0, limit)] *)
Definition slice_limit (limit : nat) (data : json) : result json :=
  match data with
  | JArr l => Ok (JArr (firstn limit l))
  | JStr t => Ok (JStr (substring 0 limit t))
  | _ => Err "data.slice is not a function"
  end.

(** The rest of [fetchCategories] (lines 67-78): [setTotalCategories]
    happens before [slice] can throw. *)
Definition resume (r : response json) (s : state) : state :=
  let fail m s := {| s with error := Some m; console := console s ++ [("Error fetching categories:", m)] |} in
  let s' :=
    match r with
    | RespOk (Some JNull) => fail (ProductDetail.null_read_error "length") s
    | RespOk (Some data) =>
        let s1 := {| s with totalCategories := ProductDetail.length_of (Some data) |} in
        match slice_limit (limit s) data with
        | Ok c => {| s1 with categories := c; error := None |}
        | Err m => fail m s1
        end
    | RespOk None => fail json_parse_error s
    | RespFail _ _ _ => fail "Failed to fetch categories" s
    | NetworkError m => fail m s
    end in
  {| s' with loading := false; awaiting := false |}.

(** A category card: name, image when truthy, slug. *)
Record card := mkCard { card_name : jsval; card_image : option jsval; card_slug : jsval }.

Inductive page := Skeleton | ErrorBox | Hidden | Grid (cards : list card) (total_text : string).

Definition to_card (c : json) : result card :=
  match c with
  | JNull => Err (ProductDetail.null_read_error "id")
  | _ => let img := opt_get "image" (Some c) in
         Ok (mkCard (opt_get "name" (Some c)) (if truthy img then Some img else None) (opt_get "slug" (Some c)))
  end.

(** The render (lines 89-207). *)
Definition render (s : state) : result page :=
  if loading s then Ok Skeleton
  else if match error s with Some m => js_truthy_str m | None => false end then Ok ErrorBox
  else match categories s with
       | JArr [] | JStr "" => Ok Hidden
       | JArr l =>
           rbind (rmap_list to_card l) (fun cs =>
             Ok (Grid cs (match react_text (totalCategories s) with Some t => t | None => "" end +++ "+")))
       | _ => Err (ProductDetail.not_function "categories")
       end.

(** [sectionRef] is attached to the grid's section only (line 129). *)
Definition ref_attached (p : result page) : bool :=
  match p with Ok (Grid _ _) => true | _ => false end.

(** Mount: the first render, then the effects in order (lines 12-61):
    the fetch, and the scroll effect with the element of that render. *)
Definition mount (env : option string) (limit : nat) (m : measure) : state * list (request json) :=
  let s0 := initial limit in
  let '(s1, out) := fetchCategories env s0 in
  ({| s1 with anim := if ref_attached (render s0) then Some (start m) else None |}, out).

Inductive event :=
| Done (r : response json)
| TryAgain
| ClickCard (i : nat)
| ViewAll
| Scroll
| Frame (m : measure).

Definition step (env : option string) (s : state) (e : event) : state * list (request json) :=
  match e with
  | Done r => (resume r s, [])
  | TryAgain => fetchCategories env s
  | ClickCard i =>
      match render s with
      | Ok (Grid cs _) =>
          match cs !! i with
          | Some c => ({| s with location := Routes.handleCategoryClick (template (card_slug c)) |}, [])
          | None => (s, [])
          end
      | _ => (s, [])
      end
  | ViewAll => ({| s with location := "/products" |}, [])
  | Scroll => ({| s with anim := option_map onScroll (anim s) |}, [])
  | Frame m => ({| s with anim := option_map (frame m) (anim s) |}, [])
  end.

(** What the page offers: a completion while a fetch is awaited, Try
    Again on the error box, the cards of the grid; scrolling and frames
    always happen. *)
Definition enabledb (s : state) (e : event) : bool :=
  match e with
  | Done _ => awaiting s
  | TryAgain => match render s with Ok ErrorBox => true | _ => false end
  | ClickCard i => match render s with Ok (Grid cs _) => Nat.ltb i (List.length cs) | _ => false end
  | ViewAll => match render s with Ok (Grid _ _) => true | _ => false end
  | Scroll | Frame _ => true
  end.

Definition enabled (s : state) (e : event) : Prop := enabledb s e = true.

Definition cards_machine (env : option string) : machine unit state event (request json) :=
  Machine (fun _ => step env) enabled enabledb (fun _ _ H => H).

Definition reachable (env : option string) (s : state) : Prop :=
  exists limit m s0 out, mount env limit m = (s0, out) /\ star (tab_step (cards_machine env)) s0 s.

(** ** Theorems *)

Lemma step_anim env s e : anim s = None -> anim (fst (step env s e)) = None.
Proof.
  intros Ha. destruct e; cbn [step fst]; try (by rewrite Ha).
  - unfold resume. by repeat case_match.
  - unfold fetchCategories. done.
  - by repeat case_match.
Qed.

Definition cat (i : Z) (n sl : string) : json := JObj [("id", JNum i); ("name", JStr n); ("slug", JStr sl)].

Definition nine_categories : json :=
  JArr [cat 1 "Rings" "rings"; cat 2 "Earrings" "earrings"; cat 3 "Necklaces" "necklaces";
        cat 4 "Bangles" "bangles"; cat 5 "Bracelets" "bracelets"; cat 6 "Pendants" "pendants";
        cat 7 "Chains" "chains"; cat 8 "Anklets" "anklets"; cat 9 "Nose Pins" "nose-pins"].

Definition viewport : measure := mkMeasure 800 200 600.

Definition cards_trace : list event := [Done (RespOk (Some nine_categories)); Scroll; Frame viewport].

Lemma cards_trace_reachable :
  exists s, run (cards_machine None) tt (fst (mount None 7 viewport)) cards_trace = Some (s, []) /\
            reachable None s.
Proof.
  destruct (run (cards_machine None) tt (fst (mount None 7 viewport)) cards_trace) as [[s out]|] eqn:E;
    [|vm_compute in E; discriminate].
  assert (Eo : out = []) by (vm_compute in E; by injection E). subst out.
  exists s. split; [reflexivity|].
  exists 7%nat, viewport, (fst (mount None 7 viewport)), (snd (mount None 7 viewport)).
  split; [reflexivity | exact (run_reachable _ _ _ _ _ _ E)].
Defined.

(** C25: the scroll animation never starts: the effect runs once, after
    the first render, which is the skeleton; [sectionRef] is attached to
    the grid only, so [sectionRef.current] is [null] and the effect
    returns before adding its listeners.  In every reachable state there
    is no animation, whatever is shown. *)
Theorem scroll_effect_never_starts env s : reachable env s -> anim s = None.
Proof.
  intros (limit & m & s0 & out & Hm & Hs).
  assert (H0 : anim s0 = None) by (injection Hm as <- _; reflexivity).
  apply (tab_invariant (cards_machine env) (fun x => anim x = None) s0 s H0); [|done].
  intros l x e _ Hx. by apply step_anim.
Qed.

Lemma scroll_effect_never_starts_witness :
  exists s, reachable None s /\
            (exists cs, render s = Ok (Grid cs "9+") /\ List.length cs = 7%nat) /\ anim s = None.
Proof.
  destruct cards_trace_reachable as (s & E & Hr). exists s. split; [exact Hr|].
  split; [|exact (scroll_effect_never_starts None s Hr)].
  eexists. split; [vm_compute in E; injection E as <-; reflexivity|].
  vm_compute in E. injection E as <-. reflexivity.
Defined.

(** The categories kept are at most [limit]. *)
Definition cats_ok (lim : nat) (s : state) : Prop :=
  limit s = lim /\ match categories s with JArr l => (List.length l <= lim)%nat | _ => True end.

Lemma step_cats_ok env lim s e : cats_ok lim s -> cats_ok lim (fst (step env s e)).
Proof.
  intros [Hl Hc]. destruct e; cbn [step fst]; try (by split).
  - unfold resume, slice_limit. repeat case_match; simplify_eq; split; cbn; try done;
      rewrite length_take; lia.
  - destruct (render s) as [[| | |cs t]|]; cbn; try (by split). destruct (cs !! i); by split.
Qed.

(** The grid shows at most [limit] category cards (7 by default),
    then the View All card. *)
Theorem grid_at_most_limit env s cs t :
  reachable env s -> render s = Ok (Grid cs t) -> (List.length cs <= limit s)%nat.
Proof.
  intros (lim & m & s0 & out & Hm & Hs) Hr.
  assert (H0 : cats_ok lim s0) by (injection Hm as <- _; split; cbn; [done | lia]).
  assert (H : cats_ok lim s).
  { apply (tab_invariant (cards_machine env) (cats_ok lim) s0 s H0); [| done].
    intros l x e _ Hx. by apply step_cats_ok. }
  destruct H as [-> Hc]. unfold render in Hr.
  destruct (loading s), (match error s with Some m => js_truthy_str m | None => false end); try discriminate.
  destruct (categories s) as [| | |str|[|x l]|]; try discriminate; [by destruct str |].
  destruct (rmap_list to_card (x :: l)) as [cs'|] eqn:E; [|discriminate]. cbn in Hr. injection Hr as <- _.
  rewrite (rmap_list_length _ _ _ E). exact Hc.
Qed.


Lemma grid_at_most_limit_witness :
  exists s cs, reachable None s /\ render s = Ok (Grid cs "9+") /\ (List.length cs <= limit s)%nat.
Proof.
  destruct cards_trace_reachable as (s & E & Hr).
  assert (Hg : render s = Ok (Grid (map (fun c => mkCard (opt_get "name" (Some c)) None (opt_get "slug" (Some c)))
                                        (take 7 (match nine_categories with JArr l => l | _ => [] end))) "9+"))
    by (vm_compute in E; injection E as <-; reflexivity).
  eexists s, _. split; [exact Hr|]. split; [exact Hg|]. exact (grid_at_most_limit None s _ _ Hr Hg).
Defined.

End CategoryCards.
