(* ===== verification/HomeSections.v ===== *)
(** * The sections of the home page that fetch or observe

    [src/src/pages/HomePage.jsx] stacks the header, the category bar, the
    carousels and these sections:
    - [CollectionsSection.jsx] (Module [Collections]): fetches
      [/collections], keeps the active ones, shows at most six cards and
      a View All button, each navigating with [window.location.href];
    - [ExchangeProgramBanner.jsx] (Module [Exchange]): fetches
      [/banners?type=exchange] and shows the first banner or a default,
      with a button that navigates to its [buttonLink];
    - [TrustBadgesSection.jsx] (Module [TrustBadges]): an
      [IntersectionObserver] that marks the badges in view once, and
      the render of the four badges;
    - the page itself (Module [HomePage]): a [showMobileMenu] state handed
      to children that never use it.

    The theorems: the collection cards, the View All button and the
    banner's default button all lead to URLs the route table of
    [App.jsx] ([Routes.app_routes]) sends to its catch-all [NotFound]
    page; the collections grid has at most six cards, with View All
    exactly when there are more; a [productCount] of [0] puts a stray
    [0] on the card; a banner without [buttonLink] navigates to
    [undefined]; the badges, once in view, stay in view; the page's
    mobile menu never opens. *)

From stdpp Require Import list.
From S2P Require Import Prelude Api Json TabMachine Routes JsValue ProductDetail ProductCard Cart.

#[local] Open Scope list_scope.
#[local] Open Scope nitai_scope.

Module Collections.
Import Http Json Coerce TabMachine ProductCard.

Record state := mkState {
  collections : json;
  loading : bool;
  error : option string;          (** [err.message] *)
  awaiting : bool;                (** a fetch not yet answered *)
  href : string;                  (** [window.location.href] *)
  console : list (string * string)
}.

Definition initial : state := mkState (JArr []) true None false "/" [].

(** [fetchCollections] up to its await (lines 12-15). *)
Definition fetchCollections (env : option string) (s : state) : state * list (request json) :=
  ({| s with loading := true; awaiting := true |},
   [mkRequest GET (Http.app_base env +++ "/collections") [] None]).

(** [collection.isActive], a [TypeError] on [null]. *)
Definition isActive (c : json) : result bool :=
  match c with
  | JNull => Err (ProductDetail.null_read_error "isActive")
  | _ => Ok (truthy (opt_get "isActive" (Some c)))
  end.

(** [data.filter(collection => collection.isActive)] (line 18). *)
Definition filter_active (data : json) : result (list json) :=
  match data with
  | JArr l => rfilter isActive l
  | JNull => Err (ProductDetail.null_read_error "filter")
  | _ => Err "data.filter is not a function"
  end.

(** The rest of [fetchCollections] (lines 16-26). *)
Definition resume (r : response json) (s : state) : state :=
  let fail m s := {| s with error := Some m; console := console s ++ [("Error fetching collections:", m)] |} in
  let s' :=
    match r with
    | RespOk (Some data) =>
        match filter_active data with
        | Ok l => {| s with collections := JArr l; error := None |}
        | Err m => fail m s
        end
    | RespOk None => fail json_parse_error s
    | RespFail _ _ _ => fail "Failed to fetch collections" s
    | NetworkError m => fail m s
    end in
  {| s' with loading := false; awaiting := false |}.

Record card := mkCard {
  card_name : jsval;
  card_image : jsval;
  count_badge : slot string;      (** [{collection.productCount && (...)}] *)
  card_description : slot jsval   (** [{collection.description && (...)}] *)
}.

Definition to_card (c : json) : card :=
  let pc := opt_get "productCount" (Some c) in
  let d := opt_get "description" (Some c) in
  mkCard (opt_get "name" (Some c)) (opt_get "imageUrl" (Some c))
         (and_slot pc (match react_text pc with Some t => t | None => "" end +++ "+ Products"))
         (and_slot d d).

Inductive page := Skeleton | ErrorBox | Hidden | Grid (cards : list card) (hasMore : bool).

(** The render (lines 29-162). *)
Definition render (s : state) : page :=
  if loading s then Skeleton
  else if match error s with Some m => js_truthy_str m | None => false end then ErrorBox
  else match collections s with
       | JArr [] => Hidden
       | JArr l => Grid (map to_card (firstn 6 l)) (Nat.ltb 6 (List.length l))
       | _ => Hidden
       end.

(** The URL of a collection card (line 92). *)
Definition collection_url (c : json) : string := "/collection/" +++ template (opt_get "slug" (Some c)).

Inductive event := Done (r : response json) | TryAgain | ClickCollection (i : nat) | ViewAll.

Definition shown (s : state) : list json :=
  match collections s with JArr l => firstn 6 l | _ => [] end.

Definition step (env : option string) (s : state) (e : event) : state * list (request json) :=
  match e with
  | Done r => (resume r s, [])
  | TryAgain => fetchCollections env s
  | ClickCollection i =>
      match shown s !! i with
      | Some c => ({| s with href := collection_url c |}, [])
      | None => (s, [])
      end
  | ViewAll => ({| s with href := "/collections" |}, [])
  end.

Definition enabledb (s : state) (e : event) : bool :=
  match e, render s with
  | Done _, _ => awaiting s
  | TryAgain, ErrorBox => true
  | ClickCollection i, Grid cs _ => Nat.ltb i (List.length cs)
  | ViewAll, Grid _ more => more
  | _, _ => false
  end.

Definition collections_machine (env : option string) : machine unit state event (request json) :=
  Machine (fun _ => step env) (fun s e => enabledb s e = true) enabledb (fun _ _ H => H).

(** The mount effect (lines 8-10). *)
Definition mount (env : option string) : state * list (request json) := fetchCollections env initial.

Definition reachable (env : option string) (s : state) : Prop :=
  star (tab_step (collections_machine env)) (fst (mount env)) s.


(** ** Theorems *)

(** [/collection/<slug>] reaches the catch-all route. *)
Lemma collection_path_not_found slug :
  url_segment slug = true -> Routes.page_of ("/collection/" +++ slug) = Some Routes.NotFound.
Proof.
  intros Hs. unfold url_segment in Hs. apply andb_true_iff in Hs as [_ Hs]. apply negb_true_iff in Hs.
  unfold Routes.page_of, Routes.resolve.
  change ("/collection/" +++ slug) with (String "/" ("collection" +++ String "/" slug)). cbn [Routes.path_pieces].
  rewrite js_split_app_sep, js_split_no_sep by done.
  vm_compute. reflexivity.
Qed.

(** C27: the links of the collections section lead nowhere: a collection
    card navigates to [/collection/<slug>] and View All to
    [/collections], and [App.jsx] has neither route (only
    [/products/collection/:collectionSlug]), so both render the
    catch-all [NotFound] page. *)
Theorem collection_links_not_found env s i c sl :
  shown s !! i = Some c -> opt_get "slug" (Some c) = Some (JStr sl) -> url_segment sl = true ->
  Routes.page_of (href (fst (step env s (ClickCollection i)))) = Some Routes.NotFound /\
  Routes.page_of (href (fst (step env s ViewAll))) = Some Routes.NotFound.
Proof.
  intros Hi Hc Hs. cbn [step fst]. rewrite Hi. cbn [href]. unfold collection_url. rewrite Hc.
  split; [by apply collection_path_not_found | reflexivity].
Qed.

(** The grid has at most six cards, and View All exactly when more
    collections are active. *)
Lemma grid_at_most_six s cs more :
  render s = Grid cs more ->
  (List.length cs <= 6)%nat /\ exists l, collections s = JArr l /\ more = Nat.ltb 6 (List.length l).
Proof.
  unfold render. destruct (loading s), (match error s with Some m => js_truthy_str m | None => false end);
    try discriminate.
  destruct (collections s) as [| | | |[|x l]|]; try discriminate. intros [= <- <-].
  cbn [List.length]. rewrite List.length_map, length_take. split; [lia | eauto].
Qed.

(** A [productCount] of [0] puts a stray [0] on the card. *)
Lemma zero_count_renders_zero c :
  opt_get "productCount" (Some c) = Some (JNum 0) -> count_badge (to_card c) = Text "0".
Proof. intros H. unfold to_card. cbv zeta. rewrite H. reflexivity. Qed.

Definition collection (n sl : string) (active : bool) (count : Z) : json :=
  JObj [("id", JNum 1); ("name", JStr n); ("slug", JStr sl); ("isActive", JBool active);
        ("productCount", JNum count)].

Definition bridal_answer : json :=
  JArr [collection "Bridal" "bridal" true 0; collection "Temple" "temple" false 12;
        collection "Everyday" "everyday" true 30].

Lemma collection_links_not_found_witness :
  let s := resume (RespOk (Some bridal_answer)) (fst (mount None)) in
  shown s !! 0%nat = Some (collection "Bridal" "bridal" true 0) /\
  href (fst (step None s (ClickCollection 0))) = "/collection/bridal" /\
  Routes.page_of (href (fst (step None s (ClickCollection 0)))) = Some Routes.NotFound /\
  Routes.page_of (href (fst (step None s ViewAll))) = Some Routes.NotFound.
Proof.
  cbv zeta. split; [reflexivity|]. split; [reflexivity|].
  exact (collection_links_not_found None (resume (RespOk (Some bridal_answer)) (fst (mount None))) 0
           (collection "Bridal" "bridal" true 0) "bridal" eq_refl eq_refl eq_refl).
Defined.

End Collections.

Module Exchange.
Import Http Json Coerce.

Record state := mkState {
  bannerData : jsval;
  loading : bool;
  awaiting : bool;
  href : string;
  console : list (string * string)
}.

Definition initial : state := mkState (Some JNull) true false "/" [].

(** [fetchBannerData] up to its await (lines 11-13). *)
Definition fetchBannerData (env : option string) (s : state) : state * list (request json) :=
  ({| s with awaiting := true |}, [mkRequest GET (Http.app_base env +++ "/banners?type=exchange") [] None]).

(** The rest (lines 14-24): only an [ok] answer with a non-empty list is
    used; a failed answer is ignored silently. *)
Definition resume (r : response json) (s : state) : state :=
  let s' :=
    match r with
    | RespOk (Some data) =>
        if json_truthy data && ProductDetail.nonempty (Some data)
        then {| s with bannerData := ProductDetail.js_index (Some data) 0 |} else s
    | RespOk None => {| s with console := console s ++ [("Error fetching exchange banner:", json_parse_error)] |}
    | RespFail _ _ _ => s
    | NetworkError m => {| s with console := console s ++ [("Error fetching exchange banner:", m)] |}
    end in
  {| s' with loading := false; awaiting := false |}.

(** [defaultContent] (lines 28-35). *)
Definition defaultContent : json :=
  JObj [("heading", JStr "Exchange Program"); ("subtitle", JStr "Trusted by 2.8M+ families");
        ("description", JStr "Get the best value for your old jewelry"); ("buttonText", JStr "Learn More");
        ("buttonLink", JStr "/exchange-program"); ("backgroundImage", JNull)].

(** [bannerData || defaultContent] (line 37). *)
Definition content (s : state) : jsval := js_or (bannerData s) (Some defaultContent).

Record banner := mkBanner {
  background : string;
  heading : jsval; subtitle : jsval; description : jsval; buttonText : jsval
}.

Inductive page := Pulse | Banner (b : banner).

(** The render (lines 39-80). *)
Definition render (s : state) : page :=
  if loading s then Pulse
  else let c := content s in
       let bg := opt_get "backgroundImage" c in
       Banner (mkBanner (if truthy bg then "url(" +++ template bg +++ ")" else "linear-gradient(to right, #5C1F1F, #8B3A3A)")
                        (opt_get "heading" c) (opt_get "subtitle" c) (opt_get "description" c) (opt_get "buttonText" c)).

(** The button (line 72): [window.location.href = content.buttonLink],
    the value converted to a string. *)
Definition clickButton (s : state) : state := {| s with href := template (opt_get "buttonLink" (content s)) |}.

Definition mount (env : option string) : state * list (request json) := fetchBannerData env initial.

(** ** Theorems *)

(** Without a banner (none answered, or an empty list), the button leads
    to [/exchange-program], a path [App.jsx] does not route: the
    catch-all [NotFound] page. *)
Lemma default_button_not_found s :
  truthy (bannerData s) = false -> Routes.page_of (href (clickButton s)) = Some Routes.NotFound.
Proof. intros H. unfold clickButton, content, js_or. rewrite H. vm_compute. reflexivity. Qed.

(** A banner without [buttonLink] navigates to [undefined]. *)
Lemma banner_without_link s :
  truthy (bannerData s) = true -> opt_get "buttonLink" (bannerData s) = None -> href (clickButton s) = "undefined".
Proof. intros H Hl. unfold clickButton, content, js_or. by rewrite H, Hl. Qed.

(** A failed answer changes nothing but [loading]: no error is shown. *)
Lemma failed_answer_silent st txt body s :
  bannerData (resume (RespFail st txt body) s) = bannerData s /\ console (resume (RespFail st txt body) s) = console s.
Proof. done. Qed.

End Exchange.

Module TrustBadges.

(** The badges (lines 7-12). *)
Definition badges : list string :=
  ["Quality" +++ String (Ascii.ascii_of_nat 10) "Craftsmanship"; "Ethically" +++ String (Ascii.ascii_of_nat 10) "Sourced";
   "100%" +++ String (Ascii.ascii_of_nat 10) "Transparency"; "Lifetime" +++ String (Ascii.ascii_of_nat 10) "Maintenance"].

Record state := mkState { inView : bool; observing : bool }.

(** The effect (lines 17-30): the grid is rendered from the first
    render on, so the observer is created and observes it. *)
Definition mount : state := mkState false true.

(** The observer's callback (lines 20-26) on entries with their
    [isIntersecting]: the first intersecting entry sets [inView] and
    disconnects. *)
Definition observe (entries : list bool) (s : state) : state :=
  if observing s && existsb id entries then mkState true false else s.

Definition run (calls : list (list bool)) (s : state) : state := fold_left (fun s es => observe es s) calls s.

Record badge_view := mkBadgeView { bv_key : nat; bv_stagger : nat; bv_lines : list string }.

Record view := mkView {
  brand : string;
  motto : string;
  heading : string;
  subheading : string;
  grid_class : string;
  cards : list badge_view
}.

(** The render (lines 32-101): the grid has [in-view] once observed;
    each badge is keyed and staggered ([--i]) by its index, its title
    on the lines [whitespace-pre-line] breaks it into. *)
Definition render (s : state) : view :=
  {| brand := "Nitai Gems";
     motto := "“Where every stone tells a story”";
     heading := "Our Assurance";
     subheading := "Crafted by experts, cherished by you";
     grid_class := "trust-badges-grid " +++ (if inView s then "in-view" else "");
     cards := imap (fun i title => mkBadgeView i i (js_split (Ascii.ascii_of_nat 10) title)) badges |}.

(** Once in view, the badges stay in view and the observer is
    disconnected. *)
Lemma in_view_stays calls s : inView s = true -> observing s = false -> run calls s = s.
Proof.
  revert s. induction calls as [|es calls IH]; intros s Hv Ho; [done|]. cbn. unfold observe. rewrite Ho. cbn. by apply IH.
Qed.

(** The four badges are shown from the first render, each title on two
    lines; the grid starts its animation ([in-view]) once observed and
    keeps it. *)
Lemma badges_two_lines_in_view calls s :
  map (fun b => List.length (bv_lines b)) (cards (render s)) = [2; 2; 2; 2]%nat /\
  (inView s = true -> observing s = false -> grid_class (render (run calls s)) = "trust-badges-grid in-view").
Proof. split; [reflexivity|]. intros Hv Ho. rewrite in_view_stays by done. cbn [grid_class render]. by rewrite Hv. Qed.

End TrustBadges.

Module HomePage.

(** [showMobileMenu] (line 14) and the two callbacks the page hands to
    its children: [onMenuClick] to [MainHeader] (line 21) and
    [onCloseSidebar] to [Navigation] (line 27).  [MainHeader] never calls
    its [onMenuClick] and [Navigation] takes no props, so no event of
    the page ever runs them. *)
Record state := mkState { showMobileMenu : bool }.

Inductive event := MenuClick | CloseSidebar.

Definition step (s : state) (e : event) : state :=
  match e with MenuClick => mkState true | CloseSidebar => mkState false end.

(** The callbacks a child can call: [MainHeader.jsx] line 6 names
    [onMenuClick] and uses it nowhere; [Navigation.jsx] line 5 declares
    no props. *)
Definition called_by_children (e : event) : bool := false.

Definition run (es : list event) (s : state) : state :=
  fold_left (fun s e => if called_by_children e then step s e else s) es s.

(** The mobile menu state never becomes [true]. *)
Lemma mobile_menu_never_opens es : showMobileMenu (run es (mkState false)) = false.
Proof. unfold run. induction es as [|e es IH] using rev_ind; [done|]. by rewrite fold_left_app. Qed.

End HomePage.
