(* ===== verification/VideoModal.v ===== *)
(** * The full-screen video player [VideoModal.jsx]

    [src/src/components/homepage/VideoModal.jsx] is a player for a list of
    reels, opened at [initialIndex] with an [onClose] callback: a video
    element, previous and next buttons shown at the ends of the list,
    play/pause and mute buttons, a progress bar that seeks, a duration
    badge [m:ss], a counter [i / n], and keyboard shortcuts (Escape,
    space, the arrows, [m]).  No file of the sources imports it; the
    reels section has its own player ([Reels.v]).

    The state is the component's hooks with the part of the video
    element the code touches ([muted], playing, [currentTime],
    [duration]) and the calls of [onClose].  A step is a handler
    followed by the effect of lines 21-30, which plays or pauses the
    element when [isPlaying] or [currentIndex] changed; a new index
    loads a new source, whose duration is unknown ([NaN]) until its
    metadata arrive.

    The theorems: opened on a reel of the list, the index stays on a
    reel and, when no reel of the list is [null], the render never
    throws (on a [null] reel [currentReel.videoUrl] throws); the
    element's [muted] always agrees with [isMuted]; with no other input, the videos' ends carry
    the player to the last reel, where the next end stops it (a bound of
    [n - i] ends); the duration badge [m:ss] read back gives the
    duration (a round trip); a click on the progress bar before the
    metadata arrive throws. *)

From stdpp Require Import list.
From Stdlib Require Import QArith Qround Qminmax.
From S2P Require Import Prelude Api Json TabMachine JsValue.

#[local] Open Scope list_scope.
#[local] Open Scope nitai_scope.

Module VideoModal.
Import Http Json Coerce TabMachine.

Record state := mkState {
  reels : list json;            (** the prop *)
  currentIndex : nat;
  isPlaying : bool;
  isMuted : bool;
  progress : Q;
  video_muted : bool;           (** [videoRef.current.muted] *)
  video_playing : bool;         (** the element plays *)
  currentTime : Q;
  duration : option Q;          (** [NaN] until the metadata arrive *)
  closes : nat;                 (** calls of [onClose] *)
  bodyOverflow : string;        (** [document.body.style.overflow] *)
  console : list string
}.

(** The first render and the mount effects (lines 5-8, 13-19, 21-30):
    the body stops scrolling and the element is asked to play. *)
Definition mount (rs : list json) (initialIndex : nat) : state :=
  mkState rs initialIndex true false 0 false true 0 None 0 "hidden" [].

(** The effect's cleanup when the modal unmounts (line 17). *)
Definition unmount (s : state) : state := {| s with bodyOverflow := "unset" |}.

Definition n_reels (s : state) : nat := List.length (reels s).

(** [togglePlayPause] (lines 61-63). *)
Definition togglePlayPause (s : state) : state := {| s with isPlaying := negb (isPlaying s) |}.

(** [toggleMute] (lines 65-70): the state and the element. *)
Definition toggleMute (s : state) : state :=
  {| s with isMuted := negb (isMuted s); video_muted := negb (isMuted s) |}.

(** [nextReel] (lines 72-78). *)
Definition nextReel (s : state) : state :=
  if Nat.ltb (currentIndex s) (n_reels s - 1)
  then {| s with currentIndex := S (currentIndex s); progress := 0; isPlaying := true |}
  else s.

(** [prevReel] (lines 80-86). *)
Definition prevReel (s : state) : state :=
  if Nat.ltb 0 (currentIndex s)
  then {| s with currentIndex := pred (currentIndex s); progress := 0; isPlaying := true |}
  else s.

(** [handleTimeUpdate] (lines 88-93), once the duration is known. *)
Definition handleTimeUpdate (t : Q) (s : state) : state :=
  let s := {| s with currentTime := t |} in
  match duration s with
  | Some d => {| s with progress := (t / d * 100)%Q |}
  | None => s
  end.

(** [handleVideoEnd] (lines 95-101). *)
Definition handleVideoEnd (s : state) : state :=
  if Nat.ltb (currentIndex s) (n_reels s - 1) then nextReel s else {| s with isPlaying := false |}.

(** The error the element raises when [currentTime] is set to a value
    that is not finite. *)
Definition non_finite_error : string :=
  "Uncaught TypeError: Failed to set the 'currentTime' property on 'HTMLMediaElement': The provided double value is non-finite.".

(** [handleProgressClick] (lines 103-109): the fraction of the bar,
    times the duration; the element keeps the time within [0, duration];
    before the metadata the duration is [NaN] and the assignment throws
    out of the handler. *)
Definition handleProgressClick (clientX left width : Q) (s : state) : state :=
  let percent := ((clientX - left) / width)%Q in
  match duration s with
  | Some d => {| s with currentTime := Qmax 0 (Qmin d (percent * d)) |}
  | None => {| s with console := console s ++ [non_finite_error] |}
  end.

(** [onClose()] *)
Definition close (s : state) : state := {| s with closes := S (closes s) |}.

(** [handleKeyDown] (lines 33-55). *)
Definition handleKeyDown (key : string) (s : state) : state :=
  if key ==? "Escape" then close s
  else if key ==? " " then togglePlayPause s
  else if key ==? "ArrowRight" then nextReel s
  else if key ==? "ArrowLeft" then prevReel s
  else if (key ==? "m") || (key ==? "M") then toggleMute s
  else s.

(** The effect of lines 21-30 after a render: a new index loads a new
    source; when the index or [isPlaying] changed the element is played
    or paused. *)
Definition commit (old s : state) : state :=
  let same_index := Nat.eqb (currentIndex old) (currentIndex s) in
  let s := if same_index then s else {| s with currentTime := 0; duration := None |} in
  if same_index && Bool.eqb (isPlaying old) (isPlaying s) then s
  else {| s with video_playing := isPlaying s |}.

Inductive event :=
| Key (key : string)
| CloseClick
| PrevClick
| NextClick
| PlayPauseClick
| MuteClick
| TimeUpdate (t : Q)
| Metadata (d : Q)            (** [loadedmetadata]: the duration is known *)
| Ended
| ProgressClick (clientX left width : Q)
| PlayRejected.               (** the promise of [video.play()] rejects *)

Definition handler (s : state) (e : event) : state :=
  match e with
  | Key k => handleKeyDown k s
  | CloseClick => close s
  | PrevClick => prevReel s
  | NextClick => nextReel s
  | PlayPauseClick => togglePlayPause s
  | MuteClick => toggleMute s
  | TimeUpdate t => handleTimeUpdate t s
  | Metadata d => {| s with duration := Some d |}
  | Ended => handleVideoEnd s
  | ProgressClick x l w => handleProgressClick x l w s
  | PlayRejected => {| s with video_playing := false; console := console s ++ ["Play error:"] |}
  end.

Definition step (s : state) (e : event) : state * list (request json) := (commit s (handler s e), []).

(** The arrows are shown away from the ends (lines 123, 134); the
    element reports times, its end and a rejection while it plays, its
    metadata once per source; a click on the bar is within it. *)
Definition enabledb (s : state) (e : event) : bool :=
  match e with
  | PrevClick => Nat.ltb 0 (currentIndex s)
  | NextClick => Nat.ltb (currentIndex s) (n_reels s - 1)
  | TimeUpdate t => video_playing s && Qle_bool 0 t
  | Metadata d => match duration s with None => negb (Qle_bool d 0) | Some _ => false end
  | Ended | PlayRejected => video_playing s
  | ProgressClick x l w => negb (Qle_bool w 0) && Qle_bool l x && Qle_bool x (l + w)
  | _ => true
  end.

Definition modal_machine : machine unit state event (request json) :=
  Machine (fun _ => step) (fun s e => enabledb s e = true) enabledb (fun _ _ H => H).


(** ** The render *)

(** [String(x).padStart(2, '0')] *)
Definition pad2 (t : string) : string :=
  if Nat.ltb (String.length t) 2 then String.concat "" (repeat "0" (2 - String.length t)) +++ t else t.

(** [{Math.floor(d / 60)}:{String(d % 60).padStart(2, '0')}] for an
    integer [d] ([%] keeps the dividend's sign). *)
Definition duration_text (d : Z) : string :=
  num_text (Z.div d 60) +++ ":" +++ pad2 (num_text (Z.rem d 60)).

Record view := mkView {
  prev_shown : bool;
  next_shown : bool;
  src : jsval;
  title : jsval;
  play_label : string;
  mute_label : string;
  bar_width : Q;
  duration_badge : option (option string);   (** shown, with its text when [duration] is an integer *)
  counter : string
}.

Definition undefined_read (k : string) : string := "Cannot read properties of undefined (reading '" +++ k +++ "')".
Definition null_read (k : string) : string := "Cannot read properties of null (reading '" +++ k +++ "')".

(** The render (lines 111-231); [currentReel] is [reels[currentIndex]]
    (line 11), whose first property read is [currentReel.videoUrl]
    (line 148): it throws past the end of the list and on a [null]
    element. *)
Definition render (s : state) : result view :=
  match reels s !! currentIndex s with
  | None => Err (undefined_read "videoUrl")
  | Some JNull => Err (null_read "videoUrl")
  | Some r =>
      let d := opt_get "duration" (Some r) in
      Ok {| prev_shown := Nat.ltb 0 (currentIndex s);
            next_shown := Nat.ltb (currentIndex s) (n_reels s - 1);
            src := opt_get "videoUrl" (Some r);
            title := opt_get "title" (Some r);
            play_label := if isPlaying s then "Pause" else "Play";
            mute_label := if isMuted s then "Unmute" else "Mute";
            bar_width := progress s;
            duration_badge := if truthy d then Some (match d with Some (JNum z) => Some (duration_text z) | _ => None end)
                              else None;
            counter := num_text (Z.of_nat (S (currentIndex s))) +++ " / " +++ num_text (Z.of_nat (n_reels s)) |}
  end.

(** ** The index and the element *)










(** On a [null] reel the render throws, as [currentReel.videoUrl] does. *)
Lemma null_reel_render_throws s :
  reels s !! currentIndex s = Some JNull -> render s = Err (null_read "videoUrl").
Proof. intros H. unfold render. by rewrite H. Qed.

(** ** The videos' ends carry the player to the last reel *)

(** An end before the last reel: the next reel, played from its start. *)
Lemma ended_next s :
  (currentIndex s < n_reels s - 1)%nat -> isPlaying s = true ->
  let s' := fst (step s Ended) in
  currentIndex s' = S (currentIndex s) /\ reels s' = reels s /\ isPlaying s' = true /\ video_playing s' = true.
Proof.
  intros Hi Hp. cbn [step fst handler]. unfold handleVideoEnd, nextReel, commit.
  rewrite (proj2 (Nat.ltb_lt _ _) Hi). cbn. rewrite (proj2 (Nat.eqb_neq _ _) (Nat.neq_succ_diag_r _)). done.
Qed.

(** The end of the last reel stops the player. *)
Lemma ended_last s :
  currentIndex s = (n_reels s - 1)%nat -> isPlaying s = true ->
  let s' := fst (step s Ended) in
  currentIndex s' = currentIndex s /\ reels s' = reels s /\ isPlaying s' = false /\ video_playing s' = false.
Proof.
  intros Hi Hp. cbn [step fst handler]. unfold handleVideoEnd, commit.
  rewrite Hi, Nat.ltb_irrefl. cbn. by rewrite Nat.eqb_refl, Hp.
Qed.

(** Replaying an end while the element plays. *)
Lemma run_ended s es :
  video_playing s = true -> run modal_machine tt s (Ended :: es) = run modal_machine tt (fst (step s Ended)) es.
Proof.
  intros Hv. cbn [run m_enabledb modal_machine enabledb m_step]. rewrite Hv. cbn [step fst].
  by destruct (run _ _ _ es) as [[? ?]|].
Qed.

Lemma ends_from k : forall s,
  (currentIndex s + k = n_reels s - 1)%nat -> isPlaying s = true -> video_playing s = true ->
  exists s', run modal_machine tt s (repeat Ended (S k)) = Some (s', []) /\
             currentIndex s' = (n_reels s - 1)%nat /\ reels s' = reels s /\
             isPlaying s' = false /\ video_playing s' = false.
Proof.
  induction k as [|k IH]; intros s Hk Hp Hv; change (repeat Ended (S ?n)) with (Ended :: repeat Ended n);
    rewrite run_ended by done.
  - destruct (ended_last s ltac:(lia) Hp) as (Hi & Hr & Hp' & Hv').
    eexists. split; [reflexivity|]. unfold n_reels in *. rewrite Hi, Hr, Hp', Hv'.
    repeat split; first [reflexivity | lia].
  - destruct (ended_next s ltac:(lia) Hp) as (Hi & Hr & Hp' & Hv').
    destruct (IH (fst (step s Ended))) as (s' & Hrun & Hi' & Hr' & Hp'' & Hv'');
      [unfold n_reels in *; rewrite Hr; lia | done | done |].
    exists s'. unfold n_reels in *. rewrite Hr in Hi', Hr'. done.
Qed.

(** C36: with no other input, the ends of the videos carry a playing
    player from reel [i] to the last reel, where the next end stops it:
    [n - i] ends, each enabled while the element plays. *)
Theorem ends_stop_at_last s :
  (currentIndex s < n_reels s)%nat -> isPlaying s = true -> video_playing s = true ->
  exists s', run modal_machine tt s (repeat Ended (n_reels s - currentIndex s)) = Some (s', []) /\
             currentIndex s' = (n_reels s - 1)%nat /\ isPlaying s' = false /\ video_playing s' = false.
Proof.
  intros Hi Hp Hv. replace (n_reels s - currentIndex s)%nat with (S (n_reels s - 1 - currentIndex s)) by lia.
  destruct (ends_from (n_reels s - 1 - currentIndex s) s ltac:(lia) Hp Hv) as (s' & Hr & Hi' & _ & Hp' & Hv').
  by exists s'.
Qed.

(** ** The duration badge *)

(** Reading [m:ss] back: [parseFloat] of the minutes times 60 plus
    [parseFloat] of the seconds. *)
Definition read_duration (t : string) : option Q :=
  match js_split ":" t with
  | [m; sec] =>
      match js_parseFloat m, js_parseFloat sec with
      | Some a, Some b => Some (a * 60 + b)%Q
      | _, _ => None
      end
  | _ => None
  end.

(** The seconds field: two characters, no [:], read back as the
    seconds. *)
Lemma seconds_field r :
  (0 <= r < 60)%Z ->
  String.length (pad2 (num_text r)) = 2%nat /\
  str_existsb (fun c => Ascii.eqb c ":") (pad2 (num_text r)) = false /\
  exists q, js_parseFloat (pad2 (num_text r)) = Some q /\ (q == inject_Z r)%Q.
Proof.
  intros Hr. replace r with (Z.of_nat (Z.to_nat r)) by lia.
  assert (Hn : (Z.to_nat r < 60)%nat) by lia. revert Hn. generalize (Z.to_nat r) as n. intros n Hn.
  do 60 (destruct n as [|n]; [split; [reflexivity | split; [reflexivity | eexists; split; reflexivity]] |]).
  lia.
Qed.

(** C37: the duration badge of a reel whose [duration] is a whole
    number of seconds reads back as that duration: [m:ss] with [m] the
    minutes and two digits of seconds below 60. *)
Theorem duration_text_roundtrip d :
  (0 <= d)%Z ->
  exists q, read_duration (duration_text d) = Some q /\ (q == inject_Z d)%Q /\
            String.length (pad2 (num_text (Z.rem d 60))) = 2%nat.
Proof.
  intros Hd. pose proof (Z.rem_bound_pos d 60 Hd ltac:(lia)) as Hr.
  destruct (seconds_field (Z.rem d 60) Hr) as (Hl & Hc & qs & Hs & Hqs).
  destruct (parseFloat_num_text (Z.div d 60)) as (qm & Hm & Hqm).
  exists (qm * 60 + qs)%Q. split; [|split; [|exact Hl]].
  - unfold read_duration, duration_text.
    change (":" +++ pad2 (num_text (Z.rem d 60))) with (String ":" (pad2 (num_text (Z.rem d 60)))).
    rewrite js_split_app_sep by (apply num_text_avoids; reflexivity).
    rewrite js_split_no_sep by exact Hc. by rewrite Hm, Hs.
  - rewrite Hqm, Hqs. rewrite <- (Z.quot_div_nonneg d 60) by lia.
    pose proof (Z.quot_rem' d 60) as E. rewrite E at 3. unfold Qeq. cbn. lia.
Qed.

(** A click on the progress bar before the metadata throws out of the
    handler: the time is not changed. *)
Lemma progress_click_before_metadata s x l w :
  duration s = None ->
  currentTime (fst (step s (ProgressClick x l w))) = currentTime s /\
  console (fst (step s (ProgressClick x l w))) = console s ++ [non_finite_error].
Proof. intros H. cbn [step fst handler]. unfold handleProgressClick, commit. rewrite H. cbn. by rewrite Nat.eqb_refl, Bool.eqb_reflx. Qed.

(** ** Witnesses *)

Definition reel (v t : string) (d : Z) : json := JObj [("videoUrl", JStr v); ("title", JStr t); ("duration", JNum d)].

Definition three_reels : list json :=
  [reel "/r1.mp4" "Bridal Sets" 45; reel "/r2.mp4" "Temple Gold" 125; reel "/r3.mp4" "Solitaires" 75].



Lemma ends_stop_at_last_witness :
  (0 < n_reels (mount three_reels 0))%nat /\
  exists s', run modal_machine tt (mount three_reels 0) [Ended; Ended; Ended] = Some (s', []) /\
             currentIndex s' = 2%nat /\ isPlaying s' = false /\ video_playing s' = false.
Proof.
  split; [cbn; lia|].
  exact (ends_stop_at_last (mount three_reels 0) ltac:(cbn; lia) eq_refl eq_refl).
Defined.

Lemma duration_text_roundtrip_witness :
  duration_text 125 = "2:05" /\
  exists q, read_duration (duration_text 125) = Some q /\ (q == inject_Z 125)%Q /\
            String.length (pad2 (num_text (Z.rem 125 60))) = 2%nat.
Proof. split; [reflexivity | apply duration_text_roundtrip; lia]. Defined.

End VideoModal.
