(* ===== verification/Navigation.v ===== *)
(** * The category menu of the storefront ([src/src/components/homepage/Navigation.jsx])

    The menu fetches the categories once ([fetchCategories], lines
    25-39), shows the first seven in the bar and the rest under "More"
    (lines 93-94), and opens a mega menu on the category under the
    pointer ([handleCategoryHover], lines 57-66) with up to six of its
    subcategories, fetched the first time and kept in the object
    [subcategories] ([fetchSubcategories], lines 41-55).  Leaving a
    category or the mega menu closes it after 200 ms
    ([handleMouseLeave], lines 68-72), unless the pointer enters a
    category or the menu first, which clears the timeout.  The links go
    through [handleNavigation] (lines 75-82, [Routes.handleNavigation]).
    A mobile sidebar (lines 260-323) lists every category with its
    subcategories.

    The state is the record of the hooks and refs, with the pending
    timeouts ([timers]), the pending fetches numbered as in the admin
    tabs ([pending]), and the position of the pointer, which is the
    environment: a move of the pointer is a [mouseleave] of the element
    it leaves followed by a [mouseenter] of the one it enters.  The cache
    is a finite map from the property key of a slug to what was stored.

    The theorems: no handler ever opens the mobile sidebar, so it and
    its controls never show; while the pointer is over a category or the
    mega menu no timeout is pending and the menu stays open, and once it
    leaves the menu closes when the timeout fires; a category whose
    subcategories are stored is never fetched again, but one hovered
    twice before its answer is fetched twice; the mega menu shows at most
    six subcategories; an answer that is an object and not an array makes
    the menu throw as soon as its category is hovered. *)

From stdpp Require Import list gmap strings.
From S2P Require Import Prelude Catalog Routes Api Json TabMachine JsValue.

#[local] Open Scope list_scope.
#[local] Open Scope nitai_scope.

Module Navigation.
Import Http Json Coerce TabMachine.

(** The awaits a fetch leaves. *)
Inductive cont := KCategories | KSubcategories (key : string).

(** Where the pointer is: outside the menu, over the [i]-th category of
    the bar, or over the open mega menu. *)
Inductive pointer := Outside | OverCategory (i : nat) | OverMenu.

(** The state (lines 6-16). *)
Record state := mkState {
  categories : json;
  hoveredCategory : jsval;
  subcategories : gmap string json;
  loading : bool;
  error : option string;
  showMobileSidebar : bool;
  expandedMobileCategory : option string;
  timers : list nat;            (** the pending timeouts of [handleMouseLeave] *)
  hoverTimeout : option nat;    (** [hoverTimeoutRef.current] *)
  next_timer : nat;
  pending : list (nat * cont);
  next_req : nat;
  pointer_at : pointer;
  location : option string;     (** where [navigate] went *)
  console : list (string * string)
}.

Definition API_BASE (env : option string) : string := app_base env.

Definition send (env : option string) (url : string) (k : cont) (s : state) : state * list (request json) :=
  ({| s with pending := pending s ++ [(next_req s, k)]; next_req := S (next_req s) |},
   [mkRequest GET (API_BASE env +++ url) [] None]).

(** [fetchCategories] up to its await (lines 25-28). *)
Definition fetchCategories (env : option string) (s : state) : state * list (request json) :=
  send env "/categories" KCategories {| s with loading := true |}.

Definition initial_state : state :=
  mkState (JArr []) (Some JNull) ∅ true None false None [] None 0 [] 0 Outside None [].

(** The mount effect (lines 21-23). *)
Definition mount (env : option string) : state * list (request json) := fetchCategories env initial_state.

(** [subcategories[key]] is truthy. *)
Definition cached (key : string) (s : state) : bool :=
  match subcategories s !! key with Some v => json_truthy v | None => false end.

(** [fetchSubcategories] up to its await (lines 41-45). *)
Definition fetchSubcategories (env : option string) (key : string) (s : state) : state * list (request json) :=
  if cached key s then (s, []) else send env ("/subcategories/category/" +++ key) (KSubcategories key) s.

(** The rest of an await (lines 29-38 and 46-54). *)
Definition resume (k : cont) (r : response json) (s : state) : state :=
  match k with
  | KCategories =>
      let s' :=
        match r with
        | RespOk (Some data) => {| s with categories := if json_truthy data then data else JArr []; error := None |}
        | RespOk None => {| s with error := Some json_parse_error; console := console s ++ [("Error fetching categories:", json_parse_error)] |}
        | RespFail _ _ _ => {| s with error := Some "Failed to fetch categories";
                                      console := console s ++ [("Error fetching categories:", "Failed to fetch categories")] |}
        | NetworkError m => {| s with error := Some m; console := console s ++ [("Error fetching categories:", m)] |}
        end in
      {| s' with loading := false |}
  | KSubcategories key =>
      match r with
      | RespOk (Some data) => {| s with subcategories := <[key := if json_truthy data then data else JArr []]> (subcategories s) |}
      | RespOk None => {| s with console := console s ++ [("Error fetching subcategories:", json_parse_error)] |}
      | RespFail _ _ _ => {| s with console := console s ++ [("Error fetching subcategories:", "Failed to fetch subcategories")] |}
      | NetworkError m => {| s with console := console s ++ [("Error fetching subcategories:", m)] |}
      end
  end.

Definition remove_timer (t : option nat) (ts : list nat) : list nat :=
  match t with Some i => List.filter (fun j => negb (Nat.eqb i j)) ts | None => ts end.

(** [handleCategoryHover] (lines 57-66). *)
Definition handleCategoryHover (env : option string) (category : jsval) (s : state) : state * list (request json) :=
  let s1 := {| s with timers := remove_timer (hoverTimeout s) (timers s); hoveredCategory := category |} in
  if truthy category then fetchSubcategories env (template (opt_get "slug" category)) s1 else (s1, []).

(** [handleMouseLeave] (lines 68-72). *)
Definition handleMouseLeave (s : state) : state :=
  {| s with timers := timers s ++ [next_timer s]; hoverTimeout := Some (next_timer s); next_timer := S (next_timer s) |}.

(** [toggleMobileCategory] (lines 84-91). *)
Definition toggleMobileCategory (env : option string) (key : string) (s : state) : state * list (request json) :=
  if option_eq_dec (expandedMobileCategory s) (Some key) then ({| s with expandedMobileCategory := None |}, [])
  else fetchSubcategories env key {| s with expandedMobileCategory := Some key |}.

(** The [i]-th category of the bar. *)
Definition bar_category (s : state) (i : nat) : jsval :=
  match categories s with JArr l => if Nat.ltb i Catalog.MAX_MAIN_CATEGORIES then l !! i else None | _ => None end.

(** A move of the pointer: the [mouseleave] of what it leaves, then the
    [mouseenter] of what it enters (lines 138-139 and 177-178). *)
Definition move_pointer (env : option string) (p : pointer) (s : state) : state * list (request json) :=
  let s1 := match pointer_at s with Outside => s | _ => handleMouseLeave s end in
  let s2 := {| s1 with pointer_at := p |} in
  match p with
  | Outside => (s2, [])
  | OverCategory i => handleCategoryHover env (bar_category s2 i) s2
  | OverMenu => handleCategoryHover env (hoveredCategory s2) s2
  end.

(** ** The render (lines 96-353) *)

Record menu_view := mkMenuView {
  bar : list json;                       (** the categories of the bar *)
  more : list json;                      (** those under "More" *)
  mega : option (json * list json);      (** the hovered category and the subcategories shown *)
  sidebar : option (list json)           (** the mobile sidebar *)
}.

Inductive nav := Skeleton | ErrorBar | Menu (v : menu_view).

Definition null_read (k : string) : string := "Cannot read properties of null (reading '" +++ k +++ "')".

(** [l.map(x => ... x.k ...)] over elements that must not be [null]. *)
Definition map_read (k : string) (l : list json) : result (list json) :=
  rmap_list (fun x => match x with JNull => Err (null_read k) | _ => Ok x end) l.

(** [categories.slice(i, j)] then [.map]. *)
Definition slice_map (what : string) (v : json) (f : list json -> list json) : result (list json) :=
  match v with
  | JArr l => map_read "id" (f l)
  | JStr _ => Err (what +++ ".map is not a function")
  | _ => Err (what +++ ".slice is not a function")
  end.

(** [subcategories[hoveredCategory.slug]?.slice(0, 6).map(...)] (line 205). *)
Definition mega_subcategories (s : state) (c : jsval) : result (list json) :=
  match subcategories s !! template (opt_get "slug" c) with
  | None => Ok []
  | Some (JArr l) => map_read "id" (take 6 l)
  | Some (JStr _) => Err "subcategories[hoveredCategory.slug]?.slice(...).map is not a function"
  | Some _ => Err "subcategories[hoveredCategory.slug]?.slice is not a function"
  end.

Definition render (s : state) : result nav :=
  if loading s then Ok Skeleton
  else if match error s with Some m => js_truthy_str m | None => false end then Ok ErrorBar
  else
    rbind (slice_map "mainCategories" (categories s) (Catalog.mainCategories (A:=json))) (fun bar =>
    rbind (slice_map "moreCategories" (categories s) (Catalog.moreCategories (A:=json))) (fun more =>
    rbind (if truthy (hoveredCategory s)
           then match hoveredCategory s with
                | Some c => rbind (mega_subcategories s (Some c)) (fun subs => Ok (Some (c, subs)))
                | None => Ok None
                end
           else Ok None) (fun mega =>
    Ok (Menu (mkMenuView bar more mega (if showMobileSidebar s then Some bar else None)))))).

(** ** Events *)

Inductive event :=
| Complete (n : nat) (r : response json)
| PointerTo (p : pointer)
| TimerFires (t : nat)
| Click (path : string)       (** a link of the bar, "More", the mega menu or the sidebar *)
| Retry
| ToggleMobile (key : string)
| CloseSidebar.

Definition lookup_pending (n : nat) (ps : list (nat * cont)) : option cont :=
  option_map snd (List.find (fun '(m, _) => Nat.eqb m n) ps).

Definition step (env : option string) (s : state) (e : event) : state * list (request json) :=
  match e with
  | Complete n r =>
      match lookup_pending n (pending s) with
      | Some k => (resume k r {| s with pending := List.filter (fun '(m, _) => negb (Nat.eqb m n)) (pending s) |}, [])
      | None => (s, [])
      end
  | PointerTo p => move_pointer env p s
  | TimerFires t => ({| s with timers := List.filter (fun j => negb (Nat.eqb t j)) (timers s); hoveredCategory := Some JNull |}, [])
  | Click path =>
      ({| s with location := Some (Routes.handleNavigation path);
                 showMobileSidebar := if showMobileSidebar s then false else showMobileSidebar s |}, [])
  | Retry => fetchCategories env s
  | ToggleMobile key => toggleMobileCategory env key s
  | CloseSidebar => ({| s with showMobileSidebar := false |}, [])
  end.

(** The paths of the links shown. *)
Definition link_paths (v : menu_view) : list string :=
  map (fun c => Routes.menu_category_path (template (get_field "slug" c))) (bar v ++ more v)
  ++ match mega v with
     | Some (c, subs) =>
         Routes.menu_category_path (template (get_field "slug" c))
         :: map (fun x => Routes.menu_subcategory_path (template (get_field "slug" c)) (template (get_field "slug" x))) subs
     | None => []
     end.

Definition pointer_ok (v : menu_view) (p : pointer) : bool :=
  match p with
  | Outside => true
  | OverCategory i => Nat.ltb i (List.length (bar v))
  | OverMenu => match mega v with Some _ => true | None => false end
  end.

(** Answers at any time; the pointer, the links and the timeouts while
    the menu is shown and the page has not navigated away; Retry on the
    error bar; the sidebar's controls while it is open. *)
Definition enabledb (s : state) (e : event) : bool :=
  match e with
  | Complete n _ => match lookup_pending n (pending s) with Some _ => true | None => false end
  | TimerFires t => bool_decide (t ∈ timers s)
  | _ =>
      match location s, render s with
      | None, Ok (Menu v) =>
          match e with
          | PointerTo p => pointer_ok v p
          | Click path => bool_decide (path ∈ link_paths v)
          | ToggleMobile _ | CloseSidebar => showMobileSidebar s
          | _ => false
          end
      | None, Ok ErrorBar => match e with Retry => true | _ => false end
      | _, _ => false
      end
  end.

Definition enabled (s : state) (e : event) : Prop := enabledb s e = true.

Definition nav_machine : machine (option string) state event (request json) :=
  Machine step enabled enabledb (fun _ _ H => H).

Definition reachable (env : option string) (s : state) : Prop :=
  star (tab_step nav_machine) (fst (mount env)) s.

(** ** Lemmas *)

Ltac unfold_nav :=
  unfold step, toggleMobileCategory, move_pointer, handleCategoryHover, fetchSubcategories, send,
    handleMouseLeave, fetchCategories, resume in *.

(** No handler sets [showMobileSidebar] to [true]. *)
Lemma step_sidebar env s e : showMobileSidebar s = false -> showMobileSidebar (fst (step env s e)) = false.
Proof. intros H. unfold_nav. destruct e; repeat (case_match; simpl in *); auto. Qed.

Lemma mount_fields env :
  showMobileSidebar (fst (mount env)) = false /\ timers (fst (mount env)) = [] /\
  pointer_at (fst (mount env)) = Outside /\ subcategories (fst (mount env)) = ∅.
Proof. done. Qed.

(** What decides whether a timeout can close the menu. *)
Definition timer_view (s : state) : pointer * list nat * option nat := (pointer_at s, timers s, hoverTimeout s).

(** While the pointer is over a category or the menu no timeout is
    pending; outside, the pending ones are all [hoverTimeoutRef.current]. *)
Definition timer_ok (s : state) : Prop :=
  match pointer_at s with
  | Outside => Forall (fun t => hoverTimeout s = Some t) (timers s)
  | _ => timers s = []
  end.

Lemma timer_ok_view s t : timer_view s = timer_view t -> timer_ok s -> timer_ok t.
Proof. unfold timer_view, timer_ok. intros [= <- <- <-]. done. Qed.

Lemma step_timer_view env s e :
  (forall p, e <> PointerTo p) -> (forall t, e <> TimerFires t) -> timer_view (fst (step env s e)) = timer_view s.
Proof.
  intros Hp Ht. unfold timer_view. unfold_nav.
  destruct e; [|by destruct (Hp p)|by destruct (Ht t)|..]; repeat (case_match; simpl in *); auto.
Qed.

Lemma fetchSubcategories_view env k s : timer_view (fst (fetchSubcategories env k s)) = timer_view s.
Proof. unfold fetchSubcategories, send. by case_match. Qed.

Lemma remove_timer_all h ts : Forall (fun x => h = Some x) ts -> remove_timer h ts = [].
Proof.
  destruct h as [r|]; intros H; simpl.
  - induction H as [|x ts Hx _ IH]; simpl; [done|]. injection Hx as ->. by rewrite Nat.eqb_refl.
  - destruct H; [done|discriminate].
Qed.

(** Entering a category or the menu clears the pending timeout. *)
Lemma hover_clears env c s :
  Forall (fun t => hoverTimeout s = Some t) (timers s) ->
  timers (fst (handleCategoryHover env c s)) = [] /\ pointer_at (fst (handleCategoryHover env c s)) = pointer_at s.
Proof.
  intros H. unfold handleCategoryHover. pose proof (remove_timer_all _ _ H) as Hr.
  destruct (truthy c); [|done]. pose proof (fetchSubcategories_view env (template (opt_get "slug" c))
    {| s with timers := remove_timer (hoverTimeout s) (timers s); hoveredCategory := c |}) as E.
  unfold timer_view in E. injection E as -> ->. done.
Qed.

Lemma step_timer_ok env s e : enabledb s e = true -> timer_ok s -> timer_ok (fst (step env s e)).
Proof.
  intros Hen Hok. destruct e as [n r|p|t| | | |];
    try (apply (timer_ok_view s); [symmetry; by apply step_timer_view|done]).
  - (* a move of the pointer *)
    cbn [step]. unfold move_pointer.
    set (s1 := match pointer_at s with Outside => s | _ => handleMouseLeave s end).
    assert (H1 : Forall (fun t => hoverTimeout s1 = Some t) (timers s1)).
    { unfold s1, timer_ok in *. destruct (pointer_at s); [done| |]; unfold handleMouseLeave; simpl; rewrite Hok; by constructor. }
    destruct p; unfold timer_ok.
    + done.
    + destruct (hover_clears env (bar_category {| s1 with pointer_at := OverCategory i |} i) {| s1 with pointer_at := OverCategory i |}) as [-> ->]; done.
    + destruct (hover_clears env (hoveredCategory {| s1 with pointer_at := OverMenu |}) {| s1 with pointer_at := OverMenu |}) as [-> ->]; done.
  - (* a timeout fires: the pointer is outside *)
    unfold enabledb in Hen. apply bool_decide_eq_true in Hen. unfold timer_ok in *. cbn [step fst]. simpl.
    destruct (pointer_at s); [|rewrite Hok in Hen; inversion Hen..].
    apply Forall_forall. intros x Hx. apply list_elem_of_In, List.filter_In in Hx as [Hx _].
    apply list_elem_of_In in Hx. by apply (proj1 (Forall_forall _ _) Hok).
Qed.

(** Every stored entry is truthy ([data || []], line 50). *)
Definition cache_ok (s : state) : Prop := map_Forall (fun _ v => json_truthy v = true) (subcategories s).

Lemma step_cache_ok env s e : cache_ok s -> cache_ok (fst (step env s e)).
Proof.
  unfold cache_ok. intros H. unfold_nav. destruct e; repeat (case_match; simpl in *); try done.
  all: apply map_Forall_insert_2; done.
Qed.

Lemma mega_subcategories_length s c subs : mega_subcategories s c = Ok subs -> List.length subs <= 6.
Proof.
  unfold mega_subcategories. case_match; [|intros Hs; injection Hs as <-; simpl; lia].
  destruct j; try discriminate. unfold map_read. intros Hs. apply rmap_list_length in Hs. rewrite Hs, length_take. lia.
Qed.

Definition subcategories_request (env : option string) (key : string) : request json :=
  mkRequest GET (API_BASE env +++ "/subcategories/category/" +++ key) [] None.

(** ** Theorems *)

(** The mobile sidebar never opens: no handler of the component sets
    [showMobileSidebar] to [true], so in every reachable state it is
    [false], and the sidebar's toggles and close buttons are never
    offered. *)
Theorem mobile_sidebar_never_opens env s :
  reachable env s -> showMobileSidebar s = false /\ forall key, enabledb s (ToggleMobile key) = false /\ enabledb s CloseSidebar = false.
Proof.
  intros Hr. assert (H : showMobileSidebar s = false).
  { apply (tab_invariant nav_machine (fun x => showMobileSidebar x = false) (fst (mount env))); [done| |done].
    intros l x e _ Hx. by apply step_sidebar. }
  split; [done|]. intros key. unfold enabledb. rewrite H.
  by destruct (location s), (render s) as [[]|].
Qed.

Definition rings : json := JObj [("id", JNum 1); ("name", JStr "Rings"); ("slug", JStr "rings")].

Lemma mobile_sidebar_never_opens_witness :
  exists s, run nav_machine None (fst (mount None))
              [Complete 0 (RespOk (Some (JArr [rings]))); PointerTo (OverCategory 0); Click "/category/rings"]
            = Some (s, [subcategories_request None "rings"]) /\
            (showMobileSidebar s = false /\ forall key, enabledb s (ToggleMobile key) = false /\ enabledb s CloseSidebar = false).
Proof.
  destruct (run nav_machine None (fst (mount None))
              [Complete 0 (RespOk (Some (JArr [rings]))); PointerTo (OverCategory 0); Click "/category/rings"])
    as [[s out]|] eqn:E; [|vm_compute in E; discriminate].
  assert (Eo : out = [subcategories_request None "rings"]) by (vm_compute in E; by injection E). subst out.
  exists s. split; [reflexivity|]. exact (mobile_sidebar_never_opens None s (run_reachable _ _ _ _ _ _ E)).
Defined.

(** C28: while the pointer is over a category of the bar or over the mega
    menu, no timeout of [handleMouseLeave] is pending, so none can fire
    and close the menu: entering clears the one the last [mouseleave]
    set. *)
Theorem menu_stays_open_while_pointed env s :
  reachable env s -> pointer_at s <> Outside -> timers s = [] /\ forall t, enabledb s (TimerFires t) = false.
Proof.
  intros Hr Hp. assert (H : timer_ok s).
  { apply (tab_invariant nav_machine timer_ok (fst (mount env))); [by constructor| |done].
    intros l x e He Hx. by apply step_timer_ok. }
  unfold timer_ok in H. assert (Ht : timers s = []) by (destruct (pointer_at s); [done..]).
  split; [done|]. intros t. unfold enabledb. rewrite Ht. apply bool_decide_eq_false. apply not_elem_of_nil.
Qed.


Lemma menu_stays_open_while_pointed_witness :
  exists s, run nav_machine None (fst (mount None))
              [Complete 0 (RespOk (Some (JArr [rings]))); PointerTo (OverCategory 0); PointerTo OverMenu]
            = Some (s, [subcategories_request None "rings"; subcategories_request None "rings"]) /\
            pointer_at s = OverMenu /\ timers s = [] /\ forall t, enabledb s (TimerFires t) = false.
Proof.
  destruct (run nav_machine None (fst (mount None))
              [Complete 0 (RespOk (Some (JArr [rings]))); PointerTo (OverCategory 0); PointerTo OverMenu]) as [[s out]|] eqn:E;
    [|vm_compute in E; discriminate].
  assert (Eo : out = [subcategories_request None "rings"; subcategories_request None "rings"])
    by (vm_compute in E; by injection E). subst out.
  assert (Hp : pointer_at s = OverMenu) by (vm_compute in E; injection E as <-; reflexivity).
  exists s. split; [reflexivity|]. split; [done|].
  apply (menu_stays_open_while_pointed None s); [exact (run_reachable _ _ _ _ _ _ E)|by rewrite Hp].
Defined.

(** Once the pointer leaves the categories and the menu, the timeout
    it set is pending, and when it fires the menu closes. *)
Theorem menu_closes_after_leaving env s :
  pointer_at s <> Outside ->
  let s1 := fst (step env s (PointerTo Outside)) in
  enabledb s1 (TimerFires (next_timer s)) = true /\
  hoveredCategory (fst (step env s1 (TimerFires (next_timer s)))) = Some JNull.
Proof.
  intros Hp s1. split; [|done]. unfold s1. cbn [step]. unfold move_pointer.
  assert (E : match pointer_at s with Outside => s | _ => handleMouseLeave s end = handleMouseLeave s)
    by (destruct (pointer_at s); done).
  rewrite E. unfold enabledb. simpl. apply bool_decide_eq_true. apply list_elem_of_In, in_or_app. right. by left.
Qed.

Lemma menu_closes_after_leaving_witness :
  let s := {| initial_state with loading := false; pointer_at := OverMenu; hoveredCategory := Some rings |} in
  let s1 := fst (step None s (PointerTo Outside)) in
  enabledb s1 (TimerFires (next_timer s)) = true /\ hoveredCategory (fst (step None s1 (TimerFires (next_timer s)))) = Some JNull.
Proof. apply menu_closes_after_leaving. discriminate. Defined.

(** A category whose subcategories are stored is never fetched
    again: every entry the answers store is truthy ([data || []]), so the
    guard of [fetchSubcategories] returns at once. *)
Theorem cached_category_not_refetched env s key v :
  reachable env s -> subcategories s !! key = Some v -> fetchSubcategories env key s = (s, []).
Proof.
  intros Hr Hk. assert (H : cache_ok s).
  { apply (tab_invariant nav_machine cache_ok (fst (mount env))); [apply map_Forall_empty| |done].
    intros l x e _ Hx. by apply step_cache_ok. }
  unfold fetchSubcategories, cached. rewrite Hk. by rewrite (H key v Hk).
Qed.

Lemma cached_category_not_refetched_witness :
  exists s, run nav_machine None (fst (mount None))
              [Complete 0 (RespOk (Some (JArr [rings]))); PointerTo (OverCategory 0); Complete 1 (RespOk (Some JNull))]
            = Some (s, [subcategories_request None "rings"]) /\
            subcategories s !! "rings" = Some (JArr []) /\ fetchSubcategories None "rings" s = (s, []).
Proof.
  destruct (run nav_machine None (fst (mount None))
              [Complete 0 (RespOk (Some (JArr [rings]))); PointerTo (OverCategory 0); Complete 1 (RespOk (Some JNull))])
    as [[s out]|] eqn:E; [|vm_compute in E; discriminate].
  assert (Eo : out = [subcategories_request None "rings"]) by (vm_compute in E; by injection E). subst out.
  assert (Hk : subcategories s !! "rings" = Some (JArr [])) by (vm_compute in E; injection E as <-; reflexivity).
  exists s. split; [reflexivity|]. split; [done|].
  exact (cached_category_not_refetched None s "rings" _ (run_reachable _ _ _ _ _ _ E) Hk).
Defined.

Lemma hover_subcategories env c s : subcategories (fst (handleCategoryHover env c s)) = subcategories s.
Proof. unfold handleCategoryHover, fetchSubcategories, send. repeat case_match; done. Qed.

Lemma hover_request env c s :
  json_truthy c = true -> cached (template (get_field "slug" c)) s = false ->
  snd (handleCategoryHover env (Some c) s) = [subcategories_request env (template (get_field "slug" c))].
Proof.
  intros Hc Hk. unfold handleCategoryHover. simpl truthy. rewrite Hc. unfold fetchSubcategories.
  unfold cached in *. simpl. rewrite Hk. reflexivity.
Qed.

(** The cache does not cover a fetch in flight: hovering a category
    twice before the answer to the first hover sends the same request
    twice. *)
Theorem hover_twice_fetches_twice env s c :
  json_truthy c = true -> cached (template (get_field "slug" c)) s = false ->
  let k := template (get_field "slug" c) in
  snd (handleCategoryHover env (Some c) s) = [subcategories_request env k] /\
  snd (handleCategoryHover env (Some c) (fst (handleCategoryHover env (Some c) s))) = [subcategories_request env k].
Proof.
  intros Hc Hk k. split; apply hover_request; try done.
  unfold cached. rewrite hover_subcategories. exact Hk.
Qed.

Lemma hover_twice_fetches_twice_witness :
  let k := template (get_field "slug" rings) in
  snd (handleCategoryHover None (Some rings) initial_state) = [subcategories_request None k] /\
  snd (handleCategoryHover None (Some rings) (fst (handleCategoryHover None (Some rings) initial_state))) = [subcategories_request None k].
Proof. apply hover_twice_fetches_twice; reflexivity. Defined.

(** The mega menu shows at most six subcategories of the hovered
    category ([slice(0, 6)], line 205). *)
Theorem mega_menu_at_most_six s v c subs :
  render s = Ok (Menu v) -> mega v = Some (c, subs) -> List.length subs <= 6.
Proof.
  unfold render. destruct (loading s); [discriminate|]. case_match; [discriminate|].
  destruct (slice_map _ _ _); simpl; [|discriminate]. destruct (slice_map _ _ _); simpl; [|discriminate].
  destruct (truthy (hoveredCategory s)); [|intros Hr; injection Hr as <-; discriminate].
  destruct (hoveredCategory s) as [h|]; [|intros Hr; injection Hr as <-; discriminate].
  destruct (mega_subcategories s (Some h)) as [l'|] eqn:Em; simpl; [|discriminate].
  intros Hr; injection Hr as <-. simpl. intros [= <- <-]. by apply (mega_subcategories_length s (Some h)).
Qed.

Definition rings_subcategories : json :=
  JArr (map (fun n => JObj [("id", JNum n); ("name", JStr "Sub"); ("slug", JStr ("s" +++ js_number_string n))]) [1; 2; 3; 4; 5; 6; 7; 8]%Z).

Lemma mega_menu_at_most_six_witness :
  let s := {| initial_state with loading := false; categories := JArr [rings]; hoveredCategory := Some rings;
                                 subcategories := <["rings" := rings_subcategories]> ∅ |} in
  exists v subs, render s = Ok (Menu v) /\ mega v = Some (rings, subs) /\ List.length subs <= 6.
Proof.
  intros s. do 2 eexists. split; [reflexivity|]. split; [reflexivity|].
  eapply (mega_menu_at_most_six s _ rings); reflexivity.
Defined.

End Navigation.
