(* ===== verification/Header.v ===== *)
(** * The storefront header: search, scroll shadow, user menu, badges

    [src/src/components/homepage/MainHeader.jsx] keeps four pieces of
    state of its own ([searchQuery], [isScrolled], [showUserDropdown],
    [showMobileSearch]) over the cart, wishlist and session of the
    storefront.  [Cart.app] already holds the shared state and the
    user-menu handler [handleUserAction]; this file adds the component:
    the search box and [handleSearch] with [encodeURIComponent], the
    scroll listener, the click-outside listener and the account toggle,
    the header's buttons, and what the header renders (the shadow, the
    two badges, the user menu, the mobile search bar).

    The browser side of the search is modelled from the URL standard:
    [percent_decode] and the [application/x-www-form-urlencoded] parser
    behind [URLSearchParams.get], which the products page uses to read
    [q].  Strings are byte strings, the UTF-8 encoding of the JavaScript
    string; [encodeURIComponent] percent-encodes exactly the UTF-8 bytes
    outside its unreserved set, so encoding the bytes one at a time is
    the same function.

    The theorems: the query typed in the box is the [q] the products
    page reads back, for every query that is not blank, spaces and the
    characters [&], [=], [+], [#] and [%] included; a blank query
    changes nothing; the mobile search bar is never shown; the cart
    badge has at most two characters while the wishlist badge is the
    full count. *)

From stdpp Require Import list.
From Stdlib Require Import Ascii String QArith DecimalString.
From S2P Require Import Prelude Api Json Session TabMachine Cart JsValue.

#[local] Open Scope list_scope.
#[local] Open Scope nitai_scope.

Module Header.
Import Http Storage Json Session TabMachine Cart Coerce.

(** ** [encodeURIComponent] and the URL parser of the browser *)

(** The characters [encodeURIComponent] leaves alone: letters, digits
    and [- _ . ! ~ * ' ( )]. *)
Definition is_unreserved (c : ascii) : bool :=
  is_upper c || is_lower c || is_digit c ||
  existsb (Ascii.eqb c) ["-"; "_"; "."; "!"; "~"; "*"; "'"; "("; ")"]%char.

(** The upper-case hexadecimal digit of [n < 16]. *)
Definition hex_upper (n : nat) : ascii :=
  ascii_of_nat (if Nat.ltb n 10 then 48 + n else 55 + n).

Definition percent_byte (c : ascii) : string :=
  let n := nat_of_ascii c in
  String "%" (String (hex_upper (n / 16)) (String (hex_upper (n mod 16)) EmptyString)).

Definition encoded_char (c : ascii) : string :=
  if is_unreserved c then String c EmptyString else percent_byte c.

Fixpoint encodeURIComponent (s : string) : string :=
  match s with
  | EmptyString => EmptyString
  | String c s' => encoded_char c +++ encodeURIComponent s'
  end.

(** Percent-decoding of the URL standard: [%XY] with two hexadecimal
    digits is the byte [XY], any other [%] stays. *)
Fixpoint percent_decode (s : string) : string :=
  match s with
  | EmptyString => EmptyString
  | String c r =>
      if Ascii.eqb c "%" then
        match r with
        | String h1 (String h2 r') =>
            match hex_val h1, hex_val h2 with
            | Some a, Some b => String (ascii_of_nat (16 * a + b)) (percent_decode r')
            | _, _ => String c (percent_decode r)
            end
        | _ => String c (percent_decode r)
        end
      else String c (percent_decode r)
  end.

(** A name or value of a query string: [+] is a space, then
    percent-decoding. *)
Definition form_decode (s : string) : string :=
  percent_decode (js_replace_char "+" " " s).

(** A piece [name=value] split at its first [=]; no [=] gives the value
    [""]. *)
Fixpoint split_at_eq (s : string) : string * string :=
  match s with
  | EmptyString => (EmptyString, EmptyString)
  | String c r =>
      if Ascii.eqb c "=" then (EmptyString, r)
      else let '(n, v) := split_at_eq r in (String c n, v)
  end.

(** The [application/x-www-form-urlencoded] parser: the pieces between
    [&], empty pieces skipped. *)
Definition form_parse (input : string) : list (string * string) :=
  map (fun piece => let '(n, v) := split_at_eq piece in (form_decode n, form_decode v))
      (List.filter (fun piece => negb (piece ==? "")) (js_split "&" input)).

Definition strip_question (s : string) : string :=
  match s with
  | String c r => if Ascii.eqb c "?" then r else s
  | EmptyString => s
  end.

(** [new URLSearchParams(search).get(name)]: the first pair with that
    name; [None] is [null]. *)
Definition search_params_get (search name : string) : option string :=
  option_map snd (find (fun p => fst p ==? name) (form_parse (strip_question search))).

Fixpoint before_hash (s : string) : string :=
  match s with
  | EmptyString => EmptyString
  | String c r => if Ascii.eqb c "#" then EmptyString else String c (before_hash r)
  end.

(** [location.search] of a path: from the first [?] to the fragment. *)
Fixpoint url_search (u : string) : string :=
  match u with
  | EmptyString => EmptyString
  | String c r => if Ascii.eqb c "?" then String c (before_hash r) else url_search r
  end.

(** [location.pathname] of a path: up to the first [?] or [#]. *)
Fixpoint url_pathname (u : string) : string :=
  match u with
  | EmptyString => EmptyString
  | String c r =>
      if Ascii.eqb c "?" || Ascii.eqb c "#" then EmptyString else String c (url_pathname r)
  end.

(** ** The header component *)

Record header := mkHeader {
  shell : app;                 (** session, cart, wishlist, [showUserDropdown] *)
  searchQuery : string;
  isScrolled : bool;
  showMobileSearch : bool
}.

(** The component's initial state (MainHeader.jsx 7-10) over the shell. *)
Definition initial_header (a : app) : header := mkHeader a "" false false.

Definition set_dropdown (b : bool) (h : header) : header :=
  {| h with shell := {| (shell h) with showUserDropdown := b |} |}.

(** [handleNavigation] (MainHeader.jsx 55-57): [navigate(path)]. *)
Definition handleNavigation (path : string) (h : header) : header :=
  let a := shell h in
  {| h with shell := {| a with world_of := {| (world_of a) with location := path |} |} |}.

(** [handleScroll] (MainHeader.jsx 20-22): [window.scrollY > 10]. *)
Definition handleScroll (scrollY : Q) (h : header) : header :=
  {| h with isScrolled := negb (Qle_bool scrollY 10) |}.

(** [handleClickOutside] (MainHeader.jsx 29-33); the ref is set while
    the header is mounted, [inside] is [contains(event.target)]. *)
Definition handleClickOutside (inside : bool) (h : header) : header :=
  if inside then h else set_dropdown false h.

(** The account button (MainHeader.jsx 152). *)
Definition toggleDropdown (h : header) : header :=
  set_dropdown (negb (showUserDropdown (shell h))) h.

Definition search_url (q : string) : string := "/products?q=" +++ encodeURIComponent q.

(** [handleSearch] (MainHeader.jsx 39-53): both branches navigate to the
    same URL. *)
Definition handleSearch (h : header) : header :=
  if js_truthy_str (js_trim (searchQuery h)) then
    let isOnProductsPage := js_starts_with (url_pathname (location (world_of (shell h)))) "/products" in
    let h' := if isOnProductsPage then handleNavigation (search_url (searchQuery h)) h
              else handleNavigation (search_url (searchQuery h)) h in
    {| h' with showMobileSearch := false |}
  else h.

Inductive hevent :=
| SetQuery (q : string)       (** [onChange] of the search box *)
| EnterKey                    (** [onKeyPress] with [e.key === 'Enter'] *)
| Scroll (scrollY : Q)
| MouseDown (inside : bool)   (** a [mousedown] anywhere in the document *)
| AccountButton
| HomeButton
| WishlistButton
| CartButton
| Shell (e : Cart.event).      (** the user menu, the providers, the requests *)

Definition hstep (env : option string) (h : header) (e : hevent) : header * list req :=
  match e with
  | SetQuery q => ({| h with searchQuery := q |}, [])
  | EnterKey => (handleSearch h, [])
  | Scroll y => (handleScroll y h, [])
  | MouseDown inside => (handleClickOutside inside h, [])
  | AccountButton => (toggleDropdown h, [])
  | HomeButton => (handleNavigation "/" h, [])
  | WishlistButton => (handleNavigation "/wishlist" h, [])
  | CartButton => (handleNavigation "/cart" h, [])
  | Shell e => let '(a', out) := Cart.step env (shell h) e in ({| h with shell := a' |}, out)
  end.

(** ** What the header renders *)

(** The entries of the user menu (MainHeader.jsx 165-207): label and
    action. *)
Definition menu_entries (isAuthenticated : bool) : list (string * string) :=
  if isAuthenticated then [("My Account", "account"); ("My Orders", "orders"); ("Logout", "logout")]
  else [("Login", "login"); ("Sign Up", "signup")].

(** [{user && (user.name || user.email)}]. *)
Definition user_label (u : json) : option jsval :=
  if truthy (Some u) then Some (js_or (opt_get "name" (Some u)) (opt_get "email" (Some u))) else None.

(** The wishlist badge (MainHeader.jsx 139-143): the count itself. *)
Definition wishlist_badge (n : nat) : option string :=
  if Nat.eqb n 0 then None else Some (NilZero.string_of_uint (Nat.to_uint n)).

Record hview := mkHView {
  shadow : bool;
  wishlist_badge_text : option string;
  cart_badge_text : option string;
  dropdown : option (option (option jsval) * list (string * string));
  mobile_search : bool
}.

Definition render (h : header) : hview :=
  let a := shell h in
  let s := auth a in
  {| shadow := isScrolled h;
     wishlist_badge_text := wishlist_badge (count (wishlist a));
     cart_badge_text := cart_badge (count (cart a));
     dropdown := if showUserDropdown a then
                   Some (if StoreAuth.isAuthenticated s then Some (user_label (StoreAuth.user s)) else None,
                         menu_entries (StoreAuth.isAuthenticated s))
                 else None;
     mobile_search := showMobileSearch h |}.

(** A menu entry can be clicked only while the menu shows it; the other
    shell events as in [Cart.enabled]. *)
Definition henabledb (h : header) (e : hevent) : bool :=
  match e with
  | Shell (UserAction act) =>
      showUserDropdown (shell h)
      && existsb (fun p => snd p ==? act) (menu_entries (StoreAuth.isAuthenticated (auth (shell h))))
  | Shell e => Cart.enabledb (shell h) e
  | _ => true
  end.

Definition henabled (h : header) (e : hevent) : Prop := henabledb h e = true.

Definition header_machine (env : option string) : machine unit header hevent req :=
  Machine (fun _ => hstep env) henabled henabledb (fun _ _ H => H).

Definition reachable (env : option string) (h : header) : Prop :=
  exists w a0 out, Cart.mount env w = Ok (a0, out) /\ star (tab_step (header_machine env)) (initial_header a0) h.

(** ** Lemmas on the encoding *)

Lemma hex_upper_spec n :
  n < 16 -> hex_val (hex_upper n) = Some n /\ (is_digit (hex_upper n) || is_upper (hex_upper n)) = true.
Proof. intros Hn. do 16 (destruct n as [|n]; [split; reflexivity|]). lia. Qed.

(** A byte is its two hexadecimal digits. *)
Lemma byte_digits c :
  nat_of_ascii c / 16 < 16 /\ nat_of_ascii c mod 16 < 16 /\
  ascii_of_nat (16 * (nat_of_ascii c / 16) + nat_of_ascii c mod 16) = c.
Proof.
  pose proof (nat_ascii_bounded c).
  split; [apply Nat.Div0.div_lt_upper_bound; lia|].
  split; [apply Nat.mod_upper_bound; lia|].
  by rewrite <- Nat.div_mod_eq, ascii_nat_embedding.
Qed.

Lemma percent_decode_pct h1 h2 r a b :
  hex_val h1 = Some a -> hex_val h2 = Some b ->
  percent_decode (String "%" (String h1 (String h2 r))) = String (ascii_of_nat (16 * a + b)) (percent_decode r).
Proof. intros Ha Hb. cbn [percent_decode]. by rewrite Ascii.eqb_refl, Ha, Hb. Qed.

Lemma percent_decode_encoded c t :
  percent_decode (encoded_char c +++ t) = String c (percent_decode t).
Proof.
  unfold encoded_char. destruct (is_unreserved c) eqn:Hu.
  - change (percent_decode (String c t) = String c (percent_decode t)). cbn [percent_decode].
    destruct (Ascii.eqb c "%") eqn:E; [apply Ascii.eqb_eq in E; subst; vm_compute in Hu; discriminate | done].
  - destruct (byte_digits c) as (H1 & H2 & H3).
    change (percent_byte c +++ t) with
      (String "%" (String (hex_upper (nat_of_ascii c / 16)) (String (hex_upper (nat_of_ascii c mod 16)) t))).
    rewrite (percent_decode_pct _ _ _ _ _ (proj1 (hex_upper_spec _ H1)) (proj1 (hex_upper_spec _ H2))).
    by rewrite H3.
Qed.

(** The marks [encodeURIComponent] always escapes: not unreserved, not
    [%], not a digit or capital of its escapes. *)
Definition escaped_mark (x : ascii) : bool :=
  negb (is_unreserved x) && negb (Ascii.eqb x "%") && negb (is_digit x || is_upper x).

Lemma encoded_char_avoids x c :
  escaped_mark x = true -> str_existsb (fun y => Ascii.eqb y x) (encoded_char c) = false.
Proof.
  unfold escaped_mark, encoded_char. intros Hx.
  apply andb_true_iff in Hx as [[Hx1 Hx2]%andb_true_iff Hx3].
  apply negb_true_iff in Hx1, Hx2, Hx3.
  assert (Hne : forall y, (is_digit y || is_upper y) = true -> Ascii.eqb y x = false)
    by (intros y Hy; destruct (Ascii.eqb_spec y x); [subst; congruence | done]).
  destruct (is_unreserved c) eqn:Hu; cbn [str_existsb].
  - destruct (Ascii.eqb_spec c x); [subst; congruence | done].
  - destruct (byte_digits c) as (H1 & H2 & _). unfold percent_byte. cbn [str_existsb].
    rewrite (Hne _ (proj2 (hex_upper_spec _ H1))), (Hne _ (proj2 (hex_upper_spec _ H2))).
    destruct (Ascii.eqb_spec "%" x); [subst; by rewrite Ascii.eqb_refl in Hx2 | done].
Qed.

Lemma encode_avoids x s :
  escaped_mark x = true -> str_existsb (fun y => Ascii.eqb y x) (encodeURIComponent s) = false.
Proof.
  intros Hx. induction s as [|c s IH]; [done|]. cbn [encodeURIComponent].
  by rewrite str_existsb_app, encoded_char_avoids, IH.
Qed.

(** Percent-decoding inverts the encoding. *)
Lemma percent_decode_encode s : percent_decode (encodeURIComponent s) = s.
Proof. induction s as [|c s IH]; [done|]. cbn [encodeURIComponent]. by rewrite percent_decode_encoded, IH. Qed.

(** The query string parser reads back an encoded value. *)
Lemma form_decode_encode s : form_decode (encodeURIComponent s) = s.
Proof.
  unfold form_decode. rewrite js_replace_char_absent; [apply percent_decode_encode|].
  by apply encode_avoids.
Qed.

Lemma search_params_get_encoded s :
  search_params_get ("?q=" +++ encodeURIComponent s) "q" = Some s.
Proof.
  unfold search_params_get, form_parse.
  change (strip_question ("?q=" +++ encodeURIComponent s))
    with (String "q" (String "=" (encodeURIComponent s))).
  rewrite js_split_no_sep.
  - cbn -[form_decode encodeURIComponent]. rewrite form_decode_encode. reflexivity.
  - change (str_existsb (fun c => Ascii.eqb c "&") ("q=" +++ encodeURIComponent s) = false).
    rewrite str_existsb_app. by apply encode_avoids.
Qed.

Lemma before_hash_absent s :
  str_existsb (fun y => Ascii.eqb y "#") s = false -> before_hash s = s.
Proof.
  induction s as [|c s IH]; [done|]. cbn. intros [Hc Hs]%orb_false_iff. by rewrite Hc, IH.
Qed.

Lemma search_url_parts q :
  url_pathname (search_url q) = "/products" /\ url_search (search_url q) = "?q=" +++ encodeURIComponent q.
Proof.
  split; [reflexivity|].
  change (url_search (search_url q)) with ("?" +++ before_hash ("q=" +++ encodeURIComponent q)).
  rewrite before_hash_absent; [done|]. rewrite str_existsb_app. by apply encode_avoids.
Qed.

(** ** The header's behaviour *)

Lemma handleSearch_blank h :
  js_truthy_str (js_trim (searchQuery h)) = false -> handleSearch h = h.
Proof. unfold handleSearch. by intros ->. Qed.

(** A step of the header never shows the mobile search bar. *)
Lemma hstep_mobile_search env h e :
  showMobileSearch h = false -> showMobileSearch (fst (hstep env h e)) = false.
Proof.
  intros Hm. destruct e; cbn [hstep fst]; try done.
  - unfold handleSearch. by case_match.
  - unfold handleClickOutside. by case_match.
  - by destruct (Cart.step env (shell h) e).
Qed.

(** C24: the header's search is read back by the products page: for a
    query that is not blank after [trim()], pressing Enter navigates to
    [/products] with a query string whose [q], as [URLSearchParams.get]
    reads it, is the query typed, untrimmed, with its spaces and its
    [&], [=], [+], [#] and [%]; the mobile search bar is closed. *)
Theorem search_query_roundtrip env h :
  js_truthy_str (js_trim (searchQuery h)) = true ->
  let u := location (world_of (shell (fst (hstep env h EnterKey)))) in
  url_pathname u = "/products" /\ search_params_get (url_search u) "q" = Some (searchQuery h) /\
  showMobileSearch (fst (hstep env h EnterKey)) = false.
Proof.
  intros Ht. cbn [hstep fst]. unfold handleSearch. rewrite Ht.
  destruct (search_url_parts (searchQuery h)) as [Hp Hs].
  destruct (js_starts_with _ _);
    (cbn; rewrite Hp, Hs; split; [done | split; [apply search_params_get_encoded | done]]).
Qed.

Definition demo_app : app := mkApp token_world StoreAuth.initial coll_initial coll_initial false.

Definition demo_query : string := " 22k gold + diamond & pearl #1 ".

Lemma search_query_roundtrip_witness :
  let h := {| (initial_header demo_app) with searchQuery := demo_query |} in
  js_truthy_str (js_trim (searchQuery h)) = true /\
  location (world_of (shell (fst (hstep None h EnterKey))))
    = "/products?q=%2022k%20gold%20%2B%20diamond%20%26%20pearl%20%231%20" /\
  search_params_get (url_search (location (world_of (shell (fst (hstep None h EnterKey)))))) "q"
    = Some demo_query.
Proof.
  cbv zeta. split; [reflexivity|]. split; [vm_compute; reflexivity|].
  exact (proj1 (proj2 (search_query_roundtrip None {| (initial_header demo_app) with searchQuery := demo_query |}
                         (eq_refl true)))).
Defined.

(** The mobile search bar (MainHeader.jsx 235-252) is dead: nothing sets
    [showMobileSearch] to [true]. *)
Theorem mobile_search_never_shown env h :
  reachable env h -> mobile_search (render h) = false.
Proof.
  intros (w & a0 & out & _ & Hs). cbn.
  apply (tab_invariant (header_machine env) (fun x => showMobileSearch x = false) (initial_header a0)); [done| |done].
  intros l x e _ Hx. by apply hstep_mobile_search.
Qed.

(** The cart badge is capped at two characters; the wishlist badge shows
    the whole count. *)
Lemma cart_badge_short n t : cart_badge n = Some t -> String.length t <= 2.
Proof.
  unfold cart_badge. destruct (Nat.eqb_spec n 0); [done|]. destruct (Nat.ltb_spec 9 n).
  - by intros [= <-].
  - intros [= <-]. do 10 (destruct n as [|n]; [simpl; lia|]). lia.
Qed.

Lemma wishlist_badge_full : wishlist_badge 120 = Some "120".
Proof. reflexivity. Qed.

End Header.
