(* ===== verification/AdminConsole.v ===== *)
(** * The admin console's sidebar and dashboard

    [src/src/components/layout/AdminSidebar.jsx] lists the five sections
    of the console ([navItems]) as react-router [NavLink]s, the first one
    with [end]; a button collapses the sidebar from [w-72] to [w-20] and
    hides the titles.  [src/src/pages/admin/Dashboard.jsx], the index
    page of [/admin], shows four statistic cards.

    [NavLink] is the router's: whether a link is active is modelled from
    react-router 6's [NavLink] ([navlink_active]): both paths lowered
    (the links are not case sensitive), the link is active when the
    location equals its path, or, without [end], when the location starts
    with its path followed by a slash.

    The theorems: on the path of a section, or below it for the sections
    without [end], exactly that section is highlighted; every link of the
    sidebar reaches the page of its section through the route table of
    [Routes]; on [/admin/] the router renders the dashboard but no link is
    highlighted; the collapse button hides the titles and a second click
    restores the sidebar; the dashboard's cards name the sections of the
    sidebar and show no figure.  [src/src/pages/admin/Events.jsx] is a
    heading and a card, modelled as its texts. *)

From stdpp Require Import list.
From S2P Require Import Prelude Routes.

#[local] Open Scope list_scope.
#[local] Open Scope nitai_scope.

Module AdminSidebar.

(** The icons of [lucide-react] the two files use. *)
Inductive icon := LayoutDashboard | UsersIcon | Package | Calendar | Ticket | ChevronLeft | ChevronRight.

Record navItem := mkNavItem { title : string; path : string; item_icon : icon }.

(** [navItems] (lines 14-20). *)
Definition navItems : list navItem := [
  mkNavItem "Dashboard" "/admin" LayoutDashboard;
  mkNavItem "Users" "/admin/users" UsersIcon;
  mkNavItem "Products" "/admin/products" Package;
  mkNavItem "Events" "/admin/events" Calendar;
  mkNavItem "Coupons" "/admin/coupons" Ticket
].

(** [end={item.path === "/admin"}] (line 55). *)
Definition is_end (it : navItem) : bool := path it ==? "/admin".

(** [String.prototype.endsWith]. *)
Definition js_ends_with (s t : string) : bool :=
  Nat.leb (String.length t) (String.length s)
  && (String.substring (String.length s - String.length t) (String.length t) s ==? t).

(** react-router 6's [NavLink]: the position where a slash must follow
    the link's path, and the [isActive] it passes to [className] and to
    its children. *)
Definition endSlashPosition (toPathname : string) : nat :=
  if negb (toPathname ==? "/") && js_ends_with toPathname "/"
  then String.length toPathname - 1 else String.length toPathname.

(** [s.charAt(n) === c]: [charAt] gives the empty string past the end. *)
Definition char_at_is (s : string) (n : nat) (c : ascii) : bool :=
  match String.get n s with Some d => Ascii.eqb d c | None => false end.

Definition navlink_active (location to : string) (end_ : bool) : bool :=
  let l := js_to_lower location in
  let t := js_to_lower to in
  (l ==? t) || (negb end_ && js_starts_with l t && char_at_is l (endSlashPosition t) "/").

(** [const [collapsed, setCollapsed] = useState(false)] (line 23) and the
    button's [onClick] (line 42). *)
Definition initial : bool := false.
Definition toggle (collapsed : bool) : bool := negb collapsed.

(** One [NavLink] (lines 52-84): its target, whether it is active, its
    icon, the title shown when expanded (lines 74-78), the marker of the
    active link (lines 79-81), centred when collapsed (line 62). *)
Record item_view := mkItemView {
  iv_to : string;
  iv_active : bool;
  iv_icon : icon;
  iv_label : option string;
  iv_marker : bool;
  iv_centered : bool
}.

Definition view_item (collapsed active : bool) (it : navItem) : item_view :=
  mkItemView (path it) active (item_icon it) (if collapsed then None else Some (title it))
    (active && negb collapsed) collapsed.

Record view := mkView {
  width : string;                       (** [collapsed ? "w-20" : "w-72"] *)
  brand : option string;                (** ["Admin Panel"] when expanded *)
  toggle_label : string;                (** the button's [aria-label] *)
  toggle_icon : icon;
  items : list item_view;
  footer_text : option (string * string)  (** ["Admin Mode"], ["Manage your platform"] *)
}.

(** The render (lines 25-104) at the location [pathname]. *)
Definition render (collapsed : bool) (pathname : string) : view :=
  {| width := if collapsed then "w-20" else "w-72";
     brand := if collapsed then None else Some "Admin Panel";
     toggle_label := if collapsed then "Expand sidebar" else "Collapse sidebar";
     toggle_icon := if collapsed then ChevronRight else ChevronLeft;
     items := map (fun it => view_item collapsed (navlink_active pathname (path it) (is_end it)) it) navItems;
     footer_text := if collapsed then None else Some ("Admin Mode", "Manage your platform") |}.

(** The links highlighted at a location. *)
Definition active_items (collapsed : bool) (pathname : string) : list item_view :=
  filter iv_active (items (render collapsed pathname)).

(** ** Theorems *)

(** C29: the sidebar highlights the section the admin is in: when the
    location, lowered, is the path of a section, or a path below it for
    the sections without [end], that section's link is the only active
    one, collapsed or not. *)
Theorem sidebar_highlights_current_section collapsed pathname it rest :
  In it navItems -> js_to_lower pathname = path it +++ rest ->
  rest = "" \/ (is_end it = false /\ exists r, rest = String "/" r) ->
  active_items collapsed pathname = [view_item collapsed true it].
Proof.
  intros Hin Hl Hr. unfold active_items, render, navlink_active. cbn [items]. rewrite Hl.
  repeat destruct Hin as [<-|Hin]; try done;
    (destruct Hr as [->|[He [r ->]]]; [|try (vm_compute in He; discriminate)]);
    by destruct collapsed; vm_compute.
Qed.

Definition users_item : navItem := mkNavItem "Users" "/admin/users" UsersIcon.

Lemma sidebar_highlights_current_section_witness :
  In users_item navItems /\ js_to_lower "/Admin/Users/42" = path users_item +++ "/42" /\
  active_items false "/Admin/Users/42" = [view_item false true users_item].
Proof.
  assert (Hin : In users_item navItems) by (cbn; tauto).
  assert (Hl : js_to_lower "/Admin/Users/42" = path users_item +++ "/42") by reflexivity.
  split; [exact Hin|]. split; [exact Hl|].
  apply (sidebar_highlights_current_section false "/Admin/Users/42" users_item "/42" Hin Hl).
  right. split; [reflexivity | by exists "42"].
Defined.

(** Every link of the sidebar reaches the page of its section in the
    route table of [App.jsx]. *)
Lemma sidebar_links_reach_their_pages :
  map (fun it => Routes.page_of (path it)) navItems =
  [Some Routes.Dashboard; Some Routes.Users; Some Routes.AdminProducts; Some Routes.Events; Some Routes.Coupons].
Proof. vm_compute. reflexivity. Qed.

(** On [/admin/] the router renders the dashboard (the index route
    accepts the trailing slash) but no link is highlighted: the
    dashboard's link has [end], which wants the location to equal
    [/admin]. *)
Lemma trailing_slash_dashboard_unhighlighted collapsed :
  Routes.page_of "/admin/" = Some Routes.Dashboard /\ active_items collapsed "/admin/" = [].
Proof. by destruct collapsed; vm_compute. Qed.

(** Collapsing hides the titles, the brand and the footer, and
    highlights the same links; a second click restores the sidebar. *)
Lemma collapse_keeps_highlight pathname :
  map iv_active (items (render true pathname)) = map iv_active (items (render false pathname)) /\
  Forall (fun v => iv_label v = None /\ iv_marker v = false) (items (render true pathname)) /\
  brand (render true pathname) = None /\ footer_text (render true pathname) = None /\
  forall c, render (toggle (toggle c)) pathname = render c pathname.
Proof.
  cbn [items render]. rewrite !map_map. split; [done|].
  split; [|split; [done|split; [done|]]].
  - apply Forall_map, Forall_forall. intros it _. cbn. by rewrite andb_false_r.
  - intros c. unfold toggle. by rewrite negb_involutive.
Qed.

End AdminSidebar.

Module Dashboard.
Import AdminSidebar.

Record stat_card := mkStat { stat_title : string; stat_icon : icon; stat_value : string }.

(** The four cards of the stats grid (lines 15-103): each shows [--]. *)
Definition stats : list stat_card := [
  mkStat "Total Products" Package "--";
  mkStat "Total Users" UsersIcon "--";
  mkStat "Events" Calendar "--";
  mkStat "Active Coupons" Ticket "--"
].

Record page := mkPage { heading : string; subtitle : string; cards : list stat_card }.

(** [Dashboard()] (lines 3-106). *)
Definition Dashboard : page :=
  mkPage "Dashboard" "Welcome back! Here's your overview" stats.

(** The dashboard's cards are the sections of the sidebar other than
    the dashboard itself, in another order, and none shows a figure. *)
Lemma dashboard_cards_are_sections :
  Permutation (map stat_icon (cards Dashboard)) (map item_icon (tail navItems)) /\
  Forall (fun c => stat_value c = "--") (cards Dashboard).
Proof.
  split; [|repeat constructor]. cbn. apply Permutation_cons_app with (l1 := [UsersIcon]). cbn.
  by apply Permutation_skip.
Qed.

End Dashboard.

Module Events.

Record page := mkPage { heading : string; card_title : string; body : string }.

(** [Events()] of [src/src/pages/admin/Events.jsx] (lines 3-18): a
    heading and a card announcing the feature. *)
Definition Events : page := mkPage "Events" "Event Management" "Coming soon...".

End Events.
