(* ===== verification/Footer.v ===== *)
(** * The footer of the storefront pages

    [src/src/components/homepage/Footer.jsx], rendered at the bottom of
    [HomePage.jsx] and [ProductDetailPage.jsx]: the brand, two lists of
    links ([quick], [service]) rendered with [map], the telephone and mail
    links, the social links, and a copyright line with the current year
    ([new Date().getFullYear()], a parameter of the render).

    The theorems: every link of the two lists and of the social ring has
    the placeholder [#], so the only links that lead anywhere are the
    telephone and mail links; the [key]s React needs among the links of a
    list are distinct. *)

From stdpp Require Import list.
From S2P Require Import Prelude JsValue.

#[local] Open Scope list_scope.
#[local] Open Scope nitai_scope.

Module Footer.
Import Coerce.

Record link := mkLink { name : string; url : string }.

(** [quick] (lines 16-22). *)
Definition quick : list link := [
  mkLink "Collections" "#"; mkLink "New Arrivals" "#"; mkLink "Bespoke" "#";
  mkLink "Certificates" "#"; mkLink "Care Guide" "#"
].

(** [service] (lines 24-30). *)
Definition service : list link := [
  mkLink "Track Order" "#"; mkLink "Shipping Info" "#"; mkLink "30-Day Returns" "#";
  mkLink "Size Guide" "#"; mkLink "Contact" "#"
].

Inductive social_icon := Instagram | Facebook | Twitter | Youtube.

Record social := mkSocial { icon : social_icon; social_url : string }.

(** [socials] (lines 32-37). *)
Definition socials : list social := [
  mkSocial Instagram "#"; mkSocial Facebook "#"; mkSocial Twitter "#"; mkSocial Youtube "#"
].

(** An [<a>] of the footer: its [key] among its siblings (none outside
    a list), [href], text
    and [aria-label]. *)
Record anchor := mkAnchor { key : option string; href : string; text : string; aria_label : option string }.

(** [quick.map] and [service.map] (lines 80-90, 100-110): keyed by name. *)
Definition link_anchor (l : link) : anchor := mkAnchor (Some (name l)) (url l) (name l) None.

(** [socials.map((s, i) => ...)] (lines 139-155): keyed by index. *)
Definition social_anchors (ss : list social) : list anchor :=
  imap (fun i s => mkAnchor (Some (num_text (Z.of_nat i))) (social_url s) "" (Some "social")) ss.

(** The telephone and mail links (lines 121-134). *)
Definition contact : list anchor := [
  mkAnchor None "tel:+916350288120" "+91 63502 88120" None;
  mkAnchor None "mailto:agarwal14krishna@gmail.com" "agarwal14krishna@gmail.com" None
].

Record view := mkView {
  brand : string;
  tagline : string;
  quick_links : list anchor;
  service_links : list anchor;
  contact_links : list anchor;
  social_links : list anchor;
  bottom : string
}.

(** [Footer()] (lines 13-168) in the year [year]. *)
Definition render (year : Z) : view :=
  {| brand := "Nitai Gems";
     tagline := "Curating timeless brilliance since 1984. Authenticity certified.";
     quick_links := map link_anchor quick;
     service_links := map link_anchor service;
     contact_links := contact;
     social_links := social_anchors socials;
     bottom := "© " +++ num_text year +++ " Nitai Gems. Crafted for eternity." |}.

Definition anchors (v : view) : list anchor :=
  quick_links v ++ service_links v ++ contact_links v ++ social_links v.

(** ** Theorems *)

(** Only the telephone and mail links lead anywhere: the fourteen other
    links of the footer have the placeholder [#]. *)
Lemma footer_links_go_nowhere year :
  filter (fun a => negb (href a ==? "#")) (anchors (render year)) = contact /\
  List.length (filter (fun a => href a ==? "#") (anchors (render year))) = 14%nat.
Proof. split; reflexivity. Qed.

(** The [key]s of each list of links are distinct, as React requires of
    siblings. *)
Lemma footer_keys_unique year :
  NoDup (map key (quick_links (render year))) /\ NoDup (map key (service_links (render year))) /\
  NoDup (map key (social_links (render year))).
Proof. split_and!; apply (bool_decide_unpack _); vm_compute; reflexivity. Qed.

End Footer.
