(* ===== verification/AdminProducts.v ===== *)
(** * The admin Products page: three tabs

    [src/src/pages/admin/Products.jsx] holds [activeTab] (initially
    ["categories"]) and renders a [Tabs] of [components/ui/tabs] with
    three triggers and three [TabsContent]s, one per tab component of
    [CategoriesTab], [SubcategoriesTab] and [ProductsTab].

    The [Tabs] component is the Radix one, not among the sources: it is
    modelled from its documented behaviour.  A [TabsContent] without
    [forceMount] is mounted only while its value is the selected one; a
    trigger calls [onValueChange] with its value, and setting the state
    to the value it already holds renders nothing new.  So selecting a
    tab unmounts the tab shown, whose state is dropped, and mounts the
    new one, whose mount effect fetches its lists.

    The state is [activeTab] and the state of the mounted tab; a step is
    a trigger or an event of the mounted tab, passed to that tab's
    [step]; the requests of the three tabs are tagged by their tab.

    So leaving a tab and coming back to it gives the tab as freshly
    mounted, whatever it held (an open form, a search, a toast), and
    fetches its lists again: this follows from the library's documented
    behaviour and is recorded as a finding, not as a theorem.  The
    theorem: from the first render on, the tab mounted is the one the
    selected trigger names. *)

From stdpp Require Import list.
From S2P Require Import Prelude Api TabMachine CategoriesTab SubcategoriesTab ProductsTab.

#[local] Open Scope list_scope.
#[local] Open Scope nitai_scope.

Module AdminProducts.
Import Storage TabMachine.

(** The tab that is mounted, with its state. *)
Inductive tab_state :=
| CatTab (s : CategoriesTab.state)
| SubTab (s : SubcategoriesTab.state)
| ProdTab (s : ProductsTab.state)
| NoTab.

Record state := mkState { activeTab : string; content : tab_state }.

(** A request sent by one of the tabs. *)
Inductive out :=
| OCat (r : CategoriesTab.req)
| OSub (r : SubcategoriesTab.req)
| OProd (r : ProductsTab.req).

(** The [TabsContent] whose value is [v] mounts its tab (lines 36-46),
    whose mount effect starts its fetch. *)
Definition mount_tab (env : option string) (ls : storage) (v : string) : tab_state * list out :=
  if v ==? "categories" then
    let '(s, rs) := CategoriesTab.fetchCategories env ls CategoriesTab.initial_state in (CatTab s, map OCat rs)
  else if v ==? "subcategories" then
    let '(s, rs) := SubcategoriesTab.fetchData env ls SubcategoriesTab.initial_state in (SubTab s, map OSub rs)
  else if v ==? "products" then
    let '(s, rs) := ProductsTab.fetchData env ls ProductsTab.initial_state in (ProdTab s, map OProd rs)
  else (NoTab, []).

(** [useState("categories")] (line 7) and the first render. *)
Definition mount (env : option string) (ls : storage) : state * list out :=
  let '(c, o) := mount_tab env ls "categories" in (mkState "categories" c, o).

Inductive event :=
| SelectTab (v : string)                          (** a [TabsTrigger] (lines 14-31) *)
| InCategories (e : CategoriesTab.event)
| InSubcategories (e : SubcategoriesTab.event)
| InProducts (e : ProductsTab.event).

(** [onValueChange={setActiveTab}] (line 11): a new value unmounts the
    tab shown and mounts the selected one; an event of the mounted tab
    is that tab's step. *)
Definition step (env : option string) (ls : storage) (s : state) (e : event) : state * list out :=
  match e, content s with
  | SelectTab v, _ =>
      if v ==? activeTab s then (s, [])
      else let '(c, o) := mount_tab env ls v in (mkState v c, o)
  | InCategories e', CatTab t =>
      let '(t', o) := CategoriesTab.step env ls t e' in (mkState (activeTab s) (CatTab t'), map OCat o)
  | InSubcategories e', SubTab t =>
      let '(t', o) := SubcategoriesTab.step env ls t e' in (mkState (activeTab s) (SubTab t'), map OSub o)
  | InProducts e', ProdTab t =>
      let '(t', o) := ProductsTab.step env ls t e' in (mkState (activeTab s) (ProdTab t'), map OProd o)
  | _, _ => (s, [])
  end.

(** The three triggers, and the events the mounted tab offers. *)
Definition enabledb (s : state) (e : event) : bool :=
  match e, content s with
  | SelectTab v, _ => (v ==? "categories") || (v ==? "subcategories") || (v ==? "products")
  | InCategories e', CatTab t => CategoriesTab.enabledb t e'
  | InSubcategories e', SubTab t => SubcategoriesTab.enabledb t e'
  | InProducts e', ProdTab t => ProductsTab.enabledb t e'
  | _, _ => false
  end.

Definition products_machine (env : option string) : machine storage state event out :=
  Machine (step env) (fun s e => enabledb s e = true) enabledb (fun _ _ H => H).

(** ** Theorems *)

(** The tab mounted is the one [activeTab] selects. *)
Definition tab_matches (s : state) : Prop :=
  match content s with
  | CatTab _ => activeTab s = "categories"
  | SubTab _ => activeTab s = "subcategories"
  | ProdTab _ => activeTab s = "products"
  | NoTab => False
  end.

Lemma mount_tab_matches env ls v :
  (v ==? "categories") || (v ==? "subcategories") || (v ==? "products") = true ->
  tab_matches (mkState v (fst (mount_tab env ls v))).
Proof.
  unfold mount_tab, tab_matches. intros Hv.
  destruct (v ==? "categories") eqn:E1;
    [apply String.eqb_eq in E1; subst v; by destruct (CategoriesTab.fetchCategories _ _ _)|].
  destruct (v ==? "subcategories") eqn:E2;
    [apply String.eqb_eq in E2; subst v; by destruct (SubcategoriesTab.fetchData _ _ _)|].
  destruct (v ==? "products") eqn:E3;
    [apply String.eqb_eq in E3; subst v; by destruct (ProductsTab.fetchData _ _ _)|done].
Qed.

(** From the first render on, through any triggers and events of the
    tabs, the [TabsContent] mounted is the one of the selected trigger,
    so an event of a tab reaches it only while it is selected. *)
Lemma tab_shown_is_selected env ls s :
  star (tab_step (products_machine env)) (fst (mount env ls)) s -> tab_matches s.
Proof.
  apply tab_invariant.
  - unfold mount. pose proof (mount_tab_matches env ls "categories" eq_refl) as H.
    by destruct (mount_tab env ls "categories").
  - intros l x e Hen Hx. cbn in Hen |- *. unfold enabledb in Hen. unfold step.
    destruct e as [v|e'|e'|e'].
    + destruct (v ==? activeTab x); [done|].
      pose proof (mount_tab_matches env l v Hen) as H. by destruct (mount_tab env l v).
    + destruct (content x) as [t| | |] eqn:Hc; try done. unfold tab_matches in Hx |- *. rewrite Hc in Hx.
      by destruct (CategoriesTab.step env l t e').
    + destruct (content x) as [|t| |] eqn:Hc; try done. unfold tab_matches in Hx |- *. rewrite Hc in Hx.
      by destruct (SubcategoriesTab.step env l t e').
    + destruct (content x) as [| |t|] eqn:Hc; try done. unfold tab_matches in Hx |- *. rewrite Hc in Hx.
      by destruct (ProductsTab.step env l t e').
Qed.

End AdminProducts.
