(* ===== verification/HomeMount.v ===== *)
(** * The requests the home page sends when it mounts

    [src/src/pages/HomePage.jsx] (lines 16-93) renders, in this order,
    [MainHeader], [Navigation], [HeroCarousel], [CollectionsSection],
    [CategoryCardsSection] with [limit=8], [ReelsSection],
    [TrustBadgesSection], [ExchangeProgramBanner], [ReviewsCarousel], a
    static "Why Choose Us" section and [Footer].  React runs the mount
    effects of siblings in the order of the tree, so the requests the
    page sends when it mounts are those of the sections' mount effects,
    each modelled in the file of its section, in that order.

    The theorem: the page sends seven [GET]s, and [/categories] twice,
    once for the menu bar of [Navigation] and once for the category
    cards, which both read the same list. *)

From stdpp Require Import list.
From S2P Require Import Prelude Api Json Hero Reels Reviews CategoryCards HomeSections Navigation.

#[local] Open Scope list_scope.
#[local] Open Scope nitai_scope.

Module HomeMount.
Import Http Json.

(** The children of the page (lines 19-91). *)
Inductive section :=
| SMainHeader | SNavigation | SHeroCarousel | SCollections | SCategoryCards | SReels
| STrustBadges | SExchange | SReviews | SWhyChooseUs | SFooter.

Definition sections : list section :=
  [SMainHeader; SNavigation; SHeroCarousel; SCollections; SCategoryCards; SReels;
   STrustBadges; SExchange; SReviews; SWhyChooseUs; SFooter].

(** The static "Why Choose Us" section (lines 53-86): a heading and
    three items, each an icon, a title and a text. *)
Record reason := mkReason { icon : string; title : string; text : string }.

Definition why_choose_us : string * list reason :=
  ("Why Choose Us",
   [mkReason "✓" "Certified Quality" "All our jewellery is hallmarked and comes with certification";
    mkReason "🚚" "Free Shipping" "Enjoy free shipping on orders above ₹50,000";
    mkReason "↩" "Easy Returns" "30-day return policy for your peace of mind"]).

(** What the mount effects of a section send.  [MainHeader], the trust
    badges (an [IntersectionObserver]), the static section and the
    footer send nothing. *)
Definition mount_requests (env : option string) (sec : section) : list (request json) :=
  match sec with
  | SNavigation => snd (Navigation.mount env)
  | SHeroCarousel => [Hero.banners_request env]
  | SCollections => snd (Collections.mount env)
  | SCategoryCards => snd (CategoryCards.fetchCategories env (CategoryCards.initial 8))
  | SReels => [Reels.reels_request env]
  | SExchange => snd (Exchange.mount env)
  | SReviews => [Reviews.reviews_request env]
  | _ => []
  end.

(** The requests of the page's mount, in the order of the tree. *)
Definition home_mount_requests (env : option string) : list (request json) :=
  flat_map (mount_requests env) sections.

(** ** Theorems *)

(** The home page sends seven [GET]s without headers when it mounts,
    two of them for [/categories]. *)
Theorem home_mount_fetches_categories_twice env :
  let b := app_base env in
  home_mount_requests env =
    map (fun path => mkRequest GET (b +++ path) [] None)
      ["/categories"; "/banners"; "/collections"; "/categories"; "/reels";
       "/banners?type=exchange"; "/reviews?featured=true&limit=10"].
Proof. reflexivity. Qed.

End HomeMount.
